(** * Weather aggregation and refresh pipeline: a shallow embedding

    The development embeds the forecast aggregator, the suggestion
    selector and the narrative helpers of [main.py], and the text
    sanitizer, letter generator and refresh cycle of
    [weather/schedulers/weather_updater.py] over the tables of
    [weather/models.py].

    Modelling conventions.
    - A JSON object read with [.get] is a record whose fields are
      [option]s: [None] is an absent key.
    - A Python dict built by the code is an association list in
      insertion order ([dict_set] overwrites in place, as Python does).
    - Python exceptions are the [Raise] branch of [result].
    - A Python [str] is a [string] of UTF-8 bytes; case mapping and
      white space are the ASCII ones, so the string functions agree
      with Python's on text without another upper-case letter or
      white-space character.
    - Python numbers are [pynum]: an [int] is a [Z], a [float] is an
      IEEE 754 binary64 value ([spec_float] at precision 53), with the
      correctly rounded operations of [SpecFloat].
    - What the interpreter, the clock, the network and the database
      driver provide is a parameter: the class [PyEnv], the record
      [world]. *)

From Stdlib Require Import String Ascii List Bool Arith ZArith QArith Qround Qabs.
From Stdlib Require Import DecimalString Permutation FinFun SpecFloat Lia Lqa.
Import ListNotations.

Set Implicit Arguments.
Close Scope Q_scope.
Open Scope nat_scope.
Open Scope list_scope.
Open Scope string_scope.

(* ================================================================= *)
(** ** Exceptions and the error monad *)

Inductive exn : Type :=
| KeyError (key : string)
| IndexError
| TypeError
| ValueError
| OverflowError (msg : string)
| OSError (msg : string)
| MultipleObjectsReturned
| OtherError (msg : string).

Inductive result (A : Type) : Type :=
| Ok (a : A)
| Raise (e : exn).

Arguments Ok {A} a.
Arguments Raise {A} e.

Definition bind {A B} (m : result A) (k : A -> result B) : result B :=
  match m with
  | Ok a => k a
  | Raise e => Raise e
  end.

Notation "x <- m ;; k" := (bind m (fun x => k))
  (at level 61, m at next level, right associativity).

(** [d[k]] on a JSON object: a missing key raises [KeyError]. *)
Definition subscript {A} (key : string) (field : option A) : result A :=
  match field with
  | Some a => Ok a
  | None => Raise (KeyError key)
  end.

(** [d.get(k, default)]. *)
Definition get_or {A} (field : option A) (default : A) : A :=
  match field with
  | Some a => a
  | None => default
  end.

(** [l[0]]: an empty list raises [IndexError]. *)
Definition first_item {A} (l : list A) : result A :=
  match l with
  | x :: _ => Ok x
  | [] => Raise IndexError
  end.

(* ================================================================= *)
(** ** Python strings *)

Module PyStr.

Definition nl : string := String "010" "".

(** [str.isspace] on the ASCII range: TAB..CR, FS..US and the space. *)
Definition is_space (c : ascii) : bool :=
  let n := nat_of_ascii c in
  (Nat.leb 9 n && Nat.leb n 13) || (Nat.leb 28 n && Nat.leb n 32).

Fixpoint lstrip (s : string) : string :=
  match s with
  | "" => ""
  | String c r => if is_space c then lstrip r else s
  end.

Fixpoint rstrip (s : string) : string :=
  match s with
  | "" => ""
  | String c r =>
      match rstrip r with
      | "" => if is_space c then "" else String c ""
      | r' => String c r'
      end
  end.

Definition strip (s : string) : string := rstrip (lstrip s).

(** [s[n:]]. *)
Fixpoint drop (n : nat) (s : string) : string :=
  match n, s with
  | O, _ => s
  | S _, "" => ""
  | S k, String _ r => drop k r
  end.

Definition startswith (p s : string) : bool := String.prefix p s.

(** [needle in s]. *)
Fixpoint contains (needle s : string) : bool :=
  String.prefix needle s ||
  match s with
  | "" => false
  | String _ r => contains needle r
  end.

Fixpoint endswith_go (p s : string) : bool :=
  String.eqb p s ||
  match s with
  | "" => false
  | String _ r => endswith_go p r
  end.

Definition endswith (p s : string) : bool := endswith_go p s.

Definition lower_ascii (c : ascii) : ascii :=
  let n := nat_of_ascii c in
  if Nat.leb 65 n && Nat.leb n 90 then ascii_of_nat (n + 32) else c.

Definition upper_ascii (c : ascii) : ascii :=
  let n := nat_of_ascii c in
  if Nat.leb 97 n && Nat.leb n 122 then ascii_of_nat (n - 32) else c.

Fixpoint lower (s : string) : string :=
  match s with
  | "" => ""
  | String c r => String (lower_ascii c) (lower r)
  end.

(** [str.capitalize]: first character upper-cased, the rest lowered. *)
Definition capitalize (s : string) : string :=
  match s with
  | "" => ""
  | String c r => String (upper_ascii c) (lower r)
  end.

(** [s.replace(old, new)] for a non-empty [old]: leftmost
    non-overlapping occurrences; [skip] counts the characters of the
    occurrence still to be dropped. *)
Fixpoint replace_go (old new : string) (skip : nat) (s : string) : string :=
  match s with
  | "" => ""
  | String c r =>
      match skip with
      | S k => replace_go old new k r
      | O =>
          if String.prefix old s
          then new ++ replace_go old new (String.length old - 1) r
          else String c (replace_go old new 0 r)
      end
  end.

Definition replace (old new s : string) : string := replace_go old new 0 s.

(** [s.split(sep)] for a one-character separator. *)
Fixpoint split_on (sep : ascii) (s : string) : list string :=
  match s with
  | "" => [""]
  | String c r =>
      if Ascii.eqb c sep then "" :: split_on sep r
      else match split_on sep r with
           | [] => [String c ""]
           | h :: t => String c h :: t
           end
  end.

(** [sep.join(parts)]. *)
Definition join (sep : string) (parts : list string) : string :=
  String.concat sep parts.

(** Decimal text of an [int]. *)
Definition str_of_Z (z : Z) : string := NilZero.string_of_int (Z.to_int z).

Definition str_of_nat (n : nat) : string := str_of_Z (Z.of_nat n).

End PyStr.

(* ================================================================= *)
(** ** The text sanitizer: [clean_text] (weather_updater.py, l. 85-131) *)

Module Sanitizer.
Import PyStr.

(** The loop of l. 99-108: strip the line, then drop one heading
    marker of level 1, 2 or 3. *)
Definition plain_heading (line : string) : string :=
  let line := strip line in
  if startswith "# " line then drop 2 line
  else if startswith "## " line then drop 3 line
  else if startswith "### " line then drop 4 line
  else line.

(** [re.sub(' +', ' ', text)]: a run of spaces becomes one space. *)
Fixpoint collapse_spaces_go (in_run : bool) (s : string) : string :=
  match s with
  | "" => ""
  | String c r =>
      if Ascii.eqb c " "
      then if in_run then collapse_spaces_go true r
           else String c (collapse_spaces_go true r)
      else String c (collapse_spaces_go false r)
  end.

Definition collapse_spaces (s : string) : string := collapse_spaces_go false s.

(** [re.sub(r'\n\s+', '\n', text)]: a line feed swallows the white
    space that follows it (further line feeds included). *)
Fixpoint squash_after_newline_go (skipping : bool) (s : string) : string :=
  match s with
  | "" => ""
  | String c r =>
      if skipping && is_space c then squash_after_newline_go true r
      else String c (squash_after_newline_go (Ascii.eqb c "010") r)
  end.

Definition squash_after_newline (s : string) : string :=
  squash_after_newline_go false s.

Definition fence : string := "```".

(** Offset of the first fence in [s], if any. *)
Fixpoint find_fence (s : string) : option nat :=
  if String.prefix fence s then Some O
  else match s with
       | "" => None
       | String _ r => option_map S (find_fence r)
       end.

(** [re.sub(r'```[\s\S]*?```', '', text)]: from an opening fence to the
    nearest closing fence, leftmost first; an opening fence without a
    closing one stays. *)
Fixpoint remove_code_blocks_go (skip : nat) (s : string) : string :=
  match s with
  | "" => ""
  | String c r =>
      match skip with
      | S k => remove_code_blocks_go k r
      | O =>
          if String.prefix fence s
          then match find_fence (drop 3 s) with
               | Some j => remove_code_blocks_go (j + 5) r
               | None => String c (remove_code_blocks_go 0 r)
               end
          else String c (remove_code_blocks_go 0 r)
      end
  end.

Definition remove_code_blocks (s : string) : string :=
  remove_code_blocks_go 0 s.

Definition clean_text (text : string) : string :=
  let text := strip text in
  let text := replace "**" "" text in
  let text := replace "*" "" text in
  let lines := map plain_heading (split_on "010" text) in
  let text := join nl lines in
  let text := collapse_spaces text in
  let text := squash_after_newline text in
  let text := lstrip text in
  let cleaned_lines := map lstrip (split_on "010" text) in
  let text := join nl cleaned_lines in
  remove_code_blocks text.

(** The narrative of the sanitization scenario. *)
Definition scenario_text : string :=
  "**Hello**" ++ nl ++ "  # Greetings" ++ nl ++ "  ```code```" ++ nl ++ "Goodbye".

End Sanitizer.

(* ================================================================= *)
(** ** Python numbers, values and dicts *)

Inductive pynum : Type :=
| PInt (z : Z)
| PFloat (f : spec_float).

(** The arithmetic of [float]: binary64, round to nearest even. *)
Module Float64.

Definition prec : Z := 53.

Definition emax : Z := 1024.

(** An integer as an exact operand. *)
Definition exact (z : Z) : spec_float :=
  match z with
  | Z0 => S754_zero false
  | Zpos p => S754_finite false p 0
  | Zneg p => S754_finite true p 0
  end.

(** The float nearest to an integer; infinite when the integer is
    beyond the range. *)
Definition of_Z (z : Z) : spec_float := binary_normalize prec emax z 0 false.

(** The float nearest to the quotient of two integers. *)
Definition quotient (a b : Z) : spec_float :=
  SFdiv prec emax (exact a) (exact b).

(** The float a decimal literal denotes. *)
Definition of_Q (q : Q) : spec_float := quotient (Qnum q) (Zpos (Qden q)).

Definition mul (x y : spec_float) : spec_float := SFmul prec emax x y.

Definition div (x y : spec_float) : spec_float := SFdiv prec emax x y.

Definition is_infinite (f : spec_float) : bool :=
  match f with
  | S754_infinity _ => true
  | _ => false
  end.

End Float64.

(** The value of a number: not a number, an infinity, or a rational. *)
Inductive extended : Type :=
| NaN
| MinusInf
| Real (q : Q)
| PlusInf.

Definition float_value (f : spec_float) : extended :=
  match f with
  | S754_nan => NaN
  | S754_infinity true => MinusInf
  | S754_infinity false => PlusInf
  | S754_zero _ => Real (0 # 1)
  | S754_finite s m e =>
      Real ((if s then inject_Z (Zneg m) else inject_Z (Zpos m))
            * Qpower (2 # 1) e)%Q
  end.

Definition num_value (n : pynum) : extended :=
  match n with
  | PInt z => Real (inject_Z z)
  | PFloat f => float_value f
  end.

Definition Qgtb (a b : Q) : bool := negb (Qle_bool a b).

(** [a < b] on values: false as soon as one side is not a number. *)
Definition ext_ltb (a b : extended) : bool :=
  match a, b with
  | NaN, _ | _, NaN => false
  | _, MinusInf => false
  | MinusInf, _ => true
  | PlusInf, _ => false
  | Real _, PlusInf => true
  | Real x, Real y => Qgtb y x
  end.

(** [a <= b] on values. *)
Definition ext_leb (a b : extended) : bool :=
  match a, b with
  | NaN, _ | _, NaN => false
  | MinusInf, _ => true
  | _, MinusInf => false
  | _, PlusInf => true
  | PlusInf, _ => false
  | Real x, Real y => Qle_bool x y
  end.

(** [n * k] for an [int] literal [k]: exact between [int]s, the float
    product otherwise. *)
Definition num_mul (n : pynum) (k : Z) : pynum :=
  match n with
  | PInt z => PInt (z * k)
  | PFloat f => PFloat (Float64.mul f (Float64.of_Z k))
  end.

(** [n / k] for an [int] literal [k]: true division always gives a
    [float]; between [int]s it is the float nearest to the quotient,
    and OverflowError when that is beyond the range. *)
Definition num_div (n : pynum) (k : Z) : result pynum :=
  match n with
  | PInt z =>
      let f := Float64.quotient z k in
      if Float64.is_infinite f
      then Raise (OverflowError "integer division result too large for a float")
      else Ok (PFloat f)
  | PFloat f => Ok (PFloat (Float64.div f (Float64.of_Z k)))
  end.

(** [a > b]: Python compares the values, an [int] with a [float]
    exactly; a comparison with a NaN is false. *)
Definition num_gtb (a b : pynum) : bool := ext_ltb (num_value b) (num_value a).

(** [a >= b]. *)
Definition num_geb (a b : pynum) : bool := ext_leb (num_value b) (num_value a).

(** Rounding to the nearest integer, ties to the even one. *)
Definition round_half_even (q : Q) : Z :=
  let f := Qfloor q in
  match Qcompare (q - inject_Z f) (1 # 2) with
  | Lt => f
  | Gt => (f + 1)%Z
  | Eq => if Z.even f then f else (f + 1)%Z
  end.

(** [f"{x:.0f}"] for a [float]: the value rounded to a whole number,
    with the sign of the float. *)
Definition format_float_0f (f : spec_float) : string :=
  match f with
  | S754_nan => "nan"
  | S754_infinity s => if s then "-inf" else "inf"
  | S754_zero s => if s then "-0" else "0"
  | S754_finite s m e =>
      (if s then "-" else "")
      ++ PyStr.str_of_Z
           (round_half_even (inject_Z (Zpos m) * Qpower (2 # 1) e)%Q)
  end.

(** [f"{n:.0f}"]: an [int] is first converted to [float], which raises
    OverflowError beyond the range. *)
Definition format_0f (n : pynum) : result string :=
  match n with
  | PInt z =>
      let f := Float64.of_Z z in
      if Float64.is_infinite f
      then Raise (OverflowError "int too large to convert to float")
      else Ok (format_float_0f f)
  | PFloat f => Ok (format_float_0f f)
  end.

(** What the interpreter and the host provide: the text of a [float];
    the exception [datetime.fromtimestamp] raises for a timestamp it
    does not accept (ValueError, OverflowError or OSError, by value and
    platform; [None] for a timestamp it accepts); the local hour and
    the formatting of an accepted timestamp; and the number that
    [float(s)] reads in a text ([None]: ValueError). *)
Class PyEnv : Type := {
  repr_float : spec_float -> string;
  timestamp_error : Z -> option exn;
  local_hour : Z -> Z;
  strftime : string -> Z -> string;
  float_of_str : string -> option Q
}.

Definition str_num `{PyEnv} (n : pynum) : string :=
  match n with
  | PInt z => PyStr.str_of_Z z
  | PFloat f => repr_float f
  end.

(** [datetime.fromtimestamp(t)]. *)
Definition fromtimestamp `{PyEnv} (t : Z) : result Z :=
  match timestamp_error t with
  | Some e => Raise e
  | None => Ok t
  end.

(** A reading that defaults to a text marker: [d.get(k, 'Unknown')]. *)
Inductive pyval : Type :=
| VNum (n : pynum)
| VStr (s : string).

Definition str_val `{PyEnv} (v : pyval) : string :=
  match v with
  | VNum n => str_num n
  | VStr s => s
  end.

Definition num_or (field : option pynum) (marker : string) : pyval :=
  match field with
  | Some n => VNum n
  | None => VStr marker
  end.

Definition dict (V : Type) : Type := list (string * V).

Fixpoint dict_get {V} (k : string) (d : dict V) : option V :=
  match d with
  | [] => None
  | (k', v) :: r => if String.eqb k k' then Some v else dict_get k r
  end.

(** [d[k] = v]: an existing key keeps its place. *)
Fixpoint dict_set {V} (k : string) (v : V) (d : dict V) : dict V :=
  match d with
  | [] => [(k, v)]
  | (k', v') :: r =>
      if String.eqb k k' then (k, v) :: r else (k', v') :: dict_set k v r
  end.

(** [d.update(other)]. *)
Definition dict_update {V} (d other : dict V) : dict V :=
  fold_left (fun acc kv => dict_set (fst kv) (snd kv) acc) other d.

Definition dict_keys {V} (d : dict V) : list string := map fst d.

Definition dict_values {V} (d : dict V) : list V := map snd d.

(** A monadic [for] loop over a list. *)
Fixpoint for_each {S A} (body : S -> A -> result S) (l : list A) (s : S)
  : result S :=
  match l with
  | [] => Ok s
  | x :: r => s' <- body s x ;; for_each body r s'
  end.

(* ================================================================= *)
(** ** Upstream payloads *)

Record weather_entry : Type := {
  we_main : option string;
  we_description : option string;
  we_icon : option string
}.

Definition empty_entry : weather_entry :=
  {| we_main := None; we_description := None; we_icon := None |}.

(** [payload.get('weather', [{}])[0]]. *)
Definition first_weather (field : option (list weather_entry))
  : result weather_entry :=
  first_item (get_or field [empty_entry]).

Record main_block : Type := {
  m_temp : option pynum;
  m_temp_min : option pynum;
  m_temp_max : option pynum;
  m_feels_like : option pynum;
  m_humidity : option pynum;
  m_pressure : option pynum
}.

Record sys_block : Type := {
  sys_country : option string;
  sys_sunrise : option Z;
  sys_sunset : option Z
}.

Record wind_block : Type := {
  wind_speed_of : option pynum;
  wind_deg_of : option pynum
}.

Record clouds_block : Type := { clouds_all : option pynum }.

(** The current-conditions payload of the weather endpoint. *)
Record weather_data : Type := {
  wd_name : option string;
  wd_sys : option sys_block;
  wd_main : option main_block;
  wd_weather : option (list weather_entry);
  wd_wind : option wind_block;
  wd_clouds : option clouds_block;
  wd_visibility : option pynum;
  wd_dt : option Z
}.

Definition empty_main : main_block :=
  {| m_temp := None; m_temp_min := None; m_temp_max := None;
     m_feels_like := None; m_humidity := None; m_pressure := None |}.

Definition empty_sys : sys_block :=
  {| sys_country := None; sys_sunrise := None; sys_sunset := None |}.

Definition empty_wind : wind_block :=
  {| wind_speed_of := None; wind_deg_of := None |}.

Definition empty_clouds : clouds_block := {| clouds_all := None |}.

Record current_block : Type := {
  cur_temp : option pynum;
  cur_feels_like : option pynum;
  cur_humidity : option pynum;
  cur_pressure : option pynum;
  cur_wind_speed : option pynum;
  cur_wind_deg : option pynum;
  cur_visibility : option pynum;
  cur_uvi : option pynum;
  cur_clouds : option pynum;
  cur_weather : option (list weather_entry);
  cur_sunrise : option Z;
  cur_sunset : option Z
}.

Definition empty_current : current_block :=
  {| cur_temp := None; cur_feels_like := None; cur_humidity := None;
     cur_pressure := None; cur_wind_speed := None; cur_wind_deg := None;
     cur_visibility := None; cur_uvi := None; cur_clouds := None;
     cur_weather := None; cur_sunrise := None; cur_sunset := None |}.

Record hour_sample : Type := {
  h_dt : option Z;
  h_temp : option pynum;
  h_pop : option pynum;
  h_weather : option (list weather_entry)
}.

Record day_temp : Type := {
  day_min : option pynum;
  day_max : option pynum
}.

Definition empty_day_temp : day_temp := {| day_min := None; day_max := None |}.

Record day_sample : Type := { d_temp : option day_temp }.

(** The One Call payload. *)
Record forecast_data : Type := {
  fc_current : option current_block;
  fc_hourly : option (list hour_sample);
  fc_daily : option (list day_sample)
}.

(* ================================================================= *)
(** ** The aggregator of main.py *)

Module Aggregator.
Import PyStr.

Section WithEnv.
Context `{PyEnv}.

(** [datetime.fromtimestamp(t).strftime(fmt) if t else 'Unknown']. *)
Definition time_or_unknown (fmt : string) (t : option Z) : result string :=
match t with
| Some z =>
    if (z =? 0)%Z then Ok "Unknown"
    else t <- fromtimestamp z ;; Ok (strftime fmt t)
| None => Ok "Unknown"
end.

(** [handle_weather_data] (main.py, l. 112-158).  The result is [None]
  for a missing payload or a payload without ['main']. *)
Definition handle_weather_data (payload : option weather_data)
: result (option (dict string)) :=
match payload with
| None => Ok None
| Some wd =>
    match wd_main wd with
    | None => Ok None
    | Some main =>
        let location := get_or (wd_name wd) "Unknown location" in
        current_temperature <- subscript "temp" (m_temp main) ;;
        temp_min <- subscript "temp_min" (m_temp_min main) ;;
        temp_max <- subscript "temp_max" (m_temp_max main) ;;
        feels_like <- subscript "feels_like" (m_feels_like main) ;;
        w <- first_weather (wd_weather wd) ;;
        let weather_type := get_or (we_main w) "unknown" in
        let weather_description := get_or (we_description w) "unknown" in
        humidity <- subscript "humidity" (m_humidity main) ;;
        pressure <- subscript "pressure" (m_pressure main) ;;
        let wind := get_or (wd_wind wd) empty_wind in
        let wind_speed := num_or (wind_speed_of wind) "Unknown" in
        let wind_direction := num_or (wind_deg_of wind) "Unknown" in
        visibility <-
          match wd_visibility wd with
          | Some v => num_div v 1000
          | None => Raise TypeError
          end ;;
        let sys := get_or (wd_sys wd) empty_sys in
        current_time <- time_or_unknown "%Y-%m-%d %H:%M:%S" (wd_dt wd) ;;
        sunrise_time <- time_or_unknown "%H:%M:%S" (sys_sunrise sys) ;;
        sunset_time <- time_or_unknown "%H:%M:%S" (sys_sunset sys) ;;
        Ok (Some
          [ ("location", location);
            ("temperature",
              str_num current_temperature ++ "°C (feels like "
              ++ str_num feels_like ++ "°C)");
            ("temperature_range",
              "Min: " ++ str_num temp_min ++ "°C, Max: "
              ++ str_num temp_max ++ "°C");
            ("weather_type",
              capitalize weather_type ++ ": " ++ weather_description);
            ("current_time", current_time);
            ("daylight",
              "Sunrise-" ++ sunrise_time ++ ", Sunset-" ++ sunset_time);
            ("humidity", str_num humidity ++ "%");
            ("pressure", str_num pressure ++ " hPa");
            ("wind",
              str_val wind_speed ++ " m/s, direction "
              ++ str_val wind_direction ++ "°");
            ("visibility", str_num visibility ++ " km") ])
    end
end.

Definition time_slots : list (string * Z) :=
[ ("morning_6", 6); ("morning_8", 8); ("morning_10", 10);
  ("afternoon_12", 12); ("afternoon_14", 14); ("afternoon_16", 16);
  ("evening_18", 18); ("evening_20", 20); ("evening_22", 22) ]%Z.

(** State of the loop over the hourly samples (l. 207-234). *)
Record scan_state : Type := {
hourly_forecasts : dict string;
max_precip : pynum;
max_precip_time : string;
max_precip_hour : option Z
}.

Definition scan_start : scan_state :=
{| hourly_forecasts := [];
   max_precip := PInt 0;
   max_precip_time := "None";
   max_precip_hour := None |}.

(** [hour.get('weather', [{}])[0].get('main', 'Unknown')] (l. 223, 239). *)
Definition w_type_of (hour : hour_sample) : result string :=
w <- first_weather (h_weather hour) ;;
Ok (get_or (we_main w) "Unknown").

(** [hour.get('pop', 0) * 100] (l. 222, 230). *)
Definition pop_percent (hour : hour_sample) : pynum :=
num_mul (get_or (h_pop hour) (PInt 0)) 100.

(** Body of the inner loop over [time_slots] (l. 219-227). *)
Definition slot_body (hour : hour_sample) (hour_of_day : Z)
  (forecasts : dict string) (slot : string * Z) : result (dict string) :=
let '(slot_name, slot_hour) := slot in
if (hour_of_day =? slot_hour)%Z then
  let hour_temp := num_or (h_temp hour) "Unknown" in
  let hour_pop := pop_percent hour in
  hour_weather <- w_type_of hour ;;
  let forecasts :=
    dict_set (slot_name ++ "_temp") (str_val hour_temp ++ "°C") forecasts in
  precip <- format_0f hour_pop ;;
  Ok (dict_set (slot_name ++ "_weather") hour_weather
       (dict_set (slot_name ++ "_precip") (precip ++ "%") forecasts))
else Ok forecasts.

(** Body of the loop over [hourly] (l. 213-234). *)
Definition hour_body (st : scan_state) (hour : hour_sample)
: result scan_state :=
dt <- fromtimestamp (get_or (h_dt hour) 0%Z) ;;
let hour_of_day := local_hour dt in
forecasts <-
  for_each (slot_body hour hour_of_day) time_slots (hourly_forecasts st) ;;
let pop := pop_percent hour in
if num_gtb pop (max_precip st) then
  Ok {| hourly_forecasts := forecasts;
        max_precip := pop;
        max_precip_time := strftime "%H:%M" dt;
        max_precip_hour := Some dt |}
else
  Ok {| hourly_forecasts := forecasts;
        max_precip := max_precip st;
        max_precip_time := max_precip_time st;
        max_precip_hour := max_precip_hour st |}.

(** [weather_counts[w_type] = weather_counts.get(w_type, 0) + 1]. *)
Definition bump (weather_counts : dict nat) (w_type : string) : dict nat :=
dict_set w_type (get_or (dict_get w_type weather_counts) 0 + 1)
         weather_counts.

(** Body of the tally loop (l. 238-240). *)
Definition tally_body (weather_counts : dict nat) (hour : hour_sample)
: result (dict nat) :=
w_type <- w_type_of hour ;;
Ok (bump weather_counts w_type).

(** [max(items, key=lambda x: x[1])]: the first item with the largest
  count. *)
Fixpoint max_by_count (best : string * nat) (items : list (string * nat))
: string * nat :=
match items with
| [] => best
| x :: r =>
    if Nat.ltb (snd best) (snd x) then max_by_count x r
    else max_by_count best r
end.

Definition main_type_of (weather_counts : dict nat) : string :=
match weather_counts with
| [] => "Unknown"
| x :: r => fst (max_by_count x r)
end.

(** Daily minimum and maximum (l. 198-205). *)
Definition daily_range (daily : list day_sample) : pynum * pynum :=
let temp_min := PInt 100 in
let temp_max := PInt (-100) in
match daily with
| today :: _ =>
    let temp := get_or (d_temp today) empty_day_temp in
    (get_or (day_min temp) temp_min, get_or (day_max temp) temp_max)
| [] => (temp_min, temp_max)
end.

(** [datetime.fromtimestamp(current.get(k, 0)).strftime('%H:%M:%S')
  if k in current else 'Unknown'] (l. 187-188). *)
Definition time_of (t : option Z) : result string :=
match t with
| Some z => t <- fromtimestamp z ;; Ok (strftime "%H:%M:%S" t)
| None => Ok "Unknown"
end.

(** [process_forecast_data] (main.py, l. 160-267).  [None] is a falsy
  payload, for which the code returns the empty dict. *)
Definition process_forecast_data (payload : option forecast_data)
: result (dict string) :=
match payload with
| None => Ok []
| Some fd =>
    let current := get_or (fc_current fd) empty_current in
    let hourly := get_or (fc_hourly fd) [] in
    let daily := get_or (fc_daily fd) [] in
    let current_temp := num_or (cur_temp current) "Unknown" in
    let feels_like := num_or (cur_feels_like current) "Unknown" in
    let humidity := num_or (cur_humidity current) "Unknown" in
    let pressure := num_or (cur_pressure current) "Unknown" in
    let wind_speed := num_or (cur_wind_speed current) "Unknown" in
    let wind_direction := num_or (cur_wind_deg current) "Unknown" in
    visibility <-
      match cur_visibility current with
      | Some v => v <- num_div v 1000 ;; Ok (VNum v)
      | None => Ok (VStr "Unknown")
      end ;;
    let uvi := num_or (cur_uvi current) "Unknown" in
    let clouds := num_or (cur_clouds current) "Unknown" in
    w <- first_weather (cur_weather current) ;;
    let weather_type := get_or (we_main w) "unknown" in
    let weather_description := get_or (we_description w) "unknown" in
    sunrise <- time_of (cur_sunrise current) ;;
    sunset <- time_of (cur_sunset current) ;;
    let '(temp_min, temp_max) := daily_range daily in
    st <- for_each hour_body hourly scan_start ;;
    weather_counts <- for_each tally_body (firstn 24 hourly) [] ;;
    let weather_main_type := main_type_of weather_counts in
    peak <- format_0f (max_precip st) ;;
    let forecast_info :=
      [ ("weather_type",
          capitalize weather_type ++ ": " ++ weather_description);
        ("weather_temperature",
          str_val current_temp ++ "°C (feels like "
          ++ str_val feels_like ++ "°C)");
        ("weather_temperature_range",
          "Min: " ++ str_num temp_min ++ "°C, Max: "
          ++ str_num temp_max ++ "°C");
        ("weather_humidity", str_val humidity ++ "%");
        ("weather_pressure", str_val pressure ++ " hPa");
        ("weather_wind",
          str_val wind_speed ++ " m/s, direction "
          ++ str_val wind_direction ++ "°");
        ("weather_visibility", str_val visibility ++ " km");
        ("weather_uvi", str_val uvi);
        ("weather_clouds", str_val clouds ++ "%");
        ("weather_daylight",
          "Sunrise-" ++ sunrise ++ ", Sunset-" ++ sunset);
        ("temp_min", str_num temp_min);
        ("temp_max", str_num temp_max);
        ("max_precip", peak);
        ("max_precip_time", max_precip_time st);
        ("weather_main_type", weather_main_type) ] in
    Ok (dict_update forecast_info (hourly_forecasts st))
end.

End WithEnv.
End Aggregator.

(* ================================================================= *)
(** ** [random.sample] *)

Module Rand.

(** Every way of taking one element out of a list, with what is left. *)
Fixpoint picks {A} (l : list A) : list (A * list A) :=
  match l with
  | [] => []
  | x :: r => (x, r) :: map (fun p => (fst p, x :: snd p)) (picks r)
  end.

(** The outcomes of [random.sample(l, k)]: every ordered choice of [k]
    distinct positions of [l], once each.  The library draws one of
    them with equal probability. *)
Fixpoint sample_outcomes {A} (k : nat) (l : list A) : list (list A) :=
  match k with
  | O => [[]]
  | S k' =>
      flat_map (fun p => map (cons (fst p)) (sample_outcomes k' (snd p)))
               (picks l)
  end.

(** [n * (n-1) * ... * (n-k+1)]. *)
Fixpoint falling (n k : nat) : nat :=
  match k with
  | O => 1
  | S k' => n * falling (n - 1) k'
  end.

End Rand.

(* ================================================================= *)
(** ** The suggestion selector: [generate_activity_suggestions]
       (main.py, l. 269-419) *)

Module Suggestions.
Import PyStr.

Definition zh_pool (weather_type : string) : list string :=
  if contains "clear" weather_type || String.eqb weather_type "sun" then
    [ "<li>晴朗的天气非常适合户外活动，如远足、野餐或公园漫步。</li>";
      "<li>在阳光下活动时，请记得涂抹防晒霜并多喝水。</li>";
      "<li>今天是拍摄户外照片的绝佳时机！</li>" ]
  else if contains "cloud" weather_type then
    [ "<li>多云天气适合轻度户外活动，如散步、慢跑或骑自行车。</li>";
      "<li>这是参观博物馆、美术馆或购物中心的好时机。</li>";
      "<li>多云天气下的摄影也很有质感，试试抓拍云朵变化！</li>" ]
  else if contains "rain" weather_type then
    [ "<li>雨天最适合室内活动，可以访问博物馆、电影院或咖啡厅。</li>";
      "<li>如需外出，请携带雨伞或穿着防水外套。</li>";
      "<li>这是在家享受阅读或看电影的好时机。</li>" ]
  else if contains "snow" weather_type then
    [ "<li>雪天适合冬季运动，如滑雪、雪橇或堆雪人。</li>";
      "<li>外出时请穿着保暖衣物，注意路面可能湿滑。</li>";
      "<li>这是在家享受热饮和温暖活动的好时机。</li>" ]
  else if contains "thunder" weather_type || contains "storm" weather_type then
    [ "<li>雷暴天气请尽量避免户外活动，留在室内安全地方。</li>";
      "<li>确保电子设备已充电，以防停电。</li>";
      "<li>这是在家享受阅读或娱乐活动的好时机。</li>" ]
  else if contains "fog" weather_type || contains "mist" weather_type then
    [ "<li>雾天驾驶请减速并打开车灯，保持安全距离。</li>";
      "<li>适合近距离活动，避免长途旅行。</li>";
      "<li>雾天氛围独特，摄影爱好者可以捕捉迷人景色。</li>" ]
  else
    [ "<li>请根据实时天气状况调整您的活动计划。</li>";
      "<li>出门前检查最新天气预报。</li>";
      "<li>随时准备适合当天天气的服装和装备。</li>" ].

Definition en_pool (weather_type : string) : list string :=
  if contains "clear" weather_type || String.eqb weather_type "sun" then
    [ "<li>Perfect weather for outdoor activities like hiking, picnics, or walks in the park.</li>";
      "<li>Remember to apply sunscreen and stay hydrated when out in the sun.</li>";
      "<li>Great day for outdoor photography!</li>" ]
  else if contains "cloud" weather_type then
    [ "<li>Cloudy weather is good for light outdoor activities like walking, jogging, or cycling.</li>";
      "<li>Good time to visit museums, art galleries, or shopping centers.</li>";
      "<li>Cloudy days offer great lighting for photography without harsh shadows.</li>" ]
  else if contains "rain" weather_type then
    [ "<li>Rainy weather is perfect for indoor activities - visit museums, cinemas, or cafes.</li>";
      "<li>If you need to go out, carry an umbrella or wear a waterproof jacket.</li>";
      "<li>Great time for reading or movie watching at home.</li>" ]
  else if contains "snow" weather_type then
    [ "<li>Snow weather is great for winter sports like skiing, sledding, or building snowmen.</li>";
      "<li>Wear warm layers when going outside and be cautious of slippery surfaces.</li>";
      "<li>Perfect time for warm drinks and cozy activities at home.</li>" ]
  else if contains "thunder" weather_type || contains "storm" weather_type then
    [ "<li>During thunderstorms, avoid outdoor activities and stay inside a safe building.</li>";
      "<li>Ensure electronic devices are charged in case of power outages.</li>";
      "<li>Great time for indoor reading or entertainment.</li>" ]
  else if contains "fog" weather_type || contains "mist" weather_type then
    [ "<li>Drive slowly with lights on during foggy conditions and maintain safe distances.</li>";
      "<li>Better for close-to-home activities, avoid long-distance travel if possible.</li>";
      "<li>Fog creates unique atmospheres for photographers to capture.</li>" ]
  else
    [ "<li>Adjust your activities according to the current weather conditions.</li>";
      "<li>Check the latest forecast before heading out.</li>";
      "<li>Be prepared with appropriate clothing and gear for the day's weather.</li>" ].

(** The temperature and precipitation extras (l. 335-343, 390-398). *)
Definition zh_extras (temp_min temp_max max_precip : Q) : list string :=
  ((if Qgtb temp_max (30 # 1) then
      ["<li>高温天气请避免剧烈运动，多喝水并寻找阴凉处。</li>"]
    else if Qgtb (5 # 1) temp_min then
      ["<li>低温天气请穿着保暖衣物，特别是保护头部、手部和脚部。</li>"]
    else [])
   ++ (if Qgtb max_precip (50 # 1) then
         ["<li>有较高降水可能，外出请携带雨具。</li>"]
       else []))%list.

Definition en_extras (temp_min temp_max max_precip : Q) : list string :=
  ((if Qgtb temp_max (30 # 1) then
      ["<li>Avoid strenuous activities in high temperatures, stay hydrated, and seek shade.</li>"]
    else if Qgtb (5 # 1) temp_min then
      ["<li>Dress warmly in cold temperatures, especially protecting your head, hands, and feet.</li>"]
    else [])
   ++ (if Qgtb max_precip (50 # 1) then
         ["<li>High chance of precipitation, bring rain gear when going out.</li>"]
       else []))%list.

Definition filler (language : string) : string :=
  if startswith "zh" language
  then "<li>请根据天气状况做好相应准备。</li>"
  else "<li>Be prepared according to weather conditions.</li>".

Definition suggestion_key (i : nat) : string :=
  "activity_suggestion_" ++ str_of_nat i.

(** [for i, suggestion in enumerate(selected, 1)] (l. 409-410). *)
Fixpoint enumerate_from (i : nat) (selected : list string)
    (acc : dict string) : dict string :=
  match selected with
  | [] => acc
  | s :: r => enumerate_from (S i) r (dict_set (suggestion_key i) s acc)
  end.

(** [for i in range(len(selected) + 1, 4)] (l. 413-417). *)
Definition fill_missing (language : string) (selected : list string)
    (acc : dict string) : dict string :=
  fold_left (fun d i => dict_set (suggestion_key i) (filler language) d)
            (seq (List.length selected + 1) (4 - (List.length selected + 1)))
            acc.

(** The tail of the function (l. 400-419) on a pool of candidates: one
    result per outcome of the draw. *)
Definition select_suggestions (language : string) (suggestions : list string)
  : list (dict string) :=
  let draws :=
    if Nat.ltb 3 (List.length suggestions)
    then Rand.sample_outcomes 3 suggestions
    else [suggestions] in
  map (fun selected =>
         fill_missing language selected (enumerate_from 1 selected []))
      draws.

Section WithEnv.
Context `{PyEnv}.

(** [float(weather_info.get(key, 0))]. *)
Definition float_field (weather_info : dict string) (key : string)
: result Q :=
match dict_get key weather_info with
| None => Ok (0 # 1)%Q
| Some s =>
    match float_of_str s with
    | Some q => Ok q
    | None => Raise ValueError
    end
end.

(** The candidate pool (l. 281-398). *)
Definition candidate_pool (weather_info : dict string) (language : string)
: result (list string) :=
let weather_type :=
  lower (get_or (dict_get "weather_main_type" weather_info) "") in
temp_min <- float_field weather_info "temp_min" ;;
temp_max <- float_field weather_info "temp_max" ;;
max_precip <- float_field weather_info "max_precip" ;;
if startswith "zh" language
then Ok (zh_pool weather_type ++ zh_extras temp_min temp_max max_precip)%list
else Ok (en_pool weather_type ++ en_extras temp_min temp_max max_precip)%list.

Definition generate_activity_suggestions (weather_info : dict string)
  (language : string) : result (list (dict string)) :=
suggestions <- candidate_pool weather_info language ;;
Ok (select_suggestions language suggestions).

End WithEnv.
End Suggestions.

(* ================================================================= *)
(** ** The text-generation collaborator *)

(** Outcome of [client.chat.completions.create(...)] followed by reading
    [response.choices[0].message.content]: the text, or the exception
    raised on the way (time-out, error status, malformed response, a
    content that is not text), with the text of [str(e)]. *)
Inductive chat_outcome : Type :=
| ChatContent (content : string)
| ChatRaised (msg : string).

Record chat_message : Type := { msg_content : option string }.

Record chat_choice : Type := { ch_message : option chat_message }.

Record chat_body : Type := { body_choices : option (list chat_choice) }.

(** Outcome of [requests.post(...)]: an exception, or a response with
    its status code, its text and the result of [response.json()]. *)
Inductive post_outcome : Type :=
| PostRaised (msg : string)
| PostResponse (status_code : Z) (text : string) (json : result chat_body).

(** [str(e)]. *)
Definition exn_message (e : exn) : string :=
  match e with
  | KeyError k => "'" ++ k ++ "'"
  | IndexError => "list index out of range"
  | TypeError => "unsupported operand type(s)"
  | ValueError => "could not convert string to float"
  | OverflowError msg => msg
  | OSError msg => msg
  | MultipleObjectsReturned => "get() returned more than one object"
  | OtherError msg => msg
  end.

Inductive log_level : Type := INFO | WARNING | ERROR.

Definition log_record : Type := (log_level * string)%type.

(* ================================================================= *)
(** ** [get_eludecia_response] (main.py, l. 421-488) *)

Module Eludecia.
Import PyStr.

(** [not s] for an optional configuration string. *)
Definition falsy (s : option string) : bool :=
  match s with
  | None => true
  | Some s => String.eqb s ""
  end.

(** [weather_info.get('weather_type', '').split(':')[0].strip()
    if weather_info else 'current'] (l. 438). *)
Definition weather_type_of (weather_info : dict string) : string :=
  match weather_info with
  | [] => "current"
  | _ =>
      strip (hd "" (split_on ":"
               (get_or (dict_get "weather_type" weather_info) "")))
  end.

Definition fallback_text (weather_type : string) : string :=
  "Sorry, I'm unable to provide a personalized weather description for "
  ++ lower weather_type ++ " weather at the moment.".

Definition get_eludecia_response (api_key base_url : option string)
    (weather_info : dict string) (reply : chat_outcome) : string :=
  let weather_type := weather_type_of weather_info in
  if falsy api_key || falsy base_url then
    "DeepSeek API configuration missing. Unable to generate Eludecia's response."
  else
    match reply with
    | ChatContent content => content
    | ChatRaised _ => fallback_text weather_type
    end.

End Eludecia.

(* ================================================================= *)
(** ** The tables of weather/models.py *)

Record Character : Type := {
  char_id : nat;
  char_name : string;
  char_description : string;
  char_avatar_color : string
}.

Record City : Type := {
  city_id : nat;
  city_name : string;
  city_country : string
}.

Record CityCharacter : Type := {
  cc_id : nat;
  cc_city : nat;
  cc_character : nat;
  cc_weather_letter : option string;
  cc_last_updated : Z;
  cc_is_active : bool
}.

Record Weather_current : Type := {
  wc_id : nat;
  wc_city : string;
  wc_country : string;
  wc_temperature : option pynum;
  wc_feels_like : option pynum;
  wc_humidity : option pynum;
  wc_pressure : option pynum;
  wc_wind_speed : option pynum;
  wc_wind_direction : option pynum;
  wc_description : option string;
  wc_icon : option string;
  wc_clouds : option pynum;
  wc_timestamp : Z;
  wc_last_updated : Z;
  wc_character_name : option string;
  wc_character_letter : option string
}.

Record database : Type := {
  characters : list Character;
  cities : list City;
  city_characters : list CityCharacter;
  weather_rows : list Weather_current
}.

(** [django.conf.settings], as far as the refresh cycle reads it. *)
Record settings : Type := {
  DEFAULT_CITIES : list (string * string);
  DEFAULT_WEATHER_CITY : string;
  DEFAULT_WEATHER_COUNTRY : string
}.

(** Outcome of [requests.get(...)], [raise_for_status()] and [.json()]
    in [fetch_weather_data]: a request exception with its text, or the
    decoded body ([None]: a falsy body). *)
Inductive http_result : Type :=
| HttpFailed (msg : string)
| HttpJson (body : option weather_data).

(** The collaborators of one refresh cycle.  The weather endpoint is
    keyed by the query [q]; the text generator by the two prompts;
    [store_error] is the exception the database raises for a snapshot
    row it does not store (an integer beyond the range of the column, a
    text longer than the column where the backend checks it), [None]
    for a row it stores. *)
Record world : Type := {
  http_get : string -> http_result;
  openai_available : bool;
  chat_completion : string -> string -> chat_outcome;
  post_completion : string -> string -> post_outcome;
  store_error : Weather_current -> option exn;
  now : Z
}.

Record state : Type := {
  st_db : database;
  st_log : list log_record
}.

(** Stateful, fallible computations: what was written before an
    exception stays written. *)
Definition M (A : Type) : Type := state -> state * result A.

Definition ret {A} (a : A) : M A := fun s => (s, Ok a).

Definition bindM {A B} (m : M A) (k : A -> M B) : M B :=
  fun s =>
    match m s with
    | (s', Ok a) => k a s'
    | (s', Raise e) => (s', Raise e)
    end.

Notation "x <~ m ;; k" := (bindM m (fun x => k))
  (at level 61, m at next level, right associativity).

Definition raise {A} (e : exn) : M A := fun s => (s, Raise e).

Definition lift {A} (r : result A) : M A := fun s => (s, r).

Definition get_db : M database := fun s => (s, Ok (st_db s)).

Definition put_db (d : database) : M unit :=
  fun s => ({| st_db := d; st_log := st_log s |}, Ok tt).

(** [logger.info], [logger.error]. *)
Definition log_msg (level : log_level) (msg : string) : M unit :=
  fun s => ({| st_db := st_db s; st_log := (st_log s ++ [(level, msg)])%list |},
            Ok tt).

(** [with transaction.atomic():] an exception restores the tables; the
    log is not transactional. *)
Definition atomic {A} (m : M A) : M A :=
  fun s =>
    match m s with
    | (s', Ok a) => (s', Ok a)
    | (s', Raise e) => ({| st_db := st_db s; st_log := st_log s' |}, Raise e)
    end.

(** [try: ... except Exception as e: ...]. *)
Definition try_except {A} (m : M A) (handler : exn -> M A) : M A :=
  fun s =>
    match m s with
    | (s', Ok a) => (s', Ok a)
    | (s', Raise e) => handler e s'
    end.

Fixpoint forM {A} (l : list A) (body : A -> M unit) : M unit :=
  match l with
  | [] => ret tt
  | x :: r => _ <~ body x ;; forM r body
  end.

(* ================================================================= *)
(** ** The ORM calls the scheduler makes *)

Module Orm.

Definition fresh_id {A} (pk : A -> nat) (rows : list A) : nat :=
  S (fold_right Nat.max 0 (map pk rows)).

(** [Model.objects.get(...)] on the rows a filter kept. *)
Definition get_one {A} (matches : list A) : result (option A) :=
  match matches with
  | [] => Ok None
  | [x] => Ok (Some x)
  | _ :: _ :: _ => Raise MultipleObjectsReturned
  end.

Definition named (name : string) (c : Character) : bool :=
  String.eqb (char_name c) name.

Definition located (name country : string) (c : City) : bool :=
  String.eqb (city_name c) name && String.eqb (city_country c) country.

Definition links (city character : nat) (cc : CityCharacter) : bool :=
  Nat.eqb (cc_city cc) city && Nat.eqb (cc_character cc) character.

(** The lookup of [update_or_create(city=..., country=...)]. *)
Definition keyed (city country : string) (w : Weather_current) : bool :=
  String.eqb (wc_city w) city && String.eqb (wc_country w) country.

(** [Character.objects.get_or_create(name=..., defaults={...})]. *)
Definition get_or_create_character (name description color : string)
  : M Character :=
  d <~ get_db ;;
  found <~ lift (get_one (filter (named name) (characters d))) ;;
  match found with
  | Some c => ret c
  | None =>
      let c := {| char_id := fresh_id char_id (characters d);
                  char_name := name;
                  char_description := description;
                  char_avatar_color := color |} in
      _ <~ put_db {| characters := (characters d ++ [c])%list;
                     cities := cities d;
                     city_characters := city_characters d;
                     weather_rows := weather_rows d |} ;;
      ret c
  end.

(** [Character.objects.get(name=...)]. *)
Definition get_character (name : string) : M Character :=
  d <~ get_db ;;
  found <~ lift (get_one (filter (named name) (characters d))) ;;
  match found with
  | Some c => ret c
  | None => raise (OtherError "Character matching query does not exist.")
  end.

(** [city_char.character]: the row the foreign key points to. *)
Definition character_of (cc : CityCharacter) : M Character :=
  d <~ get_db ;;
  match find (fun c => Nat.eqb (char_id c) (cc_character cc)) (characters d) with
  | Some c => ret c
  | None => raise (OtherError "Character matching query does not exist.")
  end.

(** [City.objects.get_or_create(name=..., country=...)]. *)
Definition get_or_create_city (name country : string) : M City :=
  d <~ get_db ;;
  found <~ lift (get_one (filter (located name country) (cities d))) ;;
  match found with
  | Some c => ret c
  | None =>
      let c := {| city_id := fresh_id city_id (cities d);
                  city_name := name;
                  city_country := country |} in
      _ <~ put_db {| characters := characters d;
                     cities := (cities d ++ [c])%list;
                     city_characters := city_characters d;
                     weather_rows := weather_rows d |} ;;
      ret c
  end.

(** [CityCharacter.objects.get_or_create(city=..., character=...,
    defaults={'is_active': True})]. *)
Definition get_or_create_city_character (w : world) (city character : nat)
  : M CityCharacter :=
  d <~ get_db ;;
  found <~ lift (get_one (filter (links city character) (city_characters d))) ;;
  match found with
  | Some cc => ret cc
  | None =>
      let cc := {| cc_id := fresh_id cc_id (city_characters d);
                   cc_city := city;
                   cc_character := character;
                   cc_weather_letter := None;
                   cc_last_updated := now w;
                   cc_is_active := true |} in
      _ <~ put_db {| characters := characters d;
                     cities := cities d;
                     city_characters := (city_characters d ++ [cc])%list;
                     weather_rows := weather_rows d |} ;;
      ret cc
  end.

(** The [defaults] of [update_or_create] (weather_updater.py, l. 264-274). *)
Record snapshot_fields : Type := {
  sf_temperature : option pynum;
  sf_feels_like : option pynum;
  sf_humidity : option pynum;
  sf_pressure : option pynum;
  sf_wind_speed : option pynum;
  sf_wind_direction : option pynum;
  sf_description : option string;
  sf_icon : option string;
  sf_clouds : option pynum
}.

(** [float(value)], as a [FloatField] prepares a value for the
    database. *)
Definition float_column (n : pynum) : result pynum :=
  match n with
  | PInt z =>
      let f := Float64.of_Z z in
      if Float64.is_infinite f
      then Raise (OverflowError "int too large to convert to float")
      else Ok (PFloat f)
  | PFloat f => Ok (PFloat f)
  end.

(** [int(value)], as an [IntegerField] prepares a value: a [float] is
    truncated towards zero; for a NaN Django raises a ValueError with
    a text of its own. *)
Definition int_column (name : string) (n : pynum) : result pynum :=
  match n with
  | PInt z => Ok (PInt z)
  | PFloat f =>
      match float_value f with
      | NaN =>
          Raise (OtherError ("Field '" ++ name
                             ++ "' expected a number but got nan."))
      | MinusInf | PlusInf =>
          Raise (OverflowError "cannot convert float infinity to integer")
      | Real q => Ok (PInt (Z.quot (Qnum q) (Zpos (Qden q))))
      end
  end.

(** A nullable column: [None] is stored as NULL. *)
Definition nullable (column : pynum -> result pynum) (v : option pynum)
  : result (option pynum) :=
  match v with
  | Some n => n <- column n ;; Ok (Some n)
  | None => Ok None
  end.

(** The values of the columns, prepared in the order of the fields of
    the model (weather/models.py, l. 27-35). *)
Definition prepare (f : snapshot_fields) : result snapshot_fields :=
  temperature <- nullable float_column (sf_temperature f) ;;
  feels_like <- nullable float_column (sf_feels_like f) ;;
  humidity <- nullable (int_column "humidity") (sf_humidity f) ;;
  pressure <- nullable (int_column "pressure") (sf_pressure f) ;;
  wind_speed <- nullable float_column (sf_wind_speed f) ;;
  wind_direction <-
    nullable (int_column "wind_direction") (sf_wind_direction f) ;;
  clouds <- nullable (int_column "clouds") (sf_clouds f) ;;
  Ok {| sf_temperature := temperature;
        sf_feels_like := feels_like;
        sf_humidity := humidity;
        sf_pressure := pressure;
        sf_wind_speed := wind_speed;
        sf_wind_direction := wind_direction;
        sf_description := sf_description f;
        sf_icon := sf_icon f;
        sf_clouds := clouds |}.

(** The database stores the row or raises. *)
Definition store (w : world) (r : Weather_current) : M unit :=
  match store_error w r with
  | Some e => raise e
  | None => ret tt
  end.

(** The row inserted for the prepared values [f]. *)
Definition create_row (w : world) (id : nat) (city country : string)
    (f : snapshot_fields) : Weather_current :=
  {| wc_id := id; wc_city := city; wc_country := country;
     wc_temperature := sf_temperature f;
     wc_feels_like := sf_feels_like f;
     wc_humidity := sf_humidity f;
     wc_pressure := sf_pressure f;
     wc_wind_speed := sf_wind_speed f;
     wc_wind_direction := sf_wind_direction f;
     wc_description := sf_description f;
     wc_icon := sf_icon f;
     wc_clouds := sf_clouds f;
     wc_timestamp := now w;
     wc_last_updated := now w;
     wc_character_name := None;
     wc_character_letter := None |}.

(** The row [r] updated with the prepared values [f]. *)
Definition update_row (w : world) (f : snapshot_fields) (r : Weather_current)
  : Weather_current :=
  {| wc_id := wc_id r; wc_city := wc_city r; wc_country := wc_country r;
     wc_temperature := sf_temperature f;
     wc_feels_like := sf_feels_like f;
     wc_humidity := sf_humidity f;
     wc_pressure := sf_pressure f;
     wc_wind_speed := sf_wind_speed f;
     wc_wind_direction := sf_wind_direction f;
     wc_description := sf_description f;
     wc_icon := sf_icon f;
     wc_clouds := sf_clouds f;
     wc_timestamp := wc_timestamp r;
     wc_last_updated := now w;
     wc_character_name := wc_character_name r;
     wc_character_letter := wc_character_letter r |}.

(** [Weather_current.objects.update_or_create(city=..., country=...,
    defaults=...)]: the row and whether it was created.  The lookup
    comes first; saving prepares the values of the columns and hands
    the row to the database. *)
Definition update_or_create (w : world) (city country : string)
    (defaults : snapshot_fields) : M (Weather_current * bool) :=
  d <~ get_db ;;
  found <~ lift (get_one (filter (keyed city country) (weather_rows d))) ;;
  f <~ lift (prepare defaults) ;;
  match found with
  | Some r =>
      let r' := update_row w f r in
      _ <~ store w r' ;;
      _ <~ put_db {| characters := characters d;
                     cities := cities d;
                     city_characters := city_characters d;
                     weather_rows :=
                       map (fun x => if Nat.eqb (wc_id x) (wc_id r)
                                     then update_row w f x else x)
                           (weather_rows d) |} ;;
      ret (r', false)
  | None =>
      let r := create_row w (fresh_id wc_id (weather_rows d)) city country f in
      _ <~ store w r ;;
      _ <~ put_db {| characters := characters d;
                     cities := cities d;
                     city_characters := city_characters d;
                     weather_rows := (weather_rows d ++ [r])%list |} ;;
      ret (r, true)
  end.

Definition set_letter (w : world) (letter : string) (cc : CityCharacter)
  : CityCharacter :=
  {| cc_id := cc_id cc; cc_city := cc_city cc;
     cc_character := cc_character cc;
     cc_weather_letter := Some letter;
     cc_last_updated := now w;
     cc_is_active := cc_is_active cc |}.

(** [city_char.weather_letter = letter;
    city_char.save(update_fields=['weather_letter', 'last_updated'])]. *)
Definition save_letter (w : world) (cc : CityCharacter) (letter : string)
  : M unit :=
  d <~ get_db ;;
  put_db {| characters := characters d;
            cities := cities d;
            city_characters :=
              map (fun x => if Nat.eqb (cc_id x) (cc_id cc)
                            then set_letter w letter x else x)
                  (city_characters d);
            weather_rows := weather_rows d |}.

(** [City.objects.filter(citycharacter__is_active=True).distinct()]. *)
Definition cities_with_active_character (d : database) : list City :=
  filter (fun c =>
            existsb (fun cc => Nat.eqb (cc_city cc) (city_id c)
                               && cc_is_active cc)
                    (city_characters d))
         (cities d).

(** [CityCharacter.objects.filter(city=city_obj, is_active=True)]. *)
Definition active_characters_of (city : City) (d : database)
  : list CityCharacter :=
  filter (fun cc => Nat.eqb (cc_city cc) (city_id city) && cc_is_active cc)
         (city_characters d).

End Orm.

(* ================================================================= *)
(** ** The scheduler's jobs (weather/schedulers/weather_updater.py) *)

Module Updater.
Import PyStr Sanitizer Orm.

Definition default_character_name : string :=
  "Eludecia the Succubus Paladin".

Definition default_character_description : string :=
  "A reformed succubus who has pledged herself to a holy order, constantly balancing between her demonic nature and righteous path. She speaks with both seductive charm and noble virtue when discussing the weather.".

(** [ensure_default_data] (l. 34-62). *)
Definition ensure_default_data (cfg : settings) (w : world) : M unit :=
  _ <~ get_or_create_character default_character_name
         default_character_description "#800080" ;;
  _ <~ forM (DEFAULT_CITIES cfg)
         (fun city_data =>
            _ <~ get_or_create_city (fst city_data) (snd city_data) ;;
            ret tt) ;;
  default_char <~ get_character default_character_name ;;
  d <~ get_db ;;
  forM (cities d)
    (fun city =>
       _ <~ get_or_create_city_character w (city_id city)
              (char_id default_char) ;;
       ret tt).

(** [city or settings.DEFAULT_WEATHER_CITY]. *)
Definition or_default (s default : string) : string :=
  if String.eqb s "" then default else s.

(** [fetch_weather_data] (l. 64-83). *)
Definition fetch_weather_data (cfg : settings) (w : world)
    (city country : string) : M (option weather_data) :=
  let city := or_default city (DEFAULT_WEATHER_CITY cfg) in
  let country := or_default country (DEFAULT_WEATHER_COUNTRY cfg) in
  match http_get w (city ++ "," ++ country) with
  | HttpJson body => ret body
  | HttpFailed e =>
      _ <~ log_msg ERROR ("Error fetching weather data: " ++ e) ;;
      ret None
  end.

Section WithEnv.
Context `{PyEnv}.

Definition system_prompt_of (character : option Character) : string :=
let character_name :=
  match character with
  | Some c => char_name c
  | None => default_character_name
  end in
let character_description :=
  match character with
  | Some c => char_description c
  | None => ""
  end in
let character_description :=
  if String.eqb character_description ""
  then default_character_description
  else character_description in
"You are " ++ character_name ++ ". " ++ character_description.

(** The user prompt (l. 147-181); it raises where
  [weather_data.get('weather', [{}])[0]] does. *)
Definition user_prompt_of (weather_data : weather_data) : result string :=
let city := get_or (wd_name weather_data) "Unknown City" in
let country_code :=
  get_or (sys_country (get_or (wd_sys weather_data) empty_sys))
         "Unknown Country" in
let main := get_or (wd_main weather_data) empty_main in
let temp := get_or (m_temp main) (PInt 0) in
let feels_like := get_or (m_feels_like main) (PInt 0) in
let humidity := get_or (m_humidity main) (PInt 0) in
let pressure := get_or (m_pressure main) (PInt 0) in
let wind := get_or (wd_wind weather_data) empty_wind in
let wind_speed := get_or (wind_speed_of wind) (PInt 0) in
let wind_direction := get_or (wind_deg_of wind) (PInt 0) in
e <- first_weather (wd_weather weather_data) ;;
let description := get_or (we_description e) "unknown weather" in
let clouds :=
  get_or (clouds_all (get_or (wd_clouds weather_data) empty_clouds))
         (PInt 0) in
Ok (nl ++ join nl (map (fun line => "    " ++ line)
  [ "Write a short, entertaining letter (150-200 words) reporting the current weather conditions. Stay in character the entire time.";
    "";
    "IMPORTANT OUTPUT FORMATTING REQUIREMENTS:";
    "1. Use PLAIN TEXT ONLY - absolutely NO markdown formatting";
    "2. DO NOT use asterisks, hashtags, backticks or any other formatting characters";
    "3. DO NOT include extra spaces or indentation at the beginning of paragraphs";
    "4. Start directly with your greeting without ANY leading spaces";
    "5. Do not format text in bold or italic, just use regular text";
    "";
    "Current weather conditions:";
    "- Location: " ++ city ++ ", " ++ country_code;
    "- Temperature: " ++ str_num temp ++ "°C (feels like "
      ++ str_num feels_like ++ "°C)";
    "- Weather: " ++ description;
    "- Humidity: " ++ str_num humidity ++ "%";
    "- Pressure: " ++ str_num pressure ++ " hPa";
    "- Wind: " ++ str_num wind_speed ++ " m/s, direction "
      ++ str_num wind_direction ++ "°";
    "- Cloud coverage: " ++ str_num clouds ++ "%";
    "";
    "Write your letter now, addressing the reader directly. Include a greeting and sign-off in your character's voice.";
    "" ])).

Definition unavailable (detail : string) : string :=
"Weather letter unavailable. Error: " ++ detail.

(** The handler of l. 241-243. *)
Definition letter_failed (msg : string) : M string :=
_ <~ log_msg ERROR ("Error generating weather letter: " ++ msg) ;;
ret (unavailable msg).

(** [result.get('choices', [{}])[0].get('message', {}).get('content', '')]
  (l. 234). *)
Definition content_of (body : chat_body) : result string :=
choice <- first_item (get_or (body_choices body)
                        [{| ch_message := None |}]) ;;
Ok (get_or (msg_content (get_or (ch_message choice)
                           {| msg_content := None |})) "").

(** [generate_weather_letter] (l. 133-243). *)
Definition generate_weather_letter (w : world) (weather_data : weather_data)
  (character : option Character) : M string :=
let system_prompt := system_prompt_of character in
user_prompt <~ lift (user_prompt_of weather_data) ;;
if openai_available w then
  match chat_completion w system_prompt user_prompt with
  | ChatContent letter => ret (clean_text letter)
  | ChatRaised msg => letter_failed msg
  end
else
  match post_completion w system_prompt user_prompt with
  | PostRaised msg => letter_failed msg
  | PostResponse status_code text json =>
      if (status_code =? 200)%Z then
        match json with
        | Raise e => letter_failed (exn_message e)
        | Ok body =>
            match content_of body with
            | Raise e => letter_failed (exn_message e)
            | Ok letter => ret (clean_text letter)
            end
        end
      else
        _ <~ log_msg ERROR ("API error: " ++ str_of_Z status_code
                            ++ " - " ++ text) ;;
        ret (unavailable (str_of_Z status_code))
  end.

(** The [defaults] argument (l. 264-274). *)
Definition snapshot_of (weather_data : weather_data)
: result snapshot_fields :=
let main := get_or (wd_main weather_data) empty_main in
let wind := get_or (wd_wind weather_data) empty_wind in
e <- first_weather (wd_weather weather_data) ;;
Ok {| sf_temperature := m_temp main;
      sf_feels_like := m_feels_like main;
      sf_humidity := m_humidity main;
      sf_pressure := m_pressure main;
      sf_wind_speed := wind_speed_of wind;
      sf_wind_direction := wind_deg_of wind;
      sf_description := we_description e;
      sf_icon := we_icon e;
      sf_clouds :=
        clouds_all (get_or (wd_clouds weather_data) empty_clouds) |}.

(** Body of the loop over the active bindings (l. 280-286). *)
Definition write_letter (w : world) (weather_data : weather_data)
  (city_char : CityCharacter) : M unit :=
character <~ character_of city_char ;;
weather_letter <~
  generate_weather_letter w weather_data (Some character) ;;
save_letter w city_char weather_letter.

(** The transaction of l. 259-289. *)
Definition store_weather (w : world) (city_obj : City)
  (weather_data : weather_data) : M unit :=
fields <~ lift (snapshot_of weather_data) ;;
saved <~ update_or_create w (city_name city_obj) (city_country city_obj)
           fields ;;
let '(weather_obj, created) := saved in
d <~ get_db ;;
_ <~ forM (active_characters_of city_obj d) (write_letter w weather_data) ;;
let action := if created then "Created" else "Updated" in
log_msg INFO (action ++ " weather data for " ++ wc_city weather_obj
              ++ ", " ++ wc_country weather_obj).

(** [update_city_weather] (l. 245-292). *)
Definition update_city_weather (cfg : settings) (w : world) (city_obj : City)
: M unit :=
_ <~ log_msg INFO ("Updating weather data for " ++ city_name city_obj
                   ++ ", " ++ city_country city_obj) ;;
fetched <~ fetch_weather_data cfg w (city_name city_obj)
             (city_country city_obj) ;;
match fetched with
| None =>
    log_msg ERROR ("Failed to fetch weather data for "
                   ++ city_name city_obj)
| Some weather_data =>
    try_except (atomic (store_weather w city_obj weather_data))
      (fun e =>
         log_msg ERROR ("Error updating weather data for "
                        ++ city_name city_obj ++ ": " ++ exn_message e))
end.

(** [update_weather_data] (l. 294-316). *)
Definition update_weather_data (cfg : settings) (w : world) : M unit :=
_ <~ log_msg INFO "Running scheduled weather data update" ;;
_ <~ ensure_default_data cfg w ;;
d <~ get_db ;;
cities <~
  match cities_with_active_character d with
  | [] =>
      default_city <~ get_or_create_city (DEFAULT_WEATHER_CITY cfg)
                        (DEFAULT_WEATHER_COUNTRY cfg) ;;
      ret [default_city]
  | active => ret active
  end ;;
forM cities (update_city_weather cfg w).

End WithEnv.
End Updater.

(* ================================================================= *)
(** ** A concrete host: UTC clock, plain decimal floats *)

Module Host.
Import PyStr.

Definition two_digits (z : Z) : string :=
  if (z <? 10)%Z then "0" ++ str_of_Z z else str_of_Z z.

(** Civil date of a day count since 1970-01-01. *)
Definition civil_of_days (days : Z) : Z * Z * Z :=
  (let z := days + 719468 in
   let era := z / 146097 in
   let doe := z - era * 146097 in
   let yoe := (doe - doe / 1460 + doe / 36524 - doe / 146096) / 365 in
   let doy := doe - (365 * yoe + yoe / 4 - yoe / 100) in
   let mp := (5 * doy + 2) / 153 in
   let d := doy - (153 * mp + 2) / 5 + 1 in
   let m := if mp <? 10 then mp + 3 else mp - 9 in
   let y := yoe + era * 400 in
   (if m <=? 2 then y + 1 else y, m, d))%Z.

Definition directive (c : ascii) (t : Z) : string :=
  let '(y, m, d) := civil_of_days (t / 86400) in
  let secs := (t mod 86400)%Z in
  if Ascii.eqb c "H" then two_digits (secs / 3600)
  else if Ascii.eqb c "M" then two_digits ((secs mod 3600) / 60)
  else if Ascii.eqb c "S" then two_digits (secs mod 60)
  else if Ascii.eqb c "Y" then str_of_Z y
  else if Ascii.eqb c "m" then two_digits m
  else if Ascii.eqb c "d" then two_digits d
  else String "%" (String c "").

Fixpoint strftime_utc (fmt : string) (t : Z) : string :=
  match fmt with
  | "" => ""
  | String c r =>
      if Ascii.eqb c "%" then
        match r with
        | String k r' => directive k t ++ strftime_utc r' t
        | "" => "%"
        end
      else String c (strftime_utc r t)
  end.

Definition pow10 (k : Z) : Q := Qpower (10 # 1) k.

(** The least [p] from [p] on with [v < 10^p]. *)
Fixpoint decimal_point (fuel : nat) (p : Z) (v : Q) : Z :=
  match fuel with
  | O => p
  | S fuel' =>
      if Qgtb (pow10 p) v then p else decimal_point fuel' (p + 1) v
  end.

(** [d * 10^k] is read as the float [f]. *)
Definition reads_back (f : spec_float) (d k : Z) : bool :=
  SFeqb (Float64.of_Q (inject_Z d * pow10 k)) f.

(** The fewest digits, from [n] on, that read back as [f], whose
    value [v] lies below [10^p]: the digits and their exponent. *)
Fixpoint shortest (fuel : nat) (n : Z) (f : spec_float) (v : Q) (p : Z)
  : Z * Z :=
  match fuel with
  | O => (Qfloor v, 0%Z)
  | S fuel' =>
      let k := (p - n)%Z in
      let x := (v / pow10 k)%Q in
      let lo := Qfloor x in
      let hi := (lo + 1)%Z in
      let nearer_lo := Qle_bool (x - inject_Z lo) (inject_Z hi - x) in
      let first := if nearer_lo then lo else hi in
      let second := if nearer_lo then hi else lo in
      if reads_back f first k then (first, k)
      else if reads_back f second k then (second, k)
      else shortest fuel' (n + 1) f v p
  end.

Fixpoint strip_zeros (fuel : nat) (d k : Z) : Z * Z :=
  match fuel with
  | O => (d, k)
  | S fuel' =>
      if (d mod 10 =? 0)%Z then strip_zeros fuel' (d / 10)%Z (k + 1)%Z
      else (d, k)
  end.

Fixpoint zeros (n : nat) : string :=
  match n with
  | O => ""
  | S n' => String "0" (zeros n')
  end.

(** [repr] of a positive finite float of value [v]: the shortest
    digits that read back, in positional notation from 0.0001 up to
    1e16 and in exponent notation beyond. *)
Definition repr_positive (f : spec_float) (v : Q) : string :=
  let p := decimal_point 640 (-324) v in
  let '(d, k) := shortest 17 1 f v p in
  let '(d, k) := strip_zeros 17 d k in
  let ds := str_of_Z d in
  let n := Z.of_nat (String.length ds) in
  let decpt := (n + k)%Z in
  if ((-4 <? decpt) && (decpt <=? 16))%Z then
    if (decpt <=? 0)%Z then "0." ++ zeros (Z.to_nat (- decpt)) ++ ds
    else if (n <=? decpt)%Z
         then ds ++ zeros (Z.to_nat (decpt - n)) ++ ".0"
         else substring 0 (Z.to_nat decpt) ds ++ "."
              ++ substring (Z.to_nat decpt) (Z.to_nat (n - decpt)) ds
  else
    let e := (decpt - 1)%Z in
    substring 0 1 ds
    ++ (if (n =? 1)%Z then ""
        else "." ++ substring 1 (Z.to_nat (n - 1)) ds)
    ++ "e" ++ (if (e <? 0)%Z then "-" else "+") ++ two_digits (Z.abs e).

(** [repr(x)] for a [float]. *)
Definition repr_binary64 (f : spec_float) : string :=
  match f with
  | S754_nan => "nan"
  | S754_infinity s => if s then "-inf" else "inf"
  | S754_zero s => if s then "-0.0" else "0.0"
  | S754_finite s m e =>
      (if s then "-" else "")
      ++ repr_positive (S754_finite false m e)
           (inject_Z (Zpos m) * Qpower (2 # 1) e)%Q
  end.

(** [datetime.fromtimestamp] on a host in the UTC zone: ValueError
    outside the years 1 to 9999, OSError where the C library cannot
    tell the year, OverflowError beyond [time_t]. *)
Definition utc_timestamp_error (t : Z) : option exn :=
  if ((t <? - 2 ^ 63) || (2 ^ 63 <=? t))%Z
  then Some (OverflowError "timestamp out of range for platform time_t")
  else if ((t <? -67768040609740800) || (67767976233532799 <? t))%Z
  then Some (OSError "[Errno 75] Value too large for defined data type")
  else if ((t <? -62135596800) || (253402300799 <? t))%Z
  then Some ValueError
  else None.

Definition digit_value (c : ascii) : option Z :=
  let n := nat_of_ascii c in
  if Nat.leb 48 n && Nat.leb n 57 then Some (Z.of_nat (n - 48)) else None.

(** Digits of [s] up to its end or to a point, as a number and a count
    of digits. *)
Fixpoint read_digits (acc : Z) (count : nat) (s : string)
  : option (Z * nat * string) :=
  match s with
  | "" => Some (acc, count, "")
  | String c r =>
      match digit_value c with
      | Some d => read_digits (acc * 10 + d)%Z (S count) r
      | None => if Ascii.eqb c "." then Some (acc, count, r) else None
      end
  end.

Definition parse_unsigned (s : string) : option Q :=
  match read_digits 0 0 s with
  | Some (whole, S _, "") => Some (inject_Z whole)
  | Some (whole, S _, frac) =>
      match read_digits 0 0 frac with
      | Some (f, n, "") =>
          Some (inject_Z whole + inject_Z f / inject_Z (10 ^ Z.of_nat n))%Q
      | _ => None
      end
  | _ => None
  end.

Definition parse_decimal (s : string) : option Q :=
  match s with
  | String c r =>
      if Ascii.eqb c "-" then option_map Qopp (parse_unsigned r)
      else parse_unsigned s
  | "" => None
  end.

(** [float(s)] for plain decimal notation: the float nearest to the
    number written. *)
Definition parse_float (s : string) : option Q :=
  match parse_decimal s with
  | Some q =>
      match float_value (Float64.of_Q q) with
      | Real r => Some (Qred r)
      | _ => None
      end
  | None => None
  end.

#[export] Instance utc_host : PyEnv := {
  repr_float := repr_binary64;
  timestamp_error := utc_timestamp_error;
  local_hour := fun t => ((t mod 86400) / 3600)%Z;
  strftime := strftime_utc;
  float_of_str := parse_float
}.

End Host.

(* ================================================================= *)
(** ** Specification-side definitions and sample payloads *)

Module Spec.
Import PyStr Aggregator.

(** A ['weather'] array that is absent or has a first entry. *)
Definition has_first (field : option (list weather_entry)) : bool :=
  match field with
  | Some [] => false
  | _ => true
  end.

Definition hour_ok (hour : hour_sample) : bool := has_first (h_weather hour).

(** A forecast payload none of whose ['weather'] arrays is empty. *)
Definition forecast_ok (fd : forecast_data) : bool :=
  has_first (cur_weather (get_or (fc_current fd) empty_current))
  && forallb hour_ok (get_or (fc_hourly fd) []).

(** An operation that does not raise. *)
Definition returns {A} (r : result A) : bool :=
  match r with
  | Ok _ => true
  | Raise _ => false
  end.

(** A sample within range: the host accepts its timestamp and its
    percentage can be formatted. *)
Definition hour_in_range `{PyEnv} (hour : hour_sample) : bool :=
  returns (fromtimestamp (get_or (h_dt hour) 0%Z))
  && returns (format_0f (pop_percent hour)).

(** A forecast payload within range: the host accepts the timestamps
    that are read, and no [int] is beyond the range of [float] where
    it is divided or formatted. *)
Definition forecast_in_range `{PyEnv} (fd : forecast_data) : bool :=
  let current := get_or (fc_current fd) empty_current in
  match cur_visibility current with
  | Some v => returns (num_div v 1000)
  | None => true
  end
  && returns (time_of (cur_sunrise current))
  && returns (time_of (cur_sunset current))
  && forallb hour_in_range (get_or (fc_hourly fd) []).

(** The same for the current-weather payload. *)
Definition weather_in_range `{PyEnv} (wd : weather_data) : bool :=
  let sys := get_or (wd_sys wd) empty_sys in
  match wd_visibility wd with
  | Some v => returns (num_div v 1000)
  | None => true
  end
  && returns (time_or_unknown "%Y-%m-%d %H:%M:%S" (wd_dt wd))
  && returns (time_or_unknown "%H:%M:%S" (sys_sunrise sys))
  && returns (time_or_unknown "%H:%M:%S" (sys_sunset sys)).

(** A number that is absent or a [float]: nothing to convert. *)
Definition float_or_absent (field : option pynum) : bool :=
  match field with
  | Some (PInt _) => false
  | _ => true
  end.

(** A timestamp that is absent or one the host accepts. *)
Definition accepted `{PyEnv} (t : option Z) : bool :=
  match t with
  | Some z => returns (fromtimestamp z)
  | None => true
  end.

(** A display field: its text, or the marker when it is missing. *)
Definition shown `{PyEnv} (field : option pynum) : string :=
  match field with
  | Some n => str_num n
  | None => "Unknown"
  end.

(** A sample with 0 for a missing [pop] or [dt]. *)
Definition fill_hour (hour : hour_sample) : hour_sample :=
  {| h_dt := Some (get_or (h_dt hour) 0%Z);
     h_temp := h_temp hour;
     h_pop := Some (get_or (h_pop hour) (PInt 0));
     h_weather := h_weather hour |}.

(** A daily entry with 100 for a missing minimum and -100 for a
    missing maximum. *)
Definition fill_day (day : day_sample) : day_sample :=
  let temp := get_or (d_temp day) empty_day_temp in
  {| d_temp := Some {| day_min := Some (get_or (day_min temp) (PInt 100));
                       day_max := Some (get_or (day_max temp)
                                               (PInt (-100))) |} |}.

Definition fill_defaults (fd : forecast_data) : forecast_data :=
  {| fc_current := fc_current fd;
     fc_hourly := Some (map fill_hour (get_or (fc_hourly fd) []));
     fc_daily := Some (map fill_day (get_or (fc_daily fd) [])) |}.

(** The six readings [handle_weather_data] subscripts. *)
Definition main_complete (main : main_block) : bool :=
  match m_temp main, m_temp_min main, m_temp_max main,
        m_feels_like main, m_humidity main, m_pressure main with
  | Some _, Some _, Some _, Some _, Some _, Some _ => true
  | _, _, _, _, _, _ => false
  end.

(** The weather category of each sample, in order. *)
Fixpoint categories (hours : list hour_sample) : result (list string) :=
  match hours with
  | [] => Ok []
  | h :: r => c <- w_type_of h ;; cs <- categories r ;; Ok (c :: cs)
  end.

Definition occurrences (c : string) (cats : list string) : nat :=
  count_occ string_dec cats c.

Definition max_count (cats : list string) : nat :=
  fold_right Nat.max 0 (map (fun c => occurrences c cats) cats).

(** The tie-break in the words of the specification: scanning the
    samples in order with running counts, the first category whose
    running count reaches the final maximum. *)
Fixpoint first_to_reach (target : nat) (seen rest : list string)
  : option string :=
  match rest with
  | [] => None
  | c :: r =>
      if Nat.eqb (occurrences c (c :: seen)) target then Some c
      else first_to_reach target (c :: seen) r
  end.

Definition first_to_reach_max (cats : list string) : option string :=
  first_to_reach (max_count cats) [] cats.

(** [c] wins the vote over [cats]: no category is more frequent, and a
    category as frequent as [c] first occurs after [c] does. *)
Definition dominant (cats : list string) (c : string) : Prop :=
  In c cats
  /\ (forall c', occurrences c' cats <= occurrences c cats)
  /\ (forall c', c' <> c -> occurrences c' cats = occurrences c cats ->
        exists before after,
          cats = (before ++ c :: after)%list /\ ~ In c' before).


Definition wrapped (s : string) : bool :=
  startswith "<li>" s && endswith "</li>" s.

Definition three_keys : list string :=
  ["activity_suggestion_1"; "activity_suggestion_2"; "activity_suggestion_3"].

(** Keys of the tally, in the order Python keeps them. *)
Definition first_seen (cats : list string) : list string :=
  fold_left (fun keys c => if existsb (String.eqb c) keys then keys
                           else (keys ++ [c])%list)
            cats [].

(** The tally of a list of categories. *)
Definition tally (cats : list string) : dict nat := fold_left bump cats [].

(** The keys the hourly loop writes. *)
Definition slot_keys : list string :=
  flat_map (fun slot => [fst slot ++ "_temp"; fst slot ++ "_precip";
                         fst slot ++ "_weather"])
           time_slots.

Definition only_slot_keys (forecasts : dict string) : Prop :=
  forall k, In k (dict_keys forecasts) -> In k slot_keys.

(** The clock time recorded for a sample. *)
Definition sample_time `{PyEnv} (hour : hour_sample) : string :=
  strftime "%H:%M" (get_or (h_dt hour) 0%Z).

End Spec.

Module Samples.

Definition entry (main description : string) : weather_entry :=
  {| we_main := Some main; we_description := Some description;
     we_icon := None |}.

Definition hour_at (t : Z) (pop : option pynum) (main : string)
  : hour_sample :=
  {| h_dt := Some t; h_temp := Some (PInt 20); h_pop := pop;
     h_weather := Some [entry main main] |}.

Definition no_main : main_block := empty_main.

Definition full_main : main_block :=
  {| m_temp := Some (PFloat (Float64.of_Q (234 # 10)));
     m_temp_min := Some (PInt 18);
     m_temp_max := Some (PInt 25);
     m_feels_like := Some (PFloat (Float64.of_Q (229 # 10)));
     m_humidity := Some (PInt 60);
     m_pressure := Some (PInt 1013) |}.

Definition bare_weather (main : main_block) (visibility : option pynum)
  : weather_data :=
  {| wd_name := None; wd_sys := None; wd_main := Some main;
     wd_weather := None; wd_wind := None; wd_clouds := None;
     wd_visibility := visibility; wd_dt := None |}.

(** ['main'] present but empty. *)
Definition weather_without_readings : weather_data :=
  bare_weather no_main (Some (PInt 10000)).

Definition weather_with_readings : weather_data :=
  bare_weather full_main (Some (PInt 10000)).

(** A payload none of whose modelled keys is present. *)
Definition blank_forecast : forecast_data :=
  {| fc_current := None; fc_hourly := None; fc_daily := None |}.

Definition forecast_of (hourly : list hour_sample) (daily : list day_sample)
  : forecast_data :=
  {| fc_current := None; fc_hourly := Some hourly; fc_daily := Some daily |}.

Definition day_of (lo hi : Z) : day_sample :=
  {| d_temp := Some {| day_min := Some (PInt lo); day_max := Some (PInt hi) |} |}.

(** Clear, Rain, Rain, Clear: both categories occur twice. *)
Definition tie_hours : list hour_sample :=
  [ hour_at 0 None "Clear"; hour_at 3600 None "Rain";
    hour_at 7200 None "Rain"; hour_at 10800 None "Clear" ].

(** One sample at 01:00 UTC with a zero probability. *)
Definition dry_hours : list hour_sample :=
  [ hour_at 3600 (Some (PInt 0)) "Clear" ].

Definition wet_hours : list hour_sample :=
  [ hour_at 3600 (Some (PFloat (Float64.of_Q (2 # 10)))) "Clouds";
    hour_at 7200 (Some (PFloat (Float64.of_Q (8 # 10)))) "Rain";
    hour_at 10800 (Some (PFloat (Float64.of_Q (8 # 10)))) "Rain" ].

End Samples.

(** Observations on the refresh cycle. *)
Module Observe.
Import Orm Updater.

(** The snapshot rows of a location. *)
Definition rows_of (city country : string) (d : database)
  : list Weather_current :=
  filter (keyed city country) (weather_rows d).




(** What [fetch_weather_data] gets for a city. *)
Definition reply_for (cfg : settings) (w : world) (city : City)
  : http_result :=
  http_get w (or_default (city_name city) (DEFAULT_WEATHER_CITY cfg)
              ++ "," ++
              or_default (city_country city) (DEFAULT_WEATHER_COUNTRY cfg)).


(** Primary keys are unique and every binding has its character. *)
Definition db_ok (d : database) : Prop :=
  NoDup (map city_id (cities d))
  /\ NoDup (map cc_id (city_characters d))
  /\ NoDup (map wc_id (weather_rows d))
  /\ forall cc, In cc (city_characters d) ->
       exists c, In c (characters d) /\ char_id c = cc_character cc.

Definition has_active_binding (city : City) (d : database) : Prop :=
  exists cc, In cc (city_characters d)
             /\ cc_city cc = city_id city /\ cc_is_active cc = true.

(** What [update_or_create] does to the snapshot table with the
    prepared values [f]: one row appended for a new location, or the
    only row of a known one rewritten. *)
Definition rows_step (w : world) (city country : string)
    (f : snapshot_fields) (rows rows' : list Weather_current) : Prop :=
  (filter (keyed city country) rows = []
   /\ rows' = (rows ++ [create_row w (fresh_id wc_id rows) city country f])%list)
  \/ (exists r,
        filter (keyed city country) rows = [r]
        /\ rows' = map (fun x => if Nat.eqb (wc_id x) (wc_id r)
                                 then update_row w f x else x) rows).

Definition blank_state : state :=
  {| st_db := {| characters := []; cities := []; city_characters := [];
                 weather_rows := [] |};
     st_log := [] |}.

(** The text [generate_weather_letter] returns for a payload and a
    character, and what it logs: both depend on the replies of the
    world, not on the tables or the log. *)
Definition letter_for `{PyEnv} (w : world) (wd : weather_data)
    (c : Character) : result string :=
  snd (generate_weather_letter w wd (Some c) blank_state).

Definition letter_log `{PyEnv} (w : world) (wd : weather_data)
    (c : Character) : list log_record :=
  st_log (fst (generate_weather_letter w wd (Some c) blank_state)).

(** The letter generated from [wd] for the character of a binding. *)
Definition letter_of `{PyEnv} (w : world) (wd : weather_data)
    (chars : list Character) (cc : CityCharacter) (letter : string) : Prop :=
  exists c,
    find (fun c => Nat.eqb (char_id c) (cc_character cc)) chars = Some c
    /\ letter_for w wd c = Ok letter.

(** A binding after the letters of the bindings [actives] were
    generated from [wd] and saved. *)
Definition relettered `{PyEnv} (w : world) (wd : weather_data)
    (chars : list Character) (actives : list CityCharacter)
    (x0 x : CityCharacter) : Prop :=
  (In (cc_id x0) (map cc_id actives) ->
   exists cc letter,
     In cc actives /\ cc_id cc = cc_id x0
     /\ letter_of w wd chars cc letter /\ x = set_letter w letter x0)
  /\ (~ In (cc_id x0) (map cc_id actives) -> x = x0).

(** The tables after a committed update of [city] from the payload
    [wd], whose prepared values are [f]. *)
Definition stored `{PyEnv} (w : world) (city : City) (wd : weather_data)
    (f : snapshot_fields) (d d' : database) : Prop :=
  characters d' = characters d
  /\ cities d' = cities d
  /\ rows_step w (city_name city) (city_country city) f
       (weather_rows d) (weather_rows d')
  /\ exists g,
       city_characters d' = map g (city_characters d)
       /\ forall x0,
            relettered w wd (characters d) (active_characters_of city d)
              x0 (g x0).



Definition log_grows (s s' : state) : Prop :=
  exists extra, st_log s' = (st_log s ++ extra)%list.

(** The tables only grow, snapshots and log are untouched: what the
    set-up of default data may do. *)
Definition extends (s s' : state) : Prop :=
  st_log s' = st_log s
  /\ weather_rows (st_db s') = weather_rows (st_db s)
  /\ (exists xs, characters (st_db s') = (characters (st_db s) ++ xs)%list)
  /\ (exists ys, cities (st_db s') = (cities (st_db s) ++ ys)%list)
  /\ (exists zs, city_characters (st_db s')
                 = (city_characters (st_db s) ++ zs)%list
                 /\ forall z, In z zs -> cc_weather_letter z = None).


(** No location gains a second row, and a tracked one keeps its count. *)
Definition counts_kept (d d' : database) : Prop :=
  forall name country,
    (1 <= List.length (rows_of name country d) ->
     List.length (rows_of name country d')
     = List.length (rows_of name country d))
    /\ (List.length (rows_of name country d) <= 1 ->
        List.length (rows_of name country d') <= 1).

(** What every visit of the loop keeps. *)
Definition visit_keeps (s s' : state) : Prop :=
  log_grows s s'
  /\ cities (st_db s') = cities (st_db s)
  /\ characters (st_db s') = characters (st_db s)
  /\ counts_kept (st_db s) (st_db s')
  /\ (db_ok (st_db s) -> db_ok (st_db s')).


(** What the loop over the bindings [actives] logs. *)
Definition letters_log `{PyEnv} (w : world) (wd : weather_data)
    (chars : list Character) (actives : list CityCharacter)
  : list log_record :=
  flat_map (fun cc =>
              match find (fun c => Nat.eqb (char_id c) (cc_character cc))
                         chars with
              | Some c => letter_log w wd c
              | None => []
              end)
           actives.



(** The location of the city has no snapshot row. *)
Definition is_new (city : City) (d : database) : bool :=
  match rows_of (city_name city) (city_country city) d with
  | [] => true
  | _ :: _ => false
  end.

End Observe.

Module Scenario.
Import Samples.

Definition hot_rainy_summary : dict string :=
  [ ("weather_type", "Rain: light rain");
    ("weather_main_type", "Rain");
    ("temp_min", "18"); ("temp_max", "35"); ("max_precip", "80") ].

(** A summary whose minimum is the marker of a missing reading. *)
Definition unreadable_summary : dict string :=
  [ ("weather_main_type", "Rain");
    ("temp_min", "Unknown"); ("temp_max", "35"); ("max_precip", "80") ].

Definition rainy_weather : weather_data :=
  {| wd_name := Some "Paris";
     wd_sys := Some {| sys_country := Some "FR"; sys_sunrise := None;
                       sys_sunset := None |};
     wd_main := Some full_main;
     wd_weather := Some [entry "Rain" "light rain"];
     wd_wind := Some {| wind_speed_of := Some (PInt 4);
                        wind_deg_of := Some (PInt 250) |};
     wd_clouds := Some {| clouds_all := Some (PInt 90) |};
     wd_visibility := Some (PInt 8000);
     wd_dt := Some 1762165920%Z |}.

(** A text generator that always fails with the given message. *)
Definition silent_generator (msg : string) : world :=
  {| http_get := fun _ => HttpFailed "unreachable";
     openai_available := true;
     chat_completion := fun _ _ => ChatRaised msg;
     post_completion := fun _ _ => PostRaised msg;
     store_error := fun _ => None;
     now := 1762165920%Z |}.

(** A text generator reached over HTTP that answers 200 with the
    body [{}]. *)
Definition bare_reply : world :=
  {| http_get := fun _ => HttpFailed "unreachable";
     openai_available := false;
     chat_completion := fun _ _ => ChatRaised "unused";
     post_completion :=
       fun _ _ => PostResponse 200 "{}" (Ok {| body_choices := None |});
     store_error := fun _ => None;
     now := 1762165920%Z |}.

(** Paris answers, every other location is not found. *)
Definition paris_only : world :=
  {| http_get := fun q => if String.eqb q "Paris,FR"
                          then HttpJson (Some rainy_weather)
                          else HttpFailed "404 Client Error: Not Found";
     openai_available := true;
     chat_completion := fun _ _ => ChatContent "**Dear** traveller, it rains.";
     post_completion := fun _ _ => PostRaised "unused";
     store_error := fun _ => None;
     now := 1762165920%Z |}.



Definition two_cities : settings :=
  {| DEFAULT_CITIES := [("Atlantis", "XX"); ("Paris", "FR")];
     DEFAULT_WEATHER_CITY := "Paris";
     DEFAULT_WEATHER_COUNTRY := "FR" |}.

Definition empty_db : database :=
  {| characters := []; cities := []; city_characters := [];
     weather_rows := [] |}.

Definition start_state (d : database) : state :=
  {| st_db := d; st_log := [] |}.

Definition atlantis : City :=
  {| city_id := 1; city_name := "Atlantis"; city_country := "XX" |}.

Definition paris : City :=
  {| city_id := 2; city_name := "Paris"; city_country := "FR" |}.

Definition eludecia : Character :=
  {| char_id := 1; char_name := Updater.default_character_name;
     char_description := Updater.default_character_description;
     char_avatar_color := "#800080" |}.

Definition binding (id city : nat) (letter : option string) : CityCharacter :=
  {| cc_id := id; cc_city := city; cc_character := 1;
     cc_weather_letter := letter; cc_last_updated := 0%Z;
     cc_is_active := true |}.

(** Both cities tracked, with an earlier letter from Atlantis. *)
Definition tracked_db : database :=
  {| characters := [eludecia];
     cities := [atlantis; paris];
     city_characters := [ binding 1 1 (Some "An old letter from Atlantis.");
                          binding 2 2 None ];
     weather_rows :=
       [ Orm.create_row (silent_generator "") 1 "Atlantis" "XX"
           {| Orm.sf_temperature := Some (PFloat (Float64.of_Z 12));
              Orm.sf_feels_like := None; Orm.sf_humidity := None;
              Orm.sf_pressure := None; Orm.sf_wind_speed := None;
              Orm.sf_wind_direction := None;
              Orm.sf_description := Some "mist"; Orm.sf_icon := None;
              Orm.sf_clouds := None |} ] |}.

End Scenario.

(* ================================================================= *)
(** ** Observations on sanitized text *)

Module Shape.
Import PyStr.

(** The character [c] occurs in [s]. *)
Fixpoint occurs (c : ascii) (s : string) : bool :=
  match s with
  | "" => false
  | String x r => Ascii.eqb x c || occurs c r
  end.

(** Every character of [s] is white space. *)
Fixpoint blank (s : string) : bool :=
  match s with
  | "" => true
  | String c r => is_space c && blank r
  end.

(** No line feed of [s] is followed by white space; with [after_nl],
    [s] does not begin with white space either. *)
Fixpoint tidy_go (after_nl : bool) (s : string) : bool :=
  match s with
  | "" => true
  | String c r =>
      negb (after_nl && is_space c) && tidy_go (Ascii.eqb c "010") r
  end.

Definition tidy (s : string) : bool := tidy_go true s.

(** No two spaces in a row. *)
Fixpoint single_spaced_go (after_space : bool) (s : string) : bool :=
  match s with
  | "" => true
  | String c r =>
      negb (after_space && Ascii.eqb c " ")
      && single_spaced_go (Ascii.eqb c " ") r
  end.

Definition single_spaced (s : string) : bool := single_spaced_go false s.

(** The string of the bytes [codes]. *)
Definition bytes (codes : list nat) : string :=
  fold_right (fun n s => String (ascii_of_nat n) s) "" codes.

(** The UTF-8 encodings of the white-space characters beyond ASCII:
    U+0085, U+00A0, U+1680, U+2000 to U+200A, U+2028, U+2029, U+202F,
    U+205F and U+3000. *)
Definition wide_spaces : list string :=
  map bytes
      [ [194; 133]; [194; 160]; [225; 154; 128];
        [226; 128; 128]; [226; 128; 129]; [226; 128; 130]; [226; 128; 131];
        [226; 128; 132]; [226; 128; 133]; [226; 128; 134]; [226; 128; 135];
        [226; 128; 136]; [226; 128; 137]; [226; 128; 138];
        [226; 128; 168]; [226; 128; 169]; [226; 128; 175];
        [226; 129; 159]; [227; 128; 128] ].

(** The white space of [s] is ASCII: none of the characters that
    [str.isspace] accepts beyond ASCII occurs, so that on [s] and on
    what is cut out of it [is_space] is the test of Python. *)
Definition plain_spaces (s : string) : bool :=
  negb (existsb (fun wide => contains wide s) wide_spaces).

End Shape.

(* ================================================================= *)
(** ** Observations on the forecast summary *)

Module Summary.
Import PyStr Aggregator.

(** The keys [process_forecast_data] writes whatever the payload. *)
Definition summary_keys : list string :=
  [ "weather_type"; "weather_temperature"; "weather_temperature_range";
    "weather_humidity"; "weather_pressure"; "weather_wind";
    "weather_visibility"; "weather_uvi"; "weather_clouds";
    "weather_daylight"; "temp_min"; "temp_max"; "max_precip";
    "max_precip_time"; "weather_main_type" ].

Definition slot_suffixes : list string := ["_temp"; "_precip"; "_weather"].

Section WithEnv.
Context `{PyEnv}.

(** Local hour of a sample. *)
Definition hour_of (hour : hour_sample) : Z :=
  local_hour (get_or (h_dt hour) 0%Z).

(** What a slot shows for a sample whose percentage is formatted as
    [precip] and whose category is [category]. *)
Definition slot_value (hour : hour_sample) (precip category suffix : string)
  : string :=
  if String.eqb suffix "_temp"
  then str_val (num_or (h_temp hour) "Unknown") ++ "°C"
  else if String.eqb suffix "_precip"
  then precip ++ "%"
  else category.

End WithEnv.
End Summary.

(** Sample payloads. *)
Module Cases.
Import Samples.

(** A sample whose ['weather'] array is empty. *)
Definition unlabelled_hour (t : Z) : hour_sample :=
  {| h_dt := Some t; h_temp := Some (PInt 20); h_pop := None;
     h_weather := Some [] |}.

(** Two days at 06:00 UTC: 11 degrees and clear on the first, 14
    degrees and rain at 30 percent on the second. *)
Definition two_mornings : list hour_sample :=
  [ {| h_dt := Some 21600%Z; h_temp := Some (PInt 11); h_pop := None;
       h_weather := Some [entry "Clear" "clear sky"] |};
    {| h_dt := Some 108000%Z; h_temp := Some (PInt 14);
       h_pop := Some (PFloat (Float64.of_Q (3 # 10)));
       h_weather := Some [entry "Rain" "light rain"] |} ].

(** Twenty-four hourly samples from 00:30 UTC, then one more. *)
Definition day_of_hours (last : hour_sample) : list hour_sample :=
  (map (fun k => hour_at (1800 + 3600 * Z.of_nat k) None "Clear") (seq 0 24)
   ++ [last])%list.

End Cases.

(* ================================================================= *)
(** ** Observations on the suggestion selector *)

Module Advice.
Import PyStr Suggestions.

(** The three candidates of the weather bucket, by language family. *)
Definition bucket (language weather_type : string) : list string :=
  if startswith "zh" language then zh_pool weather_type
  else en_pool weather_type.

(** The warnings on temperature and precipitation that apply. *)
Definition warnings (language : string) (temp_min temp_max max_precip : Q)
  : list string :=
  if startswith "zh" language then zh_extras temp_min temp_max max_precip
  else en_extras temp_min temp_max max_precip.

(** The category the selector reads, lower-cased. *)
Definition category_of (weather_info : dict string) : string :=
  lower (get_or (dict_get "weather_main_type" weather_info) "").

End Advice.

(* ================================================================= *)
(** ** Observations on the tables across a refresh *)

Module Kept.
Import Sanitizer Orm Updater Observe.

(** A letter the scheduler writes: sanitized text of the generator, or
    the notice of a failure. *)
Definition written_letter (letter : string) : Prop :=
  (exists content, letter = clean_text content)
  \/ (exists detail, letter = unavailable detail).

(** Every letter of [d'] is the letter the same binding had in [d], or
    one the scheduler wrote. *)
Definition letters_from (d d' : database) : Prop :=
  forall cc letter,
    In cc (city_characters d') -> cc_weather_letter cc = Some letter ->
    (exists old, In old (city_characters d)
                 /\ cc_id old = cc_id cc
                 /\ cc_weather_letter old = Some letter)
    \/ written_letter letter.

(** What a refresh leaves of a snapshot row: its key, its location,
    its creation time and the legacy letter columns. *)
Definition row_kept (r r' : Weather_current) : Prop :=
  wc_id r' = wc_id r
  /\ wc_city r' = wc_city r
  /\ wc_country r' = wc_country r
  /\ wc_timestamp r' = wc_timestamp r
  /\ wc_character_name r' = wc_character_name r
  /\ wc_character_letter r' = wc_character_letter r.

(** What a refresh leaves of a binding: its key, its two ends and
    whether it is active. *)
Definition binding_kept (c c' : CityCharacter) : Prop :=
  cc_id c' = cc_id c
  /\ cc_city c' = cc_city c
  /\ cc_character c' = cc_character c
  /\ cc_is_active c' = cc_is_active c.

(** No row of [d] is deleted or re-keyed in [d']; rows may be added at
    the end of each table. *)
Definition tables_kept (d d' : database) : Prop :=
  (exists added, characters d' = (characters d ++ added)%list)
  /\ (exists added, cities d' = (cities d ++ added)%list)
  /\ (exists g added,
        city_characters d' = (map g (city_characters d) ++ added)%list
        /\ forall c, binding_kept c (g c))
  /\ (exists g added,
        weather_rows d' = (map g (weather_rows d) ++ added)%list
        /\ forall r, row_kept r (g r)).

(** The default character exists once, every default city exists once
    and every city is bound once to the default character. *)
Definition defaults_in_place (cfg : settings) (d : database) : Prop :=
  exists default_char,
    filter (named default_character_name) (characters d) = [default_char]
    /\ (forall city_data, In city_data (DEFAULT_CITIES cfg) ->
          exists city,
            filter (located (fst city_data) (snd city_data)) (cities d)
            = [city])
    /\ (forall city, In city (cities d) ->
          exists binding,
            filter (links (city_id city) (char_id default_char))
                   (city_characters d)
            = [binding]).

End Kept.

Module Cases2.
Import Scenario.

(** Two snapshot rows for Paris. *)
Definition doubled_db : database :=
  {| characters := [eludecia];
     cities := [paris];
     city_characters := [binding 1 2 None];
     weather_rows :=
       [ Orm.create_row (silent_generator "") 1 "Paris" "FR"
           {| Orm.sf_temperature := Some (PFloat (Float64.of_Z 12));
              Orm.sf_feels_like := None; Orm.sf_humidity := None;
              Orm.sf_pressure := None; Orm.sf_wind_speed := None;
              Orm.sf_wind_direction := None;
              Orm.sf_description := Some "mist"; Orm.sf_icon := None;
              Orm.sf_clouds := None |};
         Orm.create_row (silent_generator "") 2 "Paris" "FR"
           {| Orm.sf_temperature := Some (PFloat (Float64.of_Z 13));
              Orm.sf_feels_like := None; Orm.sf_humidity := None;
              Orm.sf_pressure := None; Orm.sf_wind_speed := None;
              Orm.sf_wind_direction := None;
              Orm.sf_description := Some "fog"; Orm.sf_icon := None;
              Orm.sf_clouds := None |} ] |}.

(** The default character entered twice. *)
Definition two_eludecias : database :=
  {| characters :=
       [ eludecia;
         {| char_id := 2; char_name := Updater.default_character_name;
            char_description := "A second entry."; char_avatar_color := "#000000" |} ];
     cities := [paris];
     city_characters := [];
     weather_rows := [] |}.

End Cases2.

(** Relations between the states of the set-up of default data. *)
Module Setup.
Import Orm Updater.

(** Each location that had one city row still has that one. *)
Definition cities_settled (s s' : state) : Prop :=
  characters (st_db s') = characters (st_db s)
  /\ city_characters (st_db s') = city_characters (st_db s)
  /\ forall name country city,
       filter (located name country) (cities (st_db s)) = [city] ->
       filter (located name country) (cities (st_db s')) = [city].

(** Each pair that had one binding still has that one. *)
Definition bindings_settled (s s' : state) : Prop :=
  characters (st_db s') = characters (st_db s)
  /\ cities (st_db s') = cities (st_db s)
  /\ forall city character binding,
       filter (links city character) (city_characters (st_db s)) = [binding] ->
       filter (links city character) (city_characters (st_db s')) = [binding].

End Setup.

(* ================================================================= *)
(** ** The clean-up command: [Command.handle]
       (weather/management/commands/cleanup_db.py) *)

(** [Comment] of weather/models.py. *)
Record Comment : Type := {
  cm_id : nat;
  cm_city_character : nat;
  cm_name : string;
  cm_content : string;
  cm_created_at : Z
}.

(** The tables of the site: those the scheduler works on, and the
    comments. *)
Record site : Type := {
  site_db : database;
  site_comments : list Comment
}.

Module Cleanup.
Import PyStr.

(** How a line written to [self.stdout] is shown: as it is, or through
    [self.style.SUCCESS]. *)
Inductive style : Type := PLAIN | SUCCESS.

Definition line : Type := (style * string)%type.

(** [field__icontains=needle] on a text column; a NULL matches
    nothing. *)
Definition icontains (needle field : string) : bool :=
  contains (lower needle) (lower field).

Definition icontains_null (needle : string) (field : option string) : bool :=
  match field with
  | Some text => icontains needle text
  | None => false
  end.

(** [Q(name__icontains="Captain") | Q(description__icontains="Captain")]. *)
Definition is_captain (c : Character) : bool :=
  icontains "Captain" (char_name c) || icontains "Captain" (char_description c).

(** [character__in=captain_characters]. *)
Definition reports_for (captains : list Character) (cc : CityCharacter)
  : bool :=
  existsb (fun c => Nat.eqb (char_id c) (cc_character cc)) captains.

(** [city_character__in=city_characters]. *)
Definition comments_on (bindings : list CityCharacter) (cm : Comment) : bool :=
  existsb (fun cc => Nat.eqb (cc_id cc) (cm_city_character cm)) bindings.

(** [Q(character_name__icontains="Captain")
     | Q(character_letter__icontains="Captain")]. *)
Definition mentions_captain (r : Weather_current) : bool :=
  icontains_null "Captain" (wc_character_name r)
  || icontains_null "Captain" (wc_character_letter r).

(** [filter(character_letter__icontains="Captain")
     .exclude(character_letter__isnull=True)]. *)
Definition letter_mentions_captain (r : Weather_current) : bool :=
  icontains_null "Captain" (wc_character_letter r)
  && negb (match wc_character_letter r with None => true | Some _ => false end).

Definition with_letter_columns (r : Weather_current)
    (name letter : option string) : Weather_current :=
  {| wc_id := wc_id r; wc_city := wc_city r; wc_country := wc_country r;
     wc_temperature := wc_temperature r; wc_feels_like := wc_feels_like r;
     wc_humidity := wc_humidity r; wc_pressure := wc_pressure r;
     wc_wind_speed := wc_wind_speed r;
     wc_wind_direction := wc_wind_direction r;
     wc_description := wc_description r; wc_icon := wc_icon r;
     wc_clouds := wc_clouds r; wc_timestamp := wc_timestamp r;
     wc_last_updated := wc_last_updated r;
     wc_character_name := name; wc_character_letter := letter |}.

(** [queryset.update(...)]: an UPDATE of the matching rows; [save] is
    not called, so [last_updated] stays. *)
Definition update_rows (matches : Weather_current -> bool)
    (change : Weather_current -> Weather_current) (s : site) : site :=
  {| site_db :=
       {| characters := characters (site_db s);
          cities := cities (site_db s);
          city_characters := city_characters (site_db s);
          weather_rows :=
            map (fun r => if matches r then change r else r)
                (weather_rows (site_db s)) |};
     site_comments := site_comments s |}.

(** [Comment] queryset [.delete()]. *)
Definition delete_comments (matches : Comment -> bool) (s : site) : site :=
  {| site_db := site_db s;
     site_comments := filter (fun cm => negb (matches cm)) (site_comments s) |}.

(** [CityCharacter] queryset [.delete()]: the comments on the deleted
    bindings go with them ([on_delete=CASCADE]). *)
Definition delete_city_characters (matches : CityCharacter -> bool) (s : site)
  : site :=
  let gone := filter matches (city_characters (site_db s)) in
  {| site_db :=
       {| characters := characters (site_db s);
          cities := cities (site_db s);
          city_characters :=
            filter (fun cc => negb (matches cc)) (city_characters (site_db s));
          weather_rows := weather_rows (site_db s) |};
     site_comments :=
       filter (fun cm => negb (comments_on gone cm)) (site_comments s) |}.

(** [Character] queryset [.delete()]: the bindings of the deleted
    characters go with them, and the comments on these. *)
Definition delete_characters (matches : Character -> bool) (s : site) : site :=
  let gone := filter matches (characters (site_db s)) in
  let s := delete_city_characters (reports_for gone) s in
  {| site_db :=
       {| characters :=
            filter (fun c => negb (matches c)) (characters (site_db s));
          cities := cities (site_db s);
          city_characters := city_characters (site_db s);
          weather_rows := weather_rows (site_db s) |};
     site_comments := site_comments s |}.

(** The first block (l. 16-47): the characters, their bindings and the
    comments on these.  The querysets are lazy, but each is run before
    a table it reads has changed. *)
Definition remove_captains (s : site) : site * list line :=
  let captain_characters := filter is_captain (characters (site_db s)) in
  match captain_characters with
  | _ :: _ =>
      let character_count := List.length captain_characters in
      let character_names := map char_name captain_characters in
      let city_characters :=
        filter (reports_for captain_characters)
               (city_characters (site_db s)) in
      let city_character_count := List.length city_characters in
      let comments :=
        filter (comments_on city_characters) (site_comments s) in
      let comment_count := List.length comments in
      let s := delete_comments (comments_on city_characters) s in
      let s :=
        delete_city_characters
          (reports_for (filter is_captain (characters (site_db s)))) s in
      let s := delete_characters is_captain s in
      (s,
       [ (PLAIN, "Deleting " ++ str_of_nat comment_count
                 ++ " comments related to Captain characters...");
         (PLAIN, "Deleting " ++ str_of_nat city_character_count
                 ++ " city-character relationships related to Captain characters...");
         (PLAIN, "Deleting " ++ str_of_nat character_count
                 ++ " Captain characters: " ++ join ", " character_names
                 ++ "...");
         (SUCCESS, "Successfully removed all Captain characters and related data from the database") ])
  | [] => (s, [(PLAIN, "No Captain characters found in the database")])
  end.

(** The second block (l. 49-62): the legacy columns of the snapshot
    rows. *)
Definition clean_weather_records (s : site) : site * list line :=
  let weather_updates :=
    filter mentions_captain (weather_rows (site_db s)) in
  let weather_count := List.length weather_updates in
  if Nat.ltb 0 weather_count then
    (update_rows mentions_captain
       (fun r => with_letter_columns r None None) s,
     [ (PLAIN, "Cleaning " ++ str_of_nat weather_count
               ++ " weather records with Captain references...");
       (SUCCESS, "Successfully cleaned " ++ str_of_nat weather_count
                 ++ " weather records") ])
  else (s, [(PLAIN, "No weather records with Captain references found")]).

(** The third block (l. 64-72): letters that still mention Captain. *)
Definition clear_remaining_letters (s : site) : site * list line :=
  let weather_with_captain_letters :=
    filter letter_mentions_captain (weather_rows (site_db s)) in
  match weather_with_captain_letters with
  | _ :: _ =>
      (update_rows letter_mentions_captain
         (fun r => with_letter_columns r (wc_character_name r) None) s,
       [ (PLAIN, "Found "
                 ++ str_of_nat (List.length weather_with_captain_letters)
                 ++ " weather letters mentioning 'Captain'");
         (SUCCESS, "Successfully cleared those weather letters") ])
  | [] => (s, [])
  end.

(** [Command.handle] (l. 11-79).  No query of this model fails, so the
    handler of l. 76-79, which reports the exception in the ERROR
    style, logs it and re-raises it, has no run. *)
Definition handle (s : site) : site * list line :=
  let '(s1, out1) := remove_captains s in
  let '(s2, out2) := clean_weather_records s1 in
  let '(s3, out3) := clear_remaining_letters s2 in
  (s3,
   ((PLAIN, "Starting database cleanup...") :: out1 ++ out2 ++ out3
    ++ [(SUCCESS, "Database cleanup completed successfully")])%list).

End Cleanup.

(** Observations on the clean-up. *)
Module Cleaned.
Import Cleanup.

(** Every binding has its character and every comment its binding. *)
Definition references_ok (s : site) : Prop :=
  (forall cc, In cc (city_characters (site_db s)) ->
     exists c, In c (characters (site_db s)) /\ char_id c = cc_character cc)
  /\ (forall cm, In cm (site_comments s) ->
        exists cc, In cc (city_characters (site_db s))
                   /\ cc_id cc = cm_city_character cm).

(** A site with Captain Storm, a binding, a comment and a legacy
    letter. *)
Definition harbour : site :=
  {| site_db :=
       {| characters :=
            [ Scenario.eludecia;
              {| char_id := 2; char_name := "Captain Storm";
                 char_description := "An old sailor.";
                 char_avatar_color := "#004080" |} ];
          cities := [Scenario.paris];
          city_characters :=
            [ Scenario.binding 1 2 (Some "The captain is away.");
              {| cc_id := 2; cc_city := 2; cc_character := 2;
                 cc_weather_letter := Some "Ahoy!"; cc_last_updated := 0%Z;
                 cc_is_active := true |} ];
          weather_rows :=
            [ Orm.update_row (Scenario.silent_generator "")
                {| Orm.sf_temperature := Some (PFloat (Float64.of_Z 12));
                   Orm.sf_feels_like := None; Orm.sf_humidity := None;
                   Orm.sf_pressure := None; Orm.sf_wind_speed := None;
                   Orm.sf_wind_direction := None;
                   Orm.sf_description := Some "mist"; Orm.sf_icon := None;
                   Orm.sf_clouds := None |}
                (with_letter_columns
                   (Orm.create_row (Scenario.silent_generator "") 1 "Paris"
                      "FR"
                      {| Orm.sf_temperature := None;
                         Orm.sf_feels_like := None; Orm.sf_humidity := None;
                         Orm.sf_pressure := None; Orm.sf_wind_speed := None;
                         Orm.sf_wind_direction := None;
                         Orm.sf_description := None; Orm.sf_icon := None;
                         Orm.sf_clouds := None |})
                   (Some "captain storm") (Some "Ahoy from the CAPTAIN")) ] |};
     site_comments :=
       [ {| cm_id := 1; cm_city_character := 2; cm_name := "Ann";
            cm_content := "Aye aye"; cm_created_at := 5%Z |};
         {| cm_id := 2; cm_city_character := 1; cm_name := "Bob";
            cm_content := "Thanks, Captain"; cm_created_at := 6%Z |} ] |}.

End Cleaned.

(* ================================================================= *)
(** ** The command-line pipeline of main.py *)

(** [configuration.json], as far as the pipeline reads it.  A field is
    [None] when its key is absent. *)
Record weather_config : Type := {
  apiKey : option string;
  weatherEndpoint : option string;
  geoEndpoint : option string;
  oneCallEndpoint : option string
}.

Record email_config : Type := {
  senderEmail : option string;
  senderName : option string;
  toEmails : option (list string);
  secretId : option string;
  secretKey : option string;
  region : option string
}.

Record deepseek_config : Type := {
  deepseek_apiKey : option string;
  deepseek_endpoint : option string
}.

Record api_config : Type := {
  api_weather : option weather_config;
  api_email : option email_config;
  api_deepseek : option deepseek_config
}.

Record location : Type := {
  loc_city : option string;
  loc_country : option string
}.

Record service_preference : Type := {
  pref_language : option string;
  pref_timezone : option string
}.

Record preferences : Type := {
  defaultLocation : option location;
  servicePreference : option service_preference
}.

Record recipient : Type := {
  rcp_email : option string;
  rcp_location : option location;
  rcp_characterPrompt : option string;
  rcp_language : option string;
  rcp_timezone : option string
}.

Record config : Type := {
  cfg_api : option api_config;
  cfg_preferences : option preferences;
  cfg_recipients : option (list recipient)
}.

Definition no_api : api_config :=
  {| api_weather := None; api_email := None; api_deepseek := None |}.

Definition no_email : email_config :=
  {| senderEmail := None; senderName := None; toEmails := None;
     secretId := None; secretKey := None; region := None |}.

Definition no_deepseek : deepseek_config :=
  {| deepseek_apiKey := None; deepseek_endpoint := None |}.

Definition no_location : location :=
  {| loc_city := None; loc_country := None |}.

Definition no_service_preference : service_preference :=
  {| pref_language := None; pref_timezone := None |}.

Definition no_preferences : preferences :=
  {| defaultLocation := None; servicePreference := None |}.

(** An entry of the geocoding reply. *)
Record geo_entry : Type := {
  geo_lat : option pynum;
  geo_lon : option pynum
}.

(** What [construct_email] returns (['html_body'] is always [None]). *)
Record mail_content : Type := {
  mc_sender_email : string;
  mc_sender_name : string;
  mc_to_emails : list string;
  mc_subject : string;
  mc_body : string;
  mc_weather_info : dict string;
  mc_suggestion : string;
  mc_eludecia_response : string;
  mc_character_prompt : option string;
  mc_activity_suggestions : dict string
}.

(** A value of the template data. *)
Inductive json_value : Type :=
| JStr (text : string)
| JInt (z : Z)
| JNull.

(** The request handed to [client.SendEmail], with the credentials and
    the region the client was built from. *)
Record email_request : Type := {
  Destination : list string;
  Subject : string;
  FromEmailAddress : string;
  TemplateID : Z;
  TemplateData : dict json_value;
  client_secret_id : string;
  client_secret_key : string;
  client_region : string
}.

Module Cli.
Import PyStr.

(** The exceptions of the pipeline. *)
Inductive cli_exn : Type :=
| ConfigError (msg : string)
| RequestError (msg : string)
| DataError (e : exn)
| FileError (msg : string)
| SesError (msg : string).

Inductive outcome (A : Type) : Type :=
| Done (a : A)
| Failed (e : cli_exn).

Arguments Done {A} a.
Arguments Failed {A} e.

(** What a collaborator answers: a value, or the text of the exception
    it raised. *)
Inductive reply (A : Type) : Type :=
| Answer (body : A)
| NoAnswer (msg : string).

Arguments Answer {A} body.
Arguments NoAnswer {A} msg.

(** The collaborators of a run.  [requests.get] is keyed by the URL,
    each endpoint answering with a body of its own shape; the text
    generator is keyed by what the prompt is built from (character
    prompt, summary, language, time zone); [random_draw] is the
    source of the random choices. *)
Record cli_world : Type := {
  geocoding : string -> reply (list geo_entry);
  weather_api : string -> reply (option weather_data);
  onecall_api : string -> reply (option forecast_data);
  suggestion_file : reply (dict (list string));
  deepseek : string -> dict string -> string -> string -> chat_outcome;
  ses : email_request -> reply string;
  random_draw : nat -> nat;
  clock : Z;
  clock_year : Z
}.

(** A [print] call: a line of text, or the call with the values whose
    [repr] it shows. *)
Inductive printed : Type :=
| Line (text : string)
| RawWeatherData (city country : string) (payload : option weather_data)
| RawForecastData (city country : string) (payload : option forecast_data)
| ProcessedWeather (weather_info : dict string)
| ProcessedForecast (forecast_info : dict string)
| TemplateDump (data : dict json_value)
| Skipping (who : recipient)
| ProcessingError (who : string) (e : cli_exn)
| SendFailed (e : cli_exn)
| DeepSeekFailed (msg : string).

(** What a run does to the outside. *)
Inductive event : Type :=
| Get (url : string)
| Print (p : printed)
| Chat (character_prompt : string) (language timezone : string)
| SendEmail (request : email_request).

Record run : Type := {
  trace : list event;
  drawn : nat
}.

Definition C (A : Type) : Type := run -> run * outcome A.

Definition done {A} (a : A) : C A := fun r => (r, Done a).

Definition fail {A} (e : cli_exn) : C A := fun r => (r, Failed e).

Definition bindC {A B} (m : C A) (k : A -> C B) : C B :=
  fun r =>
    match m r with
    | (r', Done a) => k a r'
    | (r', Failed e) => (r', Failed e)
    end.

Notation "x <-- m ;; k" := (bindC m (fun x => k))
  (at level 61, m at next level, right associativity).

Definition emit (e : event) : C unit :=
  fun r => ({| trace := (trace r ++ [e])%list; drawn := drawn r |}, Done tt).

Definition say (text : string) : C unit := emit (Print (Line text)).

(** A computation of the data handling. *)
Definition data {A} (m : result A) : C A :=
  match m with
  | Ok a => done a
  | Raise e => fail (DataError e)
  end.

(** [try: ... except Exception as e: ...]. *)
Definition catch {A} (m : C A) (handler : cli_exn -> C A) : C A :=
  fun r =>
    match m r with
    | (r', Done a) => (r', Done a)
    | (r', Failed e) => handler e r'
    end.

Fixpoint for_all {A} (l : list A) (body : A -> C unit) : C unit :=
  match l with
  | [] => done tt
  | x :: rest => _ <-- body x ;; for_all rest body
  end.

(** [random.choice(seq)]. *)
Definition choice {A} (w : cli_world) (seq : list A) : C A :=
  fun r =>
    match seq with
    | [] => (r, Failed (DataError IndexError))
    | x :: _ =>
        ({| trace := trace r; drawn := S (drawn r) |},
         Done (nth (random_draw w (drawn r) mod List.length seq) seq x))
    end.

(** One of the outcomes of a draw. *)
Definition pick {A} (w : cli_world) (default : A) (outcomes : list A) : C A :=
  fun r =>
    ({| trace := trace r; drawn := S (drawn r) |},
     Done (nth (random_draw w (drawn r) mod List.length outcomes) outcomes
               default)).

(** An optional text inside an f-string: [None] shows as ["None"]. *)
Definition shown (field : option string) : string := get_or field "None".

Definition falsy := Eludecia.falsy.

(** [key in d]. *)
Definition has_key {V} (key : string) (d : dict V) : bool :=
  match dict_get key d with
  | Some _ => true
  | None => false
  end.

(** The longest prefix of [s] whose characters satisfy [p]. *)
Fixpoint span (p : ascii -> bool) (s : string) : string :=
  match s with
  | "" => ""
  | String c r => if p c then String c (span p r) else ""
  end.

(** [s.split()[0]]: the first run of characters that are not white
    space. *)
Definition first_word (s : string) : result string :=
  match lstrip s with
  | "" => Raise IndexError
  | t => Ok (span (fun c => negb (is_space c)) t)
  end.

(** [s.split(':')[0].strip()]. *)
Definition before_colon (s : string) : string :=
  strip (hd "" (split_on ":" s)).

Section WithEnv.
Context `{PyEnv}.
Variable w : cli_world.

(** [requests.get(url)], [raise_for_status()], [.json()]. *)
Definition get_json {A} (endpoint : string -> reply A) (url : string) : C A :=
  _ <-- emit (Get url) ;;
  match endpoint url with
  | Answer body => done body
  | NoAnswer msg => fail (RequestError msg)
  end.

(** The part [obtain_weather_data] and [obtain_forecast_data] have
    alike (l. 16-50 and l. 64-98): configuration, location,
    geocoding.  It gives the endpoint read through [endpoint_of], the
    key, the place and its coordinates. *)
Definition locate (cfg : config)
    (endpoint_of : weather_config -> option string)
    (place : option location)
  : C (option string * option string * string * string * pynum * pynum) :=
  let weather_config := api_weather (get_or (cfg_api cfg) no_api) in
  match weather_config with
  | None =>
      fail (ConfigError "Weather configuration not found in configuration.json")
  | Some weather_config =>
      let api_key := apiKey weather_config in
      let endpoint := endpoint_of weather_config in
      let geo_endpoint := geoEndpoint weather_config in
      let place :=
        match place with
        | Some place => place
        | None =>
            get_or (defaultLocation (get_or (cfg_preferences cfg)
                                            no_preferences))
                   no_location
        end in
      let city := loc_city place in
      let country := loc_country place in
      if falsy city || falsy country then
        fail (ConfigError "Location information is missing or incomplete")
      else
        let city := shown city in
        let country := shown country in
        let geo_url :=
          shown geo_endpoint ++ "q=" ++ city ++ "," ++ country
          ++ "&limit=1&appid=" ++ shown api_key in
        geo_data <-- get_json (geocoding w) geo_url ;;
        match geo_data with
        | [] =>
            fail (ConfigError ("No location found for " ++ city ++ ", "
                               ++ country))
        | first :: _ =>
            lat <-- data (subscript "lat" (geo_lat first)) ;;
            lon <-- data (subscript "lon" (geo_lon first)) ;;
            done (endpoint, api_key, city, country, lat, lon)
        end
  end.

(** [obtain_weather_data] (l. 14-60). *)
Definition obtain_weather_data (cfg : config) (place : option location)
  : C (option weather_data) :=
  located <-- locate cfg weatherEndpoint place ;;
  let '(weather_endpoint, api_key, city, country, lat, lon) := located in
  let weather_url :=
    shown weather_endpoint ++ "lat=" ++ str_num lat ++ "&lon=" ++ str_num lon
    ++ "&appid=" ++ shown api_key ++ "&units=metric" in
  weather_data <-- get_json (weather_api w) weather_url ;;
  _ <-- emit (Print (RawWeatherData city country weather_data)) ;;
  done weather_data.

(** [obtain_forecast_data] (l. 62-110). *)
Definition obtain_forecast_data (cfg : config) (place : option location)
  : C (option forecast_data) :=
  located <-- locate cfg oneCallEndpoint place ;;
  let '(onecall_endpoint, api_key, city, country, lat, lon) := located in
  let onecall_url :=
    shown onecall_endpoint ++ "lat=" ++ str_num lat ++ "&lon=" ++ str_num lon
    ++ "&appid=" ++ shown api_key
    ++ "&units=metric&exclude=minutely,alerts" in
  forecast_data <-- get_json (onecall_api w) onecall_url ;;
  _ <-- emit (Print (RawForecastData city country forecast_data)) ;;
  done forecast_data.

(** The character prompt used when none is given (l. 446-447). *)
Definition default_character_prompt : string :=
  "You are the succubus paladin Eludecia. Respond in a seductive yet protective character style. Be flirty but maintain a hint of nobility from your paladin side.".

(** The call of [get_eludecia_response] (l. 421-488) with what it does
    to the outside; the text it returns is the one of
    [Eludecia.get_eludecia_response]. *)
Definition eludecia_response (cfg : config) (weather_info : dict string)
    (character_prompt language timezone : option string) : C string :=
  let deepseek_config :=
    get_or (api_deepseek (get_or (cfg_api cfg) no_api)) no_deepseek in
  let api_key := deepseek_apiKey deepseek_config in
  let base_url := deepseek_endpoint deepseek_config in
  let service :=
    get_or (servicePreference (get_or (cfg_preferences cfg) no_preferences))
           no_service_preference in
  let language :=
    match language with
    | Some language => language
    | None => get_or (pref_language service) "en"
    end in
  let timezone :=
    match timezone with
    | Some timezone => timezone
    | None => get_or (pref_timezone service) "UTC"
    end in
  let character_prompt := get_or character_prompt default_character_prompt in
  if falsy api_key || falsy base_url then
    done (Eludecia.get_eludecia_response api_key base_url weather_info
            (ChatRaised ""))
  else
    _ <-- emit (Chat character_prompt language timezone) ;;
    let reply := deepseek w character_prompt weather_info language timezone in
    _ <-- match reply with
          | ChatContent _ => done tt
          | ChatRaised msg => emit (Print (DeepSeekFailed msg))
          end ;;
    done (Eludecia.get_eludecia_response api_key base_url weather_info reply).

(** [if recipient:]: no recipient, or a recipient without any key. *)
Definition given (who : option recipient) : option recipient :=
  match who with
  | Some r =>
      match rcp_email r, rcp_location r, rcp_characterPrompt r,
            rcp_language r, rcp_timezone r with
      | None, None, None, None, None => None
      | _, _, _, _, _ => Some r
      end
  | None => None
  end.

(** The draw among the outcomes of [generate_activity_suggestions]:
    [random.sample] is called only for a pool of more than three, that
    is, when there is more than one outcome. *)
Definition draw_suggestions (outcomes : list (dict string)) : C (dict string) :=
  match outcomes with
  | [] => done []
  | [only] => done only
  | first :: _ => pick w first outcomes
  end.

(** [construct_email] (l. 490-575).  The file of suggestions is one of
    the collaborators. *)
Definition construct_email (cfg : config) (weather_info : dict string)
    (who : option recipient) : C mail_content :=
  suggestion_dict <--
    match suggestion_file w with
    | Answer d => done d
    | NoAnswer msg => fail (FileError msg)
    end ;;
  weather_type <--
    data (subscript "weather_type" (dict_get "weather_type" weather_info)) ;;
  let weather_type := before_colon weather_type in
  suggestion <--
    (if has_key weather_type suggestion_dict
     then choice w (get_or (dict_get weather_type suggestion_dict)
                           ["Have a great day!"])
     else done "Weather condition not recognized. Stay safe!") ;;
  let service :=
    get_or (servicePreference (get_or (cfg_preferences cfg) no_preferences))
           no_service_preference in
  let language := get_or (pref_language service) "en" in
  let timezone := get_or (pref_timezone service) "UTC" in
  let language :=
    match given who with
    | Some r => get_or (rcp_language r) language
    | None => language
    end in
  let timezone :=
    match given who with
    | Some r => get_or (rcp_timezone r) timezone
    | None => timezone
    end in
  let character_prompt :=
    match given who with
    | Some r => rcp_characterPrompt r
    | None => None
    end in
  suggestion <--
    (if (String.eqb language "zh" || String.eqb language "zh-cn")
        && has_key weather_type suggestion_dict
     then
       let chinese_key := "chinese_" ++ weather_type in
       if has_key chinese_key suggestion_dict
       then choice w (get_or (dict_get chinese_key suggestion_dict)
                             ["祝您有美好的一天！"])
       else done suggestion
     else done suggestion) ;;
  eludecia <--
    eludecia_response cfg weather_info character_prompt (Some language)
      (Some timezone) ;;
  outcomes <--
    data (Suggestions.generate_activity_suggestions weather_info language) ;;
  activity_suggestions <-- draw_suggestions outcomes ;;
  let email_body := nl ++ "    " ++ eludecia ++ nl ++ "    " in
  let email_config := get_or (api_email (get_or (cfg_api cfg) no_api)) no_email in
  match senderEmail email_config with
  | None => fail (ConfigError "Sender email not found in configuration.json")
  | Some sender_email =>
      match senderName email_config with
      | None =>
          fail (ConfigError "Sender name not found in configuration.json")
      | Some sender_name =>
          let to_emails :=
            match given who with
            | Some r =>
                match rcp_email r with
                | Some address => Some [address]
                | None => toEmails email_config
                end
            | None => toEmails email_config
            end in
          match to_emails with
          | None | Some [] => fail (ConfigError "Recipient email not found")
          | Some to_emails =>
              current_date <--
                data (match dict_get "current_time" weather_info with
                      | Some current_time => first_word current_time
                      | None => Ok ""
                      end) ;;
              let subject :=
                current_date ++ " | Weather for "
                ++ get_or (dict_get "location" weather_info) ""
                ++ " | " ++ suggestion in
              done {| mc_sender_email := sender_email;
                      mc_sender_name := sender_name;
                      mc_to_emails := to_emails;
                      mc_subject := subject;
                      mc_body := email_body;
                      mc_weather_info := weather_info;
                      mc_suggestion := suggestion;
                      mc_eludecia_response := eludecia;
                      mc_character_prompt := character_prompt;
                      mc_activity_suggestions := activity_suggestions |}
          end
      end
  end.

(** [[A-Za-z\s]], on the ASCII range. *)
Definition name_char (c : ascii) : bool :=
  let n := nat_of_ascii c in
  (Nat.leb 65 n && Nat.leb n 90) || (Nat.leb 97 n && Nat.leb n 122)
  || is_space c.

(** [p] is a prefix of [s], whatever the case of the letters. *)
Definition iprefix (p s : string) : bool := String.prefix (lower p) (lower s).

(** The match of [(?:the |a |an )?([A-Za-z\s]+)] at the start of
    [rest]: the group after the article when it is not empty,
    otherwise the group without an article. *)
Definition name_group (rest : string) : option string :=
  let after_article :=
    if iprefix "the " rest then span name_char (drop 4 rest)
    else if iprefix "a " rest then span name_char (drop 2 rest)
    else if iprefix "an " rest then span name_char (drop 3 rest)
    else "" in
  match after_article with
  | "" =>
      match span name_char rest with
      | "" => None
      | group => Some group
      end
  | group => Some group
  end.

(** [re.search(r"You are (?:the |a |an )?([A-Za-z\s]+)", s,
    re.IGNORECASE)]: the group of the leftmost match. *)
Fixpoint search_name (s : string) : option string :=
  match (if iprefix "You are " s then name_group (drop 8 s) else None) with
  | Some group => Some group
  | None =>
      match s with
      | "" => None
      | String _ r => search_name r
      end
  end.

(** The name shown in the template (l. 649-657). *)
Definition character_name_of (character_prompt : option string) : string :=
  if falsy character_prompt then "你的天气助手"
  else
    match search_name (get_or character_prompt "") with
    | Some group => strip group
    | None => "Weather Assistant"
    end.

(** The entries of the template for the nine time slots (l. 688-719). *)
Definition slot_entries (weather_info : dict string) : dict json_value :=
  flat_map
    (fun slot : string * Z =>
       map (fun suffix =>
              (fst slot ++ suffix,
               JStr (get_or (dict_get (fst slot ++ suffix) weather_info)
                            "Unknown")))
           ["_weather"; "_temp"; "_precip"])
    Aggregator.time_slots.

(** The template data (l. 630-749); it raises where
    [weather_info.get('current_time', '').split()[0]] does. *)
Definition template_data_of (sender_email : option string)
    (mail : mail_content) : result (dict json_value) :=
  let to_emails := mc_to_emails mail in
  let weather_info := mc_weather_info mail in
  let field (key default : string) :=
    JStr (get_or (dict_get key weather_info) default) in
  current_date <-
    match dict_get "current_time" weather_info with
    | Some current_time => first_word current_time
    | None => Ok ""
    end ;;
  let eludecia_response := mc_eludecia_response mail in
  let suggestion := mc_suggestion mail in
  let weather_type := get_or (dict_get "weather_type" weather_info) "" in
  let weather_type_simple :=
    if contains ":" weather_type then before_colon weather_type
    else weather_type in
  let is_clear_weather :=
    contains "晴" weather_type || contains "Clear" weather_type in
  let is_rainy_weather :=
    contains "雨" weather_type || contains "雷" weather_type
    || contains "Rain" weather_type || contains "Thunder" weather_type in
  let weather_road_condition :=
    if is_clear_weather then "良好" else "可能受影响，请谨慎驾驶" in
  let weather_transit_condition :=
    if is_rainy_weather then "可能有所延误" else "按时运行" in
  let weather_traffic_condition :=
    if is_clear_weather then "流畅" else "可能拥堵，请预留充足时间" in
  let character_name := character_name_of (mc_character_prompt mail) in
  let activity_suggestions := mc_activity_suggestions mail in
  let activity (key default : string) :=
    JStr (get_or (dict_get key activity_suggestions) default) in
  Ok ([ ("weather_location", field "location" "");
        ("current_date", JStr current_date);
        ("current_year", JInt (clock_year w));
        ("weather_type", field "weather_type" "");
        ("weather_temperature", field "weather_temperature" "");
        ("weather_temperature_range", field "weather_temperature_range" "");
        ("weather_humidity", field "weather_humidity" "");
        ("weather_pressure", field "weather_pressure" "");
        ("weather_wind", field "weather_wind" "");
        ("weather_visibility", field "weather_visibility" "");
        ("weather_uvi", field "weather_uvi" "Unknown");
        ("weather_clouds", field "weather_clouds" "Unknown");
        ("weather_daylight", field "weather_daylight" "") ]
      ++ slot_entries weather_info
      ++ [ ("weather_main_type", field "weather_main_type" "Unknown");
           ("temp_min", field "temp_min" "Unknown");
           ("temp_max", field "temp_max" "Unknown");
           ("max_precip", field "max_precip" "Unknown");
           ("max_precip_time", field "max_precip_time" "Unknown");
           ("activity_suggestion_1",
             activity "activity_suggestion_1"
               "<li>根据今日天气状况安排活动。</li>");
           ("activity_suggestion_2",
             activity "activity_suggestion_2" "<li>请关注实时天气变化。</li>");
           ("activity_suggestion_3",
             activity "activity_suggestion_3" "<li>做好相应的准备工作。</li>");
           ("weather_type_simple", JStr weather_type_simple);
           ("weather_road_condition", JStr weather_road_condition);
           ("weather_transit_condition", JStr weather_transit_condition);
           ("weather_traffic_condition", JStr weather_traffic_condition);
           ("weather_suggestion", JStr suggestion);
           ("eludecia_response", JStr eludecia_response);
           ("character_name", JStr character_name);
           ("recipient_email", JStr (hd "" to_emails));
           ("sender_email",
             match sender_email with
             | Some address => JStr address
             | None => JNull
             end);
           ("data_source", JStr "OpenWeatherMap API");
           ("weather_update_time",
             JStr (strftime "%Y-%m-%d %H:%M:%S" (clock w))) ])%list.

(** [send_email] (l. 577-768). *)
Definition send_email (cfg : config) (mail : mail_content) : C unit :=
  match api_email (get_or (cfg_api cfg) no_api) with
  | None =>
      fail (ConfigError "Email configuration not found in configuration.json")
  | Some email_config =>
      let secret_id := secretId email_config in
      let secret_key := secretKey email_config in
      let region := get_or (region email_config) "ap-guangzhou" in
      if falsy secret_id || falsy secret_key then
        fail (ConfigError "Tencent Cloud API credentials (secretId and secretKey) are required")
      else
        let sender_email := senderEmail email_config in
        let sender_name := get_or (senderName email_config) "" in
        let to_emails := mc_to_emails mail in
        catch
          (template_data <-- data (template_data_of sender_email mail) ;;
           _ <-- say "Template data being sent:" ;;
           _ <-- emit (Print (TemplateDump template_data)) ;;
           let req :=
             {| Destination := to_emails;
                Subject := mc_subject mail;
                FromEmailAddress :=
                  sender_name ++ " <" ++ shown sender_email ++ ">";
                TemplateID := 31550;
                TemplateData := template_data;
                client_secret_id := shown secret_id;
                client_secret_key := shown secret_key;
                client_region := region |} in
           _ <-- emit (SendEmail req) ;;
           match ses w req with
           | Answer message_id =>
               say ("Email sent successfully using template ID 31550! Message ID: "
                    ++ message_id)
           | NoAnswer msg => fail (SesError msg)
           end)
          (fun e =>
             _ <-- emit (Print (SendFailed e)) ;;
             _ <-- say "Tip: Make sure your sender email is verified in Tencent Cloud" ;;
             say "You need to follow Tencent Cloud's sender email verification process at: https://console.cloud.tencent.com/ses/sender")
  end.

(** [{**weather_info, **forecast_info}]: unpacking [None] raises
    TypeError. *)
Definition complete_weather_info (weather_info : option (dict string))
    (forecast_info : dict string) : result (dict string) :=
  match weather_info with
  | Some weather_info => Ok (dict_update weather_info forecast_info)
  | None => Raise TypeError
  end.

(** [handle_weather_data] with the line it prints before it returns
    (l. 115, 157). *)
Definition traced_handle_weather_data (payload : option weather_data)
  : C (option (dict string)) :=
  weather_info <-- data (Aggregator.handle_weather_data payload) ;;
  _ <-- emit (Print (match weather_info with
                     | Some info => ProcessedWeather info
                     | None => Line "Weather data not available"
                     end)) ;;
  done weather_info.

(** [process_forecast_data] with the line it prints before it returns
    (l. 163, 266). *)
Definition traced_process_forecast_data (payload : option forecast_data)
  : C (dict string) :=
  forecast_info <-- data (Aggregator.process_forecast_data payload) ;;
  _ <-- emit (Print (match payload with
                     | Some _ => ProcessedForecast forecast_info
                     | None => Line "Forecast data not available"
                     end)) ;;
  done forecast_info.

(** Fetching, summarising, composing and sending for one place
    (l. 778-789 and l. 805-819). *)
Definition weather_mail (cfg : config) (place : option location)
    (who : option recipient) : C unit :=
  weather_data <-- obtain_weather_data cfg place ;;
  weather_info <-- traced_handle_weather_data weather_data ;;
  forecast_data <-- obtain_forecast_data cfg place ;;
  forecast_info <-- traced_process_forecast_data forecast_data ;;
  complete <-- data (complete_weather_info weather_info forecast_info) ;;
  mail <-- construct_email cfg complete who ;;
  send_email cfg mail.

(** [not location]: no location, or a location without any key. *)
Definition no_place (place : option location) : bool :=
  match place with
  | Some place =>
      match loc_city place, loc_country place with
      | None, None => true
      | _, _ => false
      end
  | None => true
  end.

(** The body of the loop over the recipients (l. 794-824). *)
Definition serve (cfg : config) (who : recipient) : C unit :=
  catch
    (let recipient_email := rcp_email who in
     let place := rcp_location who in
     if falsy recipient_email || no_place place then
       emit (Print (Skipping who))
     else
       let place_shown := get_or place no_location in
       _ <-- say ("Processing weather data for " ++ shown recipient_email
                  ++ " at location " ++ shown (loc_city place_shown)
                  ++ ", " ++ shown (loc_country place_shown)) ;;
       _ <-- weather_mail cfg place (Some who) ;;
       say ("Successfully sent weather update to " ++ shown recipient_email))
    (fun e =>
       emit (Print (ProcessingError (get_or (rcp_email who) "unknown") e))).

(** [process_and_send_weather] (l. 770-824). *)
Definition process_and_send_weather (cfg : config) : C unit :=
  let recipients := get_or (cfg_recipients cfg) [] in
  match recipients with
  | [] =>
      _ <-- say "No specific recipients configured. Using default location." ;;
      weather_mail cfg None None
  | _ :: _ =>
      _ <-- say ("Sending weather updates to "
                 ++ str_of_nat (List.length recipients)
                 ++ " recipients with their specific locations...") ;;
      for_all recipients (serve cfg)
  end.

End WithEnv.
End Cli.

(* ================================================================= *)
(** ** Observations on the runs of the pipeline *)

Module Effects.
Import Cli.

(** An event other than a send request. *)
Definition no_send (e : event) : Prop :=
  match e with
  | SendEmail _ => False
  | _ => True
  end.

(** A computation that only adds events to the trace, none of them a
    send request. *)
Definition quiet {A} (m : C A) : Prop :=
  forall r r' out, m r = (r', out) ->
    exists events, trace r' = (trace r ++ events)%list /\ Forall no_send events.

(** A computation that adds events to the trace, among which a send
    request occurs only when the computation returns, and a request
    the mail service refuses is followed by the print of the refusal. *)
Definition guarded (w : cli_world) {A} (m : C A) : Prop :=
  forall r r' out, m r = (r', out) ->
    exists events,
      trace r' = (trace r ++ events)%list
      /\ ((exists e, out = Failed e) -> Forall no_send events)
      /\ (forall req msg, In (SendEmail req) events ->
            ses w req = NoAnswer msg ->
            In (Print (SendFailed (SesError msg))) events).

(** The three lines one of which closes the turn of a recipient. *)
Definition report_of (who : recipient) (final : printed) : Prop :=
  final = Skipping who
  \/ final = Line ("Successfully sent weather update to "
                   ++ shown (rcp_email who))
  \/ exists e, final = ProcessingError (get_or (rcp_email who) "unknown") e.

(** The keys of the template data, in the order of the source. *)
Definition template_keys : list string :=
  [ "weather_location"; "current_date"; "current_year"; "weather_type";
    "weather_temperature"; "weather_temperature_range"; "weather_humidity";
    "weather_pressure"; "weather_wind"; "weather_visibility"; "weather_uvi";
    "weather_clouds"; "weather_daylight";
    "morning_6_weather"; "morning_6_temp"; "morning_6_precip";
    "morning_8_weather"; "morning_8_temp"; "morning_8_precip";
    "morning_10_weather"; "morning_10_temp"; "morning_10_precip";
    "afternoon_12_weather"; "afternoon_12_temp"; "afternoon_12_precip";
    "afternoon_14_weather"; "afternoon_14_temp"; "afternoon_14_precip";
    "afternoon_16_weather"; "afternoon_16_temp"; "afternoon_16_precip";
    "evening_18_weather"; "evening_18_temp"; "evening_18_precip";
    "evening_20_weather"; "evening_20_temp"; "evening_20_precip";
    "evening_22_weather"; "evening_22_temp"; "evening_22_precip";
    "weather_main_type"; "temp_min"; "temp_max"; "max_precip";
    "max_precip_time"; "activity_suggestion_1"; "activity_suggestion_2";
    "activity_suggestion_3"; "weather_type_simple"; "weather_road_condition";
    "weather_transit_condition"; "weather_traffic_condition";
    "weather_suggestion"; "eludecia_response"; "character_name";
    "recipient_email"; "sender_email"; "data_source"; "weather_update_time" ].

(** The keys of the template data read from the summary, each with
    the text shown when the summary lacks it. *)
Definition summary_fields : list (string * string * string) :=
  [ ("weather_location", "location", "");
    ("weather_type", "weather_type", "");
    ("weather_temperature", "weather_temperature", "");
    ("weather_temperature_range", "weather_temperature_range", "");
    ("weather_humidity", "weather_humidity", "");
    ("weather_pressure", "weather_pressure", "");
    ("weather_wind", "weather_wind", "");
    ("weather_visibility", "weather_visibility", "");
    ("weather_uvi", "weather_uvi", "Unknown");
    ("weather_clouds", "weather_clouds", "Unknown");
    ("weather_daylight", "weather_daylight", "");
    ("weather_main_type", "weather_main_type", "Unknown");
    ("temp_min", "temp_min", "Unknown");
    ("temp_max", "temp_max", "Unknown");
    ("max_precip", "max_precip", "Unknown");
    ("max_precip_time", "max_precip_time", "Unknown") ].

End Effects.

(** A sample desk: one weather service, one mail account, three
    recipients. *)
Module Desk.
Import Cli Samples Scenario.

Definition paris_place : location :=
  {| loc_city := Some "Paris"; loc_country := Some "FR" |}.

Definition atlantis_place : location :=
  {| loc_city := Some "Atlantis"; loc_country := Some "XX" |}.

Definition desk_weather : weather_config :=
  {| apiKey := Some "KEY";
     weatherEndpoint := Some "https://api.example/weather?";
     geoEndpoint := Some "https://api.example/geo?";
     oneCallEndpoint := Some "https://api.example/onecall?" |}.

Definition desk_email : email_config :=
  {| senderEmail := Some "post@example.org"; senderName := Some "Eludecia";
     toEmails := Some ["desk@example.org"];
     secretId := Some "id"; secretKey := Some "key"; region := None |}.

Definition desk_deepseek : deepseek_config :=
  {| deepseek_apiKey := Some "sk"; deepseek_endpoint := Some "https://chat.example" |}.

(** Complete, with a character and a language of their own. *)
Definition ann : recipient :=
  {| rcp_email := Some "ann@example.org"; rcp_location := Some paris_place;
     rcp_characterPrompt := Some "You are the Lighthouse Keeper, calm and brief.";
     rcp_language := Some "zh"; rcp_timezone := None |}.

(** Without a location. *)
Definition bob : recipient :=
  {| rcp_email := Some "bob@example.org"; rcp_location := None;
     rcp_characterPrompt := None; rcp_language := None; rcp_timezone := None |}.

(** In a place the geocoder does not know. *)
Definition cleo : recipient :=
  {| rcp_email := Some "cleo@example.org"; rcp_location := Some atlantis_place;
     rcp_characterPrompt := None; rcp_language := None; rcp_timezone := None |}.

Definition desk_config (recipients : list recipient) : config :=
  {| cfg_api := Some {| api_weather := Some desk_weather;
                        api_email := Some desk_email;
                        api_deepseek := Some desk_deepseek |};
     cfg_preferences :=
       Some {| defaultLocation := Some paris_place;
               servicePreference :=
                 Some {| pref_language := Some "en";
                         pref_timezone := Some "Europe/Paris" |} |};
     cfg_recipients := Some recipients |}.

(** A configuration without the weather section. *)
Definition bare_config : config :=
  {| cfg_api := Some no_api; cfg_preferences := None; cfg_recipients := None |}.

Definition rainy_current : current_block :=
  {| cur_temp := Some (PFloat (Float64.of_Q (234 # 10))); cur_feels_like := Some (PInt 23);
     cur_humidity := Some (PInt 60); cur_pressure := Some (PInt 1013);
     cur_wind_speed := Some (PInt 4); cur_wind_deg := Some (PInt 250);
     cur_visibility := Some (PInt 8000); cur_uvi := None;
     cur_clouds := Some (PInt 90);
     cur_weather := Some [entry "Rain" "light rain"];
     cur_sunrise := None; cur_sunset := None |}.

Definition rainy_forecast : forecast_data :=
  {| fc_current := Some rainy_current; fc_hourly := Some wet_hours;
     fc_daily := Some [day_of 18 25] |}.

(** A One Call reply whose current block reports clouds. *)
Definition cloudy_forecast : forecast_data :=
  {| fc_current :=
       Some {| cur_temp := Some (PInt 21); cur_feels_like := None;
               cur_humidity := None; cur_pressure := None;
               cur_wind_speed := None; cur_wind_deg := None;
               cur_visibility := None; cur_uvi := None; cur_clouds := None;
               cur_weather := Some [entry "Clouds" "overcast clouds"];
               cur_sunrise := None; cur_sunset := None |};
     fc_hourly := Some wet_hours;
     fc_daily := Some [day_of 18 25] |}.

Definition desk_suggestions : dict (list string) :=
  [ ("Rain", ["Take an umbrella."; "Wear boots."]);
    ("chinese_Rain", ["记得带伞。"]);
    ("Clear", ["Enjoy the sun."]) ].

(** Paris is found, every other place is not; the mail service answers
    as [mail_service] says. *)
Definition desk (mail_service : email_request -> reply string) : cli_world :=
  {| geocoding := fun url =>
       if PyStr.contains "q=Paris,FR" url
       then Answer [ {| geo_lat := Some (PFloat (Float64.of_Q (4885 # 100)));
                        geo_lon := Some (PFloat (Float64.of_Q (235 # 100))) |} ]
       else Answer [];
     weather_api := fun _ => Answer (Some rainy_weather);
     onecall_api := fun _ => Answer (Some rainy_forecast);
     suggestion_file := Answer desk_suggestions;
     deepseek := fun _ _ _ _ => ChatContent "Dear traveller, it rains.";
     ses := mail_service;
     random_draw := fun n => n;
     clock := 1762165920%Z;
     clock_year := 2025%Z |}.

Definition accepting : email_request -> reply string :=
  fun _ => Answer "msg-1".

Definition refusing : email_request -> reply string :=
  fun _ => NoAnswer "FailedOperation.EmailAddrInBlacklist".

Definition fresh : run := {| trace := []; drawn := 0 |}.

(** A summary as the pipeline hands it to [construct_email]. *)
Definition rainy_summary : dict string :=
  [ ("location", "Paris"); ("current_time", "2025-11-03 10:32:00");
    ("weather_type", "Rain: light rain"); ("weather_main_type", "Rain");
    ("temp_min", "18"); ("temp_max", "25"); ("max_precip", "80") ].

Definition rainy_mail : mail_content :=
  {| mc_sender_email := "post@example.org"; mc_sender_name := "Eludecia";
     mc_to_emails := ["ann@example.org"];
     mc_subject := "2025-11-03 | Weather for Paris | Take an umbrella.";
     mc_body := "";
     mc_weather_info := rainy_summary;
     mc_suggestion := "Take an umbrella.";
     mc_eludecia_response := "Dear traveller, it rains.";
     mc_character_prompt := Some "You are the Lighthouse Keeper, calm and brief.";
     mc_activity_suggestions := [] |}.

End Desk.

(* ================================================================= *)
(** ** Proof automation *)

(** Unfolds the operations of [M]. *)
Ltac run_monad :=
  unfold bindM, ret, lift, raise, get_db, put_db, log_msg, atomic, try_except
    in *.

(** Case analysis on every conditional in sight. *)
Ltac split_ifs :=
  repeat match goal with
         | |- context [if ?b then _ else _] => destruct b
         | H : context [if ?b then _ else _] |- _ => destruct b
         end.

(** Checks a property of every element of a list given in extension. *)
Ltac check_each H :=
  simpl in H; repeat (destruct H as [<-|H]; [reflexivity|]); contradiction.

Unset Implicit Arguments.
Import PyStr Sanitizer Aggregator Suggestions Eludecia Orm Updater.
Import Host Spec Samples Observe Scenario.

(* ================================================================= *)
(** * Properties *)

(** ** The sanitization scenario *)

(** C5 (amended).  On the narrative of the scenario, stripping the
    markers and the heading and stripping each line gives the lines
    Hello, Greetings, the fenced block and Goodbye; the white-space
    steps change nothing more, and the fenced block, removed last,
    leaves its line empty: the result is Hello, Greetings, an empty
    line and Goodbye. *)
Theorem clean_text_scenario :
  let plain :=
    map plain_heading
        (split_on "010" (replace "*" "" (replace "**" "" (strip scenario_text)))) in
  plain = ["Hello"; "Greetings"; "```code```"; "Goodbye"]
  /\ lstrip (squash_after_newline (collapse_spaces (join nl plain)))
     = join nl plain
  /\ clean_text scenario_text = remove_code_blocks (join nl plain)
  /\ clean_text scenario_text
     = "Hello" ++ nl ++ "Greetings" ++ nl ++ nl ++ "Goodbye".
Proof.
  cbv zeta. split; [vm_compute; reflexivity|].
  split; [vm_compute; reflexivity|].
  split; vm_compute; reflexivity.
Qed.

(** C5, as stated: the result is not the three lines alone. *)
Lemma clean_text_scenario_keeps_blank_line :
  clean_text scenario_text <> "Hello" ++ nl ++ "Greetings" ++ nl ++ "Goodbye".
Proof. vm_compute. discriminate. Qed.

(** ** Loops and dicts *)

Section ForEach.
Context {S A : Type} (body : S -> A -> result S).

Lemma for_each_invariant (P : S -> Prop) (l : list A) :
  (forall s x s', In x l -> P s -> body s x = Ok s' -> P s') ->
  forall s s', P s -> for_each body l s = Ok s' -> P s'.
Proof.
  induction l as [|x r IH]; intros step s s' Hs Hrun; simpl in Hrun.
  - injection Hrun as <-. exact Hs.
  - destruct (body s x) as [s1|e] eqn:Hx; simpl in Hrun; [|discriminate].
    apply IH with (s := s1); auto.
    + intros t y t' Hy. apply step. now right.
    + apply (step s x); auto. now left.
Qed.

Lemma for_each_total (l : list A) :
  (forall s x, In x l -> exists s', body s x = Ok s') ->
  forall s, exists s', for_each body l s = Ok s'.
Proof.
  induction l as [|x r IH]; intros step s; simpl.
  - now exists s.
  - destruct (step s x (or_introl eq_refl)) as [s1 ->]. simpl.
    apply IH. intros t y Hy. apply step. now right.
Qed.

End ForEach.

Section Dicts.
Context {V : Type}.
Implicit Types (d : dict V) (k : string) (v : V).

Lemma dict_get_set_same k v d : dict_get k (dict_set k v d) = Some v.
Proof.
  induction d as [|[k' v'] r IH]; simpl.
  - now rewrite String.eqb_refl.
  - destruct (String.eqb k k') eqn:E; simpl.
    + now rewrite String.eqb_refl.
    + now rewrite E.
Qed.

Lemma dict_get_set_other k k' v d :
  k <> k' -> dict_get k (dict_set k' v d) = dict_get k d.
Proof.
  intros Hne. apply String.eqb_neq in Hne.
  induction d as [|[k0 v0] r IH]; simpl.
  - now rewrite Hne.
  - destruct (String.eqb k' k0) eqn:E; simpl.
    + apply String.eqb_eq in E. subst k0. now rewrite Hne.
    + now rewrite IH.
Qed.

Lemma dict_keys_set k v d :
  dict_keys (dict_set k v d)
  = if existsb (String.eqb k) (dict_keys d)
    then dict_keys d else (dict_keys d ++ [k])%list.
Proof.
  induction d as [|[k' v'] r IH]; simpl; auto.
  destruct (String.eqb k k') eqn:E; simpl.
  - apply String.eqb_eq in E. now subst.
  - rewrite IH. now destruct (existsb _ _).
Qed.

Lemma dict_keys_set_incl k v d x :
  In x (dict_keys (dict_set k v d)) -> x = k \/ In x (dict_keys d).
Proof.
  rewrite dict_keys_set. destruct (existsb _ _); auto.
  rewrite in_app_iff. simpl. intuition.
Qed.

Lemma dict_get_update_other k d other :
  ~ In k (dict_keys other) ->
  dict_get k (dict_update d other) = dict_get k d.
Proof.
  unfold dict_update. revert d.
  induction other as [|[k' v'] r IH]; intros d Hk; simpl; auto.
  rewrite IH.
  - apply dict_get_set_other. intros ->. apply Hk. now left.
  - intros Hin. apply Hk. now right.
Qed.

Lemma dict_get_in k v d : dict_get k d = Some v -> In (k, v) d.
Proof.
  induction d as [|[k' v'] r IH]; simpl; [discriminate|].
  destruct (String.eqb k k') eqn:E.
  - apply String.eqb_eq in E. intros [= ->]. subst. now left.
  - intros Hget. right. auto.
Qed.

End Dicts.

Lemma firstn_member {A} (n : nat) (l : list A) (x : A) :
  In x (firstn n l) -> In x l.
Proof.
  revert l. induction n as [|n IH]; intros [|y r]; simpl; try tauto.
  intros [->|Hx]; auto.
Qed.

(** ** The aggregator *)

Section AggregatorFacts.
Context `{PyEnv}.

Lemma slot_body_keys hour hour_of_day forecasts slot forecasts' :
  In slot time_slots ->
  only_slot_keys forecasts ->
  slot_body hour hour_of_day forecasts slot = Ok forecasts' ->
  only_slot_keys forecasts'.
Proof.
  intros Hslot Hkeys. unfold slot_body. destruct slot as [name h].
  destruct (hour_of_day =? h)%Z; [|intros [= <-]; exact Hkeys].
  destruct (w_type_of hour) as [c|e]; cbn [bind]; [|discriminate].
  destruct (format_0f _) as [precip|e]; cbn [bind]; [|discriminate].
  intros [= <-] k Hk.
  assert (Hnew : forall suffix,
             In suffix ["_temp"; "_precip"; "_weather"] ->
             In (name ++ suffix) slot_keys).
  { intros suffix Hs. unfold slot_keys. apply in_flat_map.
    exists (name, h). split; [exact Hslot|]. simpl in *. intuition (subst; auto). }
  apply dict_keys_set_incl in Hk as [->|Hk]; [apply Hnew; simpl; auto|].
  apply dict_keys_set_incl in Hk as [->|Hk]; [apply Hnew; simpl; auto|].
  apply dict_keys_set_incl in Hk as [->|Hk]; [apply Hnew; simpl; auto|].
  now apply Hkeys.
Qed.

Lemma hour_body_keys st hour st' :
  only_slot_keys (hourly_forecasts st) ->
  hour_body st hour = Ok st' ->
  only_slot_keys (hourly_forecasts st').
Proof.
  intros Hkeys. unfold hour_body.
  destruct (fromtimestamp _) as [dt|e]; cbn [bind]; [|discriminate].
  destruct (for_each _ time_slots _) as [forecasts|e] eqn:Hslots; cbn [bind];
    [|discriminate].
  assert (only_slot_keys forecasts) as Hf.
  { revert Hslots. apply for_each_invariant; auto.
    intros s x s' Hx Hs. now apply slot_body_keys. }
  destruct (num_gtb _ _); intros [= <-]; exact Hf.
Qed.

Lemma scan_keys hourly st :
  for_each hour_body hourly scan_start = Ok st ->
  only_slot_keys (hourly_forecasts st).
Proof.
  apply for_each_invariant with (P := fun s => only_slot_keys (hourly_forecasts s)).
  - intros s x s' _. apply hour_body_keys.
  - intros k [].
Qed.

(** The steps of [process_forecast_data] on a payload that may raise,
    and the summary it builds from their results. *)
Lemma process_forecast_data_steps fd info :
  process_forecast_data (Some fd) = Ok info ->
  let current := get_or (fc_current fd) empty_current in
  exists visibility w sunrise sunset st weather_counts peak,
    match cur_visibility current with
    | Some v => v <- num_div v 1000 ;; Ok (VNum v)
    | None => Ok (VStr "Unknown")
    end = Ok visibility
    /\ first_weather (cur_weather current) = Ok w
    /\ time_of (cur_sunrise current) = Ok sunrise
    /\ time_of (cur_sunset current) = Ok sunset
    /\ for_each hour_body (get_or (fc_hourly fd) []) scan_start = Ok st
    /\ for_each tally_body (firstn 24 (get_or (fc_hourly fd) [])) []
       = Ok weather_counts
    /\ format_0f (max_precip st) = Ok peak
    /\ forall key,
         ~ In key slot_keys ->
         dict_get key info
         = dict_get key
             [ ("weather_type",
                 capitalize (get_or (we_main w) "unknown") ++ ": "
                 ++ get_or (we_description w) "unknown");
               ("weather_temperature",
                 str_val (num_or (cur_temp current) "Unknown")
                 ++ "°C (feels like "
                 ++ str_val (num_or (cur_feels_like current) "Unknown")
                 ++ "°C)");
               ("weather_temperature_range",
                 "Min: "
                 ++ str_num (fst (daily_range (get_or (fc_daily fd) [])))
                 ++ "°C, Max: "
                 ++ str_num (snd (daily_range (get_or (fc_daily fd) [])))
                 ++ "°C");
               ("weather_humidity",
                 str_val (num_or (cur_humidity current) "Unknown") ++ "%");
               ("weather_pressure",
                 str_val (num_or (cur_pressure current) "Unknown") ++ " hPa");
               ("weather_wind",
                 str_val (num_or (cur_wind_speed current) "Unknown")
                 ++ " m/s, direction "
                 ++ str_val (num_or (cur_wind_deg current) "Unknown") ++ "°");
               ("weather_visibility", str_val visibility ++ " km");
               ("weather_uvi", str_val (num_or (cur_uvi current) "Unknown"));
               ("weather_clouds",
                 str_val (num_or (cur_clouds current) "Unknown") ++ "%");
               ("weather_daylight",
                 "Sunrise-" ++ sunrise ++ ", Sunset-" ++ sunset);
               ("temp_min",
                 str_num (fst (daily_range (get_or (fc_daily fd) []))));
               ("temp_max",
                 str_num (snd (daily_range (get_or (fc_daily fd) []))));
               ("max_precip", peak);
               ("max_precip_time", max_precip_time st);
               ("weather_main_type", main_type_of weather_counts) ].
Proof.
  unfold process_forecast_data. cbv zeta.
  destruct (match cur_visibility _ with Some _ => _ | None => _ end)
    as [visibility|e]; cbn [bind]; [|discriminate].
  destruct (first_weather _) as [w|e]; cbn [bind]; [|discriminate].
  destruct (time_of (cur_sunrise _)) as [sunrise|e]; cbn [bind];
    [|discriminate].
  destruct (time_of (cur_sunset _)) as [sunset|e]; cbn [bind];
    [|discriminate].
  destruct (daily_range _) as [lo hi] eqn:Hrange.
  destruct (for_each hour_body _ _) as [st|e] eqn:Hscan; cbn [bind];
    [|discriminate].
  destruct (for_each tally_body _ _) as [counts|e] eqn:Htally; cbn [bind];
    [|discriminate].
  destruct (format_0f _) as [peak|e] eqn:Hpeak; cbn [bind]; [|discriminate].
  intros [= <-]. exists visibility, w, sunrise, sunset, st, counts, peak.
  repeat (split; [first [reflexivity|assumption]|]).
  intros key Hkey. cbn [fst snd].
  apply dict_get_update_other.
  intros Hin. apply Hkey. exact (scan_keys _ _ Hscan _ Hin).
Qed.

(** What [process_forecast_data] returns on a payload, field by field. *)
Lemma process_forecast_data_fields fd info :
  process_forecast_data (Some fd) = Ok info ->
  exists st weather_counts peak,
    for_each hour_body (get_or (fc_hourly fd) []) scan_start = Ok st
    /\ for_each tally_body (firstn 24 (get_or (fc_hourly fd) [])) []
       = Ok weather_counts
    /\ format_0f (max_precip st) = Ok peak
    /\ dict_get "temp_min" info
       = Some (str_num (fst (daily_range (get_or (fc_daily fd) []))))
    /\ dict_get "temp_max" info
       = Some (str_num (snd (daily_range (get_or (fc_daily fd) []))))
    /\ dict_get "max_precip" info = Some peak
    /\ dict_get "max_precip_time" info = Some (max_precip_time st)
    /\ dict_get "weather_main_type" info
       = Some (main_type_of weather_counts).
Proof.
  intros Hrun.
  destruct (process_forecast_data_steps _ _ Hrun)
    as (visibility & w & sunrise & sunset & st & counts & peak
        & _ & _ & _ & _ & Hscan & Htally & Hpeak & Hget).
  exists st, counts, peak.
  repeat (split; [assumption|]).
  repeat split;
    (rewrite Hget;
     [reflexivity
     | intros Hin; vm_compute in Hin;
       repeat (destruct Hin as [Hin|Hin]; [discriminate Hin|]); exact Hin]).
Qed.

Lemma w_type_of_ok hour :
  hour_ok hour = true -> exists c, w_type_of hour = Ok c.
Proof.
  unfold hour_ok, w_type_of, first_weather.
  destruct (h_weather hour) as [[|w r]|]; simpl; try discriminate; eauto.
Qed.

Lemma returns_ok {A} (r : result A) :
  returns r = true -> exists x, r = Ok x.
Proof. destruct r; [eauto|discriminate]. Qed.

Lemma hour_body_total st hour :
  hour_ok hour = true -> hour_in_range hour = true ->
  exists st', hour_body st hour = Ok st'.
Proof.
  intros Hok Hrange. destruct (w_type_of_ok _ Hok) as [c Hc].
  apply andb_true_iff in Hrange as [Htime Hpop].
  apply returns_ok in Htime as [dt Hdt]. apply returns_ok in Hpop as [p Hp].
  unfold hour_body. rewrite Hdt. cbn [bind].
  destruct (for_each_total (slot_body hour (local_hour dt))
              time_slots) with (s := hourly_forecasts st) as [f ->].
  - intros s [name h] _. unfold slot_body. rewrite Hc, Hp. cbn [bind].
    destruct (_ =? _)%Z; eauto.
  - cbn [bind]. destruct (num_gtb _ _); eauto.
Qed.

(** The peak of the scan is 0 or the percentage of a sample. *)
Lemma scan_peak_source hourly st :
  for_each hour_body hourly scan_start = Ok st ->
  max_precip st = PInt 0
  \/ exists hour, In hour hourly /\ max_precip st = pop_percent hour.
Proof.
  assert (forall s,
             for_each hour_body hourly s = Ok st ->
             max_precip st = max_precip s
             \/ exists hour, In hour hourly /\ max_precip st = pop_percent hour)
    as Hgen.
  { induction hourly as [|h r IH]; intros s; simpl.
    - intros [= <-]. now left.
    - destruct (hour_body s h) as [s1|e] eqn:Hbody; cbn [bind];
        [|discriminate].
      intros Hrest. destruct (IH _ Hrest) as [Heq|(x & Hx & Heq)].
      + revert Hbody. unfold hour_body.
        destruct (fromtimestamp _) as [dt|e]; cbn [bind]; [|discriminate].
        destruct (for_each (slot_body _ _) _ _) as [f|e]; cbn [bind];
          [|discriminate].
        destruct (num_gtb _ _); intros [= Hs1]; rewrite <- Hs1 in Heq;
          simpl in Heq.
        * right. exists h. split; [now left|exact Heq].
        * now left.
      + right. exists x. split; [now right|exact Heq]. }
  intros Hrun. exact (Hgen _ Hrun).
Qed.

Lemma process_forecast_data_total fd :
  forecast_ok fd = true -> forecast_in_range fd = true ->
  exists info, process_forecast_data (Some fd) = Ok info.
Proof.
  unfold forecast_ok, forecast_in_range. intros Hok Hrange.
  apply andb_true_iff in Hok as [Hcur Hhours].
  apply andb_true_iff in Hrange as [Hrange Hin_range].
  apply andb_true_iff in Hrange as [Hrange Hsunset].
  apply andb_true_iff in Hrange as [Hvis Hsunrise].
  rewrite forallb_forall in Hhours. rewrite forallb_forall in Hin_range.
  apply returns_ok in Hsunrise as [sunrise Hsunrise].
  apply returns_ok in Hsunset as [sunset Hsunset].
  unfold process_forecast_data.
  assert (exists visibility,
             match cur_visibility (get_or (fc_current fd) empty_current) with
             | Some v => v <- num_div v 1000 ;; Ok (VNum v)
             | None => Ok (VStr "Unknown")
             end = Ok visibility) as [visibility ->].
  { destruct (cur_visibility _) as [v|]; [|eauto].
    apply returns_ok in Hvis as [q ->]. cbn [bind]. eauto. }
  cbn [bind].
  assert (exists w, first_weather (cur_weather (get_or (fc_current fd) empty_current)) = Ok w)
    as [w ->].
  { unfold first_weather. destruct (cur_weather _) as [[|w r]|]; simpl in *;
      try discriminate; eauto. }
  cbn [bind]. rewrite Hsunrise. cbn [bind]. rewrite Hsunset. cbn [bind].
  destruct (daily_range _) as [lo hi].
  destruct (for_each_total hour_body (get_or (fc_hourly fd) [])) with (s := scan_start)
    as [st Hscan].
  { intros s x Hx. apply hour_body_total; auto. }
  rewrite Hscan. cbn [bind].
  destruct (for_each_total tally_body (firstn 24 (get_or (fc_hourly fd) [])))
    with (s := @nil (string * nat)) as [counts ->].
  { intros s x Hx. apply firstn_member in Hx.
    destruct (w_type_of_ok x (Hhours x Hx)) as [c Hc].
    unfold tally_body. rewrite Hc. cbn [bind]. eauto. }
  cbn [bind].
  assert (exists peak, format_0f (max_precip st) = Ok peak) as [peak ->].
  { destruct (scan_peak_source _ _ Hscan) as [->|(hour & Hhour & ->)];
      [vm_compute; eauto|].
    specialize (Hin_range _ Hhour). apply andb_true_iff in Hin_range as [_ Hp].
    now apply returns_ok. }
  cbn [bind]. eauto.
Qed.

End AggregatorFacts.

Section PartialPayloads.
Context `{PyEnv}.

Lemma shown_marker (field : option pynum) :
  str_val (num_or field "Unknown") = shown field.
Proof. now destruct field. Qed.

Lemma handle_weather_data_complete wd main v :
  wd_main wd = Some main ->
  main_complete main = true ->
  wd_visibility wd = Some v ->
  has_first (wd_weather wd) = true ->
  weather_in_range wd = true ->
  exists info,
    handle_weather_data (Some wd) = Ok (Some info)
    /\ dict_get "wind" info
       = Some (shown (wind_speed_of (get_or (wd_wind wd) empty_wind))
               ++ " m/s, direction "
               ++ shown (wind_deg_of (get_or (wd_wind wd) empty_wind))
               ++ "°")
    /\ (wd_wind wd = None ->
        dict_get "wind" info = Some "Unknown m/s, direction Unknown°")
    /\ (wd_dt wd = None -> dict_get "current_time" info = Some "Unknown")
    /\ (wd_sys wd = None ->
        dict_get "daylight" info = Some "Sunrise-Unknown, Sunset-Unknown")
    /\ (wd_name wd = None -> dict_get "location" info = Some "Unknown location")
    /\ (wd_weather wd = None ->
        dict_get "weather_type" info = Some "Unknown: unknown").
Proof.
  intros Hmain Hcomplete Hvis Hweather Hrange.
  unfold weather_in_range in Hrange. rewrite Hvis in Hrange.
  apply andb_true_iff in Hrange as [Hrange Hsunset].
  apply andb_true_iff in Hrange as [Hrange Hsunrise].
  apply andb_true_iff in Hrange as [Hdiv Hdt].
  apply returns_ok in Hdiv as [km Hdiv].
  apply returns_ok in Hdt as [current_time Hdt].
  apply returns_ok in Hsunrise as [sunrise Hsunrise].
  apply returns_ok in Hsunset as [sunset Hsunset].
  unfold handle_weather_data.
  rewrite Hmain, Hvis. unfold main_complete in Hcomplete.
  destruct (m_temp main), (m_temp_min main), (m_temp_max main),
    (m_feels_like main), (m_humidity main), (m_pressure main);
    try discriminate.
  unfold first_weather.
  destruct (wd_weather wd) as [[|w r]|] eqn:Hw; try discriminate;
    cbn [subscript bind get_or first_item];
    rewrite Hdiv; cbn [bind]; rewrite Hdt; cbn [bind];
    rewrite Hsunrise; cbn [bind]; rewrite Hsunset; cbn [bind];
    (eexists; split; [reflexivity|]);
    (split; [cbn [dict_get String.eqb Ascii.eqb Bool.eqb];
             now rewrite !shown_marker|]);
    repeat split; intros Hnone; try discriminate;
    rewrite Hnone in *; cbn in Hdt, Hsunrise, Hsunset;
    try injection Hdt as <-; try injection Hsunrise as <-;
    try injection Hsunset as <-; reflexivity.
Qed.

Lemma handle_weather_data_missing_reading wd main :
  wd_main wd = Some main ->
  main_complete main = false ->
  has_first (wd_weather wd) = true ->
  exists key, handle_weather_data (Some wd) = Raise (KeyError key).
Proof.
  intros Hmain Hmissing Hweather. unfold handle_weather_data.
  rewrite Hmain. unfold main_complete in Hmissing. unfold first_weather.
  destruct (wd_weather wd) as [[|w r]|]; try discriminate;
    destruct (m_temp main), (m_temp_min main), (m_temp_max main),
      (m_feels_like main), (m_humidity main), (m_pressure main);
    try discriminate; cbn [subscript bind get_or first_item]; eauto.
Qed.

(** C2 (amended).  With at least one daily entry the summary's
    [temp_min] and [temp_max] are the text of the first entry's
    minimum and maximum, a missing one being replaced by 100 and -100;
    with no daily entry they are the numbers ["100"] and ["-100"]. *)
Theorem summary_daily_range fd info :
  process_forecast_data (Some fd) = Ok info ->
  (forall today rest,
      get_or (fc_daily fd) [] = today :: rest ->
      let temp := get_or (d_temp today) empty_day_temp in
      dict_get "temp_min" info
      = Some (str_num (get_or (day_min temp) (PInt 100)))
      /\ dict_get "temp_max" info
         = Some (str_num (get_or (day_max temp) (PInt (-100)))))
  /\ (get_or (fc_daily fd) [] = [] ->
      dict_get "temp_min" info = Some "100"
      /\ dict_get "temp_max" info = Some "-100").
Proof.
  intros Hrun.
  destruct (process_forecast_data_fields _ _ Hrun)
    as (st & counts & peak & _ & _ & _ & Hmin & Hmax & _).
  rewrite Hmin, Hmax. split.
  - intros today rest ->. split; reflexivity.
  - intros ->. split; reflexivity.
Qed.

End PartialPayloads.

(** C2, at a payload without daily entries. *)
Lemma no_daily_entry_gives_numbers :
  exists info,
    process_forecast_data (Some (forecast_of wet_hours [])) = Ok info
    /\ dict_get "temp_min" info = Some "100"
    /\ dict_get "temp_max" info = Some "-100"
    /\ dict_get "temp_min" info <> Some "unknown"
    /\ dict_get "temp_max" info <> Some "unknown".
Proof.
  eexists. split; [vm_compute; reflexivity|].
  repeat split; try reflexivity; vm_compute; discriminate.
Qed.

(** The amended C2 at a forecast whose first day ranges from 3 to 9. *)
Lemma summary_daily_range_witness :
  exists info,
    process_forecast_data (Some (forecast_of wet_hours [day_of 3 9])) = Ok info
    /\ dict_get "temp_min" info = Some "3"
    /\ dict_get "temp_max" info = Some "9".
Proof.
  eexists. split; [vm_compute; reflexivity|].
  match goal with
  | |- dict_get _ ?info = _ /\ _ =>
      destruct (summary_daily_range (forecast_of wet_hours [day_of 3 9]) info)
        as [Hfirst _]; [vm_compute; reflexivity|]
  end.
  exact (Hfirst (day_of 3 9) [] eq_refl).
Defined.

(** ** The vote for the dominant category *)

Lemma existsb_eqb_In (c : string) (l : list string) :
  existsb (String.eqb c) l = true <-> In c l.
Proof.
  rewrite existsb_exists. split.
  - intros (x & Hx & E). apply String.eqb_eq in E. now subst.
  - intros Hc. exists c. split; auto. apply String.eqb_refl.
Qed.

Lemma first_seen_snoc cats c :
  first_seen (cats ++ [c])
  = if existsb (String.eqb c) (first_seen cats) then first_seen cats
    else (first_seen cats ++ [c])%list.
Proof. unfold first_seen. now rewrite fold_left_app. Qed.

Lemma first_seen_In cats c : In c (first_seen cats) <-> In c cats.
Proof.
  induction cats as [|x cats IH] using rev_ind; [reflexivity|].
  rewrite first_seen_snoc, in_app_iff. simpl.
  destruct (existsb _ _) eqn:E.
  - apply existsb_eqb_In in E. rewrite IH in *. intuition (subst; auto).
  - rewrite in_app_iff, IH. simpl. tauto.
Qed.

Lemma snoc_split {A} (l k1 k2 : list A) (x c : A) :
  (l ++ [x] = k1 ++ c :: k2)%list ->
  (k2 = [] /\ l = k1 /\ c = x)
  \/ exists k2', k2 = (k2' ++ [x])%list /\ l = (k1 ++ c :: k2')%list.
Proof.
  intros E. destruct k2 as [|y k2] using rev_ind.
  - left. apply (app_inj_tail l k1 x c) in E as [-> ->]. auto.
  - right. clear IHk2. exists k2.
    change (k1 ++ c :: k2 ++ [y])%list with (k1 ++ (c :: k2) ++ [y])%list in E.
    rewrite app_assoc in E. apply app_inj_tail in E as [-> ->]. auto.
Qed.

Lemma first_seen_order cats k1 c k2 c' :
  first_seen cats = (k1 ++ c :: k2)%list ->
  In c' k2 ->
  exists before after, cats = (before ++ c :: after)%list /\ ~ In c' before.
Proof.
  revert k1 c k2 c'.
  induction cats as [|x cats IH] using rev_ind; intros k1 c k2 c' Hkeys Hc'.
  - destruct k1; discriminate.
  - rewrite first_seen_snoc in Hkeys. destruct (existsb _ _) eqn:E.
    + destruct (IH _ _ _ _ Hkeys Hc') as (before & after & -> & Hnot).
      exists before, (after ++ [x])%list. split; auto.
      now rewrite <- app_assoc.
    + apply snoc_split in Hkeys as [(-> & _ & _)|(k2' & -> & Hkeys)];
        [destruct Hc'|].
      apply in_app_iff in Hc' as [Hc'|[<-|[]]].
      * destruct (IH _ _ _ _ Hkeys Hc') as (before & after & -> & Hnot).
        exists before, (after ++ [x])%list. split; auto.
        now rewrite <- app_assoc.
      * assert (~ In x cats) as Hx.
        { rewrite <- first_seen_In, <- existsb_eqb_In. now rewrite E. }
        assert (In c cats) as Hc.
        { rewrite <- first_seen_In, Hkeys. apply in_elt. }
        apply in_split in Hc as (before & after & ->).
        exists before, (after ++ [x])%list. split.
        -- now rewrite <- app_assoc.
        -- intros Hin. apply Hx. apply in_or_app. now left.
Qed.

Lemma occurrences_snoc c cats x :
  occurrences c (cats ++ [x])
  = occurrences c cats + (if string_dec x c then 1 else 0).
Proof.
  unfold occurrences. rewrite count_occ_app. simpl.
  destruct (string_dec x c); reflexivity.
Qed.

Lemma tally_snoc cats x : tally (cats ++ [x]) = bump (tally cats) x.
Proof. unfold tally. now rewrite fold_left_app. Qed.

Lemma tally_keys cats : dict_keys (tally cats) = first_seen cats.
Proof.
  induction cats as [|x cats IH] using rev_ind; [reflexivity|].
  rewrite tally_snoc, first_seen_snoc. unfold bump.
  now rewrite dict_keys_set, IH.
Qed.

Lemma tally_get cats k :
  dict_get k (tally cats)
  = match occurrences k cats with
    | O => None
    | S n => Some (S n)
    end.
Proof.
  induction cats as [|x cats IH] using rev_ind; [reflexivity|].
  rewrite tally_snoc, occurrences_snoc. unfold bump.
  destruct (string_dec x k) as [->|Hne].
  - rewrite dict_get_set_same, IH.
    destruct (occurrences k cats); simpl; f_equal; lia.
  - rewrite dict_get_set_other by congruence. rewrite IH.
    now rewrite Nat.add_0_r.
Qed.

Lemma first_seen_NoDup cats : NoDup (first_seen cats).
Proof.
  induction cats as [|x cats IH] using rev_ind; [constructor|].
  rewrite first_seen_snoc. destruct (existsb _ _) eqn:E; auto.
  apply NoDup_app; auto.
  - repeat constructor. intros [].
  - intros y Hy [<-|[]]. apply existsb_eqb_In in Hy. congruence.
Qed.

Lemma dict_get_NoDup {V} (d : dict V) k v :
  NoDup (dict_keys d) -> In (k, v) d -> dict_get k d = Some v.
Proof.
  induction d as [|[k' v'] r IH]; simpl; intros Hnd Hin; [destruct Hin|].
  inversion Hnd as [|? ? Hnotin Hnd']; subst.
  destruct Hin as [[= -> ->]|Hin].
  - now rewrite String.eqb_refl.
  - destruct (String.eqb k k') eqn:E; auto.
    apply String.eqb_eq in E. subst k'. exfalso. apply Hnotin.
    apply (in_map fst) in Hin. exact Hin.
Qed.

Lemma tally_entry cats k n :
  In (k, n) (tally cats) -> n = occurrences k cats /\ In k cats.
Proof.
  intros Hin. pose proof Hin as Hkey. apply (in_map fst) in Hkey.
  change (In k (dict_keys (tally cats))) in Hkey.
  rewrite tally_keys, first_seen_In in Hkey.
  apply dict_get_NoDup in Hin; [|rewrite tally_keys; apply first_seen_NoDup].
  rewrite tally_get in Hin. destruct (occurrences k cats); [discriminate|].
  now injection Hin as <-.
Qed.

(** [max] keeps the first of the largest items. *)
Lemma max_by_count_first best items :
  exists l1 l2,
    best :: items = (l1 ++ max_by_count best items :: l2)%list
    /\ (forall y, In y l1 -> snd y < snd (max_by_count best items))
    /\ (forall y, In y l2 -> snd y <= snd (max_by_count best items)).
Proof.
  revert best. induction items as [|x r IH]; intros best; simpl.
  - exists [], []. repeat split; intros y [].
  - destruct (Nat.ltb (snd best) (snd x)) eqn:E.
    + apply Nat.ltb_lt in E.
      destruct (IH x) as (l1 & l2 & Hsplit & Hlt & Hle).
      exists (best :: l1), l2. rewrite Hsplit.
      split; [reflexivity|]. split; [|exact Hle].
      intros y [<-|Hy]; [|now apply Hlt].
      assert (In x (l1 ++ max_by_count x r :: l2)) as Hx
          by (rewrite <- Hsplit; now left).
      apply in_app_iff in Hx as [Hx|[Hx|Hx]].
      * specialize (Hlt _ Hx). lia.
      * rewrite Hx. exact E.
      * specialize (Hle _ Hx). lia.
    + apply Nat.ltb_ge in E.
      destruct (IH best) as (l1 & l2 & Hsplit & Hlt & Hle).
      destruct l1 as [|b l1]; simpl in Hsplit; injection Hsplit as Hb Hr.
      * exists [], (x :: l2).
        split; [simpl; congruence|]. split; [intros y []|].
        intros y [<-|Hy]; [rewrite <- Hb; exact E|]. now apply Hle.
      * subst b. exists (best :: x :: l1), l2.
        split; [simpl; do 2 f_equal; exact Hr|]. split; [|exact Hle].
        assert (snd best < snd (max_by_count best r)) by (apply Hlt; now left).
        intros y [<-|[<-|Hy]]; [assumption|lia|].
        apply Hlt. now right.
Qed.

Lemma main_type_of_dominant cats :
  cats <> [] -> dominant cats (main_type_of (tally cats)).
Proof.
  intros Hne. unfold main_type_of.
  destruct (tally cats) as [|x r] eqn:Ht.
  { exfalso. destruct cats as [|c cats]; [now apply Hne|].
    assert (In c (first_seen (c :: cats))) as Hc
        by (apply first_seen_In; now left).
    rewrite <- tally_keys, Ht in Hc. destruct Hc. }
  destruct (max_by_count_first x r) as (l1 & l2 & Hsplit & Hlt & Hle).
  destruct (max_by_count x r) as [c n] eqn:Hmax. simpl in *.
  rewrite <- Ht in Hsplit.
  assert (In (c, n) (tally cats)) as Hcn by (rewrite Hsplit; apply in_elt).
  destruct (tally_entry _ _ _ Hcn) as [Hn Hc]. subst n.
  assert (forall c', occurrences c' cats <= occurrences c cats) as Hall.
  { intros c'. destruct (occurrences c' cats) as [|m] eqn:Hocc; [lia|].
    pose proof (tally_get cats c') as Hget. rewrite Hocc in Hget.
    apply dict_get_in in Hget. rewrite Hsplit in Hget.
    apply in_app_iff in Hget as [Hget|[Hget|Hget]].
    - specialize (Hlt _ Hget). simpl in Hlt. lia.
    - injection Hget as -> ->. lia.
    - specialize (Hle _ Hget). simpl in Hle. lia. }
  split; [exact Hc|]. split; [exact Hall|].
  intros c' Hdiff Htie.
  assert (In c' (dict_keys l2)) as Hlater.
  { destruct (occurrences c' cats) as [|m] eqn:Hocc.
    - exfalso. unfold occurrences in Htie.
      symmetry in Htie. apply count_occ_not_In in Htie. contradiction.
    - pose proof (tally_get cats c') as Hget. rewrite Hocc in Hget.
      apply dict_get_in in Hget. rewrite Hsplit in Hget.
      apply in_app_iff in Hget as [Hget|[Hget|Hget]].
      + specialize (Hlt _ Hget). simpl in Hlt. lia.
      + injection Hget as -> _. congruence.
      + apply (in_map fst) in Hget. exact Hget. }
  apply (first_seen_order cats (dict_keys l1) c (dict_keys l2) c'); auto.
  rewrite <- tally_keys, Hsplit. unfold dict_keys. now rewrite map_app.
Qed.

Lemma tally_loop hours acc counts :
  for_each tally_body hours acc = Ok counts ->
  exists cats, categories hours = Ok cats /\ counts = fold_left bump cats acc.
Proof.
  revert acc. induction hours as [|h r IH]; intros acc; simpl.
  - intros [= <-]. now exists [].
  - unfold tally_body at 1. destruct (w_type_of h) as [c|e]; cbn [bind];
      [|discriminate].
    intros Hrun. destruct (IH _ Hrun) as (cats & -> & ->).
    now exists (c :: cats).
Qed.

Section Vote.
Context `{PyEnv}.

(** C3 (amended).  The dominant category is voted over the first 24
    hourly samples only: it is ["Unknown"] without samples, otherwise
    a category of the highest count, and among categories of that
    count the one that occurs first in the samples. *)
Theorem dominant_category fd info :
  process_forecast_data (Some fd) = Ok info ->
  exists cats,
    categories (firstn 24 (get_or (fc_hourly fd) [])) = Ok cats
    /\ ((cats = [] /\ dict_get "weather_main_type" info = Some "Unknown")
        \/ exists c,
             dict_get "weather_main_type" info = Some c /\ dominant cats c).
Proof.
  intros Hrun.
  destruct (process_forecast_data_fields _ _ Hrun)
    as (st & counts & peak & _ & Htally & _ & _ & _ & _ & _ & Htype).
  destruct (tally_loop _ _ _ Htally) as (cats & Hcats & ->).
  exists cats. split; [exact Hcats|]. rewrite Htype.
  destruct cats as [|c cats].
  - left. split; reflexivity.
  - right. eexists. split; [reflexivity|].
    apply (main_type_of_dominant (c :: cats)). discriminate.
Qed.

End Vote.

(** C3, at Clear, Rain, Rain, Clear: Rain is the first to reach the
    count of two, Clear is the category reported. *)
Lemma tie_goes_to_first_seen :
  exists info,
    process_forecast_data (Some (forecast_of tie_hours [])) = Ok info
    /\ categories (firstn 24 tie_hours) = Ok ["Clear"; "Rain"; "Rain"; "Clear"]
    /\ first_to_reach_max ["Clear"; "Rain"; "Rain"; "Clear"] = Some "Rain"
    /\ dict_get "weather_main_type" info = Some "Clear"
    /\ dict_get "weather_main_type" info
       <> first_to_reach_max ["Clear"; "Rain"; "Rain"; "Clear"].
Proof.
  eexists. split; [vm_compute; reflexivity|].
  repeat split; try reflexivity. vm_compute. discriminate.
Qed.

(** The amended C3 at the tied samples. *)
Lemma dominant_category_witness :
  exists info cats,
    process_forecast_data (Some (forecast_of tie_hours [])) = Ok info
    /\ categories (firstn 24 tie_hours) = Ok cats
    /\ ((cats = [] /\ dict_get "weather_main_type" info = Some "Unknown")
        \/ exists c,
             dict_get "weather_main_type" info = Some c /\ dominant cats c).
Proof.
  eexists.
  match goal with
  | |- exists cats, ?run = Ok ?info /\ _ =>
      assert (run = Ok info) as Hrun by (vm_compute; reflexivity)
  end.
  destruct (dominant_category _ _ Hrun) as (cats & Hcats & Hvote).
  exists cats. auto.
Defined.

(** ** The precipitation peak *)

Lemma Qgtb_true a b : Qgtb a b = true -> (b < a)%Q.
Proof.
  unfold Qgtb. intros Hgt. apply negb_true_iff in Hgt.
  apply Qnot_le_lt. intros Hle. apply Qle_bool_iff in Hle. congruence.
Qed.

Lemma Qgtb_false a b : Qgtb a b = false -> (a <= b)%Q.
Proof.
  unfold Qgtb. intros Hgt. apply negb_false_iff in Hgt.
  now apply Qle_bool_iff.
Qed.

(** *** The order of values *)

Lemma ext_ltb_irrefl a : ext_ltb a a = false.
Proof.
  destruct a as [| |q|]; try reflexivity.
  simpl. unfold Qgtb. apply negb_false_iff. apply Qle_bool_iff. apply Qle_refl.
Qed.

Lemma ext_ltb_trans a b c :
  ext_ltb a b = true -> ext_ltb b c = true -> ext_ltb a c = true.
Proof.
  destruct a as [| |x|], b as [| |y|], c as [| |z|]; simpl;
    try discriminate; try reflexivity.
  intros Hxy Hyz. apply Qgtb_true in Hxy. apply Qgtb_true in Hyz.
  unfold Qgtb. apply negb_true_iff.
  destruct (Qle_bool z x) eqn:Hzx; [|reflexivity].
  apply Qle_bool_iff in Hzx. exfalso.
  apply (Qlt_irrefl x). apply Qlt_le_trans with z; [|exact Hzx].
  now apply Qlt_trans with y.
Qed.

(** Below [b], hence not reaching it. *)
Lemma ext_ltb_not_leb a b : ext_ltb a b = true -> ext_leb b a = false.
Proof.
  destruct a as [| |x|], b as [| |y|]; simpl; try discriminate;
    try reflexivity.
  intros Hxy. apply Qgtb_true in Hxy.
  destruct (Qle_bool y x) eqn:Hyx; [|reflexivity].
  apply Qle_bool_iff in Hyx. exfalso.
  apply (Qlt_irrefl x). now apply Qlt_le_trans with y.
Qed.

Lemma ext_ltb_asym a b : ext_ltb a b = true -> ext_ltb b a = false.
Proof.
  destruct a as [| |x|], b as [| |y|]; simpl; try discriminate;
    try reflexivity.
  intros Hxy. apply Qgtb_true in Hxy.
  unfold Qgtb. apply negb_false_iff. apply Qle_bool_iff.
  now apply Qlt_le_weak.
Qed.

(** What does not exceed [c] neither exceeds nor reaches what [c] is
    below. *)
Lemma ext_below_stays p c c' :
  ext_ltb c p = false -> ext_ltb c c' = true ->
  ext_ltb c' p = false /\ ext_leb c' p = false.
Proof.
  destruct p as [| |x|], c as [| |y|], c' as [| |z|]; simpl;
    try discriminate; try (split; reflexivity).
  intros Hyx Hyz. apply Qgtb_false in Hyx. apply Qgtb_true in Hyz.
  assert (x < z)%Q as Hxz by now apply Qle_lt_trans with y.
  split.
  - unfold Qgtb. apply negb_false_iff. apply Qle_bool_iff.
    now apply Qlt_le_weak.
  - destruct (Qle_bool z x) eqn:Hzx; [|reflexivity].
    apply Qle_bool_iff in Hzx. exfalso.
    apply (Qlt_irrefl x). now apply Qlt_le_trans with z.
Qed.

(** Between numbers, what is not exceeded is reached. *)
Lemma ext_not_ltb_leb a b :
  a <> NaN -> b <> NaN -> ext_ltb a b = false -> ext_leb b a = true.
Proof.
  destruct a as [| |x|], b as [| |y|]; simpl; try discriminate;
    try reflexivity; try congruence.
  intros _ _ Hxy. apply Qgtb_false in Hxy. now apply Qle_bool_iff.
Qed.

Lemma ext_ltb_number a b : ext_ltb a b = true -> b <> NaN.
Proof. destruct a, b; simpl; congruence. Qed.

Section Peak.
Context `{PyEnv}.

Lemma fromtimestamp_ok t dt : fromtimestamp t = Ok dt -> dt = t.
Proof.
  unfold fromtimestamp. destruct (timestamp_error t); [discriminate|].
  now intros [= <-].
Qed.

Lemma hour_body_peak st hour st' :
  hour_body st hour = Ok st' ->
  (num_gtb (pop_percent hour) (max_precip st) = true
   /\ max_precip st' = pop_percent hour
   /\ max_precip_time st' = sample_time hour)
  \/ (num_gtb (pop_percent hour) (max_precip st) = false
      /\ max_precip st' = max_precip st
      /\ max_precip_time st' = max_precip_time st).
Proof.
  unfold hour_body.
  destruct (fromtimestamp _) as [dt|e] eqn:Hdt; cbn [bind]; [|discriminate].
  apply fromtimestamp_ok in Hdt. subst dt.
  destruct (for_each _ time_slots _) as [forecasts|e]; cbn [bind];
    [|discriminate].
  destruct (num_gtb _ _) eqn:Hgt; intros [= <-]; simpl; auto.
Qed.

(** The state after the loop, from any starting state. *)
Lemma scan_peak hours : forall st0 st,
  for_each hour_body hours st0 = Ok st ->
  (forall h, In h hours -> num_gtb (pop_percent h) (max_precip st) = false)
  /\ ((max_precip st = max_precip st0
       /\ max_precip_time st = max_precip_time st0
       /\ forall h, In h hours ->
            num_gtb (pop_percent h) (max_precip st0) = false)
      \/ exists before h after,
           hours = (before ++ h :: after)%list
           /\ max_precip st = pop_percent h
           /\ max_precip_time st = sample_time h
           /\ num_gtb (pop_percent h) (max_precip st0) = true
           /\ forall h', In h' before ->
                num_geb (pop_percent h') (pop_percent h) = false).
Proof.
  induction hours as [|x r IH]; intros st0 st; simpl.
  - intros [= <-]. split; [intros h []|]. left. repeat split. intros h [].
  - destruct (hour_body st0 x) as [st1|e] eqn:Hx; cbn [bind]; [|discriminate].
    intros Hrest. destruct (IH _ _ Hrest) as [Hall Hcases]. clear IH.
    apply hour_body_peak in Hx. unfold num_gtb, num_geb in *.
    destruct Hcases as [(Hmax & Htime & Hbelow)
                       |(before & h & after & -> & Hmax & Htime & Hgt & Hearlier)].
    + destruct Hx as [(Hx & Hmax1 & Htime1)|(Hx & Hmax1 & Htime1)].
      * split.
        -- intros h' [<-|Hh']; auto. rewrite Hmax, Hmax1.
           apply ext_ltb_irrefl.
        -- right. exists [], x, r. repeat split; try congruence; auto.
           intros h' [].
      * split.
        -- intros h' [<-|Hh']; auto. now rewrite Hmax, Hmax1.
        -- left. repeat split; try congruence.
           intros h' [<-|Hh']; auto. rewrite <- Hmax1. auto.
    + assert (ext_ltb (num_value (pop_percent h))
                      (num_value (pop_percent x)) = false
              /\ ext_leb (num_value (pop_percent h))
                         (num_value (pop_percent x)) = false
              /\ ext_ltb (num_value (max_precip st0))
                         (num_value (pop_percent h)) = true)
        as (Hxh & Hxh' & H0h).
      { destruct Hx as [(Hx & Hmax1 & Htime1)|(Hx & Hmax1 & Htime1)];
          rewrite Hmax1 in Hgt.
        - split; [now apply ext_ltb_asym|].
          split; [now apply ext_ltb_not_leb|].
          now apply ext_ltb_trans with (num_value (pop_percent x)).
        - destruct (ext_below_stays _ _ _ Hx Hgt) as [Hlt Hle]. auto. }
      split.
      * intros h' [<-|Hh']; auto. now rewrite Hmax.
      * right. exists (x :: before), h, after. repeat split; auto.
        intros h' [<-|Hh']; auto.
Qed.

(** C4 (amended).  The summary records, rounded to a whole number, a
    peak in percent: no sample's percentage (its probability times
    100, in the arithmetic of the code) exceeds it, and the peak
    reaches every percentage that is a number.  When some
    percentage exceeds 0, the peak is that of a sample whose
    percentage no earlier sample reaches, and the recorded time is
    that sample's; otherwise the peak is 0 and the recorded time is
    the text ["None"]. *)
Theorem precipitation_peak fd info :
  process_forecast_data (Some fd) = Ok info ->
  exists peak text time,
    format_0f peak = Ok text
    /\ dict_get "max_precip" info = Some text
    /\ dict_get "max_precip_time" info = Some time
    /\ (forall h, In h (get_or (fc_hourly fd) []) ->
          num_gtb (pop_percent h) peak = false
          /\ (num_value (pop_percent h) <> NaN ->
              num_geb peak (pop_percent h) = true))
    /\ ((peak = PInt 0 /\ time = "None"
         /\ forall h, In h (get_or (fc_hourly fd) []) ->
              num_gtb (pop_percent h) (PInt 0) = false)
        \/ exists before h after,
             get_or (fc_hourly fd) [] = (before ++ h :: after)%list
             /\ peak = pop_percent h
             /\ time = sample_time h
             /\ num_gtb (pop_percent h) (PInt 0) = true
             /\ forall h', In h' before ->
                  num_geb (pop_percent h') (pop_percent h) = false).
Proof.
  intros Hrun.
  destruct (process_forecast_data_fields _ _ Hrun)
    as (st & counts & text & Hscan & _ & Hformat & _ & _ & Hpeak & Htime & _).
  destruct (scan_peak _ _ _ Hscan) as [Hall Hcases].
  exists (max_precip st), text, (max_precip_time st).
  split; [exact Hformat|]. split; [exact Hpeak|]. split; [exact Htime|].
  assert (num_value (max_precip st) <> NaN) as Hnumber.
  { destruct Hcases as [(-> & _)|(before & h & after & _ & -> & _ & Hgt & _)].
    - discriminate.
    - unfold num_gtb in Hgt. exact (ext_ltb_number _ _ Hgt). }
  split.
  - intros h Hh. split; [now apply Hall|].
    intros Hh_number. unfold num_geb. apply ext_not_ltb_leb; auto.
    exact (Hall h Hh).
  - destruct Hcases as [(Hmax & Htime0 & Hbelow)
                       |(before & h & after & Hsplit & Hmax & Htime0 & Hgt & Hearlier)].
    + left. auto.
    + right. exists before, h, after. auto.
Qed.

End Peak.

(** C4, at a single sample of probability zero taken at 01:00: the
    sample attains the recorded peak, the recorded time is not its
    time. *)
Lemma dry_forecast_has_no_peak_time :
  exists info,
    process_forecast_data (Some (forecast_of dry_hours [])) = Ok info
    /\ dict_get "max_precip" info = Some "0"
    /\ dict_get "max_precip_time" info = Some "None"
    /\ ~ exists h,
         In h dry_hours
         /\ dict_get "max_precip_time" info = Some (sample_time h).
Proof.
  eexists. split; [vm_compute; reflexivity|].
  split; [reflexivity|]. split; [reflexivity|].
  intros (h & [<-|[]] & Htime). vm_compute in Htime. discriminate.
Qed.

(** The percentages are compared, not the probabilities: of 0.35 at
    01:00 and the next float above it at 02:00, whose products with
    100 are the same float, the summary records the time of the
    first, which is not the larger probability. *)
Lemma close_probabilities_share_a_peak :
  let low := PFloat (S754_finite false 6305039478318694 (-54)) in
  let high := PFloat (S754_finite false 6305039478318695 (-54)) in
  num_gtb high low = true
  /\ pop_percent (hour_at 7200 (Some high) "Rain")
     = pop_percent (hour_at 3600 (Some low) "Rain")
  /\ exists info,
       process_forecast_data
         (Some (forecast_of [ hour_at 3600 (Some low) "Rain";
                              hour_at 7200 (Some high) "Rain" ] []))
       = Ok info
       /\ dict_get "max_precip" info = Some "35"
       /\ dict_get "max_precip_time" info = Some "01:00".
Proof.
  cbv zeta. split; [vm_compute; reflexivity|].
  split; [vm_compute; reflexivity|].
  eexists. split; [vm_compute; reflexivity|]. split; reflexivity.
Qed.

(** The amended C4 at three samples peaking at 02:00 and again at 03:00. *)
Lemma precipitation_peak_witness :
  exists info,
    process_forecast_data (Some (forecast_of wet_hours [])) = Ok info
    /\ dict_get "max_precip" info = Some "80"
    /\ dict_get "max_precip_time" info = Some "02:00"
    /\ exists peak text time,
         format_0f peak = Ok text
         /\ dict_get "max_precip" info = Some text
         /\ dict_get "max_precip_time" info = Some time.
Proof.
  eexists.
  match goal with
  | |- ?run = Ok ?info /\ _ =>
      assert (run = Ok info) as Hrun by (vm_compute; reflexivity)
  end.
  split; [exact Hrun|]. split; [reflexivity|]. split; [reflexivity|].
  destruct (precipitation_peak _ _ Hrun)
    as (peak & text & time & Hformat & Hpeak & Htime & _).
  exists peak, text, time. auto.
Defined.

(** ** Drawing without replacement *)

Section Sampling.
Context {A : Type}.
Implicit Types (l sel : list A).

Lemma picks_spec l p :
  In p (Rand.picks l) ->
  Permutation (fst p :: snd p) l /\ S (List.length (snd p)) = List.length l.
Proof.
  revert p. induction l as [|x r IH]; intros p; simpl; [intros []|].
  intros [<-|Hp]; simpl; [split; auto|].
  apply in_map_iff in Hp as ([y rest] & <- & Hin). simpl.
  destruct (IH _ Hin) as [Hperm Hlen]. simpl in *. split; [|lia].
  rewrite perm_swap. now constructor.
Qed.

Lemma picks_length l : List.length (Rand.picks l) = List.length l.
Proof. induction l; simpl; auto. now rewrite length_map, IHl. Qed.

(** A draw has [k] elements, taken from distinct places of the pool. *)
Lemma sample_outcomes_spec k : forall l sel,
  In sel (Rand.sample_outcomes k l) ->
  List.length sel = k /\ exists rest, Permutation (sel ++ rest) l.
Proof.
  induction k as [|k IH]; intros l sel; simpl.
  - intros [<-|[]]. split; auto. now exists l.
  - intros Hin. apply in_flat_map in Hin as ([x rest] & Hpick & Hsel).
    apply in_map_iff in Hsel as (sel' & <- & Hsel'). simpl in *.
    destruct (IH _ _ Hsel') as [Hlen (rest' & Hperm)].
    destruct (picks_spec _ _ Hpick) as [Hperm' _]. simpl in *.
    split; [lia|]. exists rest'.
    rewrite <- Hperm'. now constructor.
Qed.

Lemma flat_map_constant_length {B} (f : B -> list (list A)) (c : nat)
    (l : list B) :
  (forall x, In x l -> List.length (f x) = c) ->
  List.length (flat_map f l) = List.length l * c.
Proof.
  induction l as [|x r IH]; intros Hc; simpl; auto.
  rewrite length_app, IH, Hc; auto.
  - now left.
  - intros y Hy. apply Hc. now right.
Qed.

(** There are [n (n-1) ... (n-k+1)] draws of [k] out of [n]. *)
Lemma sample_outcomes_length k : forall l,
  List.length (Rand.sample_outcomes k l) = Rand.falling (List.length l) k.
Proof.
  induction k as [|k IH]; intros l; simpl; auto.
  rewrite flat_map_constant_length with (c := Rand.falling (List.length l - 1) k).
  - now rewrite picks_length.
  - intros p Hp. rewrite length_map, IH.
    destruct (picks_spec _ _ Hp) as [_ Hlen]. f_equal. clear IH. lia.
Qed.

End Sampling.

Lemma falling_positive n k : k <= n -> 0 < Rand.falling n k.
Proof.
  revert n. induction k as [|k IH]; intros n Hk; simpl; [lia|].
  apply Nat.mul_pos_pos; [lia|]. apply IH. lia.
Qed.

(** ** The suggestion selector *)

Lemma zh_pool_wrapped weather_type s :
  In s (zh_pool weather_type) -> wrapped s = true.
Proof. unfold zh_pool. intros Hin. split_ifs; check_each Hin. Qed.

Lemma en_pool_wrapped weather_type s :
  In s (en_pool weather_type) -> wrapped s = true.
Proof. unfold en_pool. intros Hin. split_ifs; check_each Hin. Qed.

Lemma zh_extras_wrapped temp_min temp_max max_precip s :
  In s (zh_extras temp_min temp_max max_precip) -> wrapped s = true.
Proof. unfold zh_extras. intros Hin. split_ifs; check_each Hin. Qed.

Lemma en_extras_wrapped temp_min temp_max max_precip s :
  In s (en_extras temp_min temp_max max_precip) -> wrapped s = true.
Proof. unfold en_extras. intros Hin. split_ifs; check_each Hin. Qed.

Lemma filler_wrapped language : wrapped (filler language) = true.
Proof. unfold filler. destruct (startswith _ _); reflexivity. Qed.

Lemma zh_pool_length weather_type : List.length (zh_pool weather_type) = 3.
Proof. unfold zh_pool. split_ifs; reflexivity. Qed.

Lemma en_pool_length weather_type : List.length (en_pool weather_type) = 3.
Proof. unfold en_pool. split_ifs; reflexivity. Qed.

Lemma zh_extras_length temp_min temp_max max_precip :
  List.length (zh_extras temp_min temp_max max_precip) <= 2.
Proof. unfold zh_extras. split_ifs; simpl; lia. Qed.

Lemma en_extras_length temp_min temp_max max_precip :
  List.length (en_extras temp_min temp_max max_precip) <= 2.
Proof. unfold en_extras. split_ifs; simpl; lia. Qed.

Lemma wrapped_nonempty s : wrapped s = true -> s <> "".
Proof. intros Hw ->. discriminate. Qed.

(** The dict built from at most three selected suggestions. *)
Lemma numbered_and_filled language selected :
  List.length selected <= 3 ->
  let d := fill_missing language selected (enumerate_from 1 selected []) in
  dict_keys d = three_keys
  /\ dict_values d
     = (selected ++ repeat (filler language) (3 - List.length selected))%list.
Proof.
  intros Hlen.
  destruct selected as [|a [|b [|c [|x r]]]]; simpl in Hlen; try lia;
    split; reflexivity.
Qed.

Lemma select_suggestions_draw language pool d :
  In d (select_suggestions language pool) ->
  exists selected,
    d = fill_missing language selected (enumerate_from 1 selected [])
    /\ ((3 < List.length pool /\ In selected (Rand.sample_outcomes 3 pool))
        \/ (List.length pool <= 3 /\ selected = pool)).
Proof.
  unfold select_suggestions. intros Hin.
  apply in_map_iff in Hin as (selected & <- & Hdraw).
  exists selected. split; auto.
  destruct (Nat.ltb 3 (List.length pool)) eqn:E.
  - apply Nat.ltb_lt in E. auto.
  - apply Nat.ltb_ge in E. destruct Hdraw as [<-|[]]. auto.
Qed.

Lemma select_suggestions_three language pool d :
  In d (select_suggestions language pool) ->
  dict_keys d = three_keys
  /\ (forall v, In v (dict_values d) -> In v pool \/ v = filler language)
  /\ (3 < List.length pool ->
      List.length (dict_values d) = 3
      /\ exists rest, Permutation (dict_values d ++ rest) pool)
  /\ (List.length pool <= 3 ->
      dict_values d
      = (pool ++ repeat (filler language) (3 - List.length pool))%list).
Proof.
  intros Hin.
  destruct (select_suggestions_draw _ _ _ Hin)
    as (selected & -> & [[Hbig Hdraw]|[Hsmall ->]]).
  - destruct (sample_outcomes_spec _ _ _ Hdraw) as [Hlen (rest & Hperm)].
    destruct (numbered_and_filled language selected) as [Hkeys Hvalues]; [lia|].
    rewrite Hlen in Hvalues. simpl in Hvalues. rewrite app_nil_r in Hvalues.
    rewrite Hvalues. split; [exact Hkeys|]. split; [|split].
    + intros v Hv. left. apply (Permutation_in v Hperm).
      apply in_or_app. now left.
    + intros _. split; [exact Hlen|]. now exists rest.
    + lia.
  - destruct (numbered_and_filled language pool Hsmall) as [Hkeys Hvalues].
    rewrite Hvalues. split; [exact Hkeys|]. split; [|split].
    + intros v Hv. apply in_app_iff in Hv as [Hv|Hv]; auto.
      right. now apply repeat_spec in Hv.
    + lia.
    + reflexivity.
Qed.

Lemma select_suggestions_some language pool :
  select_suggestions language pool <> [].
Proof.
  unfold select_suggestions. destruct (Nat.ltb 3 (List.length pool)) eqn:E.
  - apply Nat.ltb_lt in E. intros Hnil. apply (f_equal (@List.length _)) in Hnil.
    rewrite length_map, sample_outcomes_length in Hnil. simpl in Hnil.
    assert (0 < Rand.falling (List.length pool) 3) by (apply falling_positive; lia).
    simpl in *. lia.
  - discriminate.
Qed.

(** ** Draws from a pool without repeats are pairwise different *)

Section SamplingNoDup.
Context {A : Type}.

Lemma picks_fst (l : list A) : map fst (Rand.picks l) = l.
Proof.
  induction l as [|x r IH]; simpl; auto.
  rewrite map_map. simpl. f_equal. rewrite <- IH at 2. now apply map_ext.
Qed.

Lemma NoDup_headed (g : A * list A -> list (list A)) (ps : list (A * list A)) :
  NoDup (map fst ps) ->
  (forall p, In p ps -> NoDup (g p)) ->
  NoDup (flat_map (fun p => map (cons (fst p)) (g p)) ps).
Proof.
  induction ps as [|p ps IH]; simpl; intros Hfst Hg; [constructor|].
  inversion Hfst as [|? ? Hnotin Hrest]; subst.
  apply NoDup_app.
  - apply Injective_map_NoDup; [|apply Hg; now left].
    intros a b E. now injection E.
  - apply IH; auto.
  - intros sel Hhere Hthere.
    apply in_map_iff in Hhere as (t & <- & _).
    apply in_flat_map in Hthere as (q & Hq & Hsel).
    apply in_map_iff in Hsel as (t' & E & _). injection E as E _.
    apply Hnotin. rewrite <- E. now apply in_map.
Qed.

Lemma sample_outcomes_NoDup k : forall l : list A,
  NoDup l -> NoDup (Rand.sample_outcomes k l).
Proof.
  induction k as [|k IH]; intros l Hl; simpl.
  - repeat constructor. intros [].
  - apply NoDup_headed with (g := fun p => Rand.sample_outcomes k (snd p)).
    + now rewrite picks_fst.
    + intros p Hp. apply IH.
      destruct (picks_spec _ _ Hp) as [Hperm _].
      apply (Permutation_NoDup (Permutation_sym Hperm)) in Hl.
      now inversion Hl.
Qed.

End SamplingNoDup.

Lemma select_suggestions_values language pool :
  3 < List.length pool ->
  map (@dict_values string) (select_suggestions language pool)
  = Rand.sample_outcomes 3 pool.
Proof.
  intros Hbig. unfold select_suggestions.
  apply Nat.ltb_lt in Hbig. rewrite Hbig. rewrite map_map.
  rewrite <- (map_id (Rand.sample_outcomes 3 pool)) at 2.
  apply map_ext_in. intros selected Hdraw.
  destruct (sample_outcomes_spec _ _ _ Hdraw) as [Hlen _].
  destruct (numbered_and_filled language selected) as [_ ->]; [lia|].
  rewrite Hlen. simpl. apply app_nil_r.
Qed.

Section Selector.
Context `{PyEnv}.

Lemma candidate_pool_spec weather_info language temp_min temp_max max_precip :
  float_field weather_info "temp_min" = Ok temp_min ->
  float_field weather_info "temp_max" = Ok temp_max ->
  float_field weather_info "max_precip" = Ok max_precip ->
  exists pool,
    candidate_pool weather_info language = Ok pool
    /\ 3 <= List.length pool <= 5
    /\ forall s, In s pool -> wrapped s = true.
Proof.
  intros Hmin Hmax Hprecip. unfold candidate_pool.
  rewrite Hmin, Hmax, Hprecip. cbn [bind].
  destruct (startswith "zh" language); eexists; (split; [reflexivity|]).
  - rewrite length_app, zh_pool_length.
    pose proof (zh_extras_length temp_min temp_max max_precip).
    split; [lia|]. intros s Hs. apply in_app_iff in Hs as [Hs|Hs].
    + eapply zh_pool_wrapped; eauto.
    + eapply zh_extras_wrapped; eauto.
  - rewrite length_app, en_pool_length.
    pose proof (en_extras_length temp_min temp_max max_precip).
    split; [lia|]. intros s Hs. apply in_app_iff in Hs as [Hs|Hs].
    + eapply en_pool_wrapped; eauto.
    + eapply en_extras_wrapped; eauto.
Qed.

Lemma candidate_pool_wrapped weather_info language pool s :
  candidate_pool weather_info language = Ok pool ->
  In s pool -> wrapped s = true.
Proof.
  unfold candidate_pool.
  destruct (float_field weather_info "temp_min") as [tmin|e]; cbn [bind];
    [|discriminate].
  destruct (float_field weather_info "temp_max") as [tmax|e]; cbn [bind];
    [|discriminate].
  destruct (float_field weather_info "max_precip") as [precip|e]; cbn [bind];
    [|discriminate].
  destruct (startswith "zh" language); intros [= <-] Hs;
    apply in_app_iff in Hs as [Hs|Hs];
    eauto using zh_pool_wrapped, zh_extras_wrapped, en_pool_wrapped,
      en_extras_wrapped.
Qed.

(** C7.  Whatever the size of the candidate pool, every outcome of
    the selection holds exactly the three numbered suggestions, none
    of them empty: a pool of more than three is drawn from without
    replacement, each of the [n (n-1) (n-2)] ordered draws being one
    outcome (no two alike when the pool has no repeats); a smaller
    pool is kept and padded with the filler of the language.  On a
    summary whose numeric fields read as numbers the selector
    returns such outcomes, from a pool of three to five candidates;
    on a summary one of whose numeric fields does not read as a
    number it raises ValueError. *)
Theorem three_suggestions :
  (forall language pool,
      (forall s, In s pool -> s <> "") ->
      select_suggestions language pool <> []
      /\ (3 < List.length pool ->
          List.length (select_suggestions language pool)
          = List.length pool * (List.length pool - 1) * (List.length pool - 2))
      /\ (3 < List.length pool -> NoDup pool ->
          NoDup (map (@dict_values string) (select_suggestions language pool)))
      /\ forall d, In d (select_suggestions language pool) ->
           dict_keys d = three_keys
           /\ List.length (dict_values d) = 3
           /\ (forall v, In v (dict_values d) -> v <> "")
           /\ (3 < List.length pool ->
               exists rest, Permutation (dict_values d ++ rest) pool)
           /\ (List.length pool <= 3 ->
               dict_values d
               = (pool ++ repeat (filler language)
                                 (3 - List.length pool))%list))
  /\ (forall weather_info language temp_min temp_max max_precip,
        float_field weather_info "temp_min" = Ok temp_min ->
        float_field weather_info "temp_max" = Ok temp_max ->
        float_field weather_info "max_precip" = Ok max_precip ->
        exists pool,
          candidate_pool weather_info language = Ok pool
          /\ 3 <= List.length pool <= 5
          /\ (forall s, In s pool -> s <> "")
          /\ generate_activity_suggestions weather_info language
             = Ok (select_suggestions language pool))
  /\ (forall weather_info language key e,
        In key ["temp_min"; "temp_max"; "max_precip"] ->
        float_field weather_info key = Raise e ->
        generate_activity_suggestions weather_info language
        = Raise ValueError).
Proof.
  split; [|split].
  - intros language pool Hpool.
    split; [apply select_suggestions_some|]. split.
    + intros Hbig. unfold select_suggestions.
      apply Nat.ltb_lt in Hbig. rewrite Hbig.
      rewrite length_map, sample_outcomes_length. simpl. lia.
    + split.
      { intros Hbig Hdistinct. rewrite select_suggestions_values by exact Hbig.
        now apply sample_outcomes_NoDup. }
      intros d Hd.
      destruct (select_suggestions_three _ _ _ Hd)
        as (Hkeys & Hfrom & Hbig & Hsmall).
      split; [exact Hkeys|]. split; [|split; [|split]].
      * unfold dict_keys, dict_values in *.
        rewrite length_map. rewrite <- (length_map fst), Hkeys. reflexivity.
      * intros v Hv. destruct (Hfrom v Hv) as [Hin| ->]; auto.
        apply wrapped_nonempty, filler_wrapped.
      * intros Hlen. now apply Hbig.
      * exact Hsmall.
  - intros weather_info language tmin tmax precip Hmin Hmax Hprecip.
    destruct (candidate_pool_spec _ language _ _ _ Hmin Hmax Hprecip)
      as (pool & Hpool & Hlen & Hwrapped).
    exists pool. split; [exact Hpool|]. split; [exact Hlen|].
    split; [intros s Hs; apply wrapped_nonempty; auto|].
    unfold generate_activity_suggestions. now rewrite Hpool.
  - intros weather_info language key e Hkey Hraise.
    assert (forall k x, float_field weather_info k = Raise x -> x = ValueError)
      as Honly.
    { intros k x. unfold float_field.
      destruct (dict_get k weather_info) as [s|]; [|discriminate].
      destruct (float_of_str s); [discriminate|]. now intros [= <-]. }
    unfold generate_activity_suggestions, candidate_pool.
    destruct (float_field weather_info "temp_min") as [lo|x] eqn:Hlo;
      cbn [bind]; [|now rewrite (Honly _ _ Hlo)].
    destruct (float_field weather_info "temp_max") as [hi|x] eqn:Hhi;
      cbn [bind]; [|now rewrite (Honly _ _ Hhi)].
    destruct (float_field weather_info "max_precip") as [pr|x] eqn:Hpr;
      cbn [bind]; [|now rewrite (Honly _ _ Hpr)].
    exfalso. simpl in Hkey.
    destruct Hkey as [<-|[<-|[<-|[]]]]; congruence.
Qed.

(** C10.  Every candidate (the three of a weather bucket, the
    temperature and precipitation extras) and the filler of either
    language family begins with [<li>] and ends with [</li>], and so
    does every suggestion the selector returns. *)
Theorem suggestions_are_list_items :
  (forall weather_type s,
      In s (zh_pool weather_type) \/ In s (en_pool weather_type) ->
      wrapped s = true)
  /\ (forall temp_min temp_max max_precip s,
        In s (zh_extras temp_min temp_max max_precip)
        \/ In s (en_extras temp_min temp_max max_precip) ->
        wrapped s = true)
  /\ (forall language, wrapped (filler language) = true)
  /\ (forall weather_info language outcomes d v,
        generate_activity_suggestions weather_info language = Ok outcomes ->
        In d outcomes -> In v (dict_values d) ->
        startswith "<li>" v = true /\ endswith "</li>" v = true).
Proof.
  split; [intros wt s [Hs|Hs];
          eauto using zh_pool_wrapped, en_pool_wrapped|].
  split; [intros a b c s [Hs|Hs];
          eauto using zh_extras_wrapped, en_extras_wrapped|].
  split; [exact filler_wrapped|].
  intros weather_info language outcomes d v Hrun Hd Hv.
  unfold generate_activity_suggestions in Hrun.
  destruct (candidate_pool weather_info language) as [pool|e] eqn:Hpool;
    cbn [bind] in Hrun; [|discriminate].
  injection Hrun as <-.
  destruct (select_suggestions_three _ _ _ Hd) as (_ & Hfrom & _).
  apply andb_true_iff. change (wrapped v = true).
  destruct (Hfrom v Hv) as [Hin| ->].
  - eapply candidate_pool_wrapped; eauto.
  - apply filler_wrapped.
Qed.

End Selector.

(** C7 at a hot and rainy summary: five candidates, sixty draws. *)
Lemma three_suggestions_witness :
  exists pool,
    candidate_pool hot_rainy_summary "en" = Ok pool
    /\ List.length pool = 5
    /\ generate_activity_suggestions hot_rainy_summary "en"
       = Ok (select_suggestions "en" pool)
    /\ List.length (select_suggestions "en" pool) = 60
    /\ forall d, In d (select_suggestions "en" pool) ->
         dict_keys d = three_keys /\ List.length (dict_values d) = 3.
Proof.
  destruct three_suggestions as (Htail & Hfull & _).
  destruct (Hfull hot_rainy_summary "en" (18 # 1)%Q (35 # 1)%Q (80 # 1)%Q
              eq_refl eq_refl eq_refl)
    as (pool & Hpool & Hlen & Hnonempty & Hrun).
  destruct (Htail "en" pool Hnonempty) as (_ & Hcount & _ & Hall).
  assert (List.length pool = 5) as Hfive.
  { vm_compute in Hpool. injection Hpool as <-. reflexivity. }
  exists pool. split; [exact Hpool|]. split; [exact Hfive|].
  split; [exact Hrun|]. split.
  - rewrite Hcount; rewrite Hfive; [reflexivity|lia].
  - intros d Hd. destruct (Hall d Hd) as (Hkeys & Hthree & _). auto.
Defined.

(** C7, as stated: on a summary whose minimum is the text Unknown the
    selector raises ValueError and returns no suggestion. *)
Lemma unreadable_summary_raises :
  generate_activity_suggestions unreadable_summary "en" = Raise ValueError
  /\ forall outcomes,
       generate_activity_suggestions unreadable_summary "en" <> Ok outcomes.
Proof.
  split; [vm_compute; reflexivity|].
  intros outcomes. vm_compute. discriminate.
Qed.

(** C10 at the hot and rainy summary, in Chinese. *)
Lemma suggestions_are_list_items_witness :
  exists outcomes d v,
    generate_activity_suggestions hot_rainy_summary "zh-cn" = Ok outcomes
    /\ In d outcomes /\ In v (dict_values d)
    /\ startswith "<li>" v = true /\ endswith "</li>" v = true.
Proof.
  destruct suggestions_are_list_items as (_ & _ & _ & Hall).
  do 3 eexists. split; [vm_compute; reflexivity|].
  split; [left; reflexivity|]. split; [left; reflexivity|].
  eapply (Hall hot_rainy_summary "zh-cn").
  - vm_compute. reflexivity.
  - left. reflexivity.
  - left. reflexivity.
Defined.

(** ** Narratives when the text generator fails *)




Section Fallbacks.
Context `{PyEnv}.



End Fallbacks.


(** A body without choices is no failure for the code: the letter is
    empty and the log stays as it was. *)
Lemma bare_reply_gives_empty_letter :
  generate_weather_letter bare_reply rainy_weather (Some eludecia)
    (start_state empty_db)
  = (start_state empty_db, Ok "").
Proof. vm_compute. reflexivity. Qed.


(** ** The refresh cycle *)

(** The loop visits every element while the body returns, and every
    state on the way is related to the first by a preorder the body
    respects. *)
Lemma forM_preserves {A} (R : state -> state -> Prop) (l : list A)
    (body : A -> M unit) :
  (forall s, R s s) ->
  (forall s1 s2 s3, R s1 s2 -> R s2 s3 -> R s1 s3) ->
  (forall x s s' r, In x l -> body x s = (s', r) -> R s s') ->
  forall s s' r, forM l body s = (s', r) -> R s s'.
Proof.
  intros Hrefl Htrans. induction l as [|x rest IH]; intros Hbody s s' r; simpl.
  - unfold ret. intros [= <- _]. apply Hrefl.
  - unfold bindM. destruct (body x s) as [s1 [[]|e]] eqn:Hx.
    + intros Hrest. apply Htrans with s1.
      * apply (Hbody x s s1 (Ok tt)); auto. now left.
      * apply (IH (fun y t t' r' Hy => Hbody y t t' r' (or_intror Hy)) _ _ _ Hrest).
    + intros [= <- _]. apply (Hbody x s s1 (Raise e)); auto. now left.
Qed.

Lemma extends_refl s : extends s s.
Proof.
  split; [reflexivity|]. split; [reflexivity|].
  split; [exists []; now rewrite app_nil_r|].
  split; [exists []; now rewrite app_nil_r|].
  exists []. split; [now rewrite app_nil_r|]. intros z [].
Qed.

Lemma extends_trans s1 s2 s3 : extends s1 s2 -> extends s2 s3 -> extends s1 s3.
Proof.
  intros (Hl & Hw & [xs Hx] & [ys Hy] & [zs [Hz Hnone]])
         (Hl' & Hw' & [xs' Hx'] & [ys' Hy'] & [zs' [Hz' Hnone']]).
  split; [congruence|]. split; [congruence|].
  split; [exists (xs ++ xs')%list; rewrite Hx', Hx; now rewrite app_assoc|].
  split; [exists (ys ++ ys')%list; rewrite Hy', Hy; now rewrite app_assoc|].
  exists (zs ++ zs')%list. split.
  - rewrite Hz', Hz. now rewrite app_assoc.
  - intros z Hin. apply in_app_iff in Hin as [Hin|Hin]; auto.
Qed.

(** One table got the rows [xs], [ys], [zs] appended. *)
Lemma extends_by s s' xs ys zs :
  st_log s' = st_log s ->
  weather_rows (st_db s') = weather_rows (st_db s) ->
  characters (st_db s') = (characters (st_db s) ++ xs)%list ->
  cities (st_db s') = (cities (st_db s) ++ ys)%list ->
  city_characters (st_db s') = (city_characters (st_db s) ++ zs)%list ->
  (forall z, In z zs -> cc_weather_letter z = None) ->
  extends s s'.
Proof. intros. unfold extends. eauto 10. Qed.

Lemma fresh_id_new {A} (pk : A -> nat) (rows : list A) :
  ~ In (fresh_id pk rows) (map pk rows).
Proof.
  assert (forall n, In n (map pk rows) -> n < fresh_id pk rows) as Hlt.
  { unfold fresh_id. induction rows as [|x r IH]; simpl; [intros n []|].
    intros n [<-|Hn]; [lia|]. specialize (IH n Hn). lia. }
  intros Hin. specialize (Hlt _ Hin). lia.
Qed.

Lemma NoDup_snoc {A} (l : list A) (x : A) :
  NoDup l -> ~ In x l -> NoDup (l ++ [x]).
Proof.
  intros Hl Hx. apply NoDup_app; auto.
  - repeat constructor. intros [].
  - intros y Hy [<-|[]]. contradiction.
Qed.

Lemma get_one_cases {A} (matches : list A) :
  (matches = [] /\ get_one matches = Ok None)
  \/ (exists x, matches = [x] /\ get_one matches = Ok (Some x))
  \/ (2 <= List.length matches /\ get_one matches = Raise MultipleObjectsReturned).
Proof.
  destruct matches as [|x [|y r]]; simpl; eauto.
  right. right. split; [lia|reflexivity].
Qed.

Lemma get_or_create_character_extends name description color s s' r :
  get_or_create_character name description color s = (s', r) ->
  extends s s' /\ (db_ok (st_db s) -> db_ok (st_db s')).
Proof.
  unfold get_or_create_character. run_monad.
  destruct (get_one _) as [[c|]|e]; intros [= <- _]; simpl;
    try (split; [apply extends_refl|auto]).
  split.
  - eapply (extends_by _ _ [_] [] []); simpl; rewrite ?app_nil_r;
      try reflexivity.
    intros z [].
  - intros (Hc & Hcc & Hw & Hfk).
    split; [exact Hc|]. split; [exact Hcc|]. split; [exact Hw|].
    intros cc Hin. destruct (Hfk cc Hin) as (c & Hc' & Hid).
    exists c. split; auto. simpl. apply in_or_app. now left.
Qed.

Lemma get_or_create_city_extends name country s s' r :
  get_or_create_city name country s = (s', r) ->
  extends s s' /\ (db_ok (st_db s) -> db_ok (st_db s'))
  /\ forall c, r = Ok c -> In c (cities (st_db s')).
Proof.
  unfold get_or_create_city. run_monad.
  destruct (get_one_cases (filter (located name country) (cities (st_db s))))
    as [[Hnone ->]|[(c & Hone & ->)|[_ ->]]]; intros [= <- <-]; simpl.
  - split; [|split].
    + eapply (extends_by _ _ [] [_] []); simpl; rewrite ?app_nil_r;
        try reflexivity.
      intros z [].
    + intros (Hc & Hcc & Hw & Hfk).
      split; [|split; [exact Hcc|split; [exact Hw|exact Hfk]]]. simpl.
      rewrite map_app. simpl. apply NoDup_snoc; auto. apply fresh_id_new.
    + intros c [= <-]. apply in_or_app. right. now left.
  - split; [apply extends_refl|]. split; auto.
    intros c' [= <-].
    assert (In c (filter (located name country) (cities (st_db s)))) as Hin
        by (rewrite Hone; now left).
    now apply filter_In in Hin.
  - split; [apply extends_refl|]. split; auto. intros c [=].
Qed.

Lemma get_or_create_city_character_extends w city character s s' r :
  get_or_create_city_character w city character s = (s', r) ->
  extends s s'
  /\ characters (st_db s') = characters (st_db s)
  /\ ((exists c, In c (characters (st_db s)) /\ char_id c = character) ->
      db_ok (st_db s) -> db_ok (st_db s')).
Proof.
  unfold get_or_create_city_character. run_monad.
  destruct (get_one _) as [[c|]|e]; intros [= <- _]; simpl;
    try (split; [apply extends_refl|auto]).
  split; [|split; auto].
  - eapply (extends_by _ _ [] [] [_]); simpl; rewrite ?app_nil_r;
      try reflexivity.
    intros z [<-|[]]. reflexivity.
  - intros Hchar (Hc & Hcc & Hw & Hfk).
    split; [exact Hc|]. split; [|split; [exact Hw|]]; simpl.
    + rewrite map_app. simpl. apply NoDup_snoc; auto. apply fresh_id_new.
    + intros cc Hin. apply in_app_iff in Hin as [Hin|[<-|[]]]; auto.
Qed.

Lemma get_character_member name s s' c :
  get_character name s = (s', Ok c) -> s' = s /\ In c (characters (st_db s)).
Proof.
  unfold get_character. run_monad.
  destruct (get_one_cases (filter (named name) (characters (st_db s))))
    as [[Hnone ->]|[(x & Hone & ->)|[_ ->]]]; intros E; try discriminate E.
  injection E as <- <-. split; auto.
  assert (In x (filter (named name) (characters (st_db s)))) as Hin
      by (rewrite Hone; now left).
  now apply filter_In in Hin.
Qed.

Lemma get_character_state name s s' r : get_character name s = (s', r) -> s' = s.
Proof.
  unfold get_character. run_monad.
  destruct (get_one _) as [[c|]|e]; now intros [= <- _].
Qed.

(** [ensure_default_data] only adds rows, and keeps a well-formed
    database well-formed. *)
Lemma ensure_default_data_extends cfg w s s' r :
  ensure_default_data cfg w s = (s', r) ->
  extends s s' /\ (db_ok (st_db s) -> db_ok (st_db s')).
Proof.
  unfold ensure_default_data. unfold bindM at 1.
  destruct (get_or_create_character _ _ _ s) as [s1 r1] eqn:H1.
  apply get_or_create_character_extends in H1 as [E1 K1].
  destruct r1 as [c1|e]; [|intros [= <- _]; auto].
  unfold bindM at 1.
  destruct (forM (DEFAULT_CITIES cfg) _ s1) as [s2 r2] eqn:H2.
  assert (extends s1 s2 /\ (db_ok (st_db s1) -> db_ok (st_db s2))) as [E2 K2].
  { revert H2.
    apply (forM_preserves
             (fun a b => extends a b /\ (db_ok (st_db a) -> db_ok (st_db b)))).
    - intros t. split; [apply extends_refl|auto].
    - intros t1 t2 t3 [Ea Ka] [Eb Kb].
      split; [eapply extends_trans; eauto|auto].
    - intros city_data t t' r' _. unfold bindM.
      destruct (get_or_create_city _ _ t) as [t1 [c|e]] eqn:Hc;
        apply get_or_create_city_extends in Hc as (Ec & Kc & _);
        unfold ret; intros [= <- _]; auto. }
  destruct r2 as [[]|e];
    [|intros [= <- _]; split; [eapply extends_trans; eauto|auto]].
  unfold bindM at 1.
  destruct (get_character default_character_name s2) as [s3 r3] eqn:H3.
  pose proof (get_character_state _ _ _ _ H3) as ->.
  destruct r3 as [default_char|e];
    [|intros [= <- _]; split; [eapply extends_trans; eauto|auto]].
  apply get_character_member in H3 as [_ Hmember].
  unfold bindM at 1, get_db at 1. intros H4.
  assert (extends s2 s'
          /\ characters (st_db s') = characters (st_db s2)
          /\ (In default_char (characters (st_db s2)) ->
              db_ok (st_db s2) -> db_ok (st_db s'))) as (E4 & _ & K4).
  { revert H4.
    apply (forM_preserves
             (fun a b => extends a b
                         /\ characters (st_db b) = characters (st_db a)
                         /\ ((In default_char (characters (st_db a)) ->
                              db_ok (st_db a) -> db_ok (st_db b))))).
    - intros t. split; [apply extends_refl|auto].
    - intros t1 t2 t3 (Ea & Ca & Ka) (Eb & Cb & Kb).
      split; [eapply extends_trans; eauto|]. split; [congruence|].
      intros Hin Hok. apply Kb; [rewrite Ca; exact Hin|auto].
    - intros city t t' r' _. unfold bindM.
      destruct (get_or_create_city_character _ _ _ t) as [t1 [c|e]] eqn:Hc;
        apply get_or_create_city_character_extends in Hc as (Ec & Cc & Kc);
        unfold ret; intros [= <- _]; (split; [exact Ec|]);
        (split; [exact Cc|]); intros Hin; apply Kc; eauto. }
  split.
  - eapply extends_trans; [exact E1|]. eapply extends_trans; eauto.
  - intros Hok. apply K4; auto. 
Qed.

Lemma log_grows_refl s : log_grows s s.
Proof. exists []. now rewrite app_nil_r. Qed.

Lemma log_grows_trans s1 s2 s3 :
  log_grows s1 s2 -> log_grows s2 s3 -> log_grows s1 s3.
Proof.
  intros [a Ha] [b Hb]. exists (a ++ b)%list.
  rewrite Hb, Ha. now rewrite app_assoc.
Qed.

Lemma log_grows_In s s' record :
  log_grows s s' -> In record (st_log s) -> In record (st_log s').
Proof. intros [extra ->] Hin. apply in_or_app. now left. Qed.

Section CityStep.
Context `{PyEnv}.

Lemma generate_weather_letter_state w wd character s s' r :
  generate_weather_letter w wd character s = (s', r) ->
  st_db s' = st_db s /\ log_grows s s'.
Proof.
  unfold generate_weather_letter, letter_failed. run_monad.
  destruct (user_prompt_of wd) as [prompt|e];
    [|intros [= <- _]; split; [reflexivity|apply log_grows_refl]].
  destruct (openai_available w).
  - destruct (chat_completion w _ prompt); intros [= <- _]; simpl;
      (split; [reflexivity|]);
      [apply log_grows_refl|eexists; reflexivity].
  - destruct (post_completion w _ prompt) as [msg|code text json].
    + intros [= <- _]. simpl. split; [reflexivity|eexists; reflexivity].
    + destruct (code =? 200)%Z.
      * destruct json as [body|e];
          [destruct (content_of body)|];
          intros [= <- _]; simpl; (split; [reflexivity|]);
          first [apply log_grows_refl|eexists; reflexivity].
      * intros [= <- _]. simpl. split; [reflexivity|eexists; reflexivity].
Qed.

(** The letter and the records do not depend on the state. *)
Lemma generate_weather_letter_exact w wd c s s' r :
  generate_weather_letter w wd (Some c) s = (s', r) ->
  st_db s' = st_db s
  /\ st_log s' = (st_log s ++ letter_log w wd c)%list
  /\ r = letter_for w wd c.
Proof.
  unfold letter_log, letter_for, generate_weather_letter, letter_failed.
  run_monad.
  destruct (user_prompt_of wd) as [prompt|e];
    [|intros [= <- <-]; simpl; now rewrite app_nil_r].
  destruct (openai_available w).
  - destruct (chat_completion w _ prompt); intros [= <- <-]; simpl;
      rewrite ?app_nil_r; auto.
  - destruct (post_completion w _ prompt) as [msg|code text json].
    + intros [= <- <-]. simpl. auto.
    + destruct (code =? 200)%Z.
      * destruct json as [body|e];
          [destruct (content_of body)|];
          intros [= <- <-]; simpl; rewrite ?app_nil_r; auto.
      * intros [= <- <-]. simpl. auto.
Qed.

(** One letter written: the rows of that binding's key get it. *)
Lemma write_letter_effect w wd cc s s' :
  write_letter w wd cc s = (s', Ok tt) ->
  characters (st_db s') = characters (st_db s)
  /\ cities (st_db s') = cities (st_db s)
  /\ weather_rows (st_db s') = weather_rows (st_db s)
  /\ log_grows s s'
  /\ st_log s'
     = (st_log s ++ letters_log w wd (characters (st_db s)) [cc])%list
  /\ exists letter,
       letter_of w wd (characters (st_db s)) cc letter
       /\ city_characters (st_db s')
          = map (fun x => if Nat.eqb (cc_id x) (cc_id cc)
                          then set_letter w letter x else x)
                (city_characters (st_db s)).
Proof.
  unfold write_letter, character_of. unfold bindM at 1 2, get_db at 1.
  unfold letters_log, letter_of. cbn [flat_map].
  destruct (find _ _) as [c|] eqn:Hfind; [|unfold raise; discriminate].
  unfold ret at 1. unfold bindM at 1.
  destruct (generate_weather_letter w wd (Some c) s) as [s1 [letter|e]] eqn:Hg;
    [|discriminate].
  pose proof (generate_weather_letter_exact _ _ _ _ _ _ Hg)
    as (_ & Hexact & Hletter).
  apply generate_weather_letter_state in Hg as [Hdb Hlog].
  unfold save_letter. run_monad. intros [= <-]. simpl. rewrite Hdb.
  repeat (split; [reflexivity|]). split; [exact Hlog|].
  split; [now rewrite app_nil_r|].
  exists letter. split; [|reflexivity]. exists c. auto.
Qed.


(** The loop over the active bindings, when it completes. *)
Lemma letters_loop w wd actives : forall s s',
  forM actives (write_letter w wd) s = (s', Ok tt) ->
  characters (st_db s') = characters (st_db s)
  /\ cities (st_db s') = cities (st_db s)
  /\ weather_rows (st_db s') = weather_rows (st_db s)
  /\ log_grows s s'
  /\ st_log s'
     = (st_log s ++ letters_log w wd (characters (st_db s)) actives)%list
  /\ exists g,
       city_characters (st_db s') = map g (city_characters (st_db s))
       /\ forall x0,
            relettered w wd (characters (st_db s)) actives x0 (g x0).
Proof.
  induction actives as [|cc rest IH]; intros s s'; simpl.
  - unfold ret. intros [= <-].
    repeat (split; [reflexivity|]). split; [apply log_grows_refl|].
    split; [unfold letters_log; simpl; now rewrite app_nil_r|].
    exists (fun x => x). split; [now rewrite map_id|].
    intros x0. split; [intros []|reflexivity].
  - unfold bindM.
    destruct (write_letter w wd cc s) as [s1 [[]|e]] eqn:Hone; [|discriminate].
    intros Hrest.
    apply write_letter_effect in Hone
      as (Hc1 & Hy1 & Hw1 & Hl1 & Hlog1 & letter & Hletter & Hcc1).
    apply IH in Hrest as (Hc2 & Hy2 & Hw2 & Hl2 & Hlog2 & g & Hcc2 & Hg).
    rewrite Hc1 in Hlog2, Hg.
    split; [congruence|]. split; [congruence|]. split; [congruence|].
    split; [eapply log_grows_trans; eauto|].
    split.
    { rewrite Hlog2, Hlog1. unfold letters_log. cbn [flat_map].
      rewrite app_nil_r. now rewrite app_assoc. }
    exists (fun x => g (if Nat.eqb (cc_id x) (cc_id cc)
                        then set_letter w letter x else x)).
    split; [rewrite Hcc2, Hcc1; now rewrite map_map|].
    intros x0. destruct (Nat.eqb (cc_id x0) (cc_id cc)) eqn:E.
    + apply Nat.eqb_eq in E. split; [|intros Hnot; exfalso; apply Hnot; now left].
      intros _. destruct (Hg (set_letter w letter x0)) as [Hin Hout].
      simpl in Hin, Hout.
      destruct (in_dec Nat.eq_dec (cc_id x0) (map cc_id rest)) as [Hlater|Hnot].
      * destruct (Hin Hlater) as (cc' & l & Hcc' & Hid & Hl & Heq).
        exists cc', l. split; [now right|]. split; [exact Hid|].
        split; [exact Hl|]. rewrite Heq. reflexivity.
      * rewrite (Hout Hnot). exists cc, letter.
        split; [now left|]. auto.
    + apply Nat.eqb_neq in E. destruct (Hg x0) as [Hin Hout]. split.
      * intros [Heq|Hlater]; [congruence|].
        destruct (Hin Hlater) as (cc' & l & Hcc' & Hid & Hl & Heq).
        exists cc', l. split; [now right|]. auto.
      * intros Hnot. apply Hout. intros Hlater. apply Hnot. now right.
Qed.


Lemma nullable_cases column v :
  (exists e, nullable column v = Raise e)
  \/ exists v', nullable column v = Ok v'.
Proof. destruct (nullable column v); eauto. Qed.

(** The lookup fails on a location with several rows; otherwise the
    values are prepared and the row is handed to the database, and
    either step may fail, leaving the state as it was. *)
Lemma update_or_create_effect w city country f0 s s' r :
  update_or_create w city country f0 s = (s', r) ->
  (s' = s
   /\ exists e,
        r = Raise e
        /\ ((e = MultipleObjectsReturned
             /\ 2 <= List.length (rows_of city country (st_db s)))
            \/ (List.length (rows_of city country (st_db s)) <= 1
                /\ (prepare f0 = Raise e
                    \/ exists f row,
                         prepare f0 = Ok f
                         /\ store_error w row = Some e))))
  \/ (exists saved f,
        prepare f0 = Ok f
        /\ r = Ok saved
        /\ wc_city (fst saved) = city /\ wc_country (fst saved) = country
        /\ snd saved
           = match rows_of city country (st_db s) with
             | [] => true
             | _ :: _ => false
             end
        /\ st_log s' = st_log s
        /\ characters (st_db s') = characters (st_db s)
        /\ cities (st_db s') = cities (st_db s)
        /\ city_characters (st_db s') = city_characters (st_db s)
        /\ rows_step w city country f
             (weather_rows (st_db s)) (weather_rows (st_db s'))).
Proof.
  unfold update_or_create, store. run_monad. unfold rows_of.
  destruct (get_one_cases (filter (keyed city country) (weather_rows (st_db s))))
    as [[Hnone ->]|[(x & Hone & ->)|[Hmany ->]]].
  - rewrite Hnone.
    destruct (prepare f0) as [f|e] eqn:Hprep.
    + destruct (store_error w _) as [e|] eqn:Hstore; intros [= <- <-].
      * left. split; [reflexivity|]. exists e. split; [reflexivity|].
        right. split; [simpl; lia|]. right. eauto.
      * right. do 2 eexists. split; [reflexivity|].
        split; [reflexivity|]. simpl.
        repeat (split; [reflexivity|]). left. auto.
    + intros [= <- <-]. left. split; [reflexivity|]. exists e.
      split; [reflexivity|]. right. split; [simpl; lia|]. now left.
  - rewrite Hone.
    destruct (prepare f0) as [f|e] eqn:Hprep.
    + destruct (store_error w _) as [e|] eqn:Hstore; intros [= <- <-].
      * left. split; [reflexivity|]. exists e. split; [reflexivity|].
        right. split; [simpl; lia|]. right. eauto.
      * right. do 2 eexists. split; [reflexivity|].
        split; [reflexivity|]. simpl.
        assert (In x (filter (keyed city country) (weather_rows (st_db s))))
          as Hin by (rewrite Hone; now left).
        apply filter_In in Hin as [_ Hkey]. unfold keyed in Hkey.
        apply andb_true_iff in Hkey as [Hc Hy].
        apply String.eqb_eq in Hc, Hy.
        split; [exact Hc|]. split; [exact Hy|].
        repeat (split; [reflexivity|]). right. eauto.
    + intros [= <- <-]. left. split; [reflexivity|]. exists e.
      split; [reflexivity|]. right. split; [simpl; lia|]. now left.
  - intros [= <- <-]. left. split; [reflexivity|].
    exists MultipleObjectsReturned. split; [reflexivity|]. left. auto.
Qed.

End CityStep.

Section CityUpdate.
Context `{PyEnv}.

Lemma write_letter_grows w wd cc s s' r :
  write_letter w wd cc s = (s', r) -> log_grows s s'.
Proof.
  unfold write_letter, character_of. unfold bindM at 1 2, get_db at 1.
  destruct (find _ _) as [c|];
    [|unfold raise; intros [= <- _]; apply log_grows_refl].
  unfold ret at 1. unfold bindM at 1.
  destruct (generate_weather_letter w wd (Some c) s) as [s1 [letter|e]] eqn:Hg;
    apply generate_weather_letter_state in Hg as [_ Hlog].
  - unfold save_letter. run_monad. intros [= <- _]. exact Hlog.
  - intros [= <- _]. exact Hlog.
Qed.


Lemma active_characters_same city d d' :
  city_characters d' = city_characters d ->
  active_characters_of city d' = active_characters_of city d.
Proof. unfold active_characters_of. now intros ->. Qed.

(** A committed transaction. *)
Lemma store_weather_effect w city wd s s' :
  store_weather w city wd s = (s', Ok tt) ->
  exists f0 f,
    snapshot_of wd = Ok f0
    /\ prepare f0 = Ok f
    /\ stored w city wd f (st_db s) (st_db s')
    /\ log_grows s s'
    /\ st_log s'
       = (st_log s
          ++ letters_log w wd (characters (st_db s))
               (active_characters_of city (st_db s))
          ++ [(INFO, ((if is_new city (st_db s) then "Created"
                       else "Updated")
                      ++ " weather data for " ++ city_name city ++ ", "
                      ++ city_country city)%string)])%list.
Proof.
  unfold store_weather. unfold bindM at 1, lift at 1.
  destruct (snapshot_of wd) as [f0|e]; [|discriminate].
  unfold bindM at 1.
  destruct (update_or_create w _ _ f0 s) as [s1 r1] eqn:Hsave.
  apply update_or_create_effect in Hsave
    as [(_ & e & -> & _)
       |([row created] & f & Hprep & -> & Hcity & Hcountry & Hnew
         & Hl & Hc & Hy & Hcc & Hrows)];
    [discriminate|].
  cbn [fst snd] in Hcity, Hcountry, Hnew.
  unfold bindM at 1, get_db at 1. unfold bindM at 1.
  destruct (forM _ _ s1) as [s2 [[]|e]] eqn:Hloop; [|discriminate].
  rewrite (active_characters_same city _ _ Hcc) in Hloop.
  apply letters_loop in Hloop
    as (Hc2 & Hy2 & Hw2 & Hl2 & Hlog2 & g & Hg & Hrel).
  unfold log_msg. intros [= <-]. simpl.
  exists f0, f. split; [reflexivity|]. split; [exact Hprep|].
  rewrite Hc in Hrel, Hlog2. split; [|split].
  - split; [congruence|]. split; [congruence|]. split; [now rewrite Hw2|].
    exists g. split; [now rewrite Hg, Hcc|exact Hrel].
  - destruct Hl2 as [extra Hextra]. eexists. simpl.
    rewrite Hextra, Hl, <- app_assoc. reflexivity.
  - rewrite Hlog2, Hl, Hcity, Hcountry, Hnew. unfold is_new.
    now rewrite <- app_assoc.
Qed.

Lemma store_weather_grows w city wd s s' r :
  store_weather w city wd s = (s', r) -> log_grows s s'.
Proof.
  unfold store_weather. unfold bindM at 1, lift at 1.
  destruct (snapshot_of wd) as [f|e];
    [|intros [= <- _]; apply log_grows_refl].
  unfold bindM at 1.
  destruct (update_or_create w _ _ f s) as [s1 r1] eqn:Hsave.
  apply update_or_create_effect in Hsave
    as [(-> & e & -> & _)|([row created] & f1 & _ & -> & _ & _ & _ & Hl & _)];
    [intros [= <- _]; apply log_grows_refl|].
  assert (log_grows s s1) as H01 by (exists []; now rewrite app_nil_r).
  unfold bindM at 1, get_db at 1. unfold bindM at 1.
  destruct (forM _ _ s1) as [s2 r2] eqn:Hloop.
  assert (log_grows s1 s2) as H12.
  { revert Hloop. apply forM_preserves.
    - apply log_grows_refl.
    - apply log_grows_trans.
    - intros cc t t' r' _. apply write_letter_grows. }
  destruct r2 as [[]|e].
  - unfold log_msg. intros [= <- _].
    eapply log_grows_trans; [exact H01|].
    eapply log_grows_trans; [exact H12|]. eexists. reflexivity.
  - intros [= <- _]. eapply log_grows_trans; eauto.
Qed.



(** Whatever happens, the update of one city returns; it either
    leaves the tables as they were or commits a snapshot and the
    letters. *)
Lemma update_city_weather_effect cfg w city s s' r :
  update_city_weather cfg w city s = (s', r) ->
  r = Ok tt
  /\ log_grows s s'
  /\ (st_db s' = st_db s
      \/ exists wd f0 f,
           reply_for cfg w city = HttpJson (Some wd)
           /\ snapshot_of wd = Ok f0
           /\ prepare f0 = Ok f
           /\ stored w city wd f (st_db s) (st_db s')).
Proof.
  unfold update_city_weather, fetch_weather_data.
  change (http_get w _) with (reply_for cfg w city).
  unfold bindM at 1, log_msg at 1. unfold bindM at 1.
  destruct (reply_for cfg w city) as [e|[wd|]].
  - run_monad. simpl. intros [= <- <-]. split; [reflexivity|].
    split; [|now left]. eexists. simpl. rewrite <- !app_assoc. reflexivity.
  - unfold ret at 1. unfold try_except, atomic.
    match goal with
    | |- context [store_weather w city wd ?t] =>
        destruct (store_weather w city wd t) as [s1 [[]|e]] eqn:Hstore
    end.
    + intros [= <- <-]. split; [reflexivity|].
      pose proof (store_weather_grows _ _ _ _ _ _ Hstore) as [extra Hlog].
      apply store_weather_effect in Hstore
        as (f0 & f & Hsnap & Hprep & Hstored & _).
      split.
      * eexists. rewrite Hlog. simpl. rewrite <- app_assoc. reflexivity.
      * right. exists wd, f0, f. auto.
    + apply store_weather_grows in Hstore as [extra Hlog].
      unfold log_msg. intros [= <- <-]. split; [reflexivity|]. split.
      * eexists. simpl. rewrite Hlog. simpl. rewrite <- !app_assoc.
        reflexivity.
      * now left.
  - run_monad. simpl. intros [= <- <-]. split; [reflexivity|].
    split; [|now left]. eexists. simpl. rewrite <- !app_assoc. reflexivity.
Qed.


End CityUpdate.

(** ** What a committed update changes *)

Lemma filter_map_same {A} (p : A -> bool) (g : A -> A) (l : list A) :
  (forall x, p (g x) = p x) -> filter p (map g l) = map g (filter p l).
Proof.
  intros Hp. induction l as [|x r IH]; simpl; auto.
  rewrite Hp. destruct (p x); simpl; now rewrite IH.
Qed.


Lemma keyed_iff city country r :
  keyed city country r = true <-> wc_city r = city /\ wc_country r = country.
Proof.
  unfold keyed. rewrite andb_true_iff, !String.eqb_eq. reflexivity.
Qed.

Section Relettered.
Context `{PyEnv}.

Lemma relettered_same w wd chars actives x0 x :
  relettered w wd chars actives x0 x ->
  cc_id x = cc_id x0 /\ cc_city x = cc_city x0
  /\ cc_character x = cc_character x0 /\ cc_is_active x = cc_is_active x0
  /\ (x = x0
      \/ exists cc letter,
           In cc actives /\ cc_id cc = cc_id x0
           /\ letter_of w wd chars cc letter
           /\ x = set_letter w letter x0).
Proof.
  intros [Hin Hout].
  destruct (in_dec Nat.eq_dec (cc_id x0) (map cc_id actives)) as [Hyes|Hno].
  - destruct (Hin Hyes) as (cc & letter & Hcc & Hid & Hletter & ->). simpl.
    do 4 (split; [reflexivity|]). right. exists cc, letter. auto.
  - rewrite (Hout Hno). repeat split; auto.
Qed.


End Relettered.

Section Stored.
Context `{PyEnv}.
Variables (w : world) (city : City) (wd : weather_data)
          (f : snapshot_fields) (d d' : database).
Hypothesis Hstored : stored w city wd f d d'.

(** Per location, a row is added only where there was none. *)
Lemma stored_count name country :
  let n := List.length (rows_of name country d) in
  let n' := List.length (rows_of name country d') in
  (1 <= n -> n' = n) /\ (n = 0 -> n' <= 1).
Proof.
  unfold rows_of. cbv zeta.
  destruct Hstored as (_ & _ & [[Hnone ->]|(r & Hone & ->)] & _).
  - rewrite filter_app, length_app. simpl.
    destruct (keyed name country _) eqn:Hkey; simpl; [|lia].
    apply keyed_iff in Hkey as [<- <-]. simpl.
    rewrite Hnone. simpl. lia.
  - rewrite filter_map_same, length_map; [lia|].
    intros x. destruct (Nat.eqb _ _); reflexivity.
Qed.

Lemma stored_total :
  List.length (weather_rows d') = List.length (weather_rows d)
  \/ (rows_of (city_name city) (city_country city) d = []
      /\ List.length (weather_rows d') = S (List.length (weather_rows d))).
Proof.
  destruct Hstored as (_ & _ & [[Hnone ->]|(r & Hone & ->)] & _).
  - right. split; [exact Hnone|]. rewrite length_app. simpl. lia.
  - left. apply length_map.
Qed.







Lemma stored_db_ok : db_ok d -> db_ok d'.
Proof.
  intros (Hc & Hcc & Hw & Hfk).
  destruct Hstored as (Hchars & Hcities & Hrows & g & Hg & Hrel).
  split; [now rewrite Hcities|]. split; [|split].
  - rewrite Hg, map_map.
    erewrite map_ext; [exact Hcc|]. intros x. simpl.
    now destruct (relettered_same _ _ _ _ _ _ (Hrel x)) as (-> & _).
  - destruct Hrows as [[Hnone ->]|(r & Hone & ->)].
    + rewrite map_app. simpl. apply NoDup_snoc; auto. apply fresh_id_new.
    + rewrite map_map. erewrite map_ext; [exact Hw|].
      intros x. simpl. destruct (Nat.eqb _ _); reflexivity.
  - intros cc Hin. rewrite Hg in Hin.
    apply in_map_iff in Hin as (x0 & <- & Hx0).
    destruct (relettered_same _ _ _ _ _ _ (Hrel x0)) as (_ & _ & -> & _).
    rewrite Hchars. auto.
Qed.

End Stored.

(** ** The cycle as a whole *)


Lemma forM_returns {A} (l : list A) (body : A -> M unit) :
  (forall x s s' r, body x s = (s', r) -> r = Ok tt) ->
  forall s s' r, forM l body s = (s', r) -> r = Ok tt.
Proof.
  intros Hbody. induction l as [|x rest IH]; intros s s' r; simpl.
  - unfold ret. now intros [= _ <-].
  - unfold bindM. destruct (body x s) as [s1 r1] eqn:Hx.
    rewrite (Hbody _ _ _ _ Hx). apply IH.
Qed.

Lemma counts_kept_refl d : counts_kept d d.
Proof. intros name country. split; auto. Qed.

Lemma counts_kept_trans d1 d2 d3 :
  counts_kept d1 d2 -> counts_kept d2 d3 -> counts_kept d1 d3.
Proof.
  intros H12 H23 name country.
  destruct (H12 name country) as [Ha Hb], (H23 name country) as [Hc Hd].
  split; intros Hn.
  - rewrite Hc; rewrite Ha; auto.
  - auto.
Qed.

Lemma counts_kept_same d d' :
  weather_rows d' = weather_rows d -> counts_kept d d'.
Proof.
  intros Hrows name country. unfold rows_of. rewrite Hrows. split; auto.
Qed.

Lemma stored_counts_kept `{PyEnv} w city wd f d d' :
  stored w city wd f d d' -> counts_kept d d'.
Proof.
  intros Hstored name country.
  destruct (stored_count w city wd f d d' Hstored name country)
    as [Hsame Hnew].
  cbv zeta in *. split; [exact Hsame|]. intros Hle.
  destruct (List.length (rows_of name country d)) as [|n] eqn:E.
  - now apply Hnew.
  - rewrite Hsame; lia.
Qed.

Section Cycle.
Context `{PyEnv}.
Variables (cfg : settings) (w : world).

Lemma visit_keeps_refl s : visit_keeps s s.
Proof.
  split; [apply log_grows_refl|]. repeat (split; [reflexivity|]).
  split; [apply counts_kept_refl|auto].
Qed.

Lemma visit_keeps_trans s1 s2 s3 :
  visit_keeps s1 s2 -> visit_keeps s2 s3 -> visit_keeps s1 s3.
Proof.
  intros (Hl & Hc & Hch & Hn & Hok) (Hl' & Hc' & Hch' & Hn' & Hok').
  split; [eapply log_grows_trans; eauto|].
  split; [congruence|]. split; [congruence|].
  split; [eapply counts_kept_trans; eauto|auto].
Qed.

Lemma update_city_weather_keeps city s s' r :
  update_city_weather cfg w city s = (s', r) -> visit_keeps s s'.
Proof.
  intros Hrun.
  apply update_city_weather_effect in Hrun
    as (_ & Hlog & [Hsame|(wd & f0 & f & _ & _ & _ & Hstored)]).
  - split; [exact Hlog|]. rewrite Hsame. repeat (split; [reflexivity|]).
    split; [apply counts_kept_refl|auto].
  - split; [exact Hlog|].
    pose proof Hstored as (Hch & Hc & _).
    split; [exact Hc|]. split; [exact Hch|].
    split; [eapply stored_counts_kept; eauto|].
    eapply stored_db_ok; eauto.
Qed.

Lemma visits_keep cities_list s s' r :
  forM cities_list (update_city_weather cfg w) s = (s', r) ->
  r = Ok tt /\ visit_keeps s s'.
Proof.
  intros Hrun. split.
  - revert Hrun. apply forM_returns. intros x t t' r' Hx.
    now apply update_city_weather_effect in Hx.
  - revert Hrun. apply forM_preserves.
    + apply visit_keeps_refl.
    + apply visit_keeps_trans.
    + intros x t t' r' _. apply update_city_weather_keeps.
Qed.

Lemma active_binding_visited c d :
  In c (cities d) -> has_active_binding c d ->
  In c (cities_with_active_character d).
Proof.
  intros Hc (cc & Hcc & Hcity & Hactive).
  unfold cities_with_active_character. apply filter_In. split; [exact Hc|].
  apply existsb_exists. exists cc. split; [exact Hcc|].
  now rewrite Hcity, Hactive, Nat.eqb_refl.
Qed.

(** The cycle: set-up of the default data, then one visit per city
    with an active binding (or of the default city alone). *)
Lemma cycle_shape s s' r :
  update_weather_data cfg w s = (s', r) ->
  exists s1,
    st_log s1
    = (st_log s ++ [(INFO, "Running scheduled weather data update")])%list
    /\ weather_rows (st_db s1) = weather_rows (st_db s)
    /\ (exists ys, cities (st_db s1) = (cities (st_db s) ++ ys)%list)
    /\ (exists zs, city_characters (st_db s1)
                   = (city_characters (st_db s) ++ zs)%list
                   /\ forall z, In z zs -> cc_weather_letter z = None)
    /\ (db_ok (st_db s) -> db_ok (st_db s1))
    /\ ((exists e, r = Raise e /\ s' = s1)
        \/ exists visited,
             (forall c, In c visited -> In c (cities (st_db s1)))
             /\ (forall c, In c (cities (st_db s)) ->
                   has_active_binding c (st_db s) -> In c visited)
             /\ (visited = cities_with_active_character (st_db s1)
                 \/ forall c, In c (cities (st_db s)) ->
                      ~ has_active_binding c (st_db s))
             /\ forM visited (update_city_weather cfg w) s1 = (s', r)).
Proof.
  unfold update_weather_data. unfold bindM at 1. unfold log_msg at 1.
  unfold bindM at 1.
  match goal with
  | |- context [ensure_default_data cfg w ?t] =>
      destruct (ensure_default_data cfg w t) as [s1 r1] eqn:Hsetup
  end.
  apply ensure_default_data_extends in Hsetup
    as [(Hl & Hw & _ & Hy & Hz) Hok].
  simpl in Hl, Hw, Hy, Hz, Hok.
  destruct r1 as [[]|e].
  2:{ intros [= <- <-]. exists s1. repeat (split; [assumption|]).
      left. eauto. }
  assert (forall c, In c (cities (st_db s)) ->
                    has_active_binding c (st_db s) ->
                    In c (cities_with_active_character (st_db s1)))
    as Hvisited.
  { intros c Hc (cc & Hcc & Hm). apply active_binding_visited.
    - destruct Hy as [ys ->]. apply in_or_app. now left.
    - exists cc. split; [|exact Hm].
      destruct Hz as (zs & -> & _). apply in_or_app. now left. }
  unfold bindM at 1. unfold get_db at 1. unfold bindM at 1.
  destruct (cities_with_active_character (st_db s1)) as [|c0 active] eqn:Hact.
  - unfold bindM at 1.
    destruct (get_or_create_city _ _ s1) as [s2 r2] eqn:Hcity.
    intros Hloop.
    apply get_or_create_city_extends in Hcity
      as ((Hl2 & Hw2 & _ & [ys2 Hy2] & [zs2 [Hz2 Hnone2]]) & Hok2 & Hin2).
    destruct Hy as [ys Hy]. destruct Hz as (zs & Hz & Hnone).
    exists s2.
    split; [congruence|]. split; [congruence|].
    split; [exists (ys ++ ys2)%list; rewrite Hy2, Hy; now rewrite app_assoc|].
    split.
    { exists (zs ++ zs2)%list. split.
      - rewrite Hz2, Hz. now rewrite app_assoc.
      - intros z Hin. apply in_app_iff in Hin as [Hin|Hin]; auto. }
    split; [auto|].
    destruct r2 as [default_city|e].
    + unfold ret at 1 in Hloop. right. exists [default_city].
      split; [intros c [<-|[]]; now apply Hin2|].
      split; [intros c Hc Hb; destruct (Hvisited c Hc Hb)|].
      split; [|exact Hloop].
      right. intros c Hc Hb. destruct (Hvisited c Hc Hb).
    + injection Hloop as <- <-. left. eauto.
  - unfold ret at 1. intros Hloop. exists s1. repeat (split; [assumption|]).
    right. exists (c0 :: active). split; [|split; [|split; [|exact Hloop]]].
    + intros c Hc. rewrite <- Hact in Hc.
      unfold cities_with_active_character in Hc.
      now apply filter_In in Hc.
    + exact Hvisited.
    + left. now rewrite Hact.
Qed.

End Cycle.

Section Isolation.
Context `{PyEnv}.
Variables (cfg : settings) (w : world).





(** Without an untracked city to visit, the table keeps its size. *)
Lemma visits_total visited : forall s s' r,
  forM visited (update_city_weather cfg w) s = (s', r) ->
  (forall c, In c visited ->
     1 <= List.length (rows_of (city_name c) (city_country c) (st_db s))) ->
  List.length (weather_rows (st_db s')) = List.length (weather_rows (st_db s)).
Proof.
  induction visited as [|c rest IH]; intros s s' r; simpl.
  - unfold ret. now intros [= <- _].
  - unfold bindM.
    destruct (update_city_weather cfg w c s) as [s1 r1] eqn:Hstep.
    pose proof (update_city_weather_keeps _ _ _ _ _ _ Hstep)
      as (_ & _ & _ & Hcounts & _).
    apply update_city_weather_effect in Hstep
      as (-> & _ & Hcases).
    intros Hrest Htracked.
    rewrite (IH _ _ _ Hrest).
    + destruct Hcases as [->|(wd & f0 & f & _ & _ & _ & Hstored)];
        [reflexivity|].
      destruct (stored_total _ _ _ _ _ _ Hstored) as [Hsame|[Hnone _]]; auto.
      specialize (Htracked c (or_introl eq_refl)).
      rewrite Hnone in Htracked. simpl in Htracked. lia.
    + intros x Hx. destruct (Hcounts (city_name x) (city_country x)) as [-> _];
        apply Htracked; now right.
Qed.

End Isolation.

Section Refresh.
Context `{PyEnv}.

Lemma cycle_counts cfg w s :
  counts_kept (st_db s) (st_db (fst (update_weather_data cfg w s))).
Proof.
  destruct (update_weather_data cfg w s) as [s' r] eqn:Hrun. simpl.
  apply cycle_shape in Hrun
    as (s1 & _ & Hrows & _ & _ & _
        & [(e & _ & ->)|(visited & _ & _ & _ & Hloop)]).
  - now apply counts_kept_same.
  - apply counts_kept_trans with (st_db s1); [now apply counts_kept_same|].
    apply visits_keep in Hloop as [_ (_ & _ & _ & Hcounts & _)]. exact Hcounts.
Qed.

Lemma cycle_total cfg w s :
  let s' := fst (update_weather_data cfg w s) in
  (forall c, In c (cities (st_db s')) ->
     1 <= List.length (rows_of (city_name c) (city_country c) (st_db s))) ->
  List.length (weather_rows (st_db s')) = List.length (weather_rows (st_db s)).
Proof.
  destruct (update_weather_data cfg w s) as [s' r] eqn:Hrun. simpl.
  apply cycle_shape in Hrun
    as (s1 & _ & Hrows & _ & _ & _
        & [(e & _ & ->)|(visited & Hin & _ & _ & Hloop)]);
    intros Htracked; [now rewrite Hrows|].
  rewrite <- Hrows. apply (visits_total cfg w visited _ _ _ Hloop).
  intros c Hc. unfold rows_of. rewrite Hrows. apply Htracked.
  apply visits_keep in Hloop as [_ (_ & -> & _)]. now apply Hin.
Qed.

(** C9.  A refresh cycle, and so two cycles in a row, leaves the
    number of snapshot rows of every tracked location as it was, and
    never gives a location a second row; when every city is tracked
    the table as a whole keeps its size.  The two cycles may see the
    same or different upstream replies. *)
Theorem refresh_keeps_one_row_per_location cfg w w' s name country :
  let rows := fun t => List.length (rows_of name country (st_db t)) in
  let s1 := fst (update_weather_data cfg w s) in
  let s2 := fst (update_weather_data cfg w' s1) in
  (1 <= rows s -> rows s1 = rows s /\ rows s2 = rows s)
  /\ (rows s <= 1 -> rows s1 <= 1 /\ rows s2 <= 1)
  /\ (1 <= rows s1 -> rows s2 = rows s1)
  /\ ((forall c, In c (cities (st_db s2)) ->
         1 <= List.length
                (rows_of (city_name c) (city_country c) (st_db s1))) ->
      List.length (weather_rows (st_db s2))
      = List.length (weather_rows (st_db s1))).
Proof.
  intros rows s1 s2.
  destruct (cycle_counts cfg w s name country) as [Hsame1 Hone1].
  destruct (cycle_counts cfg w' s1 name country) as [Hsame2 Hone2].
  fold s1 in Hsame1, Hone1. fold s2 in Hsame2, Hone2.
  unfold rows. split; [|split; [|split]].
  - intros Hn. split; [auto|]. rewrite Hsame2; rewrite Hsame1; auto.
  - intros Hn. split; auto.
  - exact Hsame2.
  - apply (cycle_total cfg w' s1).
Qed.





End Refresh.



(** C9 at two cycles over the tracked cities. *)
Lemma refresh_keeps_one_row_per_location_witness :
  let s1 :=
    fst (update_weather_data two_cities paris_only (start_state tracked_db)) in
  let s2 := fst (update_weather_data two_cities paris_only s1) in
  List.length (rows_of "Atlantis" "XX" (st_db s1)) = 1
  /\ List.length (rows_of "Atlantis" "XX" (st_db s2)) = 1
  /\ List.length (rows_of "Paris" "FR" (st_db s1)) = 1
  /\ List.length (rows_of "Paris" "FR" (st_db s2)) = 1.
Proof.
  intros s1 s2.
  destruct (refresh_keeps_one_row_per_location two_cities paris_only paris_only
              (start_state tracked_db) "Atlantis" "XX")
    as (Htracked & _ & _ & _).
  destruct (refresh_keeps_one_row_per_location two_cities paris_only paris_only
              (start_state tracked_db) "Paris" "FR")
    as (_ & _ & Hsecond & _).
  cbv zeta in Htracked, Hsecond. fold s1 in Htracked, Hsecond.
  fold s2 in Htracked, Hsecond.
  assert (List.length (rows_of "Paris" "FR" (st_db s1)) = 1) as Hparis
      by (vm_compute; reflexivity).
  destruct Htracked as [H1 H2]; [vm_compute; lia|].
  split; [|split; [|split]].
  - rewrite H1. reflexivity.
  - rewrite H2. reflexivity.
  - exact Hparis.
  - rewrite Hsecond; [exact Hparis|]. rewrite Hparis. lia.
Defined.


(* ================================================================= *)
(** * Further properties *)

Import Shape Summary Advice Kept Setup.

(* ================================================================= *)
(** ** The sanitizer on arbitrary text *)

Lemma occurs_app c a b : occurs c (a ++ b) = occurs c a || occurs c b.
Proof.
  induction a as [|x r IH]; simpl; [reflexivity|].
  rewrite IH. now rewrite orb_assoc.
Qed.

Lemma occurs_lstrip c s : occurs c (lstrip s) = true -> occurs c s = true.
Proof.
  induction s as [|x r IH]; simpl; [auto|].
  destruct (is_space x); [|auto].
  intros Hc. rewrite (IH Hc). apply orb_true_r.
Qed.

Lemma occurs_rstrip c s : occurs c (rstrip s) = true -> occurs c s = true.
Proof.
  induction s as [|x r IH]; simpl; [auto|].
  destruct (rstrip r) as [|y t] eqn:Hr.
  - destruct (is_space x); simpl; [discriminate|].
    rewrite orb_false_r. intros ->. reflexivity.
  - simpl. intros Hc. apply orb_true_iff in Hc as [->|Hc]; [reflexivity|].
    simpl in IH. rewrite (IH Hc). apply orb_true_r.
Qed.

Lemma occurs_strip c s : occurs c (strip s) = true -> occurs c s = true.
Proof. intros Hc. now apply occurs_lstrip, occurs_rstrip. Qed.

Lemma occurs_drop c n : forall s, occurs c (drop n s) = true -> occurs c s = true.
Proof.
  induction n as [|n IH]; intros [|x r]; simpl; auto.
  intros Hc. rewrite (IH _ Hc). apply orb_true_r.
Qed.

Lemma occurs_plain_heading c line :
  occurs c (plain_heading line) = true -> occurs c line = true.
Proof.
  unfold plain_heading. intros Hc. apply occurs_strip.
  destruct (startswith "# " _); [now apply occurs_drop in Hc|].
  destruct (startswith "## " _); [now apply occurs_drop in Hc|].
  destruct (startswith "### " _); [now apply occurs_drop in Hc|].
  exact Hc.
Qed.

(** Deleting occurrences of a marker adds no character. *)
Lemma occurs_replace_go c old s : forall skip,
  occurs c (replace_go old "" skip s) = true -> occurs c s = true.
Proof.
  induction s as [|x r IH]; intros skip; [destruct skip; auto|].
  cbn [replace_go]. destruct skip as [|k].
  - destruct (String.prefix old (String x r)); cbn [append occurs].
    + intros Hc. rewrite (IH _ Hc). apply orb_true_r.
    + intros Hc. apply orb_true_iff in Hc as [->|Hc]; [reflexivity|].
      rewrite (IH _ Hc). apply orb_true_r.
  - cbn [occurs]. intros Hc. rewrite (IH _ Hc). apply orb_true_r.
Qed.

Lemma occurs_replace c old s :
  occurs c (replace old "" s) = true -> occurs c s = true.
Proof. apply occurs_replace_go. Qed.

Lemma split_on_cons sep s : exists h t, split_on sep s = h :: t.
Proof.
  induction s as [|x r [h [t IH]]]; simpl; [eauto|].
  destruct (Ascii.eqb x sep); [eauto|]. rewrite IH. eauto.
Qed.

Lemma occurs_split c sep s line :
  In line (split_on sep s) -> occurs c line = true -> occurs c s = true.
Proof.
  revert line. induction s as [|x r IH]; simpl; intros line.
  - intros [<-|[]]. auto.
  - destruct (Ascii.eqb x sep).
    + intros [<-|Hin]; [discriminate|].
      intros Hc. rewrite (IH _ Hin Hc). apply orb_true_r.
    + destruct (split_on sep r) as [|h t] eqn:Hr.
      * intros [<-|[]]. simpl. rewrite orb_false_r. intros ->. reflexivity.
      * intros [<-|Hin]; simpl; intros Hc.
        -- apply orb_true_iff in Hc as [->|Hc]; [reflexivity|].
           rewrite (IH h (or_introl eq_refl) Hc). apply orb_true_r.
        -- rewrite (IH line (or_intror Hin) Hc). apply orb_true_r.
Qed.

(** More than one line: the separator occurs. *)
Lemma split_two_lines sep s a b t :
  split_on sep s = a :: b :: t -> occurs sep s = true.
Proof.
  revert a b t. induction s as [|x r IH]; simpl; intros a b t.
  - discriminate.
  - destruct (Ascii.eqb x sep) eqn:Hx; [reflexivity|].
    destruct (split_on sep r) as [|h u] eqn:Hr; [discriminate|].
    intros [= _ ->]. rewrite (IH _ _ _ eq_refl). apply orb_true_r.
Qed.

Lemma join_cons sep a b t :
  join sep (a :: b :: t) = a ++ sep ++ join sep (b :: t).
Proof. reflexivity. Qed.

(** Mapping a function that adds no character over the lines adds no
    character. *)
Lemma occurs_lines c (f : string -> string) s :
  (forall line, occurs c (f line) = true -> occurs c line = true) ->
  occurs c (join nl (map f (split_on "010" s))) = true -> occurs c s = true.
Proof.
  intros Hf.
  assert (forall lines,
             occurs c (join nl (map f lines)) = true ->
             (exists line, In line lines /\ occurs c line = true)
             \/ (occurs c nl = true /\ exists a b t, lines = a :: b :: t))
    as Hjoin.
  { induction lines as [|a [|b t] IH].
    - discriminate.
    - simpl. intros Hc. left. exists a. split; [now left|auto].
    - change (map f (a :: b :: t)) with (f a :: f b :: map f t).
      rewrite join_cons, !occurs_app.
      intros Hc. apply orb_true_iff in Hc as [Hc|Hc].
      + left. exists a. split; [now left|auto].
      + apply orb_true_iff in Hc as [Hc|Hc]; [right; eauto|].
        destruct (IH Hc) as [(line & Hin & Hl)|[Hnl _]]; [|right; eauto].
        left. exists line. split; [now right|auto]. }
  intros Hc. destruct (Hjoin _ Hc) as [(line & Hin & Hl)|[Hnl (a & b & t & Hs)]].
  - eapply occurs_split; eauto.
  - unfold nl in Hnl. cbn [occurs] in Hnl. rewrite orb_false_r in Hnl.
    apply Ascii.eqb_eq in Hnl as <-.
    eapply split_two_lines; eauto.
Qed.

Lemma occurs_collapse_spaces_go c s : forall in_run,
  occurs c (collapse_spaces_go in_run s) = true -> occurs c s = true.
Proof.
  induction s as [|x r IH]; intros in_run; simpl; [auto|].
  destruct (Ascii.eqb x " "); [destruct in_run|]; simpl; intros Hc;
    try (apply orb_true_iff in Hc as [->|Hc]; [reflexivity|]);
    rewrite (IH _ Hc); apply orb_true_r.
Qed.

Lemma occurs_squash_go c s : forall skipping,
  occurs c (squash_after_newline_go skipping s) = true -> occurs c s = true.
Proof.
  induction s as [|x r IH]; intros skipping; simpl; [auto|].
  destruct (skipping && is_space x); simpl; intros Hc;
    try (apply orb_true_iff in Hc as [->|Hc]; [reflexivity|]);
    rewrite (IH _ Hc); apply orb_true_r.
Qed.

Lemma occurs_remove_go c s : forall skip,
  occurs c (remove_code_blocks_go skip s) = true -> occurs c s = true.
Proof.
  induction s as [|x r IH]; intros skip; [destruct skip; auto|].
  cbn [remove_code_blocks_go]. destruct skip as [|k].
  - destruct (String.prefix fence (String x r)).
    + destruct (find_fence _); cbn [occurs]; intros Hc;
        try (apply orb_true_iff in Hc as [->|Hc]; [reflexivity|]);
        rewrite (IH _ Hc); apply orb_true_r.
    + cbn [occurs]. intros Hc.
      apply orb_true_iff in Hc as [->|Hc]; [reflexivity|].
      rewrite (IH _ Hc). apply orb_true_r.
  - cbn [occurs]. intros Hc. rewrite (IH _ Hc). apply orb_true_r.
Qed.

(** The text before the fenced blocks are removed. *)
Lemma clean_text_unfold text :
  clean_text text
  = remove_code_blocks
      (join nl (map lstrip (split_on "010"
         (lstrip (squash_after_newline (collapse_spaces
            (join nl (map plain_heading (split_on "010"
               (replace "*" "" (replace "**" "" (strip text)))))))))))).
Proof. reflexivity. Qed.

(** X1: the sanitizer only deletes: a character of the result is a
    character of the input. *)
Theorem clean_text_adds_no_character c text :
  occurs c (clean_text text) = true -> occurs c text = true.
Proof.
  rewrite clean_text_unfold. intros Hc.
  apply occurs_remove_go in Hc.
  apply occurs_lines in Hc; [|apply occurs_lstrip].
  apply occurs_lstrip, occurs_squash_go, occurs_collapse_spaces_go in Hc.
  apply occurs_lines in Hc; [|apply occurs_plain_heading].
  now apply occurs_replace, occurs_replace, occurs_strip in Hc.
Qed.

Lemma clean_text_adds_no_character_witness :
  occurs "H" (clean_text scenario_text) = true
  /\ occurs "H" scenario_text = true.
Proof.
  split; [vm_compute; reflexivity|].
  apply (clean_text_adds_no_character "H" scenario_text).
  vm_compute. reflexivity.
Defined.

Lemma replace_star s : occurs "*" (replace "*" "" s) = false.
Proof.
  unfold replace. induction s as [|x r IH]; [reflexivity|].
  cbn [replace_go String.prefix]. destruct (ascii_dec "*" x) as [<-|Hx].
  - destruct r; simpl; exact IH.
  - cbn [occurs]. rewrite IH.
    destruct (Ascii.eqb x "*") eqn:E; [|reflexivity].
    apply Ascii.eqb_eq in E. congruence.
Qed.

Lemma absent_kept c (f : string -> string) s :
  (occurs c (f s) = true -> occurs c s = true) ->
  occurs c s = false -> occurs c (f s) = false.
Proof.
  intros Hf Hs. destruct (occurs c (f s)) eqn:E; [|reflexivity].
  rewrite (Hf eq_refl) in Hs. discriminate.
Qed.

(** X2: no asterisk survives. *)
Theorem clean_text_has_no_asterisk text :
  occurs "*" (clean_text text) = false.
Proof.
  rewrite clean_text_unfold.
  apply (absent_kept "*" remove_code_blocks); [apply occurs_remove_go|].
  apply (absent_kept "*" (fun s => join nl (map lstrip (split_on "010" s))));
    [apply occurs_lines, occurs_lstrip|].
  apply (absent_kept "*" lstrip); [apply occurs_lstrip|].
  apply (absent_kept "*" squash_after_newline); [apply occurs_squash_go|].
  apply (absent_kept "*" collapse_spaces); [apply occurs_collapse_spaces_go|].
  apply (absent_kept "*"
           (fun s => join nl (map plain_heading (split_on "010" s))));
    [apply occurs_lines, occurs_plain_heading|].
  apply replace_star.
Qed.

Lemma lstrip_blank s : blank s = true -> lstrip s = "".
Proof.
  induction s as [|x r IH]; simpl; [auto|].
  intros Hb. apply andb_true_iff in Hb as [-> Hr]. auto.
Qed.

(** X5: white space alone is sanitized to the empty text. *)
Theorem clean_text_of_blank text :
  blank text = true -> clean_text text = "".
Proof.
  intros Hb. rewrite clean_text_unfold. unfold strip.
  rewrite (lstrip_blank _ Hb). reflexivity.
Qed.

Lemma clean_text_of_blank_witness :
  clean_text ("  " ++ nl ++ "   ") = "".
Proof. apply clean_text_of_blank. reflexivity. Defined.

(** *** Fenced blocks *)

Lemma no_fence_here x r : Ascii.eqb x "`" = false ->
  String.prefix fence (String x r) = false.
Proof.
  intros Hx. unfold fence. cbn [String.prefix].
  destruct (ascii_dec "`" x) as [<-|_]; [discriminate Hx|reflexivity].
Qed.

(** Text without a backquote has no fenced block. *)
Lemma remove_code_blocks_plain s :
  occurs "`" s = false -> remove_code_blocks s = s.
Proof.
  unfold remove_code_blocks. induction s as [|x r IH]; [reflexivity|].
  cbn [occurs]. intros Hc. apply orb_false_iff in Hc as [Hx Hr].
  cbn [remove_code_blocks_go]. rewrite (no_fence_here _ _ Hx).
  now rewrite (IH Hr).
Qed.

Lemma find_fence_plain s : occurs "`" s = false -> find_fence s = None.
Proof.
  induction s as [|x r IH]; [reflexivity|].
  cbn [occurs]. intros Hc. apply orb_false_iff in Hc as [Hx Hr].
  cbn [find_fence]. rewrite (no_fence_here _ _ Hx). now rewrite (IH Hr).
Qed.

Lemma fence_here rest : String.prefix fence (fence ++ rest) = true.
Proof. destruct rest; reflexivity. Qed.

Lemma find_fence_after body rest :
  occurs "`" body = false ->
  find_fence (body ++ fence ++ rest) = Some (String.length body).
Proof.
  induction body as [|x r IH].
  { intros _. cbn [append String.length]. 
    change (fence ++ rest) with (String "`" (String "`" (String "`" rest))).
    cbn [find_fence].
    change (String "`" (String "`" (String "`" rest))) with (fence ++ rest).
    now rewrite fence_here. }
  cbn [occurs]. intros Hc. apply orb_false_iff in Hc as [Hx Hr].
  cbn [append find_fence String.length]. rewrite (no_fence_here _ _ Hx).
  now rewrite (IH Hr).
Qed.

Lemma remove_code_blocks_go_skip n : forall s rest,
  String.length s = n ->
  remove_code_blocks_go n (s ++ rest) = remove_code_blocks_go 0 rest.
Proof.
  induction n as [|n IH]; intros [|x r] rest; simpl; try discriminate; auto.
Qed.

Lemma string_length_app (a b : string) :
  String.length (a ++ b) = String.length a + String.length b.
Proof. induction a as [|x r IH]; simpl; auto. Qed.

Lemma app_assoc_string (a b c : string) : (a ++ b) ++ c = a ++ b ++ c.
Proof. induction a as [|x r IH]; simpl; [auto|now rewrite IH]. Qed.

(** X4: a closed fenced block goes with its content, the first closing
    fence ending it; an opening fence without a closing one stays. *)
Theorem remove_code_blocks_fenced before body rest :
  occurs "`" before = false ->
  occurs "`" body = false ->
  remove_code_blocks (before ++ fence ++ body ++ fence ++ rest)
  = before ++ remove_code_blocks rest
  /\ remove_code_blocks (before ++ fence ++ body) = before ++ fence ++ body.
Proof.
  intros Ha Hb. unfold remove_code_blocks. split.
  - induction before as [|x r IH].
    + cbn [append].
      change (fence ++ body ++ fence ++ rest)
        with (String "`" ("``" ++ body ++ fence ++ rest)).
      cbn [remove_code_blocks_go].
      change (String "`" ("``" ++ body ++ fence ++ rest))
        with (fence ++ (body ++ fence ++ rest)).
      rewrite fence_here.
      change (drop 3 (fence ++ body ++ fence ++ rest))
        with (body ++ fence ++ rest).
      rewrite (find_fence_after _ _ Hb).
      replace ("``" ++ body ++ fence ++ rest)
        with (("``" ++ body ++ fence) ++ rest)
        by (now rewrite !app_assoc_string).
      apply remove_code_blocks_go_skip.
      rewrite !string_length_app. simpl. lia.
    + cbn [occurs] in Ha. apply orb_false_iff in Ha as [Hx Hr].
      cbn [append remove_code_blocks_go]. rewrite (no_fence_here _ _ Hx).
      now rewrite (IH Hr).
  - induction before as [|x r IH].
    + cbn [append].
      change (fence ++ body) with (String "`" (String "`" (String "`" body))).
      cbn [remove_code_blocks_go].
      change (String "`" (String "`" (String "`" body))) with (fence ++ body).
      rewrite fence_here.
      change (drop 3 (fence ++ body)) with body.
      rewrite (find_fence_plain _ Hb).
      change (fence ++ body) with (String "`" (String "`" (String "`" body))).
      assert (String.prefix fence (String "`" (String "`" body)) = false) as ->.
      { destruct body as [|y t]; [reflexivity|].
        cbn [occurs] in Hb. apply orb_false_iff in Hb as [Hy _].
        unfold fence. cbn [String.prefix].
        destruct (ascii_dec "`" "`"); [|congruence].
        destruct (ascii_dec "`" y) as [<-|_]; [discriminate Hy|reflexivity]. }
      cbn [remove_code_blocks_go].
      assert (String.prefix fence (String "`" body) = false) as ->.
      { destruct body as [|y t]; [reflexivity|].
        cbn [occurs] in Hb. apply orb_false_iff in Hb as [Hy _].
        unfold fence. cbn [String.prefix].
        destruct (ascii_dec "`" "`"); [|congruence].
        destruct (ascii_dec "`" y) as [<-|_]; [discriminate Hy|reflexivity]. }
      fold (remove_code_blocks body). now rewrite (remove_code_blocks_plain _ Hb).
    + cbn [occurs] in Ha. apply orb_false_iff in Ha as [Hx Hr].
      cbn [append remove_code_blocks_go]. rewrite (no_fence_here _ _ Hx).
      now rewrite (IH Hr).
Qed.

Lemma remove_code_blocks_fenced_witness :
  remove_code_blocks ("see " ++ fence ++ "x = 1" ++ fence ++ " and " ++ fence)
  = "see " ++ remove_code_blocks (" and " ++ fence)
  /\ remove_code_blocks ("see " ++ fence ++ "x = 1") = "see " ++ fence ++ "x = 1".
Proof. apply (remove_code_blocks_fenced "see " "x = 1"); reflexivity. Defined.

(** *** The shape of the sanitized text *)

Lemma tidy_go_weaken b s : tidy_go b s = true -> tidy_go false s = true.
Proof.
  destruct s as [|x r]; [auto|]. cbn [tidy_go].
  intros Ht. apply andb_true_iff in Ht as [_ ->]. reflexivity.
Qed.

Lemma squash_tidy s : forall skipping,
  tidy_go skipping (squash_after_newline_go skipping s) = true.
Proof.
  induction s as [|x r IH]; intros skipping; [reflexivity|].
  cbn [squash_after_newline_go].
  destruct (skipping && is_space x) eqn:E.
  { apply andb_true_iff in E as [-> _]. apply IH. }
  cbn [tidy_go]. rewrite E. apply IH.
Qed.

Lemma lstrip_tidy s : forall b, tidy_go b s = true -> tidy (lstrip s) = true.
Proof.
  unfold tidy. induction s as [|x r IH]; intros b; [auto|].
  cbn [tidy_go lstrip]. intros Ht. apply andb_true_iff in Ht as [_ Hr].
  destruct (is_space x) eqn:E; [eauto|].
  cbn [tidy_go]. rewrite E, Hr. reflexivity.
Qed.

Lemma lstrip_same x r : is_space x = false -> lstrip (String x r) = String x r.
Proof. intros E. cbn [lstrip]. now rewrite E. Qed.

(** On tidy text, stripping each line changes nothing. *)
Lemma tidy_lines_first s :
  tidy_go false s = true ->
  match split_on "010" s with
  | h :: t => join nl (h :: map lstrip t) = s
  | [] => False
  end.
Proof.
  induction s as [|x r IH]; [reflexivity|].
  cbn [tidy_go split_on]. intros Ht. apply andb_true_iff in Ht as [_ Hr].
  destruct (Ascii.eqb x "010") eqn:Hx.
  - apply Ascii.eqb_eq in Hx as ->.
    destruct (split_on "010" r) as [|h t] eqn:Hsplit.
    { destruct (split_on_cons "010" r) as (h & t & E). congruence. }
    cbn [map]. rewrite join_cons. cbn [append].
    change (nl ++ join nl (lstrip h :: map lstrip t))
      with (String "010" (join nl (lstrip h :: map lstrip t))).
    f_equal.
    specialize (IH (tidy_go_weaken _ _ Hr)). rewrite <- IH.
    f_equal. f_equal.
    destruct r as [|y u]; [cbn in Hsplit; now injection Hsplit as <- <-|].
    cbn [tidy_go] in Hr. apply andb_true_iff in Hr as [Hy _].
    cbn [andb] in Hy. apply negb_true_iff in Hy.
    cbn [split_on] in Hsplit.
    destruct (Ascii.eqb y "010") eqn:Hnl.
    { apply Ascii.eqb_eq in Hnl as ->. discriminate Hy. }
    destruct (split_on "010" u) as [|h' t']; injection Hsplit as <- <-;
      apply lstrip_same; exact Hy.
  - specialize (IH Hr).
    destruct (split_on "010" r) as [|h t]; [contradiction|].
    destruct t as [|b t].
    + cbn in IH. cbn. now rewrite IH.
    + cbn [map] in *. rewrite join_cons in *. cbn [append]. now rewrite IH.
Qed.

Lemma tidy_lines s :
  tidy s = true -> join nl (map lstrip (split_on "010" s)) = s.
Proof.
  unfold tidy. intros Ht.
  pose proof (tidy_lines_first s (tidy_go_weaken _ _ Ht)) as Hs.
  destruct (split_on "010" s) as [|h t] eqn:Hsplit; [contradiction|].
  cbn [map]. rewrite <- Hs. f_equal. f_equal.
  destruct s as [|x r]; [cbn in Hsplit; now injection Hsplit as <- <-|].
  cbn [tidy_go andb] in Ht. apply andb_true_iff in Ht as [Hx _].
  apply negb_true_iff in Hx. cbn [split_on] in Hsplit.
  destruct (Ascii.eqb x "010") eqn:Hnl.
  { apply Ascii.eqb_eq in Hnl as ->. discriminate Hx. }
  destruct (split_on "010" r) as [|h' t']; injection Hsplit as <- <-;
    apply lstrip_same; exact Hx.
Qed.

Lemma single_spaced_weaken b s :
  single_spaced_go b s = true -> single_spaced_go false s = true.
Proof.
  destruct s as [|x r]; [auto|]. cbn [single_spaced_go].
  intros Ht. apply andb_true_iff in Ht as [_ ->]. reflexivity.
Qed.

Lemma collapse_single_spaced s : forall in_run,
  single_spaced_go in_run (collapse_spaces_go in_run s) = true.
Proof.
  induction s as [|x r IH]; intros in_run; [reflexivity|].
  cbn [collapse_spaces_go]. destruct (Ascii.eqb x " ") eqn:Hx.
  - destruct in_run; [apply IH|].
    cbn [single_spaced_go andb negb]. rewrite Hx. apply IH.
  - cbn [single_spaced_go]. rewrite Hx, andb_false_r. apply IH.
Qed.

Lemma space_is_space x : Ascii.eqb x " " = true -> is_space x = true.
Proof. intros E. apply Ascii.eqb_eq in E as ->. reflexivity. Qed.

Lemma squash_single_spaced s : forall skipping b_in b_out,
  (skipping = false -> b_out = b_in) ->
  (skipping = true -> b_out = false) ->
  single_spaced_go b_in s = true ->
  single_spaced_go b_out (squash_after_newline_go skipping s) = true.
Proof.
  induction s as [|x r IH]; intros skipping b_in b_out Hsame Hnl; [reflexivity|].
  cbn [single_spaced_go squash_after_newline_go]. intros Hs.
  apply andb_true_iff in Hs as [Hx Hr].
  destruct (skipping && is_space x) eqn:E.
  - apply andb_true_iff in E as [-> _].
    apply (IH true (Ascii.eqb x " ") b_out); auto. discriminate.
  - cbn [single_spaced_go]. apply andb_true_iff. split.
    + destruct skipping.
      * cbn [andb] in E. rewrite (Hnl eq_refl). reflexivity.
      * now rewrite (Hsame eq_refl).
    + apply (IH _ (Ascii.eqb x " ") (Ascii.eqb x " ")); auto.
      intros Hx'. apply Ascii.eqb_eq in Hx' as ->. reflexivity.
Qed.

Lemma lstrip_single_spaced s : forall b,
  single_spaced_go b s = true -> single_spaced (lstrip s) = true.
Proof.
  unfold single_spaced. induction s as [|x r IH]; intros b; [auto|].
  cbn [lstrip]. intros Hs. destruct (is_space x).
  - cbn [single_spaced_go] in Hs. apply andb_true_iff in Hs as [_ Hr]. eauto.
  - eapply single_spaced_weaken; eauto.
Qed.

(** X3: on text without a backquote whose white space is ASCII, the
    result does not begin with white space, no line feed in it is
    followed by white space (no indented line, no empty line between
    two lines) and no two spaces are in a row. *)
Theorem clean_text_shape text :
  occurs "`" text = false ->
  plain_spaces text = true ->
  tidy (clean_text text) = true /\ single_spaced (clean_text text) = true.
Proof.
  intros Hq _. rewrite clean_text_unfold.
  set (body := join nl (map plain_heading (split_on "010"
                 (replace "*" "" (replace "**" "" (strip text)))))).
  assert (occurs "`" body = false) as Hbody.
  { subst body.
    apply (absent_kept "`"
             (fun s => join nl (map plain_heading (split_on "010" s))));
      [apply occurs_lines, occurs_plain_heading|].
    apply (absent_kept "`" (replace "*" "")); [apply occurs_replace|].
    apply (absent_kept "`" (replace "**" "")); [apply occurs_replace|].
    apply (absent_kept "`" strip); [apply occurs_strip|]. exact Hq. }
  set (flat := lstrip (squash_after_newline (collapse_spaces body))).
  assert (tidy flat = true) as Htidy.
  { apply (lstrip_tidy _ false), squash_tidy. }
  assert (single_spaced flat = true) as Hspaced.
  { apply (lstrip_single_spaced _ false).
    apply (squash_single_spaced _ false false false);
      [auto|discriminate|apply collapse_single_spaced]. }
  rewrite (tidy_lines _ Htidy).
  rewrite remove_code_blocks_plain; [auto|].
  subst flat.
  apply (absent_kept "`" lstrip); [apply occurs_lstrip|].
  apply (absent_kept "`" squash_after_newline); [apply occurs_squash_go|].
  apply (absent_kept "`" collapse_spaces); [apply occurs_collapse_spaces_go|].
  exact Hbody.
Qed.

Lemma clean_text_shape_witness :
  tidy (clean_text ("# Dear  *reader*," ++ nl ++ nl ++ "   it   rains. "))
  = true
  /\ single_spaced
       (clean_text ("# Dear  *reader*," ++ nl ++ nl ++ "   it   rains. "))
     = true.
Proof. apply clean_text_shape; reflexivity. Defined.

(* ================================================================= *)
(** ** The aggregator: errors, keys and slots *)

Section ForEachMore.
Context {S A : Type} (body : S -> A -> result S).

Lemma for_each_app (l1 l2 : list A) (s : S) :
  for_each body (l1 ++ l2) s
  = (s1 <- for_each body l1 s ;; for_each body l2 s1).
Proof.
  revert s. induction l1 as [|x r IH]; intros s; simpl; [reflexivity|].
  destruct (body s x); simpl; auto.
Qed.

(** A loop that ends has run its body on every element. *)
Lemma for_each_visits (l : list A) (x : A) :
  In x l ->
  forall s s', for_each body l s = Ok s' ->
  exists t t', body t x = Ok t'.
Proof.
  induction l as [|y r IH]; intros Hx s s'; simpl; [contradiction|].
  destruct (body s y) as [s1|e] eqn:Hy; simpl; [|discriminate].
  destruct Hx as [->|Hx]; eauto.
Qed.

Lemma for_each_raises (P : exn -> Prop) (l : list A) :
  (forall s x e, In x l -> body s x = Raise e -> P e) ->
  forall s e, for_each body l s = Raise e -> P e.
Proof.
  induction l as [|y r IH]; intros Hbody s e; simpl; [discriminate|].
  destruct (body s y) as [s1|e1] eqn:Hy; simpl.
  - apply IH. intros t x e' Hx. apply Hbody. now right.
  - intros [= <-]. apply (Hbody s y); auto. now left.
Qed.

End ForEachMore.

Section Dicts2.
Context {V : Type}.
Implicit Types (d : dict V) (k : string) (v : V).

Lemma existsb_eqb_mem k (l : list string) :
  existsb (String.eqb k) l = true <-> In k l.
Proof.
  rewrite existsb_exists. split.
  - intros (x & Hx & E). apply String.eqb_eq in E. now subst.
  - intros Hk. exists k. split; [auto|apply String.eqb_refl].
Qed.

Lemma dict_set_NoDup k v d :
  NoDup (dict_keys d) -> NoDup (dict_keys (dict_set k v d)).
Proof.
  intros Hd. rewrite dict_keys_set.
  destruct (existsb _ _) eqn:E; [exact Hd|].
  apply NoDup_snoc; [exact Hd|].
  intros Hin. apply existsb_eqb_mem in Hin. congruence.
Qed.

Lemma dict_get_None k d : dict_get k d = None <-> ~ In k (dict_keys d).
Proof.
  induction d as [|[k' v'] r IH]; simpl; [tauto|].
  destruct (String.eqb k k') eqn:E.
  - apply String.eqb_eq in E. subst. split; [discriminate|tauto].
  - apply String.eqb_neq in E. rewrite IH. intuition congruence.
Qed.

Lemma dict_get_Some_key k v d : dict_get k d = Some v -> In k (dict_keys d).
Proof.
  intros Hget. destruct (in_dec string_dec k (dict_keys d)) as [|Hn]; auto.
  apply dict_get_None in Hn. congruence.
Qed.

Lemma dict_get_update_in k v d other :
  NoDup (dict_keys other) ->
  dict_get k other = Some v ->
  dict_get k (dict_update d other) = Some v.
Proof.
  unfold dict_update. revert d.
  induction other as [|[k' v'] r IH]; intros d Hnd; simpl; [discriminate|].
  inversion Hnd as [|? ? Hk' Hr]; subst.
  destruct (String.eqb k k') eqn:E.
  - apply String.eqb_eq in E. subst k'. intros [= ->].
    change (fold_left _ r (dict_set k v d)) with (dict_update (dict_set k v d) r).
    rewrite dict_get_update_other; [apply dict_get_set_same|exact Hk'].
  - intros Hget. now apply IH.
Qed.

Lemma dict_keys_update k d other :
  In k (dict_keys (dict_update d other)) ->
  In k (dict_keys d) \/ In k (dict_keys other).
Proof.
  unfold dict_update. revert d.
  induction other as [|[k' v'] r IH]; intros d; simpl; [auto|].
  intros Hin. apply IH in Hin as [Hin|Hin]; [|auto].
  apply dict_keys_set_incl in Hin as [->|Hin]; auto.
Qed.

Lemma dict_update_NoDup d other :
  NoDup (dict_keys d) -> NoDup (dict_keys (dict_update d other)).
Proof.
  unfold dict_update. revert d.
  induction other as [|[k' v'] r IH]; intros d Hd; simpl; [auto|].
  apply IH. now apply dict_set_NoDup.
Qed.

End Dicts2.

Lemma time_slots_hours_NoDup : NoDup (map snd time_slots).
Proof.
  simpl. repeat (constructor; [simpl; intuition discriminate|]). constructor.
Qed.

(** Two slot keys are equal only for the same slot and suffix. *)
Lemma slot_key_eq name1 hour1 name2 hour2 suffix1 suffix2 :
  In (name1, hour1) time_slots -> In (name2, hour2) time_slots ->
  In suffix1 slot_suffixes -> In suffix2 slot_suffixes ->
  name1 ++ suffix1 = name2 ++ suffix2 ->
  hour1 = hour2 /\ suffix1 = suffix2.
Proof.
  assert (forallb (fun a => forallb (fun b =>
            forallb (fun s1 => forallb (fun s2 =>
              implb (String.eqb (fst a ++ s1) (fst b ++ s2))
                    (Z.eqb (snd a) (snd b) && String.eqb s1 s2))
              slot_suffixes) slot_suffixes) time_slots) time_slots = true)
    as Hall by (vm_compute; reflexivity).
  intros H1 H2 Hs1 Hs2 Heq.
  rewrite forallb_forall in Hall. specialize (Hall _ H1).
  rewrite forallb_forall in Hall. specialize (Hall _ H2).
  rewrite forallb_forall in Hall. specialize (Hall _ Hs1).
  rewrite forallb_forall in Hall. specialize (Hall _ Hs2).
  cbn [fst snd] in Hall. rewrite Heq, String.eqb_refl in Hall.
  cbn [implb] in Hall. apply andb_true_iff in Hall as [Hh Hs].
  split; [now apply Z.eqb_eq|now apply String.eqb_eq].
Qed.

(** A slot key is none of the fixed keys. *)
Lemma slot_key_not_summary name hour suffix :
  In (name, hour) time_slots -> In suffix slot_suffixes ->
  ~ In (name ++ suffix) summary_keys.
Proof.
  assert (forallb (fun a => forallb (fun s =>
            negb (existsb (String.eqb (fst a ++ s)) summary_keys))
            slot_suffixes) time_slots = true)
    as Hall by (vm_compute; reflexivity).
  intros H1 Hs Hin.
  rewrite forallb_forall in Hall. specialize (Hall _ H1).
  rewrite forallb_forall in Hall. specialize (Hall _ Hs).
  cbn [fst] in Hall. apply negb_true_iff in Hall.
  apply existsb_eqb_mem in Hin. congruence.
Qed.

Section AggregatorMore.
Context `{PyEnv}.

Lemma first_weather_raise field e :
  first_weather field = Raise e -> e = IndexError /\ field = Some [].
Proof.
  unfold first_weather. destruct field as [[|w r]|]; simpl; try discriminate.
  now intros [= <-].
Qed.

Lemma w_type_of_raise hour e :
  w_type_of hour = Raise e -> e = IndexError /\ h_weather hour = Some [].
Proof.
  unfold w_type_of. destruct (first_weather _) as [w|e'] eqn:Hw; simpl;
    [discriminate|].
  intros [= <-]. now apply first_weather_raise.
Qed.

Lemma w_type_of_empty hour :
  h_weather hour = Some [] -> w_type_of hour = Raise IndexError.
Proof. unfold w_type_of, first_weather. now intros ->. Qed.

Lemma slot_body_raise hour hour_of_day forecasts slot e :
  returns (format_0f (pop_percent hour)) = true ->
  slot_body hour hour_of_day forecasts slot = Raise e -> e = IndexError.
Proof.
  intros Hp. apply returns_ok in Hp as [p Hp].
  unfold slot_body. destruct slot as [name h].
  destruct (_ =? _)%Z; [|discriminate].
  destruct (w_type_of hour) as [c|e'] eqn:Hw; cbn [bind].
  - rewrite Hp. discriminate.
  - intros [= <-]. now apply w_type_of_raise in Hw.
Qed.

(** On a sample within range the loop body raises IndexError only. *)
Lemma hour_body_raise st hour e :
  hour_in_range hour = true ->
  hour_body st hour = Raise e -> e = IndexError.
Proof.
  intros Hrange. apply andb_true_iff in Hrange as [Ht Hp].
  apply returns_ok in Ht as [dt Hdt].
  unfold hour_body. rewrite Hdt. cbn [bind].
  destruct (for_each _ time_slots _) as [f|e'] eqn:Hloop; cbn [bind].
  - destruct (num_gtb _ _); discriminate.
  - intros [= <-]. revert Hloop.
    apply (for_each_raises _ (fun x => x = IndexError)).
    intros s x e0 _. now apply slot_body_raise.
Qed.

Lemma tally_body_raise counts hour e :
  tally_body counts hour = Raise e -> e = IndexError.
Proof.
  unfold tally_body. destruct (w_type_of hour) as [c|e'] eqn:Hw; simpl;
    [discriminate|].
  intros [= <-]. now apply w_type_of_raise in Hw.
Qed.

Lemma slots_loop_no_match hour hour_of_day slots : forall forecasts,
  (forall slot, In slot slots -> snd slot <> hour_of_day) ->
  for_each (slot_body hour hour_of_day) slots forecasts = Ok forecasts.
Proof.
  induction slots as [|[name h] r IH]; intros forecasts Hno; [reflexivity|].
  cbn [for_each slot_body].
  destruct (hour_of_day =? h)%Z eqn:E.
  - apply Z.eqb_eq in E. exfalso. apply (Hno (name, h)); [now left|auto].
  - cbn [bind]. apply IH. intros slot Hin. apply Hno. now right.
Qed.

Lemma slots_loop_single hour hour_of_day slots name : forall forecasts,
  NoDup (map snd slots) ->
  In (name, hour_of_day) slots ->
  for_each (slot_body hour hour_of_day) slots forecasts
  = slot_body hour hour_of_day forecasts (name, hour_of_day).
Proof.
  induction slots as [|[name' h] r IH]; intros forecasts Hnd Hin;
    [contradiction|].
  cbn [map snd] in Hnd. inversion Hnd as [|? ? Hh Hr]; subst.
  destruct Hin as [[= -> ->]|Hin].
  - cbn [for_each].
    destruct (slot_body hour hour_of_day forecasts (name, hour_of_day))
      as [f|e]; cbn [bind]; [|reflexivity].
    apply slots_loop_no_match. intros slot Hslot Heq. apply Hh.
    rewrite <- Heq. now apply in_map.
  - cbn [for_each]. unfold slot_body at 1.
    destruct (hour_of_day =? h)%Z eqn:E.
    + apply Z.eqb_eq in E. subst h. exfalso. apply Hh.
      change hour_of_day with (snd (name, hour_of_day)). now apply in_map.
    + cbn [bind]. now apply IH.
Qed.

Lemma slot_hour_dec (hour_of_day : Z) :
  {name | In (name, hour_of_day) time_slots}
  + {forall slot, In slot time_slots -> snd slot <> hour_of_day}.
Proof.
  destruct (find (fun slot => (snd slot =? hour_of_day)%Z) time_slots)
    as [[name h]|] eqn:Hfind.
  - left. exists name. apply find_some in Hfind as [Hin E].
    apply Z.eqb_eq in E. cbn in E. now subst.
  - right. intros slot Hin E.
    apply (find_none _ _ Hfind) in Hin. apply Z.eqb_neq in Hin. contradiction.
Qed.

(** What one hourly sample does to the slots. *)
Lemma hour_body_at_slot st hour st' name :
  In (name, hour_of hour) time_slots ->
  hour_body st hour = Ok st' ->
  exists precip category,
    format_0f (pop_percent hour) = Ok precip
    /\ w_type_of hour = Ok category
    /\ hourly_forecasts st'
       = dict_set (name ++ "_weather") category
           (dict_set (name ++ "_precip")
              (slot_value hour precip category "_precip")
              (dict_set (name ++ "_temp")
                 (slot_value hour precip category "_temp")
                 (hourly_forecasts st))).
Proof.
  intros Hin. unfold hour_body.
  destruct (fromtimestamp _) as [dt|e] eqn:Hdt; cbn [bind]; [|discriminate].
  apply fromtimestamp_ok in Hdt. subst dt. fold (hour_of hour).
  rewrite (slots_loop_single _ _ _ name _ time_slots_hours_NoDup Hin).
  unfold slot_body. rewrite Z.eqb_refl.
  destruct (w_type_of hour) as [c|e]; cbn [bind]; [|discriminate].
  destruct (format_0f _) as [p|e]; cbn [bind]; [|discriminate].
  intros Hrun. exists p, c. split; [reflexivity|]. split; [reflexivity|].
  destruct (num_gtb _ _); injection Hrun as <-; reflexivity.
Qed.

Lemma hour_body_off_slot st hour st' :
  (forall slot, In slot time_slots -> snd slot <> hour_of hour) ->
  hour_body st hour = Ok st' ->
  hourly_forecasts st' = hourly_forecasts st.
Proof.
  intros Hno. unfold hour_body.
  destruct (fromtimestamp _) as [dt|e] eqn:Hdt; cbn [bind]; [|discriminate].
  apply fromtimestamp_ok in Hdt. subst dt. fold (hour_of hour).
  rewrite (slots_loop_no_match _ _ _ _ Hno). cbn [bind].
  destruct (num_gtb _ _); intros [= <-]; reflexivity.
Qed.

Lemma hour_in_range_time hour :
  hour_in_range hour = true ->
  fromtimestamp (get_or (h_dt hour) 0%Z) = Ok (get_or (h_dt hour) 0%Z).
Proof.
  intros Hrange. apply andb_true_iff in Hrange as [Ht _].
  apply returns_ok in Ht as [dt Hdt]. rewrite Hdt.
  now rewrite (fromtimestamp_ok _ _ Hdt).
Qed.

Lemma hour_body_fails_at_slot st hour name :
  hour_in_range hour = true ->
  In (name, hour_of hour) time_slots ->
  h_weather hour = Some [] ->
  hour_body st hour = Raise IndexError.
Proof.
  intros Hrange Hin Hw. unfold hour_body.
  rewrite (hour_in_range_time _ Hrange). cbn [bind]. fold (hour_of hour).
  rewrite (slots_loop_single _ _ _ name _ time_slots_hours_NoDup Hin).
  unfold slot_body. rewrite Z.eqb_refl, (w_type_of_empty _ Hw). reflexivity.
Qed.

Lemma hour_body_total_at st hour :
  hour_in_range hour = true ->
  ((exists name, In (name, hour_of hour) time_slots) -> hour_ok hour = true) ->
  exists st', hour_body st hour = Ok st'.
Proof.
  intros Hrange Hok. unfold hour_body.
  rewrite (hour_in_range_time _ Hrange). cbn [bind]. fold (hour_of hour).
  apply andb_true_iff in Hrange as [_ Hp]. apply returns_ok in Hp as [p Hp].
  destruct (slot_hour_dec (hour_of hour)) as [[name Hin]|Hno].
  - rewrite (slots_loop_single _ _ _ name _ time_slots_hours_NoDup Hin).
    unfold slot_body. rewrite Z.eqb_refl.
    destruct (w_type_of_ok hour (Hok (ex_intro _ name Hin))) as [c ->].
    cbn [bind]. rewrite Hp. cbn [bind]. destruct (num_gtb _ _); eauto.
  - rewrite (slots_loop_no_match _ _ _ _ Hno). cbn [bind].
    destruct (num_gtb _ _); eauto.
Qed.

(** X6: on a payload within range (timestamps the host accepts,
    numbers that can be divided and formatted),
    [process_forecast_data] fails exactly on an empty ['weather']
    array that it reads: the one of the current conditions, the one of
    a sample among the first 24, the one of a sample at a slot hour;
    it then raises IndexError.  Other samples may have an empty
    array. *)
Theorem empty_weather_array_raises fd :
  forecast_in_range fd = true ->
  let current := get_or (fc_current fd) empty_current in
  let hourly := get_or (fc_hourly fd) [] in
  let read (hour : hour_sample) :=
    In hour (firstn 24 hourly)
    \/ (In hour hourly /\ exists name, In (name, hour_of hour) time_slots) in
  (cur_weather current = Some []
   \/ (exists hour, read hour /\ h_weather hour = Some []) ->
   process_forecast_data (Some fd) = Raise IndexError)
  /\ (has_first (cur_weather current) = true ->
      (forall hour, read hour -> hour_ok hour = true) ->
      exists info, process_forecast_data (Some fd) = Ok info).
Proof.
  intros Hrange current hourly read. subst current hourly.
  unfold forecast_in_range in Hrange.
  apply andb_true_iff in Hrange as [Hrange Hhours_ok].
  apply andb_true_iff in Hrange as [Hrange Hsunset].
  apply andb_true_iff in Hrange as [Hvis Hsunrise].
  rewrite forallb_forall in Hhours_ok.
  apply returns_ok in Hsunrise as [sunrise Hsunrise].
  apply returns_ok in Hsunset as [sunset Hsunset].
  assert (exists visibility,
             match cur_visibility (get_or (fc_current fd) empty_current) with
             | Some v => v <- num_div v 1000 ;; Ok (VNum v)
             | None => Ok (VStr "Unknown")
             end = Ok visibility) as [visibility Hvisibility].
  { destruct (cur_visibility _) as [v|]; [|eauto].
    apply returns_ok in Hvis as [q ->]. cbn [bind]. eauto. }
  split.
  - intros Hbad. unfold process_forecast_data.
    rewrite Hvisibility. cbn [bind].
    destruct (first_weather _) as [w|e] eqn:Hw; cbn [bind];
      [|apply first_weather_raise in Hw as [-> _]; reflexivity].
    destruct Hbad as [Hcur|(hour & Hread & Hempty)].
    { unfold first_weather in Hw. rewrite Hcur in Hw. discriminate. }
    rewrite Hsunrise. cbn [bind]. rewrite Hsunset. cbn [bind].
    destruct (daily_range _) as [lo hi].
    destruct (for_each hour_body _ _) as [st|e] eqn:Hscan; cbn [bind].
    + destruct (for_each tally_body _ _) as [counts|e] eqn:Htally; cbn [bind].
      * exfalso. destruct Hread as [Hfirst|[Hin [name Hslot]]].
        -- destruct (for_each_visits _ _ _ Hfirst _ _ Htally) as (t & t' & Ht).
           unfold tally_body in Ht. rewrite (w_type_of_empty _ Hempty) in Ht.
           discriminate.
        -- destruct (for_each_visits _ _ _ Hin _ _ Hscan) as (t & t' & Ht).
           rewrite (hour_body_fails_at_slot _ _ _ (Hhours_ok _ Hin) Hslot
                      Hempty) in Ht.
           discriminate.
      * f_equal. revert Htally.
        apply (for_each_raises _ (fun x => x = IndexError)).
        intros s x e0 _. apply tally_body_raise.
    + f_equal. revert Hscan.
      apply (for_each_raises _ (fun x => x = IndexError)).
      intros s x e0 Hx. apply hour_body_raise. now apply Hhours_ok.
  - intros Hcur Hhours. unfold process_forecast_data.
    rewrite Hvisibility. cbn [bind].
    assert (exists w, first_weather
                        (cur_weather (get_or (fc_current fd) empty_current))
                      = Ok w) as [w ->].
    { unfold first_weather. destruct (cur_weather _) as [[|w r]|]; simpl in *;
        try discriminate; eauto. }
    cbn [bind]. rewrite Hsunrise. cbn [bind]. rewrite Hsunset. cbn [bind].
    destruct (daily_range _) as [lo hi].
    destruct (for_each_total hour_body (get_or (fc_hourly fd) []))
      with (s := scan_start) as [st Hscan].
    { intros s x Hx. apply hour_body_total_at; [now apply Hhours_ok|].
      intros Hslot. apply Hhours. right. auto. }
    rewrite Hscan. cbn [bind].
    destruct (for_each_total tally_body (firstn 24 (get_or (fc_hourly fd) [])))
      with (s := @nil (string * nat)) as [counts ->].
    { intros s x Hx. destruct (w_type_of_ok x (Hhours x (or_introl Hx))) as [c Hc].
      unfold tally_body. rewrite Hc. cbn [bind]. eauto. }
    cbn [bind].
    assert (exists peak, format_0f (max_precip st) = Ok peak) as [peak ->].
    { destruct (scan_peak_source _ _ Hscan) as [->|(hour & Hhour & ->)];
        [vm_compute; eauto|].
      specialize (Hhours_ok _ Hhour).
      apply andb_true_iff in Hhours_ok as [_ Hp]. now apply returns_ok. }
    cbn [bind]. eauto.
Qed.

End AggregatorMore.

Lemma append_same_prefix (p a b : string) : p ++ a = p ++ b -> a = b.
Proof. induction p as [|x r IH]; simpl; [auto|]. intros [= E]. auto. Qed.

Section SummaryKeys.
Context `{PyEnv}.

Lemma slot_body_NoDup hour hour_of_day forecasts slot forecasts' :
  NoDup (dict_keys forecasts) ->
  slot_body hour hour_of_day forecasts slot = Ok forecasts' ->
  NoDup (dict_keys forecasts').
Proof.
  intros Hnd. unfold slot_body. destruct slot as [name h].
  destruct (_ =? _)%Z; [|now intros [= <-]].
  destruct (w_type_of hour); cbn [bind]; [|discriminate].
  destruct (format_0f _); cbn [bind]; [|discriminate].
  intros [= <-]. now repeat apply dict_set_NoDup.
Qed.

Lemma scan_NoDup hourly st :
  for_each hour_body hourly scan_start = Ok st ->
  NoDup (dict_keys (hourly_forecasts st)).
Proof.
  apply for_each_invariant
    with (P := fun s => NoDup (dict_keys (hourly_forecasts s))).
  - intros s x s' _ Hs. unfold hour_body.
    destruct (fromtimestamp _) as [dt|e]; cbn [bind]; [|discriminate].
    destruct (for_each _ time_slots _) as [f|e] eqn:Hloop; cbn [bind];
      [|discriminate].
    assert (NoDup (dict_keys f)) as Hf.
    { revert Hloop.
      apply for_each_invariant with (P := fun d => NoDup (dict_keys d));
        [|exact Hs].
      intros t slot t' _. apply slot_body_NoDup. }
    destruct (num_gtb _ _); intros [= <-]; exact Hf.
  - constructor.
Qed.

(** The summary is the fixed entries updated with the slots. *)
Lemma process_forecast_data_shape fd info :
  process_forecast_data (Some fd) = Ok info ->
  exists st base,
    for_each hour_body (get_or (fc_hourly fd) []) scan_start = Ok st
    /\ dict_keys base = summary_keys
    /\ info = dict_update base (hourly_forecasts st).
Proof.
  unfold process_forecast_data.
  destruct (match cur_visibility _ with Some _ => _ | None => _ end)
    as [visibility|e]; cbn [bind]; [|discriminate].
  destruct (first_weather _) as [w|e]; cbn [bind]; [|discriminate].
  destruct (time_of (cur_sunrise _)) as [sunrise|e]; cbn [bind];
    [|discriminate].
  destruct (time_of (cur_sunset _)) as [sunset|e]; cbn [bind];
    [|discriminate].
  destruct (daily_range _) as [lo hi].
  destruct (for_each hour_body _ _) as [st|e] eqn:Hscan; cbn [bind];
    [|discriminate].
  destruct (for_each tally_body _ _) as [counts|e]; cbn [bind];
    [|discriminate].
  destruct (format_0f _) as [peak|e]; cbn [bind]; [|discriminate].
  intros [= <-]. eexists st, _. split; [reflexivity|].
  split; [|reflexivity]. reflexivity.
Qed.

(** X7: the keys of a summary are the fifteen fixed keys, always
    there, and keys of the nine time slots; no key occurs twice. *)
Theorem summary_has_fixed_and_slot_keys fd info :
  process_forecast_data (Some fd) = Ok info ->
  (forall key, In key summary_keys -> exists text, dict_get key info = Some text)
  /\ (forall key, In key (dict_keys info) ->
        In key summary_keys \/ In key slot_keys)
  /\ NoDup (dict_keys info).
Proof.
  intros Hrun.
  destruct (process_forecast_data_shape _ _ Hrun) as (st & base & Hscan & Hkeys & ->).
  pose proof (scan_keys _ _ Hscan) as Hslots.
  split; [|split].
  - intros key Hkey. rewrite dict_get_update_other.
    + destruct (dict_get key base) as [text|] eqn:Hget; [eauto|].
      apply dict_get_None in Hget. rewrite Hkeys in Hget. contradiction.
    + intros Hin. apply Hslots in Hin. unfold slot_keys in Hin.
      apply in_flat_map in Hin as ([name h] & Hslot & Hin). cbn [fst] in Hin.
      assert (exists suffix, In suffix slot_suffixes /\ key = name ++ suffix)
        as (suffix & Hs & ->).
      { simpl in Hin. unfold slot_suffixes. simpl.
        destruct Hin as [<-|[<-|[<-|[]]]]; eauto 6. }
      now apply (slot_key_not_summary _ _ _ Hslot Hs).
  - intros key Hin. apply dict_keys_update in Hin as [Hin|Hin].
    + left. now rewrite <- Hkeys.
    + right. now apply Hslots.
  - apply dict_update_NoDup. rewrite Hkeys.
    unfold summary_keys.
    repeat (constructor; [simpl; intuition discriminate|]). constructor.
Qed.

(** The slot of a sample after the whole scan, when no later sample
    falls at the same hour. *)
Lemma scan_slot_last before hour after st0 st name :
  for_each hour_body (before ++ hour :: after) st0 = Ok st ->
  In (name, hour_of hour) time_slots ->
  (forall later, In later after -> hour_of later <> hour_of hour) ->
  exists precip category,
    format_0f (pop_percent hour) = Ok precip
    /\ w_type_of hour = Ok category
    /\ forall suffix, In suffix slot_suffixes ->
         dict_get (name ++ suffix) (hourly_forecasts st)
         = Some (slot_value hour precip category suffix).
Proof.
  intros Hrun Hslot Hlater. rewrite for_each_app in Hrun.
  destruct (for_each hour_body before st0) as [s1|e]; cbn [bind] in Hrun;
    [|discriminate].
  cbn [for_each] in Hrun.
  destruct (hour_body s1 hour) as [s2|e] eqn:Hhour; cbn [bind] in Hrun;
    [|discriminate].
  destruct (hour_body_at_slot _ _ _ _ Hslot Hhour)
    as (precip & category & Hprecip & Hcat & Hf).
  exists precip, category. split; [exact Hprecip|]. split; [exact Hcat|].
  refine (for_each_invariant hour_body
            (fun s => forall suffix, In suffix slot_suffixes ->
               dict_get (name ++ suffix) (hourly_forecasts s)
               = Some (slot_value hour precip category suffix))
            after _ s2 st _ Hrun).
  - intros s later s' Hin Hs Hbody suffix Hsuffix.
    destruct (slot_hour_dec (hour_of later)) as [[name' Hslot']|Hno].
    + destruct (hour_body_at_slot _ _ _ _ Hslot' Hbody)
        as (p' & c' & _ & _ & ->).
      assert (forall suffix', In suffix' slot_suffixes ->
                name ++ suffix <> name' ++ suffix') as Hne.
      { intros suffix' Hs' Heq.
        destruct (slot_key_eq _ _ _ _ _ _ Hslot Hslot' Hsuffix Hs' Heq)
          as [Hh _].
        now apply (Hlater later Hin). }
      rewrite !dict_get_set_other;
        [now apply Hs| | |]; apply Hne; unfold slot_suffixes; cbn [In];
        auto 6.
    + rewrite (hour_body_off_slot _ _ _ Hno Hbody). now apply Hs.
  - intros suffix Hsuffix. rewrite Hf.
    unfold slot_suffixes in Hsuffix. simpl in Hsuffix.
    assert (forall a b : string, a <> b -> name ++ a <> name ++ b) as Hne.
    { intros a b Hab Heq. apply Hab. now apply append_same_prefix in Heq. }
    destruct Hsuffix as [<-|[<-|[<-|[]]]].
    + rewrite dict_get_set_other, dict_get_set_other; [|apply Hne; easy..].
      apply dict_get_set_same.
    + rewrite dict_get_set_other; [|apply Hne; easy].
      apply dict_get_set_same.
    + apply dict_get_set_same.
Qed.

Lemma scan_slot_absent hourly st name slot_hour :
  for_each hour_body hourly scan_start = Ok st ->
  In (name, slot_hour) time_slots ->
  (forall hour, In hour hourly -> hour_of hour <> slot_hour) ->
  forall suffix, In suffix slot_suffixes ->
    dict_get (name ++ suffix) (hourly_forecasts st) = None.
Proof.
  intros Hrun Hslot Hnone suffix Hsuffix.
  refine (for_each_invariant hour_body
            (fun s => dict_get (name ++ suffix) (hourly_forecasts s) = None)
            hourly _ scan_start st eq_refl Hrun).
  intros s hour s' Hin Hs Hbody.
  destruct (slot_hour_dec (hour_of hour)) as [[name' Hslot']|Hno].
  - destruct (hour_body_at_slot _ _ _ _ Hslot' Hbody)
      as (p' & c' & _ & _ & ->).
    assert (forall suffix', In suffix' slot_suffixes ->
              name ++ suffix <> name' ++ suffix') as Hne.
    { intros suffix' Hs' Heq.
      destruct (slot_key_eq _ _ _ _ _ _ Hslot Hslot' Hsuffix Hs' Heq)
        as [Hh _].
      apply (Hnone hour Hin). now symmetry. }
    rewrite !dict_get_set_other; [exact Hs| | |]; apply Hne;
      unfold slot_suffixes; cbn [In]; auto 6.
  - now rewrite (hour_body_off_slot _ _ _ Hno Hbody).
Qed.

(** X8: a time slot shows the last sample of its hour: temperature,
    percentage of precipitation (the probability times 100 as the
    code computes it, formatted without decimals) and category.  With
    samples of two days, a slot shows the later day. *)
Theorem slot_shows_last_sample fd info before hour after name :
  process_forecast_data (Some fd) = Ok info ->
  get_or (fc_hourly fd) [] = (before ++ hour :: after)%list ->
  In (name, hour_of hour) time_slots ->
  (forall later, In later after -> hour_of later <> hour_of hour) ->
  dict_get (name ++ "_temp") info
  = Some (str_val (num_or (h_temp hour) "Unknown") ++ "°C")
  /\ (exists precip,
        format_0f (pop_percent hour) = Ok precip
        /\ dict_get (name ++ "_precip") info = Some (precip ++ "%"))
  /\ exists category,
       w_type_of hour = Ok category
       /\ dict_get (name ++ "_weather") info = Some category.
Proof.
  intros Hrun Hhourly Hslot Hlater.
  destruct (process_forecast_data_shape _ _ Hrun) as (st & base & Hscan & _ & ->).
  pose proof (scan_NoDup _ _ Hscan) as Hnd.
  rewrite Hhourly in Hscan.
  destruct (scan_slot_last _ _ _ _ _ _ Hscan Hslot Hlater)
    as (precip & category & Hprecip & Hcat & Hget).
  split; [|split].
  - apply dict_get_update_in; [exact Hnd|].
    apply (Hget "_temp"). unfold slot_suffixes. cbn [In]. auto 6.
  - exists precip. split; [exact Hprecip|].
    apply dict_get_update_in; [exact Hnd|].
    apply (Hget "_precip"). unfold slot_suffixes. cbn [In]. auto 6.
  - exists category. split; [exact Hcat|].
    apply dict_get_update_in; [exact Hnd|].
    apply (Hget "_weather"). unfold slot_suffixes. cbn [In]. auto 6.
Qed.

(** X9: a time slot without a sample at its hour has no entry in the
    summary. *)
Theorem slot_without_sample_is_absent fd info name slot_hour :
  process_forecast_data (Some fd) = Ok info ->
  In (name, slot_hour) time_slots ->
  (forall hour, In hour (get_or (fc_hourly fd) []) -> hour_of hour <> slot_hour) ->
  forall suffix, In suffix slot_suffixes ->
    dict_get (name ++ suffix) info = None.
Proof.
  intros Hrun Hslot Hnone suffix Hsuffix.
  destruct (process_forecast_data_shape _ _ Hrun) as (st & base & Hscan & Hkeys & ->).
  pose proof (scan_slot_absent _ _ _ _ Hscan Hslot Hnone _ Hsuffix) as Habsent.
  rewrite dict_get_update_other; [|now apply dict_get_None].
  apply dict_get_None. rewrite Hkeys.
  now apply (slot_key_not_summary _ _ _ Hslot Hsuffix).
Qed.

End SummaryKeys.

Section CurrentErrors.
Context `{PyEnv}.

(** X10: with its six readings, [handle_weather_data] still raises
    IndexError on an empty ['weather'] array and TypeError on a
    payload without ['visibility']. *)
Theorem handle_weather_data_needs_visibility wd main :
  wd_main wd = Some main ->
  main_complete main = true ->
  (wd_weather wd = Some [] ->
   handle_weather_data (Some wd) = Raise IndexError)
  /\ (has_first (wd_weather wd) = true -> wd_visibility wd = None ->
      handle_weather_data (Some wd) = Raise TypeError).
Proof.
  intros Hmain Hcomplete. unfold handle_weather_data. rewrite Hmain.
  unfold main_complete in Hcomplete.
  destruct (m_temp main), (m_temp_min main), (m_temp_max main),
    (m_feels_like main), (m_humidity main), (m_pressure main);
    try discriminate.
  cbn [subscript bind]. split.
  - intros ->. reflexivity.
  - intros Hw ->. unfold first_weather.
    destruct (wd_weather wd) as [[|w r]|]; try discriminate; reflexivity.
Qed.

End CurrentErrors.

Lemma handle_weather_data_needs_visibility_witness :
  handle_weather_data (Some (bare_weather full_main None)) = Raise TypeError.
Proof.
  apply (handle_weather_data_needs_visibility
           (bare_weather full_main None) full_main); reflexivity.
Defined.

Lemma empty_weather_array_raises_witness :
  process_forecast_data
    (Some (forecast_of (Cases.day_of_hours (Cases.unlabelled_hour 21600)) []))
  = Raise IndexError
  /\ exists info,
       process_forecast_data
         (Some (forecast_of (Cases.day_of_hours (Cases.unlabelled_hour 1800)) []))
       = Ok info.
Proof.
  split.
  - apply (empty_weather_array_raises
             (forecast_of (Cases.day_of_hours (Cases.unlabelled_hour 21600)) []));
      [vm_compute; reflexivity|].
    right. exists (Cases.unlabelled_hour 21600). split; [|reflexivity].
    right. split.
    + apply in_or_app. right. now left.
    + exists "morning_6". now left.
  - apply (empty_weather_array_raises
             (forecast_of (Cases.day_of_hours (Cases.unlabelled_hour 1800)) []));
      [vm_compute; reflexivity|reflexivity|].
    intros hour [Hin|[Hin [name Hslot]]].
    + vm_compute in Hin.
      repeat (destruct Hin as [<-|Hin]; [reflexivity|]). contradiction.
    + vm_compute in Hin.
      repeat (destruct Hin as [<-|Hin]; [reflexivity|]).
      destruct Hin as [<-|[]].
      vm_compute in Hslot.
      repeat (destruct Hslot as [Hslot|Hslot]; [discriminate Hslot|]).
      contradiction.
Defined.

Lemma summary_has_fixed_and_slot_keys_witness :
  exists info,
    process_forecast_data (Some (forecast_of Cases.two_mornings [])) = Ok info
    /\ (exists text, dict_get "max_precip_time" info = Some text)
    /\ NoDup (dict_keys info).
Proof.
  eexists.
  match goal with
  | |- ?run = Ok ?info /\ _ =>
      assert (run = Ok info) as Hrun by (vm_compute; reflexivity)
  end.
  split; [exact Hrun|].
  destruct (summary_has_fixed_and_slot_keys _ _ Hrun) as (Hfixed & _ & Hnd).
  split; [|exact Hnd]. apply Hfixed. vm_compute. auto 20.
Defined.

Lemma slot_shows_last_sample_witness :
  exists info,
    process_forecast_data (Some (forecast_of Cases.two_mornings [])) = Ok info
    /\ dict_get "morning_6_temp" info = Some "14°C"
    /\ dict_get "morning_6_precip" info = Some "30%"
    /\ dict_get "morning_6_weather" info = Some "Rain".
Proof.
  eexists.
  match goal with
  | |- ?run = Ok ?info /\ _ =>
      assert (run = Ok info) as Hrun by (vm_compute; reflexivity)
  end.
  split; [exact Hrun|].
  destruct (slot_shows_last_sample
              (forecast_of Cases.two_mornings []) _
              [hd (Cases.unlabelled_hour 0) Cases.two_mornings]
              (last Cases.two_mornings (Cases.unlabelled_hour 0)) []
              "morning_6" Hrun eq_refl)
    as (Htemp & (precip & Hformat & Hprecip) & category & Hcat & Hweather).
  - now left.
  - intros later [].
  - split; [exact Htemp|]. split.
    + vm_compute in Hformat. injection Hformat as <-. exact Hprecip.
    + injection Hcat as <-. exact Hweather.
Defined.

Lemma slot_without_sample_is_absent_witness :
  exists info,
    process_forecast_data (Some (forecast_of Cases.two_mornings [])) = Ok info
    /\ dict_get "evening_18_temp" info = None.
Proof.
  eexists.
  match goal with
  | |- ?run = Ok ?info /\ _ =>
      assert (run = Ok info) as Hrun by (vm_compute; reflexivity)
  end.
  split; [exact Hrun|].
  apply (slot_without_sample_is_absent
           (forecast_of Cases.two_mornings []) _ "evening_18" 18%Z Hrun).
  - vm_compute. auto 20.
  - intros hour Hin. vm_compute in Hin.
    destruct Hin as [<-|[<-|[]]]; vm_compute; discriminate.
  - now left.
Defined.

(* ================================================================= *)
(** ** Partial payloads *)

Section Degrade.
Context `{PyEnv}.

Lemma hour_body_fill st hour : hour_body st (fill_hour hour) = hour_body st hour.
Proof. destruct hour. reflexivity. Qed.

Lemma tally_body_fill counts hour :
  tally_body counts (fill_hour hour) = tally_body counts hour.
Proof. destruct hour. reflexivity. Qed.

Lemma for_each_map {S A B} (body : S -> B -> result S) (g : A -> B)
    (body' : S -> A -> result S) (l : list A) :
  (forall s x, body s (g x) = body' s x) ->
  forall s, for_each body (map g l) s = for_each body' l s.
Proof.
  intros Hbody. induction l as [|x r IH]; intros s; [reflexivity|].
  cbn [map for_each]. rewrite Hbody.
  destruct (body' s x); cbn [bind]; auto.
Qed.

Lemma daily_range_fill daily :
  daily_range (map fill_day daily) = daily_range daily.
Proof. destruct daily as [|[temp] rest]; reflexivity. Qed.

(** A payload and the payload with the defaults written out get the
    same result. *)
Lemma process_forecast_data_fill fd :
  process_forecast_data (Some (fill_defaults fd))
  = process_forecast_data (Some fd).
Proof.
  unfold process_forecast_data, fill_defaults.
  cbn [fc_current fc_hourly fc_daily].
  change (get_or (Some (map fill_hour (get_or (fc_hourly fd) []))) [])
    with (map fill_hour (get_or (fc_hourly fd) [])).
  change (get_or (Some (map fill_day (get_or (fc_daily fd) []))) [])
    with (map fill_day (get_or (fc_daily fd) [])).
  rewrite daily_range_fill, firstn_map.
  rewrite (for_each_map hour_body fill_hour hour_body _ hour_body_fill).
  rewrite (for_each_map tally_body fill_hour tally_body _ tally_body_fill).
  reflexivity.
Qed.

(** A payload is within range when its probabilities and its
    visibility are floats or absent and the host accepts its
    timestamps, 0 for a sample without one. *)
Lemma float_payload_in_range fd :
  let current := get_or (fc_current fd) empty_current in
  float_or_absent (cur_visibility current) = true ->
  accepted (cur_sunrise current) = true ->
  accepted (cur_sunset current) = true ->
  (forall hour, In hour (get_or (fc_hourly fd) []) ->
     float_or_absent (h_pop hour) = true
     /\ returns (fromtimestamp (get_or (h_dt hour) 0%Z)) = true) ->
  forecast_in_range fd = true.
Proof.
  intros current Hvis Hsunrise Hsunset Hhours. subst current.
  unfold forecast_in_range. repeat (apply andb_true_iff; split).
  - destruct (cur_visibility _) as [[z|f]|]; [discriminate|reflexivity..].
  - unfold time_of. destruct (cur_sunrise _) as [z|]; [|reflexivity].
    cbn [accepted] in Hsunrise. now destruct (fromtimestamp z).
  - unfold time_of. destruct (cur_sunset _) as [z|]; [|reflexivity].
    cbn [accepted] in Hsunset. now destruct (fromtimestamp z).
  - apply forallb_forall. intros hour Hin.
    destruct (Hhours hour Hin) as [Hpop Htime].
    unfold hour_in_range. rewrite Htime. cbn [andb].
    unfold pop_percent. destruct (h_pop hour) as [[z|f]|];
      [discriminate|reflexivity|vm_compute; reflexivity].
Qed.

(** The fields of the summary that show the current conditions. *)
Lemma process_forecast_data_markers fd info :
  process_forecast_data (Some fd) = Ok info ->
  let current := get_or (fc_current fd) empty_current in
  dict_get "weather_temperature" info
  = Some (shown (cur_temp current) ++ "°C (feels like "
          ++ shown (cur_feels_like current) ++ "°C)")
  /\ dict_get "weather_humidity" info
     = Some (shown (cur_humidity current) ++ "%")
  /\ dict_get "weather_pressure" info
     = Some (shown (cur_pressure current) ++ " hPa")
  /\ dict_get "weather_wind" info
     = Some (shown (cur_wind_speed current) ++ " m/s, direction "
             ++ shown (cur_wind_deg current) ++ "°")
  /\ dict_get "weather_uvi" info = Some (shown (cur_uvi current))
  /\ dict_get "weather_clouds" info
     = Some (shown (cur_clouds current) ++ "%")
  /\ (cur_visibility current = None ->
      dict_get "weather_visibility" info = Some "Unknown km")
  /\ (cur_weather current = None ->
      dict_get "weather_type" info = Some "Unknown: unknown")
  /\ (forall entry rest,
        cur_weather current = Some (entry :: rest) ->
        dict_get "weather_type" info
        = Some (capitalize (get_or (we_main entry) "unknown") ++ ": "
                ++ get_or (we_description entry) "unknown"))
  /\ (cur_sunrise current = None ->
      exists sunset,
        dict_get "weather_daylight" info
        = Some ("Sunrise-Unknown, Sunset-" ++ sunset))
  /\ (cur_sunset current = None ->
      exists sunrise,
        dict_get "weather_daylight" info
        = Some ("Sunrise-" ++ sunrise ++ ", Sunset-Unknown"))
  /\ (get_or (fc_hourly fd) [] = [] ->
      dict_get "max_precip" info = Some "0"
      /\ dict_get "max_precip_time" info = Some "None"
      /\ dict_get "weather_main_type" info = Some "Unknown")
  /\ (get_or (fc_daily fd) [] = [] ->
      dict_get "temp_min" info = Some "100"
      /\ dict_get "temp_max" info = Some "-100"
      /\ dict_get "weather_temperature_range" info
         = Some "Min: 100°C, Max: -100°C").
Proof.
  intros Hrun current. subst current.
  destruct (process_forecast_data_steps _ _ Hrun)
    as (visibility & w & sunrise & sunset & st & counts & peak
        & Hvis & Hw & Hsunrise & Hsunset & Hscan & Htally & Hpeak & Hget).
  assert (forall key, In key summary_keys -> ~ In key slot_keys) as Hfixed.
  { intros key Hkey Hin. unfold slot_keys in Hin.
    apply in_flat_map in Hin as ([name h] & Hslot & Hin). cbn [fst] in Hin.
    assert (exists suffix, In suffix slot_suffixes /\ key = name ++ suffix)
      as (suffix & Hs & ->).
    { simpl in Hin. unfold slot_suffixes. simpl.
      destruct Hin as [<-|[<-|[<-|[]]]]; eauto 6. }
    now apply (slot_key_not_summary _ _ _ Hslot Hs). }
  assert (forall key, In key summary_keys ->
            dict_get key info = dict_get key _) as Hread
      by (intros key Hkey; apply Hget, Hfixed, Hkey).
  repeat match goal with |- _ /\ _ => split end.
  - rewrite Hread by (unfold summary_keys; simpl; auto 20).
    cbn [dict_get String.eqb Ascii.eqb Bool.eqb]. now rewrite !shown_marker.
  - rewrite Hread by (unfold summary_keys; simpl; auto 20).
    cbn [dict_get String.eqb Ascii.eqb Bool.eqb]. now rewrite !shown_marker.
  - rewrite Hread by (unfold summary_keys; simpl; auto 20).
    cbn [dict_get String.eqb Ascii.eqb Bool.eqb]. now rewrite !shown_marker.
  - rewrite Hread by (unfold summary_keys; simpl; auto 20).
    cbn [dict_get String.eqb Ascii.eqb Bool.eqb]. now rewrite !shown_marker.
  - rewrite Hread by (unfold summary_keys; simpl; auto 20).
    cbn [dict_get String.eqb Ascii.eqb Bool.eqb]. now rewrite !shown_marker.
  - rewrite Hread by (unfold summary_keys; simpl; auto 20).
    cbn [dict_get String.eqb Ascii.eqb Bool.eqb]. now rewrite !shown_marker.
  - intros Hnone. rewrite Hnone in Hvis. injection Hvis as <-.
    rewrite Hread by (unfold summary_keys; simpl; auto 20). reflexivity.
  - intros Hnone. unfold first_weather in Hw. rewrite Hnone in Hw.
    injection Hw as <-.
    rewrite Hread by (unfold summary_keys; simpl; auto 20). reflexivity.
  - intros entry rest Hsome. unfold first_weather in Hw. rewrite Hsome in Hw.
    injection Hw as <-.
    rewrite Hread by (unfold summary_keys; simpl; auto 20). reflexivity.
  - intros Hnone. rewrite Hnone in Hsunrise. injection Hsunrise as <-.
    exists sunset.
    rewrite Hread by (unfold summary_keys; simpl; auto 20). reflexivity.
  - intros Hnone. rewrite Hnone in Hsunset. injection Hsunset as <-.
    exists sunrise.
    rewrite Hread by (unfold summary_keys; simpl; auto 20). reflexivity.
  - intros Hnone. rewrite Hnone in Hscan, Htally.
    injection Hscan as <-. injection Htally as <-.
    vm_compute in Hpeak. injection Hpeak as <-.
    rewrite !Hread by (unfold summary_keys; simpl; auto 20).
    repeat split; reflexivity.
  - intros Hnone. rewrite Hnone in Hget.
    rewrite !Hget by (apply Hfixed; unfold summary_keys; simpl; auto 20).
    repeat split; reflexivity.
Qed.

(** What a slot shows for a sample that lacks a field. *)
Lemma slot_markers fd info before hour after name :
  process_forecast_data (Some fd) = Ok info ->
  get_or (fc_hourly fd) [] = (before ++ hour :: after)%list ->
  In (name, hour_of hour) time_slots ->
  (forall later, In later after -> hour_of later <> hour_of hour) ->
  (h_temp hour = None ->
   dict_get (name ++ "_temp") info = Some "Unknown°C")
  /\ (h_pop hour = None ->
      dict_get (name ++ "_precip") info = Some "0%")
  /\ (h_weather hour = None ->
      dict_get (name ++ "_weather") info = Some "Unknown").
Proof.
  intros Hrun Hhourly Hslot Hlater.
  destruct (process_forecast_data_shape _ _ Hrun) as (st & base & Hscan & _ & ->).
  pose proof (scan_NoDup _ _ Hscan) as Hnd.
  rewrite Hhourly in Hscan.
  destruct (scan_slot_last _ _ _ _ _ _ Hscan Hslot Hlater)
    as (precip & category & Hprecip & Hcat & Hget).
  split; [|split]; intros Hnone.
  - apply dict_get_update_in; [exact Hnd|].
    rewrite (Hget "_temp") by (unfold slot_suffixes; cbn [In]; auto 6).
    unfold slot_value. rewrite Hnone. reflexivity.
  - apply dict_get_update_in; [exact Hnd|].
    rewrite (Hget "_precip") by (unfold slot_suffixes; cbn [In]; auto 6).
    unfold pop_percent in Hprecip. rewrite Hnone in Hprecip.
    vm_compute in Hprecip. injection Hprecip as <-. reflexivity.
  - apply dict_get_update_in; [exact Hnd|].
    rewrite (Hget "_weather") by (unfold slot_suffixes; cbn [In]; auto 6).
    unfold w_type_of, first_weather in Hcat. rewrite Hnone in Hcat.
    injection Hcat as <-. reflexivity.
Qed.

(** C1 (amended).  [process_forecast_data] returns a summary for
    every payload whose weather arrays, where present, have a first
    entry and whose values are within range: the timestamps read are
    accepted by the host and no [int] is too large for the [float] it
    is divided into or formatted as; so it is when the probabilities
    and the visibility are floats or absent and the host accepts the
    timestamps.  It returns the empty dict without a payload.  It cannot tell a payload from the same payload
    with 0 written for a missing [pop] or [dt] and 100 / -100 for a
    missing daily minimum / maximum.  In every summary it returns, a
    missing reading of the current conditions shows as ["Unknown"], a
    missing weather entry as ["Unknown: unknown"], a missing sunrise or
    sunset as ["Unknown"], no hourly sample as zero precipitation at
    ["None"] and the category ["Unknown"], no daily entry as 100 and
    -100; a time slot shows ["Unknown°C"], ["0%"] and ["Unknown"] for
    a sample without temperature, probability and weather array.
    [handle_weather_data] returns [None] without a payload or without
    ['main']; with ['main'] it requires the six readings (a missing
    one raises KeyError) and, given them, a visibility and values
    within range, returns a summary in which a missing name, wind,
    time or weather entry shows as a marker. *)
Theorem missing_fields_degrade :
  (forall fd, forecast_ok fd = true -> forecast_in_range fd = true ->
     exists info, process_forecast_data (Some fd) = Ok info)
  /\ (forall fd,
        forecast_ok fd = true ->
        let current := get_or (fc_current fd) empty_current in
        float_or_absent (cur_visibility current) = true ->
        accepted (cur_sunrise current) = true ->
        accepted (cur_sunset current) = true ->
        (forall hour, In hour (get_or (fc_hourly fd) []) ->
           float_or_absent (h_pop hour) = true
           /\ returns (fromtimestamp (get_or (h_dt hour) 0%Z)) = true) ->
        exists info, process_forecast_data (Some fd) = Ok info)
  /\ process_forecast_data None = Ok []
  /\ (forall fd,
        process_forecast_data (Some (fill_defaults fd))
        = process_forecast_data (Some fd))
  /\ (forall fd info,
        process_forecast_data (Some fd) = Ok info ->
        let current := get_or (fc_current fd) empty_current in
        dict_get "weather_temperature" info
        = Some (shown (cur_temp current) ++ "°C (feels like "
                ++ shown (cur_feels_like current) ++ "°C)")
        /\ dict_get "weather_humidity" info
           = Some (shown (cur_humidity current) ++ "%")
        /\ dict_get "weather_pressure" info
           = Some (shown (cur_pressure current) ++ " hPa")
        /\ dict_get "weather_wind" info
           = Some (shown (cur_wind_speed current) ++ " m/s, direction "
                   ++ shown (cur_wind_deg current) ++ "°")
        /\ dict_get "weather_uvi" info = Some (shown (cur_uvi current))
        /\ dict_get "weather_clouds" info
           = Some (shown (cur_clouds current) ++ "%")
        /\ (cur_visibility current = None ->
            dict_get "weather_visibility" info = Some "Unknown km")
        /\ (cur_weather current = None ->
            dict_get "weather_type" info = Some "Unknown: unknown")
        /\ (forall entry rest,
              cur_weather current = Some (entry :: rest) ->
              dict_get "weather_type" info
              = Some (capitalize (get_or (we_main entry) "unknown") ++ ": "
                      ++ get_or (we_description entry) "unknown"))
        /\ (cur_sunrise current = None ->
            exists sunset,
              dict_get "weather_daylight" info
              = Some ("Sunrise-Unknown, Sunset-" ++ sunset))
        /\ (cur_sunset current = None ->
            exists sunrise,
              dict_get "weather_daylight" info
              = Some ("Sunrise-" ++ sunrise ++ ", Sunset-Unknown"))
        /\ (get_or (fc_hourly fd) [] = [] ->
            dict_get "max_precip" info = Some "0"
            /\ dict_get "max_precip_time" info = Some "None"
            /\ dict_get "weather_main_type" info = Some "Unknown")
        /\ (get_or (fc_daily fd) [] = [] ->
            dict_get "temp_min" info = Some "100"
            /\ dict_get "temp_max" info = Some "-100"
            /\ dict_get "weather_temperature_range" info
               = Some "Min: 100°C, Max: -100°C"))
  /\ (forall fd info before hour after name,
        process_forecast_data (Some fd) = Ok info ->
        get_or (fc_hourly fd) [] = (before ++ hour :: after)%list ->
        In (name, hour_of hour) time_slots ->
        (forall later, In later after -> hour_of later <> hour_of hour) ->
        (h_temp hour = None ->
         dict_get (name ++ "_temp") info = Some "Unknown°C")
        /\ (h_pop hour = None ->
            dict_get (name ++ "_precip") info = Some "0%")
        /\ (h_weather hour = None ->
            dict_get (name ++ "_weather") info = Some "Unknown"))
  /\ process_forecast_data (Some blank_forecast)
     = Ok [ ("weather_type", "Unknown: unknown");
            ("weather_temperature", "Unknown°C (feels like Unknown°C)");
            ("weather_temperature_range", "Min: 100°C, Max: -100°C");
            ("weather_humidity", "Unknown%");
            ("weather_pressure", "Unknown hPa");
            ("weather_wind", "Unknown m/s, direction Unknown°");
            ("weather_visibility", "Unknown km");
            ("weather_uvi", "Unknown");
            ("weather_clouds", "Unknown%");
            ("weather_daylight", "Sunrise-Unknown, Sunset-Unknown");
            ("temp_min", "100");
            ("temp_max", "-100");
            ("max_precip", "0");
            ("max_precip_time", "None");
            ("weather_main_type", "Unknown") ]
  /\ handle_weather_data None = Ok None
  /\ (forall wd, wd_main wd = None -> handle_weather_data (Some wd) = Ok None)
  /\ (forall wd main,
        wd_main wd = Some main -> main_complete main = false ->
        has_first (wd_weather wd) = true ->
        exists key, handle_weather_data (Some wd) = Raise (KeyError key))
  /\ (forall wd main v,
        wd_main wd = Some main -> main_complete main = true ->
        wd_visibility wd = Some v -> has_first (wd_weather wd) = true ->
        weather_in_range wd = true ->
        exists info,
          handle_weather_data (Some wd) = Ok (Some info)
          /\ dict_get "wind" info
             = Some (shown (wind_speed_of (get_or (wd_wind wd) empty_wind))
                     ++ " m/s, direction "
                     ++ shown (wind_deg_of (get_or (wd_wind wd) empty_wind))
                     ++ "°")
          /\ (wd_wind wd = None ->
              dict_get "wind" info = Some "Unknown m/s, direction Unknown°")
          /\ (wd_dt wd = None -> dict_get "current_time" info = Some "Unknown")
          /\ (wd_sys wd = None ->
              dict_get "daylight" info
              = Some "Sunrise-Unknown, Sunset-Unknown")
          /\ (wd_name wd = None ->
              dict_get "location" info = Some "Unknown location")
          /\ (wd_weather wd = None ->
              dict_get "weather_type" info = Some "Unknown: unknown")).
Proof.
  split; [exact process_forecast_data_total|].
  split.
  { intros fd Hok current Hvis Hsunrise Hsunset Hhours.
    apply process_forecast_data_total; [exact Hok|].
    now apply float_payload_in_range. }
  split; [reflexivity|].
  split; [exact process_forecast_data_fill|].
  split; [exact process_forecast_data_markers|].
  split; [exact slot_markers|].
  split; [vm_compute; reflexivity|].
  split; [reflexivity|].
  split; [intros wd Hmain; unfold handle_weather_data; now rewrite Hmain|].
  split; [exact handle_weather_data_missing_reading|].
  exact handle_weather_data_complete.
Qed.

End Degrade.

(** C1, at a payload whose ['main'] lacks its readings. *)
Lemma handle_weather_data_raises :
  handle_weather_data (Some weather_without_readings) = Raise (KeyError "temp")
  /\ forall info,
       handle_weather_data (Some weather_without_readings) <> Ok (Some info).
Proof. split; [reflexivity|]. intros info. vm_compute. discriminate. Qed.

(** C1 beyond the missing fields: a sample whose time is past the year
    9999 makes [process_forecast_data] raise ValueError on a host
    that keeps to the years of [datetime]. *)
Lemma far_timestamp_raises :
  process_forecast_data
    (Some (forecast_of [hour_at 253402300800 None "Clear"] []))
  = Raise ValueError.
Proof. vm_compute. reflexivity. Qed.

(** The amended C1 at three sample payloads. *)
Lemma missing_fields_degrade_witness :
  (exists info,
      process_forecast_data (Some (forecast_of wet_hours [])) = Ok info)
  /\ (exists key,
        handle_weather_data (Some weather_without_readings)
        = Raise (KeyError key))
  /\ (exists info,
        handle_weather_data (Some weather_with_readings) = Ok (Some info)
        /\ dict_get "wind" info = Some "Unknown m/s, direction Unknown°").
Proof.
  destruct missing_fields_degrade
    as (Htotal & _ & _ & _ & _ & _ & _ & _ & _ & Hmissing & Hcomplete).
  split; [apply Htotal; vm_compute; reflexivity|].
  split; [apply (Hmissing weather_without_readings no_main); reflexivity|].
  destruct (Hcomplete weather_with_readings full_main (PInt 10000)
              eq_refl eq_refl eq_refl eq_refl eq_refl)
    as (info & Hrun & _ & Hwind & _).
  exists info. split; [exact Hrun|]. apply Hwind. reflexivity.
Defined.

(* ================================================================= *)
(** ** The suggestion selector: when the draw matters *)

Lemma Qgtb_le a b : (a <= b)%Q -> Qgtb a b = false.
Proof.
  intros Hle. unfold Qgtb. apply negb_false_iff. now apply Qle_bool_iff.
Qed.

Lemma Qgtb_lt a b : (b < a)%Q -> Qgtb a b = true.
Proof.
  intros Hlt. unfold Qgtb. apply negb_true_iff.
  destruct (Qle_bool a b) eqn:E; [|reflexivity].
  apply Qle_bool_iff in E. exfalso. now apply (Qlt_not_le _ _ Hlt).
Qed.

Lemma bucket_length language weather_type :
  List.length (bucket language weather_type) = 3.
Proof.
  unfold bucket. destruct (startswith "zh" language);
    [apply zh_pool_length|apply en_pool_length].
Qed.

(** The first [k] elements, in order, are one of the draws. *)
Lemma sample_outcomes_firstn {A} k : forall l : list A,
  k <= List.length l -> In (firstn k l) (Rand.sample_outcomes k l).
Proof.
  induction k as [|k IH]; intros l Hk; [now left|].
  destruct l as [|x r]; [simpl in Hk; lia|].
  cbn [firstn Rand.sample_outcomes Rand.picks flat_map].
  apply in_or_app. left. cbn [fst snd]. apply in_map, IH. simpl in Hk. lia.
Qed.

(** The last [k] elements, last first, are one of the draws. *)
Lemma picks_last {A} (l : list A) (x : A) :
  In (x, l) (Rand.picks (l ++ [x])).
Proof.
  induction l as [|y r IH]; [now left|].
  cbn [app Rand.picks]. right.
  apply in_map_iff. exists (x, r). split; [reflexivity|exact IH].
Qed.

Section Draw.
Context `{PyEnv}.

Lemma candidate_pool_parts weather_info language temp_min temp_max max_precip :
  float_field weather_info "temp_min" = Ok temp_min ->
  float_field weather_info "temp_max" = Ok temp_max ->
  float_field weather_info "max_precip" = Ok max_precip ->
  candidate_pool weather_info language
  = Ok (bucket language (category_of weather_info)
        ++ warnings language temp_min temp_max max_precip)%list.
Proof.
  intros Hmin Hmax Hprecip. unfold candidate_pool, bucket, warnings, category_of.
  rewrite Hmin, Hmax, Hprecip. cbn [bind].
  destruct (startswith "zh" language); reflexivity.
Qed.

(** X11: in mild and dry weather (minimum at least 5, maximum at most
    30, precipitation peak at most 50) nothing is drawn: the only
    outcome is the three candidates of the weather bucket, in their
    order. *)
Theorem mild_weather_suggestions_are_fixed
    weather_info language temp_min temp_max max_precip :
  float_field weather_info "temp_min" = Ok temp_min ->
  float_field weather_info "temp_max" = Ok temp_max ->
  float_field weather_info "max_precip" = Ok max_precip ->
  (5 <= temp_min)%Q -> (temp_max <= 30)%Q -> (max_precip <= 50)%Q ->
  exists first second third,
    bucket language (category_of weather_info) = [first; second; third]
    /\ generate_activity_suggestions weather_info language
       = Ok [[ ("activity_suggestion_1", first);
               ("activity_suggestion_2", second);
               ("activity_suggestion_3", third) ]].
Proof.
  intros Hmin Hmax Hprecip Hlo Hhi Hp.
  unfold generate_activity_suggestions.
  rewrite (candidate_pool_parts _ language _ _ _ Hmin Hmax Hprecip).
  cbn [bind].
  assert (warnings language temp_min temp_max max_precip = []) as ->.
  { unfold warnings, zh_extras, en_extras.
    rewrite (Qgtb_le temp_max (30 # 1)), (Qgtb_le (5 # 1) temp_min),
      (Qgtb_le max_precip (50 # 1)) by assumption.
    now destruct (startswith "zh" language). }
  rewrite app_nil_r.
  pose proof (bucket_length language (category_of weather_info)) as Hlen.
  destruct (bucket _ _) as [|a [|b [|c [|d r]]]]; try discriminate Hlen.
  exists a, b, c. split; reflexivity.
Qed.

(** A warning is none of the candidates of a bucket. *)
Lemma warning_not_in_bucket language weather_type temp_min temp_max max_precip x :
  In x (warnings language temp_min temp_max max_precip) ->
  ~ In x (bucket language weather_type).
Proof.
  unfold warnings, bucket, zh_extras, en_extras, zh_pool, en_pool.
  destruct (startswith "zh" language);
    destruct (Qgtb temp_max (30 # 1)), (Qgtb (5 # 1) temp_min),
      (Qgtb max_precip (50 # 1));
    cbn [app In]; intros Hx;
    repeat match goal with
           | H : _ \/ _ |- _ => destruct H as [H|H]
           | H : False |- _ => contradiction
           end; subst x;
    repeat match goal with
           | |- context [if ?b then _ else _] => destruct b
           end;
    cbn [In]; intros Hin;
    repeat match goal with
           | H : _ \/ _ |- _ => destruct H as [H|H]
           | H : False |- _ => contradiction
           end; discriminate.
Qed.

(** X12: a warning that applies competes in the draw: some outcome
    shows it and some outcome leaves it out. *)
Theorem warning_may_be_left_out
    weather_info language temp_min temp_max max_precip warning :
  float_field weather_info "temp_min" = Ok temp_min ->
  float_field weather_info "temp_max" = Ok temp_max ->
  float_field weather_info "max_precip" = Ok max_precip ->
  In warning (warnings language temp_min temp_max max_precip) ->
  exists outcomes,
    generate_activity_suggestions weather_info language = Ok outcomes
    /\ (exists shown, In shown outcomes /\ In warning (dict_values shown))
    /\ (exists hidden, In hidden outcomes /\ ~ In warning (dict_values hidden)).
Proof.
  intros Hmin Hmax Hprecip Hwarning.
  unfold generate_activity_suggestions.
  rewrite (candidate_pool_parts _ language _ _ _ Hmin Hmax Hprecip).
  cbn [bind]. eexists. split; [reflexivity|].
  pose proof (warning_not_in_bucket language (category_of weather_info)
                _ _ _ _ Hwarning) as Hnot.
  pose proof (bucket_length language (category_of weather_info)) as Hlen.
  destruct (bucket _ _) as [|a [|b [|c [|d r]]]]; try discriminate Hlen.
  set (extra := warnings language temp_min temp_max max_precip) in *.
  assert (3 < List.length ([a; b; c] ++ extra)) as Hbig.
  { rewrite length_app. destruct extra; [contradiction|simpl; lia]. }
  unfold select_suggestions. apply Nat.ltb_lt in Hbig. rewrite Hbig.
  split.
  - apply in_split in Hwarning as (before & after & Hsplit).
    exists (fill_missing language [warning; a; b]
              (enumerate_from 1 [warning; a; b] [])).
    split; [|simpl; auto].
    apply in_map_iff. exists [warning; a; b]. split; [reflexivity|].
    rewrite Hsplit.
    cbn [Rand.sample_outcomes]. apply in_flat_map.
    exists (warning, ([a; b; c] ++ before ++ after)%list). split.
    + clear. change ([a; b; c] ++ before ++ warning :: after)%list
        with (a :: b :: c :: before ++ warning :: after)%list.
      change ([a; b; c] ++ before ++ after)%list
        with (a :: b :: c :: before ++ after)%list.
      cbn [Rand.picks]. right. apply in_map_iff.
      exists (warning, (b :: c :: before ++ after)%list). split; [reflexivity|].
      right. apply in_map_iff.
      exists (warning, (c :: before ++ after)%list). split; [reflexivity|].
      right. apply in_map_iff.
      exists (warning, (before ++ after)%list). split; [reflexivity|].
      induction before as [|y t IH]; [now left|].
      cbn [app Rand.picks]. right. apply in_map_iff.
      exists (warning, (t ++ after)%list). split; [reflexivity|exact IH].
    + cbn [fst snd]. apply in_map.
      change ([a; b; c] ++ before ++ after)%list
        with (a :: b :: c :: before ++ after)%list.
      apply in_flat_map. exists (a, (b :: c :: before ++ after)%list).
      split; [now left|]. cbn [fst snd]. apply in_map.
      apply in_flat_map. exists (b, (c :: before ++ after)%list).
      split; [now left|]. now left.
  - exists (fill_missing language [a; b; c] (enumerate_from 1 [a; b; c] [])).
    split; [|exact Hnot].
    apply in_map_iff. exists [a; b; c]. split; [reflexivity|].
    change [a; b; c] with (firstn 3 ([a; b; c] ++ extra)) at 1.
    apply sample_outcomes_firstn. apply Nat.ltb_lt in Hbig. lia.
Qed.

End Draw.

Lemma mild_weather_suggestions_are_fixed_witness :
  generate_activity_suggestions
    [ ("weather_main_type", "Clouds"); ("temp_min", "12"); ("temp_max", "21");
      ("max_precip", "20") ] "en"
  = Ok [[ ("activity_suggestion_1",
           "<li>Cloudy weather is good for light outdoor activities like walking, jogging, or cycling.</li>");
          ("activity_suggestion_2",
           "<li>Good time to visit museums, art galleries, or shopping centers.</li>");
          ("activity_suggestion_3",
           "<li>Cloudy days offer great lighting for photography without harsh shadows.</li>") ]].
Proof.
  destruct (mild_weather_suggestions_are_fixed
              [ ("weather_main_type", "Clouds"); ("temp_min", "12");
                ("temp_max", "21"); ("max_precip", "20") ] "en"
              (12 # 1) (21 # 1) (20 # 1))
    as (first & second & third & Hbucket & Hrun);
    [vm_compute; reflexivity..
    |vm_compute; discriminate|vm_compute; discriminate
    |vm_compute; discriminate|].
  injection Hbucket as <- <- <-. exact Hrun.
Defined.

Lemma warning_may_be_left_out_witness :
  exists outcomes,
    generate_activity_suggestions hot_rainy_summary "en" = Ok outcomes
    /\ exists hidden,
         In hidden outcomes
         /\ ~ In "<li>Avoid strenuous activities in high temperatures, stay hydrated, and seek shade.</li>"
                 (dict_values hidden).
Proof.
  destruct (warning_may_be_left_out hot_rainy_summary "en"
              (18 # 1) (35 # 1) (80 # 1)
              "<li>Avoid strenuous activities in high temperatures, stay hydrated, and seek shade.</li>")
    as (outcomes & Hrun & _ & Hhidden);
    [vm_compute; reflexivity..|vm_compute; auto|].
  exists outcomes. split; [exact Hrun|exact Hhidden].
Defined.

(* ================================================================= *)
(** ** The refresh cycle: what it keeps and what it writes *)

Section CycleRelation.
Context `{PyEnv}.
Variables (cfg : settings) (w : world).
Variable R : state -> state -> Prop.
Hypothesis R_same_tables : forall s s', st_db s' = st_db s -> R s s'.
Hypothesis R_trans : forall s1 s2 s3, R s1 s2 -> R s2 s3 -> R s1 s3.
Hypothesis R_extends : forall s s', extends s s' -> R s s'.
Hypothesis R_visit :
  forall city s s' r, update_city_weather cfg w city s = (s', r) -> R s s'.

(** A relation every step of the cycle respects holds across the
    cycle. *)
Lemma cycle_preserves s s' r :
  update_weather_data cfg w s = (s', r) -> R s s'.
Proof.
  unfold update_weather_data. unfold bindM at 1. unfold log_msg at 1.
  unfold bindM at 1.
  match goal with
  | |- context [ensure_default_data cfg w ?t] =>
      set (s0 := t);
      destruct (ensure_default_data cfg w s0) as [s1 r1] eqn:Hsetup
  end.
  assert (R s s0) as H0 by (apply R_same_tables; reflexivity).
  apply ensure_default_data_extends in Hsetup as [Hsetup _].
  apply R_extends in Hsetup.
  destruct r1 as [[]|e]; [|intros [= <- _]; eauto].
  unfold bindM at 1. unfold get_db at 1. unfold bindM at 1.
  assert (forall visited t t' r',
             forM visited (update_city_weather cfg w) t = (t', r') -> R t t')
    as Hloop.
  { intros visited. apply forM_preserves.
    - intros t. now apply R_same_tables.
    - exact R_trans.
    - intros city t t' r' _. apply R_visit. }
  destruct (cities_with_active_character (st_db s1)) as [|c0 active].
  - unfold bindM at 1.
    destruct (get_or_create_city _ _ s1) as [s2 r2] eqn:Hcity.
    apply get_or_create_city_extends in Hcity as (Hcity & _).
    apply R_extends in Hcity.
    destruct r2 as [default_city|e]; [|intros [= <- _]; eauto].
    unfold ret at 1. intros Hrun. apply Hloop in Hrun. eauto.
  - unfold ret at 1. intros Hrun. apply Hloop in Hrun. eauto.
Qed.

End CycleRelation.

(** *** Nothing is deleted or re-keyed *)

Lemma binding_kept_refl c : binding_kept c c.
Proof. repeat split. Qed.

Lemma row_kept_refl r : row_kept r r.
Proof. repeat split. Qed.

Lemma tables_kept_refl d : tables_kept d d.
Proof.
  split; [exists []; now rewrite app_nil_r|].
  split; [exists []; now rewrite app_nil_r|].
  split.
  - exists (fun c => c), []. rewrite map_id, app_nil_r.
    split; [reflexivity|apply binding_kept_refl].
  - exists (fun r => r), []. rewrite map_id, app_nil_r.
    split; [reflexivity|apply row_kept_refl].
Qed.

Lemma tables_kept_trans d1 d2 d3 :
  tables_kept d1 d2 -> tables_kept d2 d3 -> tables_kept d1 d3.
Proof.
  intros ([xs Hx] & [ys Hy] & (g & zs & Hz & Hg) & (k & rs & Hr & Hk))
         ([xs' Hx'] & [ys' Hy'] & (g' & zs' & Hz' & Hg') & (k' & rs' & Hr' & Hk')).
  split; [exists (xs ++ xs')%list; rewrite Hx', Hx; now rewrite app_assoc|].
  split; [exists (ys ++ ys')%list; rewrite Hy', Hy; now rewrite app_assoc|].
  split.
  - exists (fun c => g' (g c)), (map g' zs ++ zs')%list. split.
    + rewrite Hz', Hz, map_app, map_map. now rewrite app_assoc.
    + intros c. destruct (Hg c) as (A1 & A2 & A3 & A4).
      destruct (Hg' (g c)) as (B1 & B2 & B3 & B4).
      repeat split; congruence.
  - exists (fun r => k' (k r)), (map k' rs ++ rs')%list. split.
    + rewrite Hr', Hr, map_app, map_map. now rewrite app_assoc.
    + intros r. destruct (Hk r) as (A1 & A2 & A3 & A4 & A5 & A6).
      destruct (Hk' (k r)) as (B1 & B2 & B3 & B4 & B5 & B6).
      repeat split; congruence.
Qed.

Lemma extends_tables_kept s s' : extends s s' -> tables_kept (st_db s) (st_db s').
Proof.
  intros (_ & Hw & Hx & Hy & (zs & Hz & _)).
  split; [exact Hx|]. split; [exact Hy|]. split.
  - exists (fun c => c), zs. rewrite map_id.
    split; [exact Hz|apply binding_kept_refl].
  - exists (fun r => r), []. rewrite map_id, app_nil_r.
    split; [exact Hw|apply row_kept_refl].
Qed.

Lemma stored_tables_kept `{PyEnv} w city wd f d d' :
  stored w city wd f d d' -> tables_kept d d'.
Proof.
  intros (Hc & Hy & Hrows & g & Hg & Hrel).
  split; [exists []; now rewrite app_nil_r|].
  split; [exists []; now rewrite app_nil_r|].
  split.
  - exists g, []. rewrite app_nil_r. split; [exact Hg|].
    intros c. destruct (Hrel c) as [Hin Hout].
    destruct (in_dec Nat.eq_dec (cc_id c)
                (map cc_id (active_characters_of city d))) as [Ha|Hn].
    + destruct (Hin Ha) as (cc & letter & _ & _ & _ & ->). repeat split.
    + rewrite (Hout Hn). apply binding_kept_refl.
  - destruct Hrows as [[_ ->]|(r & _ & ->)].
    + exists (fun r => r), [create_row w (fresh_id wc_id (weather_rows d))
                              (city_name city) (city_country city) f].
      rewrite map_id. split; [reflexivity|apply row_kept_refl].
    + exists (fun x => if Nat.eqb (wc_id x) (wc_id r) then update_row w f x
                       else x), [].
      rewrite app_nil_r. split; [reflexivity|].
      intros x. destruct (Nat.eqb _ _); repeat split.
Qed.

Section NothingDeleted.
Context `{PyEnv}.

(** X13: a refresh cycle deletes nothing and re-keys nothing.
    Characters and cities are only added at the end of their tables; a
    binding keeps its key, its city, its character and its activity;
    a snapshot row keeps its key, its location, its creation time and
    its legacy letter columns.  This holds whether the cycle returns
    or raises. *)
Theorem refresh_keeps_every_row cfg w s s' r :
  update_weather_data cfg w s = (s', r) ->
  tables_kept (st_db s) (st_db s').
Proof.
  apply (cycle_preserves cfg w
           (fun a b => tables_kept (st_db a) (st_db b))).
  - intros a b ->. apply tables_kept_refl.
  - intros a b c. apply tables_kept_trans.
  - apply extends_tables_kept.
  - intros city a b r' Hvisit.
    apply update_city_weather_effect in Hvisit
      as (_ & _ & [->|(wd & f0 & f & _ & _ & _ & Hstored)]).
    + apply tables_kept_refl.
    + eapply stored_tables_kept; eauto.
Qed.

End NothingDeleted.

Lemma refresh_keeps_every_row_witness :
  tables_kept tracked_db
    (st_db (fst (update_weather_data two_cities paris_only
                   (start_state tracked_db)))).
Proof.
  apply (refresh_keeps_every_row two_cities paris_only
           (start_state tracked_db) _
           (snd (update_weather_data two_cities paris_only
                   (start_state tracked_db)))).
  vm_compute. reflexivity.
Defined.

(** *** The letters a cycle writes *)

Lemma letters_from_refl d : letters_from d d.
Proof. intros cc letter Hin Hl. left. exists cc. auto. Qed.

Lemma letters_from_trans d1 d2 d3 :
  letters_from d1 d2 -> letters_from d2 d3 -> letters_from d1 d3.
Proof.
  intros H12 H23 cc letter Hin Hl.
  destruct (H23 cc letter Hin Hl) as [(old & Hold & Hid & Hletter)|Hw]; [|now right].
  destruct (H12 old letter Hold Hletter) as [(old' & Hold' & Hid' & Hl')|Hw];
    [|now right].
  left. exists old'. repeat split; auto. congruence.
Qed.

Lemma letters_from_same d d' :
  city_characters d' = city_characters d -> letters_from d d'.
Proof. intros E cc letter Hin Hl. rewrite E in Hin. left. exists cc. auto. Qed.

Lemma extends_letters_from s s' : extends s s' -> letters_from (st_db s) (st_db s').
Proof.
  intros (_ & _ & _ & _ & (zs & Hz & Hnone)) cc letter Hin Hl.
  rewrite Hz in Hin. apply in_app_iff in Hin as [Hin|Hin].
  - left. exists cc. auto.
  - rewrite (Hnone cc Hin) in Hl. discriminate.
Qed.

Section Letters.
Context `{PyEnv}.

Lemma generate_weather_letter_written w wd character s s' letter :
  generate_weather_letter w wd character s = (s', Ok letter) ->
  written_letter letter.
Proof.
  unfold generate_weather_letter, letter_failed. run_monad.
  destruct (user_prompt_of wd) as [prompt|e]; [|discriminate].
  destruct (openai_available w).
  - destruct (chat_completion w _ prompt) as [content|msg]; intros [= _ <-];
      [left|right]; eauto.
  - destruct (post_completion w _ prompt) as [msg|code text json].
    + intros [= _ <-]. right. eauto.
    + destruct (code =? 200)%Z.
      * destruct json as [body|e];
          [destruct (content_of body) as [content|e]|];
          intros [= _ <-]; [left|right|right]; eauto.
      * intros [= _ <-]. right. eauto.
Qed.

Lemma write_letter_letters w wd cc s s' r :
  write_letter w wd cc s = (s', r) ->
  letters_from (st_db s) (st_db s').
Proof.
  unfold write_letter, character_of. unfold bindM at 1 2, get_db at 1.
  destruct (find _ _) as [c|];
    [|unfold raise; intros [= <- _]; apply letters_from_refl].
  unfold ret at 1. unfold bindM at 1.
  destruct (generate_weather_letter w wd (Some c) s) as [s1 [letter|e]] eqn:Hg.
  - pose proof (generate_weather_letter_written _ _ _ _ _ _ Hg) as Hw.
    apply generate_weather_letter_state in Hg as [Hdb _].
    unfold save_letter. run_monad. intros [= <- _]. cbn [st_db city_characters].
    rewrite Hdb. intros x letter' Hin Hl.
    apply in_map_iff in Hin as (x0 & <- & Hin0).
    destruct (Nat.eqb (cc_id x0) (cc_id cc)).
    + cbn in Hl. injection Hl as <-. now right.
    + left. exists x0. auto.
  - apply generate_weather_letter_state in Hg as [Hdb _].
    intros [= <- _]. rewrite Hdb. apply letters_from_refl.
Qed.

Lemma store_weather_letters w city wd s s' r :
  store_weather w city wd s = (s', r) ->
  letters_from (st_db s) (st_db s').
Proof.
  unfold store_weather. unfold bindM at 1. unfold lift at 1.
  destruct (snapshot_of wd) as [f|e];
    [|intros [= <- _]; apply letters_from_refl].
  unfold bindM at 1.
  destruct (update_or_create w _ _ f s) as [s1 r1] eqn:Hsave.
  apply update_or_create_effect in Hsave
    as [(-> & e & -> & _)
       |(saved & f1 & _ & -> & _ & _ & _ & _ & _ & _ & Hcc & _)];
    [intros [= <- _]; apply letters_from_refl|].
  destruct saved as [row created].
  unfold bindM at 1. unfold get_db at 1. unfold bindM at 1.
  destruct (forM _ _ s1) as [s2 r2] eqn:Hloop.
  assert (letters_from (st_db s1) (st_db s2)) as Hl.
  { revert Hloop.
    apply (forM_preserves
             (fun a b => letters_from (st_db a) (st_db b))).
    - intros t. apply letters_from_refl.
    - intros t1 t2 t3. apply letters_from_trans.
    - intros cc t t' r' _. apply write_letter_letters. }
  assert (letters_from (st_db s) (st_db s2)) as Hall.
  { eapply letters_from_trans; [|exact Hl]. now apply letters_from_same. }
  destruct r2 as [[]|e]; [|intros [= <- _]; exact Hall].
  unfold log_msg. intros [= <- _]. exact Hall.
Qed.

Lemma update_city_weather_letters cfg w city s s' r :
  update_city_weather cfg w city s = (s', r) ->
  letters_from (st_db s) (st_db s').
Proof.
  unfold update_city_weather, fetch_weather_data.
  unfold bindM at 1, log_msg at 1. unfold bindM at 1.
  destruct (http_get w _) as [e|[wd|]].
  - run_monad. cbn. intros [= <- _]. apply letters_from_refl.
  - unfold ret at 1. unfold try_except, atomic.
    match goal with
    | |- context [store_weather w city wd ?t] =>
        destruct (store_weather w city wd t) as [s1 [[]|e]] eqn:Hstore
    end.
    + intros [= <- _]. apply store_weather_letters in Hstore. exact Hstore.
    + unfold log_msg. intros [= <- _]. apply letters_from_refl.
  - run_monad. cbn. intros [= <- _]. apply letters_from_refl.
Qed.

(** X14: after a refresh cycle, the letter of a binding is the letter
    that binding had before, or text that went through the sanitizer,
    or the notice that the letter is unavailable. *)
Theorem refresh_writes_sanitized_letters cfg w s s' r :
  update_weather_data cfg w s = (s', r) ->
  letters_from (st_db s) (st_db s').
Proof.
  apply (cycle_preserves cfg w
           (fun a b => letters_from (st_db a) (st_db b))).
  - intros a b ->. apply letters_from_refl.
  - intros a b c. apply letters_from_trans.
  - apply extends_letters_from.
  - intros city a b r'. apply update_city_weather_letters.
Qed.

End Letters.

Lemma refresh_writes_sanitized_letters_witness :
  letters_from tracked_db
    (st_db (fst (update_weather_data two_cities paris_only
                   (start_state tracked_db)))).
Proof.
  apply (refresh_writes_sanitized_letters two_cities paris_only
           (start_state tracked_db) _
           (snd (update_weather_data two_cities paris_only
                   (start_state tracked_db)))).
  vm_compute. reflexivity.
Defined.

(** *** Rows that block the cycle *)

Section Blocked.
Context `{PyEnv}.

(** X15: a location with more than one snapshot row is never updated:
    whatever the reply, the visit of its city leaves every table as it
    was; when the payload could have been stored, the visit logs an
    error for the city. *)
Theorem duplicate_rows_block_the_update cfg w city s :
  2 <= List.length (rows_of (city_name city) (city_country city) (st_db s)) ->
  exists s',
    update_city_weather cfg w city s = (s', Ok tt)
    /\ st_db s' = st_db s
    /\ forall wd f,
         reply_for cfg w city = HttpJson (Some wd) -> snapshot_of wd = Ok f ->
         exists detail,
           In (ERROR, "Error updating weather data for " ++ city_name city
                      ++ ": " ++ detail)
              (st_log s').
Proof.
  intros Hmany.
  destruct (update_city_weather cfg w city s) as [s' r] eqn:Hvisit.
  exists s'.
  pose proof (update_city_weather_effect _ _ _ _ _ _ Hvisit)
    as (-> & _ & Hdb).
  split; [reflexivity|].
  assert (forall wd f d', stored w city wd f (st_db s) d' -> False) as Hnot.
  { intros wd f d' (_ & _ & [[Hnone _]|(r & Hone & _)] & _).
    - unfold rows_of in Hmany. rewrite Hnone in Hmany. simpl in Hmany. lia.
    - unfold rows_of in Hmany. rewrite Hone in Hmany. simpl in Hmany. lia. }
  split.
  - destruct Hdb as [Hdb|(wd & f0 & f & _ & _ & _ & Hstored)]; [exact Hdb|].
    destruct (Hnot _ _ _ Hstored).
  - intros wd f Hreply Hsnap. revert Hvisit.
    unfold update_city_weather, fetch_weather_data.
    change (http_get w _) with (reply_for cfg w city). rewrite Hreply.
    unfold bindM at 1, log_msg at 1. unfold bindM at 1, ret at 1.
    unfold try_except, atomic.
    match goal with
    | |- context [store_weather w city wd ?t] =>
        destruct (store_weather w city wd t) as [s1 [[]|e]] eqn:Hstore
    end.
    + apply store_weather_effect in Hstore as (f0 & f' & _ & _ & Hstored & _).
      destruct (Hnot _ _ _ Hstored).
    + unfold log_msg. intros [= <-]. exists (exn_message e).
      cbn [st_log]. apply in_or_app. right. now left.
Qed.

(** X16: with the default character entered twice, the cycle stops at
    the set-up of the default data: it raises
    MultipleObjectsReturned, visits no city and changes no table. *)
Theorem duplicate_default_character_aborts cfg w s :
  2 <= List.length (filter (named default_character_name)
                           (characters (st_db s))) ->
  update_weather_data cfg w s
  = ({| st_db := st_db s;
        st_log := (st_log s
                   ++ [(INFO, "Running scheduled weather data update")])%list |},
     Raise MultipleObjectsReturned).
Proof.
  intros Hmany. unfold update_weather_data, ensure_default_data.
  unfold get_or_create_character. run_monad. cbn [st_db].
  destruct (filter _ _) as [|a [|b rest]]; simpl in Hmany; try lia.
  reflexivity.
Qed.

End Blocked.

Lemma duplicate_rows_block_the_update_witness :
  exists s',
    update_city_weather two_cities paris_only paris
      (start_state Cases2.doubled_db) = (s', Ok tt)
    /\ st_db s' = Cases2.doubled_db.
Proof.
  destruct (duplicate_rows_block_the_update two_cities paris_only paris
              (start_state Cases2.doubled_db))
    as (s' & Hrun & Hdb & _); [vm_compute; lia|].
  exists s'. split; [exact Hrun|exact Hdb].
Defined.

Lemma duplicate_default_character_aborts_witness :
  snd (update_weather_data two_cities paris_only
         (start_state Cases2.two_eludecias))
  = Raise MultipleObjectsReturned.
Proof.
  rewrite (duplicate_default_character_aborts two_cities paris_only
             (start_state Cases2.two_eludecias)); [reflexivity|].
  vm_compute. lia.
Defined.

(* ================================================================= *)
(** ** The set-up of the default data *)

Lemma filter_snoc {A} (p : A -> bool) (l : list A) (x : A) :
  filter p (l ++ [x]) = (filter p l ++ (if p x then [x] else []))%list.
Proof. rewrite filter_app. reflexivity. Qed.

Lemma get_one_single {A} (matches : list A) (x : A) :
  get_one matches = Ok (Some x) -> matches = [x].
Proof. destruct matches as [|a [|b r]]; simpl; congruence. Qed.

Lemma get_one_none {A} (matches : list A) :
  get_one matches = Ok None -> matches = [].
Proof. destruct matches as [|a [|b r]]; simpl; congruence. Qed.

(** A loop whose body leaves the state alone leaves the state alone. *)
Lemma forM_fixed {A} (l : list A) (body : A -> M unit) (s : state) :
  (forall x, In x l -> body x s = (s, Ok tt)) ->
  forM l body s = (s, Ok tt).
Proof.
  induction l as [|x r IH]; intros Hbody; [reflexivity|].
  cbn [forM]. unfold bindM. rewrite (Hbody x (or_introl eq_refl)).
  apply IH. intros y Hy. apply Hbody. now right.
Qed.

(** A loop that completes: what each step establishes holds at the
    end, if the following steps keep it. *)
Lemma forM_establishes {A} (P : A -> state -> Prop) (Q : state -> state -> Prop)
    (l : list A) (body : A -> M unit) :
  (forall s, Q s s) ->
  (forall s1 s2 s3, Q s1 s2 -> Q s2 s3 -> Q s1 s3) ->
  (forall x s s', Q s s' -> P x s -> P x s') ->
  (forall x s s', In x l -> body x s = (s', Ok tt) -> P x s' /\ Q s s') ->
  forall s s', forM l body s = (s', Ok tt) ->
    (forall x, In x l -> P x s') /\ Q s s'.
Proof.
  intros Hrefl Htrans Hkeep. induction l as [|x r IH]; intros Hbody s s'.
  - cbn. unfold ret. intros [= <-]. split; [intros x []|apply Hrefl].
  - cbn [forM]. unfold bindM.
    destruct (body x s) as [s1 [[]|e]] eqn:Hx; [|discriminate].
    intros Hrest.
    destruct (Hbody x s s1 (or_introl eq_refl) Hx) as [Hp Hq].
    destruct (IH (fun y t t' Hy => Hbody y t t' (or_intror Hy)) _ _ Hrest)
      as [Hall Hq'].
    split; [|eapply Htrans; eauto].
    intros y [<-|Hy]; [eapply Hkeep; eauto|auto].
Qed.

Lemma get_or_create_character_one name description color s s' c :
  get_or_create_character name description color s = (s', Ok c) ->
  filter (named name) (characters (st_db s')) = [c]
  /\ cities (st_db s') = cities (st_db s)
  /\ city_characters (st_db s') = city_characters (st_db s).
Proof.
  unfold get_or_create_character. run_monad.
  destruct (get_one _) as [[found|]|e] eqn:Hget; intros [= <- <-]; cbn.
  - apply get_one_single in Hget. auto.
  - apply get_one_none in Hget. rewrite filter_snoc, Hget.
    unfold named at 1. cbn. rewrite String.eqb_refl. auto.
Qed.

Lemma cities_settled_refl s : cities_settled s s.
Proof. repeat split; auto. Qed.

Lemma cities_settled_trans s1 s2 s3 :
  cities_settled s1 s2 -> cities_settled s2 s3 -> cities_settled s1 s3.
Proof.
  intros (A1 & A2 & A3) (B1 & B2 & B3).
  split; [congruence|]. split; [congruence|]. auto.
Qed.

Lemma bindings_settled_refl s : bindings_settled s s.
Proof. repeat split; auto. Qed.

Lemma bindings_settled_trans s1 s2 s3 :
  bindings_settled s1 s2 -> bindings_settled s2 s3 -> bindings_settled s1 s3.
Proof.
  intros (A1 & A2 & A3) (B1 & B2 & B3).
  split; [congruence|]. split; [congruence|]. auto.
Qed.

Lemma located_eq name country name' country' c :
  located name country c = true -> located name' country' c = true ->
  name = name' /\ country = country'.
Proof.
  unfold located. intros H1 H2.
  apply andb_true_iff in H1 as [A B]. apply andb_true_iff in H2 as [C D].
  apply String.eqb_eq in A, B, C, D. split; congruence.
Qed.

Lemma links_eq city character city' character' b :
  links city character b = true -> links city' character' b = true ->
  city = city' /\ character = character'.
Proof.
  unfold links. intros H1 H2.
  apply andb_true_iff in H1 as [A B]. apply andb_true_iff in H2 as [C D].
  apply Nat.eqb_eq in A, B, C, D. split; congruence.
Qed.

Lemma get_or_create_city_one name country s s' c :
  get_or_create_city name country s = (s', Ok c) ->
  filter (located name country) (cities (st_db s')) = [c]
  /\ cities_settled s s'.
Proof.
  unfold get_or_create_city. run_monad.
  destruct (get_one _) as [[found|]|e] eqn:Hget; intros [= <- <-]; cbn.
  - apply get_one_single in Hget. split; [exact Hget|apply cities_settled_refl].
  - apply get_one_none in Hget. split.
    + rewrite filter_snoc, Hget. unfold located at 1. cbn.
      now rewrite !String.eqb_refl.
    + split; [reflexivity|]. split; [reflexivity|]. cbn.
      intros name' country' city Hone. rewrite filter_snoc, Hone.
      match goal with |- context [located name' country' ?c] =>
        destruct (located name' country' c) eqn:Hloc end; [|reflexivity].
      exfalso. unfold located in Hloc. cbn in Hloc.
      apply andb_true_iff in Hloc as [A B]. apply String.eqb_eq in A, B.
      subst name' country'. rewrite Hget in Hone. discriminate.
Qed.

Lemma get_or_create_city_character_one w city character s s' b :
  get_or_create_city_character w city character s = (s', Ok b) ->
  filter (links city character) (city_characters (st_db s')) = [b]
  /\ bindings_settled s s'.
Proof.
  unfold get_or_create_city_character. run_monad.
  destruct (get_one _) as [[found|]|e] eqn:Hget; intros [= <- <-]; cbn.
  - apply get_one_single in Hget.
    split; [exact Hget|apply bindings_settled_refl].
  - apply get_one_none in Hget. split.
    + rewrite filter_snoc, Hget. unfold links at 1. cbn.
      now rewrite !Nat.eqb_refl.
    + split; [reflexivity|]. split; [reflexivity|]. cbn.
      intros city' character' binding Hone. rewrite filter_snoc, Hone.
      match goal with |- context [links city' character' ?c] =>
        destruct (links city' character' c) eqn:Hl end; [|reflexivity].
      exfalso. unfold links in Hl. cbn in Hl.
      apply andb_true_iff in Hl as [A B]. apply Nat.eqb_eq in A, B.
      subst city' character'. rewrite Hget in Hone. discriminate.
Qed.

Lemma ensure_default_data_settles cfg w s s' :
  ensure_default_data cfg w s = (s', Ok tt) ->
  defaults_in_place cfg (st_db s').
Proof.
  unfold ensure_default_data. unfold bindM at 1.
  destruct (get_or_create_character _ _ _ s) as [s1 [c|e]] eqn:H1;
    [|discriminate].
  apply get_or_create_character_one in H1 as (Hchar & _ & _).
  unfold bindM at 1.
  destruct (forM (DEFAULT_CITIES cfg) _ s1) as [s2 [[]|e]] eqn:H2;
    [|discriminate].
  apply (forM_establishes
           (fun city_data t =>
              exists city,
                filter (located (fst city_data) (snd city_data))
                       (cities (st_db t)) = [city])
           cities_settled) in H2 as [Hcities (Hc2 & _ & _)].
  2: apply cities_settled_refl.
  2: apply cities_settled_trans.
  2:{ intros x t t' (_ & _ & Hkeep) [city Hcity]. eauto. }
  2:{ intros x t t' _. unfold bindM.
      destruct (get_or_create_city _ _ t) as [t1 [city|e]] eqn:Hcity;
        [|discriminate].
      unfold ret. intros [= <-].
      apply get_or_create_city_one in Hcity as [Hone Hsettled]. eauto. }
  unfold bindM at 1, get_character. unfold bindM at 1, get_db at 1.
  unfold bindM at 1, lift at 1.
  rewrite Hc2, Hchar. cbn [get_one]. unfold ret at 1.
  unfold bindM at 1, get_db at 1. intros H3.
  apply (forM_establishes
           (fun city t =>
              exists binding,
                filter (links (city_id city) (char_id c))
                       (city_characters (st_db t)) = [binding])
           bindings_settled) in H3 as [Hbindings (Hc3 & Hy3 & _)].
  2: apply bindings_settled_refl.
  2: apply bindings_settled_trans.
  2:{ intros x t t' (_ & _ & Hkeep) [b Hb]. eauto. }
  2:{ intros x t t' _. unfold bindM.
      destruct (get_or_create_city_character _ _ _ t) as [t1 [b|e]] eqn:Hb;
        [|discriminate].
      unfold ret. intros [= <-].
      apply get_or_create_city_character_one in Hb as [Hone Hsettled]. eauto. }
  exists c. split; [now rewrite Hc3, Hc2|]. split.
  - intros city_data Hin. rewrite Hy3. now apply Hcities.
  - intros city Hin. rewrite Hy3 in Hin. now apply Hbindings.
Qed.

(** The set-up finds everything in place. *)
Lemma ensure_default_data_fixed cfg w s :
  defaults_in_place cfg (st_db s) -> ensure_default_data cfg w s = (s, Ok tt).
Proof.
  intros (c & Hchar & Hcities & Hbindings).
  unfold ensure_default_data, get_or_create_character.
  unfold bindM at 1. unfold bindM at 1, get_db at 1.
  unfold bindM at 1, lift at 1. rewrite Hchar. cbn [get_one]. unfold ret at 1.
  unfold bindM at 1. rewrite forM_fixed.
  2:{ intros city_data Hin. destruct (Hcities _ Hin) as [city Hcity].
      unfold get_or_create_city. run_monad. rewrite Hcity. reflexivity. }
  unfold bindM at 1, get_character. unfold bindM at 1, get_db at 1.
  unfold bindM at 1, lift at 1. rewrite Hchar. cbn [get_one]. unfold ret at 1.
  unfold bindM at 1, get_db at 1.
  apply forM_fixed. intros city Hin. destruct (Hbindings _ Hin) as [b Hb].
  unfold get_or_create_city_character. run_monad. rewrite Hb. reflexivity.
Qed.

(** X17: when the set-up of the default data completes, the default
    character exists exactly once, every default city exists exactly
    once and every city has exactly one binding with the default
    character; the set-up logs nothing and leaves the snapshot rows
    alone. *)
Theorem ensure_default_data_puts_defaults_in_place cfg w s s' :
  ensure_default_data cfg w s = (s', Ok tt) ->
  defaults_in_place cfg (st_db s')
  /\ st_log s' = st_log s
  /\ weather_rows (st_db s') = weather_rows (st_db s).
Proof.
  intros Hrun. split.
  - eapply ensure_default_data_settles; eauto.
  - apply ensure_default_data_extends in Hrun as [(Hlog & Hrows & _) _].
    split; [exact Hlog|exact Hrows].
Qed.

(** X18: the set-up of the default data is idempotent: once it has
    completed, running it again, at any later time, completes and
    changes nothing. *)
Theorem ensure_default_data_is_idempotent cfg w w' s s' :
  ensure_default_data cfg w s = (s', Ok tt) ->
  ensure_default_data cfg w' s' = (s', Ok tt).
Proof.
  intros Hrun. apply ensure_default_data_fixed.
  eapply ensure_default_data_settles; eauto.
Qed.

Lemma ensure_default_data_puts_defaults_in_place_witness :
  defaults_in_place two_cities
    (st_db (fst (ensure_default_data two_cities paris_only
                   (start_state empty_db)))).
Proof.
  apply (ensure_default_data_puts_defaults_in_place two_cities paris_only
           (start_state empty_db)).
  vm_compute. reflexivity.
Defined.

Lemma ensure_default_data_is_idempotent_witness :
  let s1 := fst (ensure_default_data two_cities paris_only
                   (start_state empty_db)) in
  ensure_default_data two_cities (silent_generator "later") s1 = (s1, Ok tt).
Proof.
  intros s1.
  apply (ensure_default_data_is_idempotent two_cities paris_only
           (silent_generator "later") (start_state empty_db)).
  vm_compute. reflexivity.
Defined.

Import Cleanup Cleaned.

(* ================================================================= *)
(** ** The clean-up command *)

Lemma filter_none {A} (p : A -> bool) (l : list A) :
  filter p l = [] -> forall x, In x l -> p x = false.
Proof.
  intros Hnil x Hx. destruct (p x) eqn:E; [|reflexivity].
  assert (In x (filter p l)) as Hin by (apply filter_In; auto).
  rewrite Hnil in Hin. contradiction.
Qed.

Lemma filter_all {A} (p : A -> bool) (l : list A) :
  (forall x, In x l -> p x = true) -> filter p l = l.
Proof.
  induction l as [|x r IH]; intros Hall; [reflexivity|].
  cbn. rewrite (Hall x (or_introl eq_refl)). f_equal.
  apply IH. intros y Hy. apply Hall. now right.
Qed.

Lemma filter_twice {A} (p : A -> bool) (l : list A) :
  filter p (filter p l) = filter p l.
Proof.
  apply filter_all. intros x Hx. now apply filter_In in Hx.
Qed.

Lemma filter_opposite {A} (p : A -> bool) (l : list A) :
  filter p (filter (fun x => negb (p x)) l) = [].
Proof.
  induction l as [|x r IH]; [reflexivity|].
  cbn. destruct (p x) eqn:E; cbn; [exact IH|]. now rewrite E.
Qed.

Lemma map_unchanged {A} (p : A -> bool) (g : A -> A) (l : list A) :
  (forall x, In x l -> p x = false) ->
  map (fun x => if p x then g x else x) l = l.
Proof.
  induction l as [|x r IH]; intros Hall; [reflexivity|].
  cbn. rewrite (Hall x (or_introl eq_refl)). f_equal.
  apply IH. intros y Hy. apply Hall. now right.
Qed.

(** The tables after the first block. *)
Lemma remove_captains_tables s :
  let captains := filter is_captain (characters (site_db s)) in
  let bindings :=
    filter (reports_for captains) (city_characters (site_db s)) in
  fst (remove_captains s)
  = {| site_db :=
         {| characters :=
              filter (fun c => negb (is_captain c)) (characters (site_db s));
            cities := cities (site_db s);
            city_characters :=
              filter (fun cc => negb (reports_for captains cc))
                     (city_characters (site_db s));
            weather_rows := weather_rows (site_db s) |};
       site_comments :=
         filter (fun cm => negb (comments_on bindings cm)) (site_comments s) |}.
Proof.
  cbv zeta. unfold remove_captains.
  destruct (filter is_captain (characters (site_db s))) as [|c0 rest]
    eqn:Hcaptains.
  - cbn [fst].
    assert (forall c, In c (characters (site_db s)) -> negb (is_captain c) = true)
      as Hnone.
    { intros c Hc. apply negb_true_iff. eapply filter_none; eauto. }
    rewrite (filter_all _ _ Hnone).
    rewrite (filter_all (fun cc => negb (reports_for [] cc))) by reflexivity.
    assert (filter (reports_for []) (city_characters (site_db s)) = []) as ->.
    { induction (city_characters (site_db s)); auto. }
    rewrite (filter_all (fun cm => negb (comments_on [] cm))) by reflexivity.
    destruct s as [[chars cts ccs rows] cms]. reflexivity.
  - cbn [fst].
    unfold delete_characters, delete_city_characters, delete_comments.
    cbn [site_db site_comments characters cities city_characters weather_rows].
    rewrite Hcaptains.
    set (captains := c0 :: rest).
    set (bindings := filter (reports_for captains) (city_characters (site_db s))).
    rewrite filter_opposite.
    rewrite (filter_all (fun cc => negb (reports_for captains cc))
               (filter _ _)).
    2:{ intros cc Hcc. now apply filter_In in Hcc. }
    f_equal.
    change (fun cm => negb (comments_on [] cm)) with (fun _ : Comment => true).
    rewrite (filter_all (fun _ => true)) by reflexivity.
    apply filter_twice.
Qed.

Lemma with_letter_columns_clean r :
  mentions_captain (with_letter_columns r None None) = false.
Proof. reflexivity. Qed.

(** The tables after the second block. *)
Lemma clean_weather_records_tables s :
  fst (clean_weather_records s)
  = update_rows mentions_captain (fun r => with_letter_columns r None None) s.
Proof.
  unfold clean_weather_records.
  destruct (Nat.ltb 0 _) eqn:Hcount; [reflexivity|].
  apply Nat.ltb_ge in Hcount.
  assert (filter mentions_captain (weather_rows (site_db s)) = []) as Hnone.
  { destruct (filter _ _); [reflexivity|simpl in Hcount; lia]. }
  cbn [fst]. unfold update_rows.
  rewrite (map_unchanged _ _ _ (filter_none _ _ Hnone)).
  destruct s as [[chars cts ccs rows] cms]. reflexivity.
Qed.

Lemma update_rows_clean s r :
  In r (weather_rows (site_db
          (update_rows mentions_captain
             (fun r => with_letter_columns r None None) s))) ->
  mentions_captain r = false.
Proof.
  unfold update_rows. cbn [site_db weather_rows]. intros Hin.
  apply in_map_iff in Hin as (r0 & <- & _).
  destruct (mentions_captain r0) eqn:E; [reflexivity|exact E].
Qed.

Lemma letter_mentions_implies r :
  letter_mentions_captain r = true -> mentions_captain r = true.
Proof.
  unfold letter_mentions_captain, mentions_captain. intros Hl.
  apply andb_true_iff in Hl as [-> _]. apply orb_true_r.
Qed.

Lemma clear_remaining_letters_idle s :
  (forall r, In r (weather_rows (site_db s)) -> mentions_captain r = false) ->
  clear_remaining_letters s = (s, []).
Proof.
  intros Hclean. unfold clear_remaining_letters.
  destruct (filter letter_mentions_captain _) as [|r rest] eqn:Hfound;
    [reflexivity|].
  exfalso. assert (In r (filter letter_mentions_captain
                           (weather_rows (site_db s)))) as Hin
      by (rewrite Hfound; now left).
  apply filter_In in Hin as [Hin Hl]. apply letter_mentions_implies in Hl.
  rewrite (Hclean r Hin) in Hl. discriminate.
Qed.

Lemma handle_unfold s :
  handle s
  = (fst (clean_weather_records (fst (remove_captains s))),
     ((PLAIN, "Starting database cleanup...")
      :: snd (remove_captains s)
      ++ snd (clean_weather_records (fst (remove_captains s)))
      ++ [(SUCCESS, "Database cleanup completed successfully")])%list).
Proof.
  unfold handle.
  destruct (remove_captains s) as [s1 out1]. cbn [fst snd].
  destruct (clean_weather_records s1) as [s2 out2] eqn:H2. cbn [fst snd].
  assert (s2 = fst (clean_weather_records s1)) as Hs2 by now rewrite H2.
  rewrite clear_remaining_letters_idle; [reflexivity|].
  intros r Hin. rewrite Hs2, clean_weather_records_tables in Hin.
  eapply update_rows_clean; eauto.
Qed.

(** The tables after the command. *)
Lemma handle_tables s :
  let captains := filter is_captain (characters (site_db s)) in
  let bindings :=
    filter (reports_for captains) (city_characters (site_db s)) in
  fst (handle s)
  = {| site_db :=
         {| characters :=
              filter (fun c => negb (is_captain c)) (characters (site_db s));
            cities := cities (site_db s);
            city_characters :=
              filter (fun cc => negb (reports_for captains cc))
                     (city_characters (site_db s));
            weather_rows :=
              map (fun r => if mentions_captain r
                            then with_letter_columns r None None else r)
                  (weather_rows (site_db s)) |};
       site_comments :=
         filter (fun cm => negb (comments_on bindings cm)) (site_comments s) |}.
Proof.
  cbv zeta. rewrite handle_unfold. cbn [fst].
  rewrite clean_weather_records_tables, remove_captains_tables. reflexivity.
Qed.

(** X19: the command removes every character with Captain in its name
    or description (whatever the case of the letters) and nothing
    else from the characters, removes the bindings of these
    characters and the comments on those bindings, leaves the other
    bindings and comments as they are (letters included) and the
    cities alone, and empties the two legacy letter columns of the
    snapshot rows that mention Captain, keeping every other column.
    Afterwards no character and no snapshot row mentions Captain. *)
Theorem cleanup_removes_captains s :
  let captains := filter is_captain (characters (site_db s)) in
  let bindings :=
    filter (reports_for captains) (city_characters (site_db s)) in
  let s' := fst (handle s) in
  characters (site_db s')
  = filter (fun c => negb (is_captain c)) (characters (site_db s))
  /\ cities (site_db s') = cities (site_db s)
  /\ city_characters (site_db s')
     = filter (fun cc => negb (reports_for captains cc))
              (city_characters (site_db s))
  /\ site_comments s'
     = filter (fun cm => negb (comments_on bindings cm)) (site_comments s)
  /\ weather_rows (site_db s')
     = map (fun r => if mentions_captain r
                     then with_letter_columns r None None else r)
           (weather_rows (site_db s))
  /\ (forall c, In c (characters (site_db s')) -> is_captain c = false)
  /\ (forall r, In r (weather_rows (site_db s')) ->
        mentions_captain r = false).
Proof.
  cbv zeta. rewrite handle_tables. cbn [site_db site_comments characters cities
    city_characters weather_rows].
  repeat (split; [reflexivity|]). split.
  - intros c Hc. apply filter_In in Hc as [_ Hc]. now apply negb_true_iff.
  - intros r Hin. apply in_map_iff in Hin as (r0 & <- & _).
    destruct (mentions_captain r0) eqn:E; [reflexivity|exact E].
Qed.

(** X20: the command keeps the references whole: when every binding
    has its character and every comment its binding before, so it is
    after. *)
Theorem cleanup_keeps_references s :
  references_ok s -> references_ok (fst (handle s)).
Proof.
  intros [Hbindings Hcomments]. rewrite handle_tables.
  set (captains := filter is_captain (characters (site_db s))).
  split; cbn [site_db site_comments characters city_characters].
  - intros cc Hcc. apply filter_In in Hcc as [Hcc Hkept].
    destruct (Hbindings cc Hcc) as (c & Hc & Hid). exists c. split; [|exact Hid].
    apply filter_In. split; [exact Hc|].
    destruct (is_captain c) eqn:Hcap; [|reflexivity].
    exfalso. apply negb_true_iff in Hkept.
    assert (reports_for captains cc = true) as Hrep.
    { unfold reports_for. apply existsb_exists. exists c. split.
      - apply filter_In. auto.
      - rewrite Hid. apply Nat.eqb_refl. }
    congruence.
  - intros cm Hcm. apply filter_In in Hcm as [Hcm Hkept].
    destruct (Hcomments cm Hcm) as (cc & Hcc & Hid). exists cc.
    split; [|exact Hid].
    apply filter_In. split; [exact Hcc|].
    destruct (reports_for captains cc) eqn:Hrep; [|reflexivity].
    exfalso. apply negb_true_iff in Hkept.
    assert (comments_on (filter (reports_for captains)
                           (city_characters (site_db s))) cm = true) as Hon.
    { unfold comments_on. apply existsb_exists. exists cc. split.
      - apply filter_In. auto.
      - rewrite Hid. apply Nat.eqb_refl. }
    congruence.
Qed.

(** What the command writes when it finds nothing. *)
Lemma handle_nothing_found s :
  (forall c, In c (characters (site_db s)) -> is_captain c = false) ->
  (forall r, In r (weather_rows (site_db s)) -> mentions_captain r = false) ->
  handle s
  = (s, [ (PLAIN, "Starting database cleanup...");
          (PLAIN, "No Captain characters found in the database");
          (PLAIN, "No weather records with Captain references found");
          (SUCCESS, "Database cleanup completed successfully") ]).
Proof.
  intros Hchars Hrows. unfold handle, remove_captains.
  assert (filter is_captain (characters (site_db s)) = []) as ->.
  { induction (characters (site_db s)) as [|c r IH]; [reflexivity|].
    cbn. rewrite (Hchars c (or_introl eq_refl)).
    apply IH. intros y Hy. apply Hchars. now right. }
  unfold clean_weather_records.
  assert (filter mentions_captain (weather_rows (site_db s)) = []) as ->.
  { induction (weather_rows (site_db s)) as [|c r IH]; [reflexivity|].
    cbn. rewrite (Hrows c (or_introl eq_refl)).
    apply IH. intros y Hy. apply Hrows. now right. }
  cbn [List.length Nat.ltb Nat.leb].
  rewrite (clear_remaining_letters_idle _ Hrows). reflexivity.
Qed.

(** X21: the command is idempotent: run again on its own result it
    changes nothing and reports that it found nothing. *)
Theorem cleanup_is_idempotent s :
  handle (fst (handle s))
  = (fst (handle s),
     [ (PLAIN, "Starting database cleanup...");
       (PLAIN, "No Captain characters found in the database");
       (PLAIN, "No weather records with Captain references found");
       (SUCCESS, "Database cleanup completed successfully") ]).
Proof.
  apply handle_nothing_found; rewrite handle_tables;
    cbn [site_db characters weather_rows].
  - intros c Hc. apply filter_In in Hc as [_ Hc]. now apply negb_true_iff.
  - intros r Hin. apply in_map_iff in Hin as (r0 & <- & _).
    destruct (mentions_captain r0) eqn:E; [reflexivity|exact E].
Qed.

(** X22: the third search of the command never finds a row: after the
    second block no letter mentions Captain, so the command never
    reports letters found or cleared and its result is the state the
    second block left. *)
Theorem cleanup_third_search_is_idle s :
  let s2 := fst (clean_weather_records (fst (remove_captains s))) in
  clear_remaining_letters s2 = (s2, [])
  /\ fst (handle s) = s2
  /\ forall text, In text (map snd (snd (handle s))) ->
       text <> "Successfully cleared those weather letters".
Proof.
  cbv zeta. split; [|split].
  - apply clear_remaining_letters_idle. intros r Hin.
    rewrite clean_weather_records_tables in Hin.
    eapply update_rows_clean; eauto.
  - now rewrite handle_unfold.
  - rewrite handle_unfold. cbn [snd map]. intros text [<-|Hin]; [discriminate|].
    rewrite !map_app in Hin. apply in_app_iff in Hin as [Hin|Hin].
    + unfold remove_captains in Hin.
      destruct (filter is_captain _); cbn in Hin.
      * destruct Hin as [<-|[]]. discriminate.
      * destruct Hin as [<-|[<-|[<-|[<-|[]]]]]; intros E;
          try discriminate E.
    + apply in_app_iff in Hin as [Hin|Hin].
      * unfold clean_weather_records in Hin.
        destruct (Nat.ltb 0 _); cbn in Hin.
        -- destruct Hin as [<-|[<-|[]]]; intros E; discriminate E.
        -- destruct Hin as [<-|[]]. discriminate.
      * cbn in Hin. destruct Hin as [<-|[]]. discriminate.
Qed.

Lemma cleanup_keeps_references_witness :
  references_ok harbour /\ references_ok (fst (handle harbour)).
Proof.
  assert (references_ok harbour) as Hok.
  { split.
    - intros cc Hcc. cbn in Hcc. destruct Hcc as [<-|[<-|[]]].
      + exists eludecia. split; [now left|reflexivity].
      + eexists. split; [right; left; reflexivity|reflexivity].
    - intros cm Hcm. cbn in Hcm. destruct Hcm as [<-|[<-|[]]].
      + eexists. split; [right; left; reflexivity|reflexivity].
      + eexists. split; [left; reflexivity|reflexivity]. }
  split; [exact Hok|]. apply (cleanup_keeps_references harbour Hok).
Defined.

Import Cli Effects.

(* ================================================================= *)
(** ** The command-line pipeline *)

(** The events of [r'] are those of [r] followed by [events]. *)
Lemma emit_run (e : event) (r : run) :
  emit e r = ({| trace := (trace r ++ [e])%list; drawn := drawn r |}, Done tt).
Proof. reflexivity. Qed.

Section Obtain.
Context `{PyEnv}.
Variable w : cli_world.

(** The place a fetch is made for. *)
Lemma locate_cases cfg endpoint_of place r :
  let weather_config := api_weather (get_or (cfg_api cfg) no_api) in
  let place' :=
    match place with
    | Some place => place
    | None =>
        get_or (defaultLocation (get_or (cfg_preferences cfg) no_preferences))
               no_location
    end in
  (exists msg,
      (weather_config = None
       \/ falsy (loc_city place') || falsy (loc_country place') = true)
      /\ locate w cfg endpoint_of place r = (r, Failed (ConfigError msg))
      /\ forall endpoint_of',
           locate w cfg endpoint_of' place r = (r, Failed (ConfigError msg)))
  \/ (exists wc city country,
        weather_config = Some wc
        /\ loc_city place' = Some city /\ loc_country place' = Some country
        /\ city <> "" /\ country <> ""
        /\ let geo_url :=
             shown (geoEndpoint wc) ++ "q=" ++ city ++ "," ++ country
             ++ "&limit=1&appid=" ++ shown (apiKey wc) in
           let r1 := {| trace := (trace r ++ [Get geo_url])%list;
                        drawn := drawn r |} in
           forall endpoint_of',
             locate w cfg endpoint_of' place r
             = match geocoding w geo_url with
               | NoAnswer msg => (r1, Failed (RequestError msg))
               | Answer [] =>
                   (r1, Failed (ConfigError ("No location found for "
                                             ++ city ++ ", " ++ country)))
               | Answer (first :: _) =>
                   match geo_lat first, geo_lon first with
                   | Some lat, Some lon =>
                       (r1, Done (endpoint_of' wc, apiKey wc, city, country,
                                  lat, lon))
                   | None, _ => (r1, Failed (DataError (KeyError "lat")))
                   | Some _, None => (r1, Failed (DataError (KeyError "lon")))
                   end
               end).
Proof.
  cbv zeta. unfold locate.
  destruct (api_weather (get_or (cfg_api cfg) no_api)) as [wc|].
  2:{ left. eexists. split; [now left|]. split; reflexivity. }
  set (place' := match place with Some p => p | None => _ end).
  destruct (falsy (loc_city place') || falsy (loc_country place')) eqn:Hfalsy.
  { left. eexists. split; [now right|]. split; reflexivity. }
  right. apply orb_false_iff in Hfalsy as [Hcity Hcountry].
  unfold falsy, Eludecia.falsy in Hcity, Hcountry.
  destruct (loc_city place') as [city|] eqn:Ecity; [|discriminate].
  destruct (loc_country place') as [country|] eqn:Ecountry; [|discriminate].
  exists wc, city, country.
  split; [reflexivity|]. split; [reflexivity|]. split; [reflexivity|].
  split; [intros ->; discriminate|]. split; [intros ->; discriminate|].
  intros endpoint_of'. cbn [shown get_or].
  unfold get_json, bindC. rewrite emit_run.
  destruct (geocoding w _) as [[|first rest]|msg]; try reflexivity.
  unfold data, subscript, done, fail. cbn beta iota.
  destruct (geo_lat first), (geo_lon first); reflexivity.
Qed.

(** X23: [obtain_weather_data] and [obtain_forecast_data] check the
    configuration and the place before any request: without a weather
    configuration, or with a city or country missing or empty, both
    raise the same configuration error and request nothing.  When
    [obtain_weather_data] returns, it has made exactly two requests:
    the geocoding of the place, which answered with at least one
    entry, then the weather at the coordinates of the first entry,
    whose answer it returns after printing it; and
    [obtain_forecast_data], started from the same point, begins with
    the same geocoding request. *)
Theorem obtain_weather_data_requests cfg place r :
  let weather_config := api_weather (get_or (cfg_api cfg) no_api) in
  let place' :=
    match place with
    | Some place => place
    | None =>
        get_or (defaultLocation (get_or (cfg_preferences cfg) no_preferences))
               no_location
    end in
  (weather_config = None
   \/ falsy (loc_city place') || falsy (loc_country place') = true ->
   exists msg,
     obtain_weather_data w cfg place r = (r, Failed (ConfigError msg))
     /\ obtain_forecast_data w cfg place r = (r, Failed (ConfigError msg)))
  /\ (forall r' payload,
        obtain_weather_data w cfg place r = (r', Done payload) ->
        exists wc city country first rest lat lon,
          weather_config = Some wc
          /\ loc_city place' = Some city /\ loc_country place' = Some country
          /\ let geo_url :=
               shown (geoEndpoint wc) ++ "q=" ++ city ++ "," ++ country
               ++ "&limit=1&appid=" ++ shown (apiKey wc) in
             let weather_url :=
               shown (weatherEndpoint wc) ++ "lat=" ++ str_num lat
               ++ "&lon=" ++ str_num lon ++ "&appid=" ++ shown (apiKey wc)
               ++ "&units=metric" in
             geocoding w geo_url = Answer (first :: rest)
             /\ geo_lat first = Some lat /\ geo_lon first = Some lon
             /\ weather_api w weather_url = Answer payload
             /\ trace r'
                = (trace r
                   ++ [ Get geo_url; Get weather_url;
                        Print (RawWeatherData city country payload) ])%list
             /\ drawn r' = drawn r
             /\ exists more,
                  trace (fst (obtain_forecast_data w cfg place r))
                  = (trace r ++ Get geo_url :: more)%list).
Proof.
  cbv zeta.
  destruct (locate_cases cfg weatherEndpoint place r)
    as [(msg & Hwhy & Hfail & Hany)|(wc & city & country & Hwc & Hcity
                                     & Hcountry & Hc & Hy & Hrun)].
  - split.
    + intros _. exists msg. unfold obtain_weather_data, obtain_forecast_data.
      unfold bindC. rewrite (Hany weatherEndpoint), (Hany oneCallEndpoint).
      split; reflexivity.
    + intros r' payload. unfold obtain_weather_data. unfold bindC at 1.
      rewrite Hfail. discriminate.
  - cbv zeta in Hrun. split.
    + intros [Hnone|Hfalsy]; [congruence|].
      rewrite Hcity, Hcountry in Hfalsy. exfalso.
      unfold falsy, Eludecia.falsy in Hfalsy.
      apply String.eqb_neq in Hc, Hy. rewrite Hc, Hy in Hfalsy.
      discriminate.
    + intros r' payload. unfold obtain_weather_data. unfold bindC at 1.
      rewrite (Hrun weatherEndpoint).
      destruct (geocoding w _) as [[|first rest]|msg] eqn:Hgeo;
        try discriminate.
      destruct (geo_lat first) as [lat|] eqn:Hlat; [|discriminate].
      destruct (geo_lon first) as [lon|] eqn:Hlon; [|discriminate].
      unfold get_json, bindC. rewrite emit_run.
      destruct (weather_api w _) as [body|msg] eqn:Hweather;
        [|discriminate].
      unfold done. rewrite emit_run. cbn [trace drawn]. intros [= <- <-].
      exists wc, city, country, first, rest, lat, lon.
      split; [exact Hwc|]. split; [exact Hcity|]. split; [exact Hcountry|].
      cbv zeta. split; [exact Hgeo|]. split; [exact Hlat|].
      split; [exact Hlon|]. split; [exact Hweather|].
      cbn [trace drawn]. split; [now rewrite <- !app_assoc|].
      split; [reflexivity|].
      unfold obtain_forecast_data. unfold bindC at 1.
      rewrite (Hrun oneCallEndpoint).
      unfold get_json, bindC. rewrite emit_run.
      destruct (onecall_api w _) as [forecast|msg].
      * unfold done. rewrite emit_run. cbn [fst trace].
        eexists. rewrite <- !app_assoc. reflexivity.
      * unfold fail. cbn [fst trace].
        eexists. rewrite <- !app_assoc. reflexivity.
Qed.

End Obtain.

Lemma choice_member {A} (w : cli_world) (seq : list A) r r' x :
  choice w seq r = (r', Done x) -> In x seq /\ trace r' = trace r.
Proof.
  unfold choice. destruct seq as [|y rest]; [discriminate|].
  remember (y :: rest) as l eqn:Hl.
  intros Hrun. injection Hrun as <- <-. split; [|reflexivity].
  apply nth_In. apply Nat.mod_upper_bound. subst l. discriminate.
Qed.

Lemma pick_member {A} (w : cli_world) (default : A) (outcomes : list A) r r' x :
  outcomes <> [] ->
  pick w default outcomes r = (r', Done x) ->
  In x outcomes /\ trace r' = trace r.
Proof.
  unfold pick. intros Hsome Hrun. injection Hrun as <- <-.
  split; [|reflexivity].
  apply nth_In. apply Nat.mod_upper_bound.
  destruct outcomes; [contradiction|discriminate].
Qed.

Section Compose.
Context `{PyEnv}.
Variable w : cli_world.

(** What the call of the text generator does to the outside. *)
Lemma eludecia_response_run cfg info character_prompt language timezone r :
  let ds := get_or (api_deepseek (get_or (cfg_api cfg) no_api)) no_deepseek in
  let prompt := get_or character_prompt default_character_prompt in
  let reply := deepseek w prompt info language timezone in
  eludecia_response w cfg info character_prompt (Some language) (Some timezone) r
  = ({| trace :=
          (trace r
           ++ (if falsy (deepseek_apiKey ds) || falsy (deepseek_endpoint ds)
               then []
               else Chat prompt language timezone
                    :: match reply with
                       | ChatContent _ => []
                       | ChatRaised msg => [Print (DeepSeekFailed msg)]
                       end))%list;
        drawn := drawn r |},
     Done (Eludecia.get_eludecia_response (deepseek_apiKey ds)
             (deepseek_endpoint ds) info reply)).
Proof.
  cbv zeta. unfold eludecia_response.
  destruct (falsy _ || falsy _) eqn:Hmissing.
  - unfold done. rewrite app_nil_r. destruct r.
    unfold Eludecia.get_eludecia_response.
    unfold falsy in Hmissing. rewrite Hmissing. reflexivity.
  - unfold bindC. rewrite emit_run.
    destruct (deepseek w _ info language timezone) as [content|msg].
    + unfold done. reflexivity.
    + rewrite emit_run. unfold done. cbn [trace drawn].
      now rewrite <- app_assoc.
Qed.

Lemma draw_suggestions_member outcomes r r' d :
  outcomes <> [] ->
  draw_suggestions w outcomes r = (r', Done d) ->
  In d outcomes /\ trace r' = trace r.
Proof.
  unfold draw_suggestions. destruct outcomes as [|a [|b rest]]; intros Hsome.
  - contradiction.
  - intros [= <- <-]. split; [now left|reflexivity].
  - apply pick_member. discriminate.
Qed.

(** X24: what [construct_email] returns, when it returns.  The
    suggestion is the fixed notice when the file of suggestions has no
    entry for the weather type (the text of ['weather_type'] before
    its colon), and otherwise one of the entries of the weather type,
    or, for the languages zh and zh-cn, one of the entries of its
    [chinese_] counterpart.  The message goes to the address of the
    recipient when there is one, otherwise to the configured
    addresses, from the configured sender; its subject is the date, the
    place and the suggestion; it carries the summary as given and
    three numbered activity suggestions.  The language, the time zone
    and the character prompt are those of the recipient first, then
    the configured ones, then en and UTC; the text generator is asked
    once with them, or not at all without its configuration. *)
Theorem construct_email_composes cfg info who r r' mail :
  construct_email w cfg info who r = (r', Done mail) ->
  let service :=
    get_or (servicePreference (get_or (cfg_preferences cfg) no_preferences))
           no_service_preference in
  let language :=
    match given who with
    | Some x => get_or (rcp_language x) (get_or (pref_language service) "en")
    | None => get_or (pref_language service) "en"
    end in
  let timezone :=
    match given who with
    | Some x => get_or (rcp_timezone x) (get_or (pref_timezone service) "UTC")
    | None => get_or (pref_timezone service) "UTC"
    end in
  let character_prompt :=
    match given who with
    | Some x => rcp_characterPrompt x
    | None => None
    end in
  let email_config := get_or (api_email (get_or (cfg_api cfg) no_api)) no_email in
  let ds := get_or (api_deepseek (get_or (cfg_api cfg) no_api)) no_deepseek in
  let prompt := get_or character_prompt default_character_prompt in
  exists suggestions weather_type current_date,
    suggestion_file w = Answer suggestions
    /\ dict_get "weather_type" info = Some weather_type
    /\ (has_key (before_colon weather_type) suggestions = false ->
        mc_suggestion mail = "Weather condition not recognized. Stay safe!")
    /\ (has_key (before_colon weather_type) suggestions = true ->
        In (mc_suggestion mail)
           (get_or (dict_get (before_colon weather_type) suggestions) [])
        \/ ((language = "zh" \/ language = "zh-cn")
            /\ In (mc_suggestion mail)
                  (get_or (dict_get ("chinese_" ++ before_colon weather_type)
                                    suggestions) [])))
    /\ mc_weather_info mail = info
    /\ mc_character_prompt mail = character_prompt
    /\ senderEmail email_config = Some (mc_sender_email mail)
    /\ senderName email_config = Some (mc_sender_name mail)
    /\ match given who with
       | Some x =>
           match rcp_email x with
           | Some address => mc_to_emails mail = [address]
           | None => toEmails email_config = Some (mc_to_emails mail)
           end
       | None => toEmails email_config = Some (mc_to_emails mail)
       end
    /\ mc_to_emails mail <> []
    /\ match dict_get "current_time" info with
       | Some current_time => first_word current_time = Ok current_date
       | None => current_date = ""
       end
    /\ mc_subject mail
       = current_date ++ " | Weather for "
         ++ get_or (dict_get "location" info) "" ++ " | " ++ mc_suggestion mail
    /\ dict_keys (mc_activity_suggestions mail) = three_keys
    /\ mc_eludecia_response mail
       = Eludecia.get_eludecia_response (deepseek_apiKey ds)
           (deepseek_endpoint ds) info
           (deepseek w prompt info language timezone)
    /\ trace r'
       = (trace r
          ++ (if falsy (deepseek_apiKey ds) || falsy (deepseek_endpoint ds)
              then []
              else Chat prompt language timezone
                   :: match deepseek w prompt info language timezone with
                      | ChatContent _ => []
                      | ChatRaised msg => [Print (DeepSeekFailed msg)]
                      end))%list.
Proof.
  unfold construct_email. unfold bindC at 1.
  destruct (suggestion_file w) as [suggestions|msg]; [|discriminate].
  unfold done at 1. unfold bindC at 1. unfold data at 1, subscript at 1.
  destruct (dict_get "weather_type" info) as [weather_type|]; [|discriminate].
  unfold done at 1.
  set (wt := before_colon weather_type).
  set (service := get_or (servicePreference _) no_service_preference).
  set (language := match given who with Some x => get_or (rcp_language x) _
                                   | None => _ end).
  set (timezone := match given who with Some x => get_or (rcp_timezone x) _
                                   | None => _ end).
  set (character_prompt := match given who with Some x => rcp_characterPrompt x
                                           | None => None end).
  unfold bindC at 1.
  (* first draw *)
  match goal with
  | |- context [match ?m r with _ => _ end] =>
      destruct (m r) as [r1 [suggestion|e]] eqn:Hfirst
  end; [|discriminate].
  assert (trace r1 = trace r
          /\ (has_key wt suggestions = false ->
              suggestion = "Weather condition not recognized. Stay safe!")
          /\ (has_key wt suggestions = true ->
              In suggestion (get_or (dict_get wt suggestions) [])))
    as (Ht1 & Hnone & Hsome).
  { destruct (has_key wt suggestions) eqn:Hkey.
    - unfold has_key in Hkey.
      destruct (dict_get wt suggestions) as [entries|] eqn:Hget;
        [|discriminate].
      cbn [get_or] in *. apply choice_member in Hfirst as [Hin Ht].
      split; [exact Ht|]. split; [discriminate|auto].
    - injection Hfirst as <- <-. split; [reflexivity|].
      split; [auto|discriminate]. }
  unfold bindC at 1.
  (* second draw *)
  match goal with
  | |- context [match ?m r1 with _ => _ end] =>
      destruct (m r1) as [r2 [suggestion2|e]] eqn:Hsecond
  end; [|discriminate].
  assert (trace r2 = trace r
          /\ (has_key wt suggestions = false ->
              suggestion2 = "Weather condition not recognized. Stay safe!")
          /\ (has_key wt suggestions = true ->
              In suggestion2 (get_or (dict_get wt suggestions) [])
              \/ ((language = "zh" \/ language = "zh-cn")
                  /\ In suggestion2
                        (get_or (dict_get ("chinese_" ++ wt) suggestions) []))))
    as (Ht2 & Hnone2 & Hsome2).
  { destruct ((String.eqb language "zh" || String.eqb language "zh-cn")
              && has_key wt suggestions) eqn:Hzh.
    - apply andb_true_iff in Hzh as [Hlang Hkey].
      destruct (has_key ("chinese_" ++ wt) suggestions) eqn:Hck.
      + unfold has_key in Hck.
        destruct (dict_get ("chinese_" ++ wt) suggestions) as [entries|] eqn:Hget;
          [|discriminate].
        cbn [get_or] in *. apply choice_member in Hsecond as [Hin Ht].
        split; [congruence|]. split; [congruence|].
        intros _. right. split; [|exact Hin].
        apply orb_true_iff in Hlang as [E|E]; apply String.eqb_eq in E; auto.
      + injection Hsecond as <- <-. split; [exact Ht1|].
        split; [exact Hnone|auto].
    - injection Hsecond as <- <-. split; [exact Ht1|].
      split; [exact Hnone|auto]. }
  unfold bindC at 1. rewrite eludecia_response_run.
  unfold bindC at 1.
  destruct (generate_activity_suggestions info language) as [outcomes|e] eqn:Hgen;
    [|discriminate].
  unfold data at 1, done at 1. unfold bindC at 1.
  match goal with
  | |- context [draw_suggestions w outcomes ?t] =>
      destruct (draw_suggestions w outcomes t) as [r3 [activity|e]] eqn:Hdraw
  end; [|discriminate].
  assert (outcomes <> [] /\ forall d, In d outcomes -> dict_keys d = three_keys)
    as [Hsomeout Hkeys].
  { unfold generate_activity_suggestions in Hgen.
    destruct (candidate_pool info language) as [pool|e]; cbn [bind] in Hgen;
      [|discriminate].
    injection Hgen as <-. split; [apply select_suggestions_some|].
    intros d Hd. now apply select_suggestions_three in Hd. }
  apply (draw_suggestions_member _ _ _ _ Hsomeout) in Hdraw as [Hin3 Ht3].
  cbn [trace] in Ht3.
  set (email_config := get_or (api_email _) no_email).
  destruct (senderEmail email_config) as [sender_email|] eqn:Hsender;
    [|discriminate].
  destruct (senderName email_config) as [sender_name|] eqn:Hname;
    [|discriminate].
  match goal with
  | |- context [match ?t with None => _ | Some _ => _ end r3] =>
      destruct t as [[|to1 to_rest]|] eqn:Hto
  end; try discriminate.
  unfold bindC at 1.
  match goal with
  | |- context [data ?m r3] => destruct m as [current_date|e] eqn:Hdate
  end; [|discriminate].
  unfold data, done. intros [= <- <-]. cbn [mc_suggestion mc_weather_info
    mc_character_prompt mc_sender_email mc_sender_name mc_to_emails mc_subject
    mc_activity_suggestions mc_eludecia_response].
  exists suggestions, weather_type, current_date.
  split; [reflexivity|]. split; [reflexivity|].
  split; [exact Hnone2|]. split; [exact Hsome2|].
  split; [reflexivity|]. split; [reflexivity|].
  split; [reflexivity|]. split; [reflexivity|].
  split.
  { destruct (given who) as [x|]; [destruct (rcp_email x)|];
      first [injection Hto as <- <-; reflexivity|exact Hto]. }
  split; [discriminate|].
  split.
  { destruct (dict_get "current_time" info); [exact Hdate|].
    now injection Hdate as <-. }
  split; [reflexivity|]. split; [now apply Hkeys|].
  split; [reflexivity|].
  rewrite Ht3, Ht2. reflexivity.
Qed.

End Compose.

Import Desk.

Lemma obtain_weather_data_requests_witness :
  (exists msg,
      obtain_weather_data (desk accepting) bare_config (Some paris_place) fresh
      = (fresh, Failed (ConfigError msg)))
  /\ exists r' payload,
       obtain_weather_data (desk accepting) (desk_config []) None fresh
       = (r', Done payload)
       /\ trace r'
          = [ Get "https://api.example/geo?q=Paris,FR&limit=1&appid=KEY";
              Get "https://api.example/weather?lat=48.85&lon=2.35&appid=KEY&units=metric";
              Print (RawWeatherData "Paris" "FR" payload) ].
Proof.
  split.
  - destruct (obtain_weather_data_requests (desk accepting) bare_config
                (Some paris_place) fresh) as [Hfail _].
    destruct Hfail as (msg & Hrun & _); [left; reflexivity|].
    exists msg. exact Hrun.
  - eexists _, _.
    match goal with
    | |- ?run = (?r', Done ?p) /\ _ =>
        assert (run = (r', Done p)) as Hrun by (vm_compute; reflexivity)
    end.
    split; [exact Hrun|].
    destruct (obtain_weather_data_requests (desk accepting) (desk_config [])
                None fresh) as [_ Hok].
    destruct (Hok _ _ Hrun)
      as (wc & city & country & first & rest & lat & lon & Hwc & Hcity
          & Hcountry & Hgeo & Hlat & Hlon & _ & Ht & _).
    injection Hwc as <-. injection Hcity as <-. injection Hcountry as <-.
    vm_compute in Hgeo. injection Hgeo as <- <-.
    injection Hlat as <-. injection Hlon as <-.
    exact Ht.
Defined.

Lemma construct_email_composes_witness :
  exists r' mail,
    construct_email (desk accepting) (desk_config []) rainy_summary (Some ann)
      fresh
    = (r', Done mail)
    /\ mc_to_emails mail = ["ann@example.org"]
    /\ (In (mc_suggestion mail) ["Take an umbrella."; "Wear boots."]
        \/ In (mc_suggestion mail) ["记得带伞。"])
    /\ trace r'
       = [Chat "You are the Lighthouse Keeper, calm and brief." "zh"
               "Europe/Paris"].
Proof.
  eexists _, _.
  match goal with
  | |- ?run = (?r', Done ?m) /\ _ =>
      assert (run = (r', Done m)) as Hrun by (vm_compute; reflexivity)
  end.
  split; [exact Hrun|].
  destruct (construct_email_composes (desk accepting) (desk_config [])
              rainy_summary (Some ann) fresh _ _ Hrun)
    as (suggestions & weather_type & current_date & Hfile & Htype & _ & Hsome
        & _ & _ & _ & _ & Hto & _ & _ & _ & _ & _ & Ht).
  injection Hfile as <-. injection Htype as <-.
  split; [exact Hto|]. split.
  - destruct Hsome as [Hin|[_ Hin]]; [reflexivity|left; exact Hin
                                     |right; exact Hin].
  - exact Ht.
Defined.

(* ================================================================= *)
(** ** The mail and the loop over the recipients *)

Lemma quiet_done {A} (a : A) : quiet (done a).
Proof.
  intros r r' out [= <- <-]. exists []. now rewrite app_nil_r.
Qed.

Lemma quiet_fail {A} (e : cli_exn) : quiet (@fail A e).
Proof.
  intros r r' out [= <- <-]. exists []. now rewrite app_nil_r.
Qed.

Lemma quiet_data {A} (m : result A) : quiet (data m).
Proof. destruct m; [apply quiet_done|apply quiet_fail]. Qed.

Lemma quiet_emit e : no_send e -> quiet (emit e).
Proof.
  intros He r r' out [= <- <-]. exists [e]. split; [reflexivity|].
  now constructor.
Qed.

Lemma quiet_bind {A B} (m : C A) (k : A -> C B) :
  quiet m -> (forall a, quiet (k a)) -> quiet (bindC m k).
Proof.
  intros Hm Hk r r' out. unfold bindC.
  destruct (m r) as [r1 [a|e]] eqn:Hrun; intros Hrest.
  - destruct (Hm _ _ _ Hrun) as (ev1 & Ht1 & Hq1).
    destruct (Hk a _ _ _ Hrest) as (ev2 & Ht2 & Hq2).
    exists (ev1 ++ ev2)%list. split.
    + now rewrite Ht2, Ht1, app_assoc.
    + apply Forall_app. now split.
  - injection Hrest as <- <-. exact (Hm _ _ _ Hrun).
Qed.

Lemma quiet_choice {A} (w : cli_world) (seq : list A) : quiet (choice w seq).
Proof.
  intros r r' out. unfold choice. destruct seq; intros [= <- <-];
    exists []; cbn [trace]; now rewrite app_nil_r.
Qed.

Lemma quiet_pick {A} (w : cli_world) (default : A) outcomes :
  quiet (pick w default outcomes).
Proof.
  intros r r' out [= <- <-]. exists []. cbn [trace]. now rewrite app_nil_r.
Qed.

Ltac quiet_step :=
  first
    [ apply quiet_done
    | apply quiet_fail
    | apply quiet_data
    | apply quiet_choice
    | apply quiet_pick
    | apply quiet_emit; exact I
    | apply quiet_bind; [|intros ?]
    | match goal with
      | |- quiet (match ?x with _ => _ end) => destruct x
      | |- quiet (if ?b then _ else _) => destruct b
      end ].

Section Mail.
Context `{PyEnv}.
Variable w : cli_world.

Lemma quiet_get_json {A} (endpoint : string -> reply A) url :
  quiet (get_json endpoint url).
Proof. unfold get_json. repeat quiet_step. Qed.

Lemma quiet_locate cfg endpoint_of place :
  quiet (locate w cfg endpoint_of place).
Proof.
  unfold locate.
  destruct (api_weather _); [|apply quiet_fail].
  destruct (falsy _ || falsy _); [apply quiet_fail|].
  apply quiet_bind; [apply quiet_get_json|]. intros geo_data.
  repeat quiet_step.
Qed.

Lemma quiet_obtain_weather_data cfg place :
  quiet (obtain_weather_data w cfg place).
Proof.
  unfold obtain_weather_data.
  apply quiet_bind; [apply quiet_locate|].
  intros [[[[[endpoint api_key] city] country] lat] lon].
  apply quiet_bind; [apply quiet_get_json|]. intros payload.
  repeat quiet_step.
Qed.

Lemma quiet_obtain_forecast_data cfg place :
  quiet (obtain_forecast_data w cfg place).
Proof.
  unfold obtain_forecast_data.
  apply quiet_bind; [apply quiet_locate|].
  intros [[[[[endpoint api_key] city] country] lat] lon].
  apply quiet_bind; [apply quiet_get_json|]. intros payload.
  repeat quiet_step.
Qed.

Lemma quiet_traced_handle_weather_data payload :
  quiet (traced_handle_weather_data payload).
Proof. unfold traced_handle_weather_data. repeat quiet_step. Qed.

Lemma quiet_traced_process_forecast_data payload :
  quiet (traced_process_forecast_data payload).
Proof. unfold traced_process_forecast_data. repeat quiet_step. Qed.

Lemma quiet_eludecia_response cfg info character_prompt language timezone :
  quiet (eludecia_response w cfg info character_prompt language timezone).
Proof. unfold eludecia_response. repeat quiet_step. Qed.

Lemma quiet_draw_suggestions outcomes : quiet (draw_suggestions w outcomes).
Proof.
  unfold draw_suggestions. destruct outcomes as [|a [|b rest]];
    repeat quiet_step.
Qed.

Lemma quiet_construct_email cfg info who :
  quiet (construct_email w cfg info who).
Proof.
  unfold construct_email.
  apply quiet_bind; [repeat quiet_step|]. intros suggestions.
  apply quiet_bind; [repeat quiet_step|]. intros weather_type.
  apply quiet_bind; [repeat quiet_step|]. intros suggestion.
  apply quiet_bind; [repeat quiet_step|]. intros suggestion2.
  apply quiet_bind; [apply quiet_eludecia_response|]. intros eludecia.
  apply quiet_bind; [repeat quiet_step|]. intros outcomes.
  apply quiet_bind; [apply quiet_draw_suggestions|]. intros activity.
  destruct (senderEmail _); [|apply quiet_fail].
  destruct (senderName _); [|apply quiet_fail].
  match goal with
  | |- quiet (match ?t with _ => _ end) => destruct t as [[|to1 rest]|]
  end; repeat quiet_step.
Qed.

(** A run of [send_email] once the credentials are there. *)
Lemma send_email_run cfg mail r ec :
  api_email (get_or (cfg_api cfg) no_api) = Some ec ->
  falsy (secretId ec) || falsy (secretKey ec) = false ->
  exists r',
    send_email w cfg mail r = (r', Done tt)
    /\ drawn r' = drawn r
    /\ match template_data_of w (senderEmail ec) mail with
       | Raise e =>
           trace r'
           = (trace r
              ++ [ Print (SendFailed (DataError e));
                   Print (Line "Tip: Make sure your sender email is verified in Tencent Cloud");
                   Print (Line "You need to follow Tencent Cloud's sender email verification process at: https://console.cloud.tencent.com/ses/sender") ])%list
       | Ok template_data =>
           let req :=
             {| Destination := mc_to_emails mail;
                Subject := mc_subject mail;
                FromEmailAddress :=
                  get_or (senderName ec) "" ++ " <" ++ shown (senderEmail ec)
                  ++ ">";
                TemplateID := 31550;
                TemplateData := template_data;
                client_secret_id := shown (secretId ec);
                client_secret_key := shown (secretKey ec);
                client_region := get_or (region ec) "ap-guangzhou" |} in
           trace r'
           = (trace r
              ++ [ Print (Line "Template data being sent:");
                   Print (TemplateDump template_data);
                   SendEmail req ]
              ++ match ses w req with
                 | Answer message_id =>
                     [ Print (Line ("Email sent successfully using template ID 31550! Message ID: " ++ message_id)) ]
                 | NoAnswer msg =>
                     [ Print (SendFailed (SesError msg));
                       Print (Line "Tip: Make sure your sender email is verified in Tencent Cloud");
                       Print (Line "You need to follow Tencent Cloud's sender email verification process at: https://console.cloud.tencent.com/ses/sender") ]
                 end)%list
       end.
Proof.
  intros Hcfg Hcred. unfold send_email. rewrite Hcfg, Hcred.
  unfold catch, bindC, say.
  destruct (template_data_of w (senderEmail ec) mail) as [template_data|e].
  - unfold data, done. rewrite !emit_run. cbn [trace drawn].
    match goal with
    | |- context [ses w ?q] => destruct (ses w q) as [message_id|msg]
    end.
    + rewrite emit_run. cbn [trace drawn]. eexists. split; [reflexivity|].
      split; [reflexivity|]. cbn [trace]. now rewrite <- !app_assoc.
    + unfold fail. rewrite !emit_run. cbn [trace drawn].
      eexists. split; [reflexivity|]. split; [reflexivity|].
      cbn [trace]. now rewrite <- !app_assoc.
  - unfold data, fail. rewrite !emit_run. cbn [trace drawn].
    eexists. split; [reflexivity|]. split; [reflexivity|].
    cbn [trace]. now rewrite <- !app_assoc.
Qed.

Lemma guarded_quiet {A} (m : C A) : quiet m -> guarded w m.
Proof.
  intros Hq r r' out Hrun. destruct (Hq _ _ _ Hrun) as (events & Ht & Hno).
  exists events. split; [exact Ht|]. split; [auto|].
  intros req msg Hin _. exfalso.
  rewrite Forall_forall in Hno. exact (Hno _ Hin).
Qed.

Lemma guarded_bind {A B} (m : C A) (k : A -> C B) :
  quiet m -> (forall a, guarded w (k a)) -> guarded w (bindC m k).
Proof.
  intros Hm Hk r r' out. unfold bindC.
  destruct (m r) as [r1 [a|e]] eqn:Hrun; intros Hrest.
  - destruct (Hm _ _ _ Hrun) as (ev1 & Ht1 & Hq1).
    destruct (Hk a _ _ _ Hrest) as (ev2 & Ht2 & Hfail & Hrefused).
    exists (ev1 ++ ev2)%list. split; [now rewrite Ht2, Ht1, app_assoc|].
    split.
    + intros Hout. apply Forall_app. auto.
    + intros req msg Hin Hses. apply in_or_app.
      apply in_app_or in Hin as [Hin|Hin].
      * exfalso. rewrite Forall_forall in Hq1. exact (Hq1 _ Hin).
      * right. eauto.
  - injection Hrest as <- <-.
    destruct (Hm _ _ _ Hrun) as (events & Ht & Hno).
    exists events. split; [exact Ht|]. split; [auto|].
    intros req msg Hin _. exfalso.
    rewrite Forall_forall in Hno. exact (Hno _ Hin).
Qed.

Lemma guarded_send_email cfg mail : guarded w (send_email w cfg mail).
Proof.
  intros r r' out Hrun.
  destruct (api_email (get_or (cfg_api cfg) no_api)) as [ec|] eqn:Hcfg.
  - destruct (falsy (secretId ec) || falsy (secretKey ec)) eqn:Hcred.
    + unfold send_email in Hrun. rewrite Hcfg, Hcred in Hrun.
      injection Hrun as <- <-. exists []. rewrite app_nil_r.
      split; [reflexivity|]. split; [constructor|intros ? ? []].
    + destruct (send_email_run cfg mail r ec Hcfg Hcred) as (r1 & Hdone & _ & Ht).
      rewrite Hdone in Hrun. injection Hrun as <- <-.
      destruct (template_data_of w (senderEmail ec) mail) as [td|e].
      * cbv zeta in Ht.
        match type of Ht with
        | context [SendEmail ?q] => set (request := q) in *
        end.
        eexists. split; [exact Ht|].
        split; [intros [e [=]]|].
        intros req msg Hin Hses. apply in_or_app. right.
        cbn [app In] in Hin.
        destruct Hin as [[=]|[[=]|[Hreq|Hin]]].
        -- injection Hreq as <-. rewrite Hses. now left.
        -- destruct (ses w _); cbn [In] in Hin;
             repeat match goal with
                    | H : _ \/ _ |- _ => destruct H as [H|H]
                    end; try discriminate; contradiction.
      * eexists. split; [exact Ht|]. split; [intros [e' [=]]|].
        intros req msg Hin _. cbn [In] in Hin.
        repeat match goal with
               | H : _ \/ _ |- _ => destruct H as [H|H]
               end; try discriminate; contradiction.
  - unfold send_email in Hrun. rewrite Hcfg in Hrun.
    injection Hrun as <- <-. exists []. rewrite app_nil_r.
    split; [reflexivity|]. split; [constructor|intros ? ? []].
Qed.

Lemma guarded_weather_mail cfg place who :
  guarded w (weather_mail w cfg place who).
Proof.
  unfold weather_mail.
  apply guarded_bind; [apply quiet_obtain_weather_data|]. intros payload.
  apply guarded_bind; [apply quiet_traced_handle_weather_data|].
  intros weather_info.
  apply guarded_bind; [apply quiet_obtain_forecast_data|]. intros forecast.
  apply guarded_bind; [apply quiet_traced_process_forecast_data|].
  intros forecast_info.
  apply guarded_bind; [apply quiet_data|]. intros complete.
  apply guarded_bind; [apply quiet_construct_email|]. intros mail.
  apply guarded_send_email.
Qed.

(** The turn of one recipient. *)
Lemma serve_run cfg who r :
  exists r' body final,
    serve w cfg who r = (r', Done tt)
    /\ trace r' = (trace r ++ body ++ [Print final])%list
    /\ report_of who final
    /\ (final = Skipping who
        <-> falsy (rcp_email who) || no_place (rcp_location who) = true)
    /\ (final = Skipping who -> body = [])
    /\ ((exists e, final = ProcessingError (get_or (rcp_email who) "unknown") e)
        -> Forall no_send body)
    /\ (forall req, In (SendEmail req) body ->
          final = Line ("Successfully sent weather update to "
                        ++ shown (rcp_email who))
          /\ forall msg, ses w req = NoAnswer msg ->
               In (Print (SendFailed (SesError msg))) body).
Proof.
  unfold serve, catch.
  destruct (falsy (rcp_email who) || no_place (rcp_location who)) eqn:Hskip.
  - rewrite emit_run. exists {| trace := (trace r ++ [Print (Skipping who)])%list;
                                drawn := drawn r |}, [], (Skipping who).
    split; [reflexivity|]. split; [reflexivity|].
    split; [now left|]. split; [tauto|]. split; [reflexivity|].
    split; [constructor|intros ? []].
  - unfold bindC, say. rewrite emit_run.
    match goal with
    | |- context [weather_mail w cfg ?p ?q ?t] =>
        destruct (weather_mail w cfg p q t) as [r1 [[]|e]] eqn:Hmail;
        destruct (guarded_weather_mail _ _ _ _ _ _ Hmail)
          as (events & Ht & Hfail & Hrefused)
    end; cbn [trace] in Ht.
    + rewrite emit_run. eexists _, (_ :: events), _.
      split; [reflexivity|]. split.
      { cbn [trace]. rewrite Ht, <- !app_assoc. reflexivity. }
      split; [right; left; reflexivity|].
      split; [split; [discriminate|intros [=]]|].
      split; [discriminate|]. split; [intros [e [=]]|].
      intros req [[=]|Hin]. split; [reflexivity|].
      intros msg Hses. right. eauto.
    + rewrite emit_run. eexists _, (_ :: events), _.
      split; [reflexivity|]. split.
      { cbn [trace]. rewrite Ht, <- !app_assoc. reflexivity. }
      split; [right; right; eauto|].
      split; [split; [discriminate|intros [=]]|].
      split; [discriminate|]. split.
      { intros _. constructor; [exact I|]. apply Hfail. eauto. }
      intros req [[=]|Hin]. exfalso.
      assert (Hno : Forall no_send events) by (apply Hfail; eauto).
      rewrite Forall_forall in Hno. exact (Hno _ Hin).
Qed.

(** X25: [send_email] raises only for a missing mail configuration or
    missing credentials, and then before it does anything.  With
    them it returns whatever the template data and the mail service
    do: it makes at most one send request, addressed to the
    recipients of the mail with its subject, template 31550 and the
    template data; a request the service refuses and template data
    that cannot be built are printed, not raised. *)
Theorem send_email_swallows_failures cfg mail r :
  match api_email (get_or (cfg_api cfg) no_api) with
  | None =>
      exists msg, send_email w cfg mail r = (r, Failed (ConfigError msg))
  | Some ec =>
      if falsy (secretId ec) || falsy (secretKey ec)
      then exists msg, send_email w cfg mail r = (r, Failed (ConfigError msg))
      else
        exists r' events,
          send_email w cfg mail r = (r', Done tt)
          /\ drawn r' = drawn r
          /\ trace r' = (trace r ++ events)%list
          /\ (forall req1 req2 before between after,
                events = (before ++ SendEmail req1 :: between
                          ++ SendEmail req2 :: after)%list -> False)
          /\ (forall req, In (SendEmail req) events ->
                Destination req = mc_to_emails mail
                /\ Subject req = mc_subject mail
                /\ TemplateID req = 31550%Z
                /\ template_data_of w (senderEmail ec) mail
                   = Ok (TemplateData req)
                /\ client_region req = get_or (region ec) "ap-guangzhou")
          /\ (forall req msg, In (SendEmail req) events ->
                ses w req = NoAnswer msg ->
                In (Print (SendFailed (SesError msg))) events)
          /\ (forall e, template_data_of w (senderEmail ec) mail = Raise e ->
                Forall no_send events
                /\ In (Print (SendFailed (DataError e))) events)
  end.
Proof.
  destruct (api_email (get_or (cfg_api cfg) no_api)) as [ec|] eqn:Hcfg.
  - destruct (falsy (secretId ec) || falsy (secretKey ec)) eqn:Hcred.
    + unfold send_email. rewrite Hcfg, Hcred. eexists. reflexivity.
    + destruct (send_email_run cfg mail r ec Hcfg Hcred)
        as (r1 & Hdone & Hdrawn & Ht).
      destruct (guarded_send_email cfg mail _ _ _ Hdone)
        as (events & Hevents & _ & Hrefused).
      exists r1, events. split; [exact Hdone|]. split; [exact Hdrawn|].
      split; [exact Hevents|].
      rewrite Hevents in Ht.
      destruct (template_data_of w (senderEmail ec) mail) as [td|e].
      * cbv zeta in Ht. apply app_inv_head in Ht. subst events.
        split.
        { intros req1 req2 before between after Heq.
          assert (Hcount :
            List.length (filter (fun e => match e with SendEmail _ => true
                                                  | _ => false end)
                           (before ++ SendEmail req1 :: between
                            ++ SendEmail req2 :: after)) >= 2).
          { rewrite filter_app. cbn [filter]. rewrite filter_app.
            cbn [filter]. rewrite length_app. cbn [List.length].
            rewrite length_app. cbn [List.length]. lia. }
          rewrite <- Heq in Hcount. cbn [app filter] in Hcount.
          destruct (ses w _); cbn [filter List.length] in Hcount; lia. }
        split.
        { intros req Hin. cbn [app In] in Hin.
          destruct Hin as [[=]|[[=]|[Hreq|Hin]]].
          - injection Hreq as <-. cbn. repeat split; reflexivity.
          - destruct (ses w _); cbn [In] in Hin;
              repeat match goal with
                     | H : _ \/ _ |- _ => destruct H as [H|H]
                     end; try discriminate; contradiction. }
        split; [exact Hrefused|]. intros e [=].
      * apply app_inv_head in Ht. subst events.
        split.
        { intros req1 req2 before between after Heq.
          assert (Hin : In (SendEmail req1)
                          (before ++ SendEmail req1 :: between
                           ++ SendEmail req2 :: after)).
          { apply in_or_app. right. now left. }
          rewrite <- Heq in Hin. cbn [In] in Hin.
          repeat match goal with
                 | H : _ \/ _ |- _ => destruct H as [H|H]
                 end; try discriminate; contradiction. }
        split.
        { intros req Hin. cbn [In] in Hin.
          repeat match goal with
                 | H : _ \/ _ |- _ => destruct H as [H|H]
                 end; try discriminate; contradiction. }
        split; [exact Hrefused|].
        intros e' [= <-]. split; [|now left].
        repeat constructor.
  - unfold send_email. rewrite Hcfg. eexists. reflexivity.
Qed.

(** X26: with recipients configured, [process_and_send_weather] never
    raises.  After the opening line every recipient has a turn, in
    the order of the configuration, and every turn ends with exactly
    one of three lines: the recipient is skipped, which happens exactly
    when the address or the location is missing and then nothing else
    is done; or the update is reported as sent; or an error is
    reported, and then no send request was made in the turn. *)
Theorem recipients_are_served_in_turn cfg r :
  let recipients := get_or (cfg_recipients cfg) [] in
  recipients <> [] ->
  exists r' turns,
    process_and_send_weather w cfg r = (r', Done tt)
    /\ trace r'
       = (trace r
          ++ Print (Line ("Sending weather updates to "
                          ++ str_of_nat (List.length recipients)
                          ++ " recipients with their specific locations..."))
          :: concat turns)%list
    /\ Forall2
         (fun who turn =>
            exists body final,
              turn = (body ++ [Print final])%list
              /\ report_of who final
              /\ (final = Skipping who
                  <-> falsy (rcp_email who) || no_place (rcp_location who)
                      = true)
              /\ (final = Skipping who -> body = [])
              /\ ((exists e, final = ProcessingError
                                       (get_or (rcp_email who) "unknown") e)
                  -> Forall no_send body))
         recipients turns.
Proof.
  cbv zeta. unfold process_and_send_weather.
  destruct (get_or (cfg_recipients cfg) []) as [|first rest] eqn:Hrec;
    [contradiction|]. intros _.
  unfold bindC at 1. unfold say. rewrite emit_run.
  set (header := Print (Line _)).
  set (r0 := {| trace := (trace r ++ [header])%list; drawn := drawn r |}).
  assert (Hloop : forall l s, exists s' turns,
             for_all l (serve w cfg) s = (s', Done tt)
             /\ trace s' = (trace s ++ concat turns)%list
             /\ Forall2
                  (fun who turn =>
                     exists body final,
                       turn = (body ++ [Print final])%list
                       /\ report_of who final
                       /\ (final = Skipping who
                           <-> falsy (rcp_email who)
                               || no_place (rcp_location who) = true)
                       /\ (final = Skipping who -> body = [])
                       /\ ((exists e, final = ProcessingError
                                       (get_or (rcp_email who) "unknown") e)
                           -> Forall no_send body))
                  l turns).
  { induction l as [|who l IH]; intros s.
    - exists s, []. cbn. rewrite app_nil_r. repeat split. constructor.
    - cbn [for_all]. unfold bindC.
      destruct (serve_run cfg who s)
        as (s1 & body & final & Hrun & Ht & Hrep & Hskip & Hidle & Herr & _).
      rewrite Hrun.
      destruct (IH s1) as (s2 & turns & Hrest & Ht2 & Hall).
      exists s2, ((body ++ [Print final])%list :: turns).
      split; [exact Hrest|]. split.
      + cbn [concat]. rewrite Ht2, Ht, <- !app_assoc. reflexivity.
      + constructor; [|exact Hall]. exists body, final. auto. }
  destruct (Hloop (first :: rest) r0) as (r' & turns & Hrun & Ht & Hall).
  exists r', turns. split; [exact Hrun|]. split; [|exact Hall].
  rewrite Ht. subst r0. cbn [trace]. now rewrite <- app_assoc.
Qed.

(** X27: a message the mail service refuses is still reported as sent.
    In the turn of a recipient, when a send request is made and the
    service refuses it, the refusal is printed and the turn ends with
    the line "Successfully sent weather update to" the recipient. *)
Theorem refused_mail_is_reported_sent cfg who r r' out events req msg :
  serve w cfg who r = (r', out) ->
  trace r' = (trace r ++ events)%list ->
  In (SendEmail req) events ->
  ses w req = NoAnswer msg ->
  out = Done tt
  /\ In (Print (SendFailed (SesError msg))) events
  /\ last events (Print (Line ""))
     = Print (Line ("Successfully sent weather update to "
                    ++ shown (rcp_email who))).
Proof.
  intros Hrun Ht Hin Hses.
  destruct (serve_run cfg who r)
    as (r1 & body & final & Hserve & Ht1 & _ & _ & _ & _ & Hsent).
  rewrite Hserve in Hrun. injection Hrun as <- <-.
  rewrite Ht1 in Ht. apply app_inv_head in Ht. subst events.
  apply in_app_or in Hin as [Hin|[[=]|[]]].
  destruct (Hsent _ Hin) as [-> Hprinted].
  split; [reflexivity|]. split.
  - apply in_or_app. left. eauto.
  - apply last_last.
Qed.

End Mail.

Lemma recipients_are_served_in_turn_witness :
  exists r' turns,
    process_and_send_weather (desk refusing) (desk_config [ann; bob; cleo])
      fresh
    = (r', Done tt)
    /\ List.length turns = 3
    /\ trace r'
       = Print (Line "Sending weather updates to 3 recipients with their specific locations...")
         :: concat turns.
Proof.
  destruct (recipients_are_served_in_turn (desk refusing)
              (desk_config [ann; bob; cleo]) fresh)
    as (r' & turns & Hrun & Ht & Hall); [discriminate|].
  exists r', turns. split; [exact Hrun|]. split; [|exact Ht].
  apply Forall2_length in Hall. symmetry. exact Hall.
Defined.

Lemma refused_mail_is_reported_sent_witness :
  let r' := fst (serve (desk refusing) (desk_config []) ann fresh) in
  In (Print (SendFailed (SesError "FailedOperation.EmailAddrInBlacklist")))
     (trace r')
  /\ last (trace r') (Print (Line ""))
     = Print (Line "Successfully sent weather update to ann@example.org").
Proof.
  intros r'.
  assert (Hrun : serve (desk refusing) (desk_config []) ann fresh
                 = (r', snd (serve (desk refusing) (desk_config []) ann fresh))).
  { subst r'. now destruct (serve _ _ _ _). }
  assert (exists req, In (SendEmail req) (trace r')) as [req Hin].
  { vm_compute. eexists. repeat (first [left; reflexivity | right]). }
  destruct (refused_mail_is_reported_sent (desk refusing) (desk_config []) ann
              fresh r' _ (trace r') req
              "FailedOperation.EmailAddrInBlacklist" Hrun eq_refl Hin eq_refl)
    as (_ & Hprinted & Hlast).
  split; [exact Hprinted|exact Hlast].
Defined.

(* ================================================================= *)
(** ** The template data and the summary it is built from *)

Lemma template_keys_NoDup : NoDup template_keys.
Proof.
  assert (nodup string_dec template_keys = template_keys) as <-
    by (vm_compute; reflexivity).
  apply NoDup_nodup.
Qed.

Lemma first_word_raise s e :
  first_word s = Raise e -> e = IndexError /\ lstrip s = "".
Proof.
  unfold first_word. destruct (lstrip s); [|discriminate].
  intros [= <-]. auto.
Qed.

Lemma summary_keys_NoDup : NoDup summary_keys.
Proof.
  assert (nodup string_dec summary_keys = summary_keys) as <-
    by (vm_compute; reflexivity).
  apply NoDup_nodup.
Qed.

Section Template.
Context `{PyEnv}.
Variable w : cli_world.

(** X28: the template data define the same fifty-nine variables
    whatever the mail, each once.  A variable read from the summary
    shows the text of the summary, and the text of the source for a key
    the summary lacks: the empty text or Unknown, and Unknown for each
    of the twenty-seven slot variables.  With a ['current_time'] whose
    white space is ASCII, the data cannot be built only when it is
    white space alone, which raises IndexError. *)
Theorem template_data_defines_every_variable sender mail :
  (forall current_time,
      dict_get "current_time" (mc_weather_info mail) = Some current_time ->
      plain_spaces current_time = true) ->
  match template_data_of w sender mail with
  | Ok template_data =>
      dict_keys template_data = template_keys
      /\ NoDup (dict_keys template_data)
      /\ (forall key field default,
            In (key, field, default) summary_fields ->
            dict_get key template_data
            = Some (JStr (get_or (dict_get field (mc_weather_info mail))
                                 default)))
      /\ (forall slot suffix,
            In slot time_slots -> In suffix slot_suffixes ->
            dict_get (fst slot ++ suffix) template_data
            = Some (JStr (get_or (dict_get (fst slot ++ suffix)
                                           (mc_weather_info mail))
                                 "Unknown")))
      /\ dict_get "recipient_email" template_data
         = Some (JStr (hd "" (mc_to_emails mail)))
      /\ dict_get "sender_email" template_data
         = Some (match sender with
                 | Some address => JStr address
                 | None => JNull
                 end)
  | Raise e =>
      e = IndexError
      /\ exists current_time,
           dict_get "current_time" (mc_weather_info mail) = Some current_time
           /\ lstrip current_time = ""
  end.
Proof.
  intros _. unfold template_data_of.
  destruct (dict_get "current_time" (mc_weather_info mail))
    as [current_time|] eqn:Htime.
  - destruct (first_word current_time) as [current_date|e] eqn:Hword;
      cbn [bind].
    + split; [reflexivity|]. split; [apply template_keys_NoDup|].
      split.
      { intros key field default Hin. unfold summary_fields in Hin.
        cbn [In] in Hin.
        repeat (destruct Hin as [[= <- <- <-]|Hin]; [reflexivity|]).
        contradiction. }
      split.
      { intros slot suffix Hslot Hsuffix.
        unfold time_slots in Hslot. unfold slot_suffixes in Hsuffix.
        cbn [In] in Hslot, Hsuffix.
        repeat (destruct Hslot as [<-|Hslot];
                [repeat (destruct Hsuffix as [<-|Hsuffix]; [reflexivity|]);
                 contradiction|]).
        contradiction. }
      split; reflexivity.
    + apply first_word_raise in Hword as [-> Hblank]. split; [reflexivity|].
      exists current_time. auto.
  - cbn [bind].
    split; [reflexivity|]. split; [apply template_keys_NoDup|].
    split.
    { intros key field default Hin. unfold summary_fields in Hin.
      cbn [In] in Hin.
      repeat (destruct Hin as [[= <- <- <-]|Hin]; [reflexivity|]).
      contradiction. }
    split.
    { intros slot suffix Hslot Hsuffix.
      unfold time_slots in Hslot. unfold slot_suffixes in Hsuffix.
      cbn [In] in Hslot, Hsuffix.
      repeat (destruct Hslot as [<-|Hslot];
              [repeat (destruct Hsuffix as [<-|Hsuffix]; [reflexivity|]);
               contradiction|]).
      contradiction. }
    split; reflexivity.
Qed.

(** X29: in the summary handed to [construct_email], the forecast
    summary wins: every key of the forecast summary keeps its forecast
    value, and only the other keys show what [handle_weather_data]
    wrote.  So every summary field of the template but the location is
    answered by the One Call reply, the weather type that selects the
    suggestion is the one of its ['current'] block, and from the
    current-weather reply the mail takes the location and the current
    time alone. *)
Theorem merged_summary_prefers_forecast wd fd weather_info forecast_info :
  handle_weather_data (Some wd) = Ok (Some weather_info) ->
  process_forecast_data (Some fd) = Ok forecast_info ->
  exists merged,
    complete_weather_info (Some weather_info) forecast_info = Ok merged
    /\ (forall key, In key (dict_keys forecast_info) ->
          dict_get key merged = dict_get key forecast_info)
    /\ (forall key, ~ In key (dict_keys forecast_info) ->
          dict_get key merged = dict_get key weather_info)
    /\ (forall key field default,
          In (key, field, default) summary_fields -> field <> "location" ->
          dict_get field forecast_info <> None
          /\ dict_get field merged = dict_get field forecast_info)
    /\ dict_get "location" merged
       = Some (get_or (wd_name wd) "Unknown location")
    /\ (exists current_time,
          time_or_unknown "%Y-%m-%d %H:%M:%S" (wd_dt wd) = Ok current_time
          /\ dict_get "current_time" merged = Some current_time)
    /\ exists entry,
         first_weather (cur_weather (get_or (fc_current fd) empty_current))
         = Ok entry
         /\ dict_get "weather_type" merged
            = Some (capitalize (get_or (we_main entry) "unknown") ++ ": "
                    ++ get_or (we_description entry) "unknown").
Proof.
  intros Hweather Hforecast.
  exists (dict_update weather_info forecast_info).
  split; [reflexivity|].
  (* the forecast summary *)
  destruct (process_forecast_data_steps _ _ Hforecast)
    as (visibility & entry & sunrise & sunset & st0 & counts & peak
        & _ & Hentry & _ & _ & _ & _ & _ & Hread).
  destruct (process_forecast_data_shape _ _ Hforecast)
    as (st & base & Hscan & Hbase & Hshape).
  symmetry in Hshape.
  pose proof (scan_keys _ _ Hscan) as Hslots.
  assert (Hoff : forall key, In key summary_keys ->
             ~ In key (dict_keys (hourly_forecasts st))).
  { intros key Hkey Hin. apply Hslots in Hin. unfold slot_keys in Hin.
    apply in_flat_map in Hin as ([name h] & Hslot & Hin). cbn [fst] in Hin.
    assert (exists suffix, In suffix slot_suffixes /\ key = name ++ suffix)
      as (suffix & Hs & ->).
    { simpl in Hin. unfold slot_suffixes. simpl.
      destruct Hin as [<-|[<-|[<-|[]]]]; eauto 6. }
    now apply (slot_key_not_summary _ _ _ Hslot Hs). }
  assert (Hfixed : forall key, In key summary_keys ->
             dict_get key forecast_info = dict_get key base
             /\ dict_get key base <> None).
  { intros key Hkey. rewrite <- Hshape. split.
    - apply dict_get_update_other. now apply Hoff.
    - intros Hnone. apply dict_get_None in Hnone. now rewrite Hbase in Hnone. }
  assert (Hnodup : NoDup (dict_keys forecast_info)).
  { rewrite <- Hshape. apply dict_update_NoDup. rewrite Hbase.
    apply summary_keys_NoDup. }
  assert (Hwins : forall key, In key (dict_keys forecast_info) ->
             dict_get key (dict_update weather_info forecast_info)
             = dict_get key forecast_info).
  { intros key Hin.
    destruct (dict_get key forecast_info) as [text|] eqn:Hget.
    - now apply dict_get_update_in.
    - apply dict_get_None in Hget. contradiction. }
  assert (Hother : forall key,
             ~ In key summary_keys -> ~ In key slot_keys ->
             ~ In key (dict_keys forecast_info)).
  { intros key Hk1 Hk2 Hin. rewrite <- Hshape in Hin.
    apply dict_keys_update in Hin as [Hin|Hin].
    - now rewrite Hbase in Hin.
    - now apply Hslots in Hin. }
  (* the current-weather summary *)
  unfold handle_weather_data in Hweather.
  destruct (wd_main wd) as [main|]; [|discriminate].
  repeat match type of Hweather with
         | bind ?m _ = _ => destruct m; cbn [bind] in Hweather;
                            [|discriminate]
         end.
  injection Hweather as <-.
  split; [exact Hwins|].
  split; [intros key Hout; now apply dict_get_update_other|].
  split.
  { intros key field default Hin Hfield.
    assert (In field summary_keys) as Hkey.
    { unfold summary_fields in Hin. cbn [In] in Hin.
      repeat (destruct Hin as [[= <- <- <-]|Hin];
              [first [now elim Hfield
                     |unfold summary_keys; cbn [In]; auto 20]|]).
      contradiction. }
    destruct (Hfixed _ Hkey) as [Heq Hsome].
    split; [now rewrite Heq|].
    apply Hwins. destruct (dict_get field forecast_info) eqn:Hget.
    - now apply dict_get_Some_key in Hget.
    - congruence. }
  split.
  { rewrite dict_get_update_other; [reflexivity|].
    apply Hother; [vm_compute; intuition discriminate|].
    vm_compute; intuition discriminate. }
  split.
  { eexists. split; [reflexivity|].
    rewrite dict_get_update_other; [reflexivity|].
    apply Hother; [vm_compute; intuition discriminate|].
    vm_compute; intuition discriminate. }
  exists entry. split; [exact Hentry|].
  rewrite Hwins.
  - rewrite Hread by (vm_compute; intuition discriminate). reflexivity.
  - destruct (Hfixed "weather_type") as [Heq Hsome]; [now left|].
    destruct (dict_get "weather_type" forecast_info) eqn:Hget.
    + now apply dict_get_Some_key in Hget.
    + congruence.
Qed.

End Template.

Lemma merged_summary_prefers_forecast_witness :
  let weather_info :=
    match handle_weather_data (Some rainy_weather) with
    | Ok (Some summary) => summary
    | _ => []
    end in
  let forecast_info :=
    match process_forecast_data (Some cloudy_forecast) with
    | Ok summary => summary
    | Raise _ => []
    end in
  dict_get "weather_type" weather_info = Some "Rain: light rain"
  /\ exists merged,
       complete_weather_info (Some weather_info) forecast_info = Ok merged
       /\ dict_get "weather_type" merged = Some "Clouds: overcast clouds"
       /\ dict_get "location" merged = Some "Paris".
Proof.
  intros weather_info forecast_info.
  split; [vm_compute; reflexivity|].
  destruct (merged_summary_prefers_forecast rainy_weather cloudy_forecast
              weather_info forecast_info)
    as (merged & Hmerged & _ & _ & _ & Hlocation & _ & entry & Hentry
        & Htype);
    [vm_compute; reflexivity|vm_compute; reflexivity|].
  exists merged. split; [exact Hmerged|]. split; [|exact Hlocation].
  vm_compute in Hentry. injection Hentry as <-. exact Htype.
Defined.

Lemma template_data_defines_every_variable_witness :
  match template_data_of (desk accepting) (Some "post@example.org")
          rainy_mail with
  | Ok template_data =>
      dict_keys template_data = template_keys
      /\ dict_get "weather_type" template_data
         = Some (JStr "Rain: light rain")
  | Raise _ => False
  end.
Proof.
  pose proof (template_data_defines_every_variable (desk accepting)
                (Some "post@example.org") rainy_mail) as Hall.
  destruct (template_data_of (desk accepting) (Some "post@example.org")
              rainy_mail) as [template_data|e] eqn:Hrun.
  - destruct Hall as (Hkeys & _ & Hfields & _).
    + intros current_time Hget. vm_compute in Hget.
      injection Hget as <-. reflexivity.
    + split; [exact Hkeys|].
      apply (Hfields "weather_type" "weather_type" "").
      unfold summary_fields. cbn [In]. auto 40.
  - vm_compute in Hrun. discriminate Hrun.
Defined.
